(* ===== verification/_CoqProject ===== *)
-Q . S2P
Prelude.v
Hoare.v
Machine.v
JsNum.v
TypedArray.v
Pcm.v
Collector.v
Wav.v
WavRead.v
JsString.v
Timer.v
Meter.v
MeterSpec.v
Scope.v
Emf.v
EmfSpec.v
EmfPage.v
EmfScenarios.v
EmfLiveness.v
Dom.v
Site.v
SiteProps.v
Label.v
Host.v
Recorder.v
EventLoop.v
Safety.v
Promises.v
Canvas.v
Scenarios.v
