(* ===== verification/Prelude.v ===== *)
(** * Verification of the Android Acid browser pages

    The repository holds three independent client-side pages:

    - [src/recorder/app.js], the Acid Recorder: microphone capture through a
      fixed Web Audio graph, collection of the processed sample blocks,
      conversion to 16-bit PCM, serialisation as a WAV file, the level
      meter and the oscilloscope, and the start / stop / save /
      hold-to-record controls;
    - [src/emf/app.js], a magnetometer page: a sensor started and stopped by
      two buttons, a ring buffer of the last 220 magnitudes and a chart;
    - [src/assets/app.js], the promotional site: cards built from a
      configuration object, a mobile menu and a form.

    The pages share no code.  Each is modelled the same way: the variables
    of the script and the elements of the document it touches are records,
    every function is a program over them, the browser is a record of what
    the script can observe of it, and the page is a machine whose events
    are the user's gestures and the browser's callbacks.

    In the recorder the parts interact through the globals of the script:
    the handlers of the controls ([start], [stop], [save], [holdStart],
    [holdEnd]) acquire and release the stream, the audio context and the
    graph; the worklet of the graph posts blocks of samples that the
    port's handler appends to [chunks]; each animation frame reads the
    analyser, sets the level bar and draws the oscilloscope; [save]
    flattens the blocks, converts and serialises them, and hands the file
    to the browser under a name derived from the label field and the
    clock.  In the magnetometer page [start] constructs the sensor after
    two promises, the listener of its readings fills the ring buffer and
    draws the chart, and [stop] or an error ends the reading.

    ** Files, in dependency order

    - [Prelude] (this file): JavaScript exceptions as values ([exn],
      [result], [outcome]), the state-and-exception monad [prog] in which
      stateful code is written, wrap-around of machine-width integers
      ([wrapU], [wrapS]), shared list lemmas, the tactics and the hint
      databases.
    - [Hoare]: the combinators of handlers ([gets], [when], [opt_do],
      [deref], [attempt], [zoom]) and the program logic of [prog]: triples
      ([hoare]), invariants ([preserves]), frames ([frames]), absence of
      exceptions ([total]), with the tactics [preserve_with] and
      [total_tac] that go through the statements of a handler.
    - [Machine]: the interface of a page as an event machine (the class
      [Machine]: when an event can happen and the state after it), runs
      ([fires]), reachable states ([reaches]) and invariants ([stable]).
      The magnetometer page and the site are instances of it.
    - [JsNum]: Numbers ([NaN], the infinities, finite values as exact
      rationals), [Math.min], [Math.max], [<], [*], and the integer
      conversions [ToInt16], [ToUint8], [ToUint16], [ToUint32].
    - [TypedArray]: [ArrayBuffer], [TypedArray.prototype.set] and the
      [DataView] setters, with their [RangeError].
    - [Pcm]: [floatTo16BitPCM].
    - [Collector]: the worklet's [process], the port's [onmessage] and
      [flattenChunks].
    - [Wav]: [encodeWavMono16] and the reference layout [wav_file].
    - [WavRead]: a reader of WAV files, the specification of what the
      encoder must produce; not code of the repository.
    - [JsString]: strings as lists of UTF-16 code units, [trim],
      [toLowerCase], [padStart], [slice], the decimal numeral of an
      integer, and the message of an exception.
    - [Timer]: [pad2] and the text of [updateTimer].
    - [Meter]: the width of the level bar in [updateMeterAndScope], and
      [toFixed] on tenths.
    - [MeterSpec]: the level over the real numbers, and that [Meter]
      prints it.
    - [Scope]: [drawScope] and [clearScope] as the operations they perform
      on the 2D context of the canvas.
    - [Emf]: the magnetometer page's computations: the magnitude of a
      reading, [fmt], the ring buffer and [pushMag], and what [drawChart]
      takes from the buffer.
    - [EmfSpec]: the printed values and the coordinates of the chart over
      the real numbers.
    - [EmfPage]: the globals, the elements and the browser of the
      magnetometer page; [start] in its three stretches, [stop],
      [updateUI], the listeners of the sensor; the page as a [Machine] and
      its invariants.
    - [EmfScenarios]: runs of the magnetometer page: a session, the
      refusals, and a second start during the first.
    - [EmfLiveness]: the promise chains of [start] end, and the page can
      always come to rest.
    - [Dom]: element and text nodes, and [el] of the site.
    - [Site]: [CONFIG], the three renderers, the menu, the form and the
      statements at the end of the site's script; the page as a
      [Machine].
    - [SiteProps]: what the site's script renders and what its listeners
      do.
    - [Label]: [sanitizeLabel] and the name of [buildSuggestedName].
    - [Host]: the browser as the recorder uses it: streams, audio contexts,
      nodes and connections, intervals, animation frames, object URLs, the
      console, the clock, downloads, picked files and service workers.
      Not code of the repository.
    - [Recorder]: the globals ([globals]), the written properties of the
      document and its canvas ([dom]), and every function of the script
      that touches them: [setUI], [setStatus], [updateTimer],
      [buildSuggestedName], [updateMeterAndScope], [getBestMicStream],
      [ensureWorklet], [buildProcessingGraph], [cleanup], [start], [stop],
      [saveBlob], [save], [holdStart], [holdEnd], the listener of [load]
      and the statements run when the script is loaded.
    - [EventLoop]: the events of the recorder page ([event]), the listener
      each one runs ([handle]), the continuation run when a promise
      settles ([settle]), when an event can happen ([enabled]), the step
      relation ([step], [steps]) and the reachable states ([reachable]);
      the invariants of the page.
    - [Safety]: what holds in every reachable state of the recorder, and
      what each handler guarantees.
    - [Promises]: the recorder as a [Machine], a weight for each pending
      promise, and the proof that every settlement decreases what is
      owed: the chains of promises end.
    - [Canvas]: the invariant of the recorder's canvas: the analyser the
      page refers to has data, and everything drawn lies inside the
      canvas.
    - [Scenarios]: whole sessions of the recorder, from the load of the
      page to the saved file, and sequences of events in which the page
      does not do what its controls say.

    ** How the code is modelled

    A JavaScript function that can throw returns [result A]; a function
    that mutates locals or an object is a [prog S A] over the record [S] of
    what it mutates, and a thrown exception keeps the mutations made before
    it.  Integers stored at a fixed width are [Z] with the wrap-around
    written out.  Finite Numbers are exact rationals: the arithmetic the
    recorder does on samples is exact in binary64 ([Pcm.scale_exact]).  The
    result of [Math.sqrt] is kept as the number under the root
    ([Emf.magnitude]) or bracketed by an integer square root ([Meter]);
    the files [MeterSpec] and [EmfSpec] relate both to the real root.
    Strings are lists of UTF-16 code units.  A canvas is the sequence of
    the operations performed on its context.  A DOM element is a tree of
    its tag, attributes, listeners and children.  Definitions keep the
    names of the source; where two pages use one name ([start], [stop],
    [setStatus]), those of the magnetometer page carry the prefix [emf_].

    The state of a page is a world: the globals, the document, the host,
    and the promises the page awaits.  An [async] function is one program
    for each stretch between two [await]s; a stretch ends by recording the
    promise it awaits as a task, and the next stretch runs when an event
    settles the task.  A [try] block that spans an [await] is a
    [try_catch] in each stretch with the same handler.  Events are atomic:
    a listener or a continuation runs to its end, also when an exception
    escapes it, before the next event.  Tasks may settle in any order.
    What the browser decides (whether the stream is granted, the rate of
    the audio device, the blocks that reach the worklet, the readings of
    the sensor, the clock) is a parameter of the event or a field of the
    host that an event sets.  Handlers take no time: the two readings of
    the clock in one handler are equal.

    ** What is proved

    - Encoder ([Pcm], [Wav], [WavRead]): the conversion loop is the
      element-wise conversion and never wraps; its value on every branch,
      its monotonicity and its quantisation error; the serialiser never
      throws and writes exactly the canonical layout, which a reader
      decodes back to the 16-bit samples; the size fields are exact up to
      [2 ^ 32] bytes and wrap beyond.
    - Collector ([Collector]): [recordedSamples] is the total length of
      [chunks]; [flattenChunks] on every state, errors included; after any
      sequence of deliveries it returns the blocks in arrival order.
    - Names and texts ([Label], [Timer]): the sanitised label is safe and
      at most 40 units long, sanitising is idempotent, the shape and the
      characters of the suggested name, the timer text.
    - Level bar and oscilloscope ([Meter], [MeterSpec], [Scope]): the
      tenths printed, computed with an integer square root, are the real
      level rounded to one decimal; every index [drawScope] reads is
      inside the array and every point it strokes inside the canvas, in
      every state the page reaches ([Canvas]).
    - Invariants of the recorder ([EventLoop], [Safety]): by induction on
      [reachable], the collector's invariant and the consistency of the
      controls with [recording]; so [save] never throws, saves exactly the
      collected blocks, reports an empty recording exactly when there is
      none, and changes no global; clicks cannot reach [start] or [save]
      while recording; only a delivery or [start] changes the collected
      blocks.
    - Promises of the recorder ([Promises]): a run of settlements is no
      longer than the weight of the promises pending where it starts, and
      settling the first pending promise again and again leaves nothing
      pending.
    - Sessions of the recorder ([Scenarios]): a complete session downloads
      the canonical file of the rendered blocks and leaves nothing
      running; the request for the stream and the graph built are those of
      the design; a frame draws the analyser's bytes; the hold gesture
      stops the recording through each of its four listeners; the file
      picker writes the file once when its four promises resolve and
      reports the failure when one is rejected.
    - Overlaps in the recorder ([Scenarios]): a release before the
      recording has begun, a second start before the first has finished, a
      start before the previous stop has finished, a block delivered after
      stop, and a failing worklet module leave the page in states where
      its display and its resources disagree.  Each is a sequence of
      events with the state it ends in.
    - Magnetometer page ([Emf], [EmfSpec], [EmfPage], [EmfScenarios],
      [EmfLiveness]): the array and its cursor implement a sliding window
      of the last 220 values, which the plot loop walks in order; the
      range of the chart holds every finite value and every plotted point
      lies inside the padding; in every reachable state the canvas shows
      the buffer and the buttons agree with [running]; a session shows the
      readings and ends idle; the chains of promises of [start] are
      bounded by a measure and the page can always be brought to rest.  A
      second press of start during the first leaves a sensor reading that
      nothing stops, and the messages of errors are overwritten before
      they can be read.
    - Site ([Dom], [SiteProps]): the script renders the cards of the
      configuration in order and attaches the listeners the page has
      elements for; every link that opens a new context carries
      [noreferrer]; the menu is never half open; a missing year element or
      a music item without tags aborts the script.

    ** Bounds and fuel

    [JsString.digits] prints an integer with a fuel of one more than its
    binary logarithm, which is never exhausted ([digits_aux_enough]).  The
    suggested name has its fixed length for years 1000 to 9999, and the
    timer its five characters below 100 minutes; beyond, the fields grow as
    in the source.  The WAV header is exact for files shorter than
    [2 ^ 32 + 8] bytes.  [Emf.toFixed_1] is [toFixed(1)] below [10 ^ 21],
    where the engine switches to an exponent.  [EmfLiveness.bring_to_rest]
    and [Promises.drain] have as their fuel the measure of the pending
    promises, which [emf_comes_to_rest] and [promises_drain] show to be
    enough.  No other definition has a bound: lists stand for arrays of
    any length.

    ** What is not modelled

    The pixels a canvas operation produces, layout and styles: a canvas is
    the operations performed on it, an element its attributes.  The signal
    processing of the audio nodes, the permission prompts, the sensor and
    the file picker's dialog are the browser's: their results are inputs
    of events.  Levels and coordinates are stated over the rationals and
    the reals: the rounding of the engine's doubles in [Math.sqrt], in the
    product by 220 and in the coordinates of the two canvases is not
    modelled; in [drawScope] it can move an index by one where
    [x * step] is an integer, inside the array either way.  The HTML of
    the pages, the worker script [sw.js] and the manifest are not among
    the sources. *)

From Stdlib Require Import ZArith Lia List String.
From stdpp Require Import base tactics option list.

#[local] Open Scope Z_scope.

(** ** Exceptions and results *)

Inductive exn : Type :=
| RangeError
| TypeError
| DOMException (name : string).

Inductive result (A : Type) : Type :=
| Ok (a : A)
| Throw (e : exn).

Arguments Ok {A} a.
Arguments Throw {A} e.

Definition is_ok {A} (r : result A) : bool :=
  match r with Ok _ => true | Throw _ => false end.

Definition result_bind {A B} (r : result A) (k : A -> result B) : result B :=
  match r with Ok a => k a | Throw e => Throw e end.

(** ** The state-and-exception monad *)

(** What running a piece of code from a state gives: a value and the state
    reached, or an exception and the state reached when it was thrown.  The
    assignments made before a [throw] stay made, as in JavaScript. *)
Inductive outcome (S A : Type) : Type :=
| Done (a : A) (s : S)
| Raised (e : exn) (s : S).

Arguments Done {S A} a s.
Arguments Raised {S A} e s.

Definition prog (S A : Type) : Type := S -> outcome S A.

Definition ret {S A} (a : A) : prog S A := fun s => Done a s.

Definition bind {S A B} (m : prog S A) (k : A -> prog S B) : prog S B :=
  fun s => match m s with Done a s' => k a s' | Raised e s' => Raised e s' end.

Definition get {S} : prog S S := fun s => Done s s.

Definition put {S} (s : S) : prog S unit := fun _ => Done tt s.

Definition modify {S} (f : S -> S) : prog S unit := fun s => Done tt (f s).

Definition throw {S A} (e : exn) : prog S A := fun s => Raised e s.

Definition lift {S A} (r : result A) : prog S A :=
  fun s => match r with Ok a => Done a s | Throw e => Raised e s end.

(** [try { m } catch (e) { h e }] *)
Definition try_catch {S A} (m : prog S A) (h : exn -> prog S A) : prog S A :=
  fun s => match m s with Done a s' => Done a s' | Raised e s' => h e s' end.

(** The state a program ends in, or the exception that escaped it. *)
Definition exec {S A} (m : prog S A) (s : S) : result S :=
  match m s with Done _ s' => Ok s' | Raised e _ => Throw e end.

(** [for (const x of l) body(x)] *)
Fixpoint for_each {S A} (l : list A) (body : A -> prog S unit) : prog S unit :=
  match l with
  | [] => ret tt
  | x :: l' => bind (body x) (fun _ => for_each l' body)
  end.

(** [for (let i = 0; i < n; i++) body(i)], the loop's variables threaded
    through the body as the state [S]. *)
Definition for_range {S} (n : nat) (body : nat -> S -> S) (s : S) : S :=
  foldl (fun s i => body i s) s (seq 0 n).

Declare Scope prog_scope.
Delimit Scope prog_scope with prog.
Bind Scope prog_scope with prog.

Notation "x <- m ;; k" := (bind m (fun x => k))
  (at level 100, m at next level, right associativity) : prog_scope.
Notation "m ;; k" := (bind m (fun _ => k))
  (at level 100, right associativity) : prog_scope.

(** ** Integers at a fixed width *)

(** [wrapU w z]: the [w]-bit unsigned integer that [z] is stored as
    (ECMAScript's ToUint8, ToUint16, ToUint32 on an integer). *)
Definition wrapU (w z : Z) : Z := z mod 2 ^ w.

(** [wrapS w z]: the [w]-bit two's complement integer that [z] is stored as
    (ToInt8, ToInt16, ToInt32 on an integer). *)
Definition wrapS (w z : Z) : Z := (z + 2 ^ (w - 1)) mod 2 ^ w - 2 ^ (w - 1).

Definition in_unsigned (w z : Z) : Prop := 0 <= z < 2 ^ w.

Definition in_signed (w z : Z) : Prop := - 2 ^ (w - 1) <= z < 2 ^ (w - 1).

(** ** Lists of blocks *)

Definition total_length {A} (ls : list (list A)) : nat :=
  list_sum (map (@length A) ls).

(** ** Tactics and hint databases *)

Create HintDb js discriminated.
Create Rewrite HintDb js.

Ltac invert H := inversion H; subst; clear H.

(** Case analysis on the result that blocks evaluation of a [bind]. *)
Ltac case_outcome :=
  match goal with
  | |- context [match ?m with Done _ _ => _ | Raised _ _ => _ end] =>
      let E := fresh "E" in destruct m as [? ?|? ?] eqn:E
  end.

Ltac prog_simpl :=
  unfold bind, ret, get, put, modify, throw, lift, try_catch in *; simpl in *.

(** ** Monad laws *)

Section ProgLaws.
Context {S A B C : Type}.

Lemma bind_ret_l (a : A) (k : A -> prog S B) (s : S) :
  bind (ret a) k s = k a s.
Proof. reflexivity. Qed.

Lemma bind_ret_r (m : prog S A) (s : S) : bind m ret s = m s.
Proof. unfold bind, ret. destruct (m s) as [a s'|e s']; reflexivity. Qed.

Lemma bind_assoc (m : prog S A) (k : A -> prog S B) (h : B -> prog S C) (s : S) :
  bind (bind m k) h s = bind m (fun a => bind (k a) h) s.
Proof. unfold bind. destruct (m s) as [a s'|e s']; reflexivity. Qed.

Lemma bind_done (m : prog S A) (k : A -> prog S B) (s s' : S) (a : A) :
  m s = Done a s' -> bind m k s = k a s'.
Proof. unfold bind. intros ->. reflexivity. Qed.

Lemma bind_raised (m : prog S A) (k : A -> prog S B) (s s' : S) (e : exn) :
  m s = Raised e s' -> bind m k s = Raised e s'.
Proof. unfold bind. intros ->. reflexivity. Qed.

End ProgLaws.

Lemma for_each_app {S A} (l1 l2 : list A) (body : A -> prog S unit) (s : S) :
  for_each (l1 ++ l2) body s = bind (for_each l1 body) (fun _ => for_each l2 body) s.
Proof.
  revert s. induction l1 as [|x l1 IH]; intros s; simpl; [reflexivity|].
  rewrite bind_assoc. unfold bind at 1 2.
  destruct (body x s) as [[] s'|e s']; [apply IH|reflexivity].
Qed.

(** ** Counted loops *)

Section ForRange.
Context {S : Type}.
Implicit Types (body : nat -> S -> S) (s : S).

Lemma for_range_0 body s : for_range 0 body s = s.
Proof. reflexivity. Qed.

Lemma for_range_S n body s :
  for_range (Datatypes.S n) body s = body n (for_range n body s).
Proof. unfold for_range. rewrite seq_S, foldl_snoc. reflexivity. Qed.

(** The loop invariant rule: [P i] holds of the state before iteration [i]. *)
Lemma for_range_ind (P : nat -> S -> Prop) n body s :
  P 0%nat s ->
  (forall i s', (i < n)%nat -> P i s' -> P (Datatypes.S i) (body i s')) ->
  P n (for_range n body s).
Proof.
  intros H0 Hstep. induction n as [|n IH]; [exact H0|].
  rewrite for_range_S. apply Hstep; [lia|]. apply IH. intros. apply Hstep; [lia|auto].
Qed.

End ForRange.

(** A loop that stores [f i] at index [i] of a fresh array computes
    [map f] of the indices. *)
Lemma for_range_fill {A} (n : nat) (d : A) (f : nat -> A) :
  for_range n (fun i out => <[i := f i]> out) (replicate n d) = map f (seq 0 n).
Proof.
  enough (forall k, (k <= n)%nat ->
    for_range k (fun i out => <[i := f i]> out) (replicate n d)
    = map f (seq 0 k) ++ replicate (n - k) d) as H.
  { rewrite H by lia. rewrite Nat.sub_diag. apply app_nil_r. }
  induction k as [|k IH]; intros Hk.
  - rewrite Nat.sub_0_r. reflexivity.
  - rewrite for_range_S, IH by lia.
    rewrite insert_app_r_alt by (rewrite length_map, length_seq; lia).
    rewrite length_map, length_seq, Nat.sub_diag.
    replace (n - k)%nat with (Datatypes.S (n - Datatypes.S k)) by lia.
    rewrite seq_S, map_app, <- app_assoc. reflexivity.
Qed.

Lemma map_nth_seq {A} (l : list A) (d : A) :
  map (fun i => nth i l d) (seq 0 (length l)) = l.
Proof.
  induction l as [|x l IH]; [reflexivity|].
  simpl. f_equal. rewrite <- seq_shift, map_map. exact IH.
Qed.

(** ** Width lemmas *)

Section Width.
Variable w : Z.
Hypothesis w_pos : 0 < w.

Lemma pow2_pos : 0 < 2 ^ w.
Proof. apply Z.pow_pos_nonneg; lia. Qed.

Lemma pow2_half : 2 ^ w = 2 * 2 ^ (w - 1).
Proof. rewrite <- Z.pow_succ_r by lia. f_equal. lia. Qed.

Lemma wrapU_range (z : Z) : in_unsigned w (wrapU w z).
Proof. apply Z.mod_pos_bound, pow2_pos. Qed.

Lemma wrapU_small (z : Z) : in_unsigned w z -> wrapU w z = z.
Proof. apply Z.mod_small. Qed.

Lemma wrapU_idem (z : Z) : wrapU w (wrapU w z) = wrapU w z.
Proof. apply wrapU_small, wrapU_range. Qed.

Lemma wrapS_range (z : Z) : in_signed w (wrapS w z).
Proof.
  unfold in_signed, wrapS. pose proof pow2_half.
  pose proof (Z.mod_pos_bound (z + 2 ^ (w - 1)) (2 ^ w) pow2_pos). lia.
Qed.

Lemma wrapS_small (z : Z) : in_signed w z -> wrapS w z = z.
Proof.
  unfold in_signed, wrapS. intros H. pose proof pow2_half.
  rewrite Z.mod_small by lia. lia.
Qed.

Lemma wrapU_wrapS (z : Z) : wrapU w (wrapS w z) = wrapU w z.
Proof.
  unfold wrapU, wrapS. pose proof pow2_pos.
  rewrite Zminus_mod_idemp_l. f_equal. lia.
Qed.

Lemma wrapS_wrapU (z : Z) : wrapS w (wrapU w z) = wrapS w z.
Proof.
  unfold wrapU, wrapS. pose proof pow2_pos.
  rewrite Zplus_mod_idemp_l. reflexivity.
Qed.

End Width.

#[export] Hint Resolve wrapU_range wrapS_range : js.

(** ** List lemmas *)

Lemma total_length_nil {A} : total_length (@nil (list A)) = 0%nat.
Proof. reflexivity. Qed.

Lemma total_length_cons {A} (l : list A) (ls : list (list A)) :
  total_length (l :: ls) = (length l + total_length ls)%nat.
Proof. reflexivity. Qed.

Lemma total_length_app {A} (l1 l2 : list (list A)) :
  total_length (l1 ++ l2) = (total_length l1 + total_length l2)%nat.
Proof. unfold total_length. rewrite map_app, list_sum_app. reflexivity. Qed.

Lemma length_concat_total {A} (ls : list (list A)) :
  length (concat ls) = total_length ls.
Proof. apply length_concat. Qed.

Lemma concat_snoc {A} (ls : list (list A)) (l : list A) :
  concat (ls ++ [l]) = concat ls ++ l.
Proof. rewrite concat_app. simpl. rewrite app_nil_r. reflexivity. Qed.

Lemma flat_map_singleton {A B} (f : A -> B) (l : list A) :
  flat_map (fun x => [f x]) l = map f l.
Proof. induction l as [|x l IH]; simpl; [reflexivity | f_equal; exact IH]. Qed.

(** Removing an element from a list takes its share from a sum over the
    list. *)
Lemma sum_list_with_delete {A} (f : A -> nat) (l : list A) (i : nat) (x : A) :
  l !! i = Some x -> (sum_list_with f (delete i l) + f x = sum_list_with f l)%nat.
Proof.
  revert i. induction l as [|y l IH]; intros [|i] H; try discriminate; csimpl in *.
  - injection H as ->. lia.
  - specialize (IH i H). lia.
Qed.

#[export] Hint Rewrite @total_length_nil @total_length_cons @total_length_app
  @length_concat_total @concat_snoc
  @length_app @length_replicate : js.
