(* ===== verification/Hoare.v ===== *)
(** * A program logic for [prog]

    Handlers of the pages are programs over a record of everything they can
    mutate.  A handler that throws keeps the mutations it made before, so
    the state after a handler is [final] of its outcome whichever way it
    ended.  This file has the combinators handlers are written with that
    [Prelude] does not have ([gets], [when], [opt_do], [zoom] onto a
    component of the state), and the rules by which an invariant or a frame
    property of a handler follows from those of its statements:

    - [hoare P m Q E]: [m] started in a state of [P] returns [a] in a state
      of [Q a], or throws [e] in a state of [E e];
    - [preserves I m]: [m] started in a state of [I] ends, normally or by
      an exception, in a state of [I];
    - [frames f m]: [m] does not change the component [f] of the state;
    - [total m]: [m] does not throw.

    The tactic [preserve_with leaf] goes through the statements of a
    handler by these rules, unfolding the functions it calls, and leaves
    the assignments to [leaf]; [total_tac] does the same for [total]. *)

From Stdlib Require Import ZArith Lia List String.
From stdpp Require Import base tactics option list.
From S2P Require Import Prelude.

(** ** Combinators *)

Definition final {S A} (o : outcome S A) : S :=
  match o with Done _ s => s | Raised _ s => s end.

(** The state a handler leaves, whether it returned or threw. *)
Definition run {S A} (m : prog S A) (s : S) : S := final (m s).

Definition gets {S A} (f : S -> A) : prog S A := fun s => Done (f s) s.

(** [if (c) m] *)
Definition when {S} (c : bool) (m : prog S unit) : prog S unit :=
  if c then m else ret tt.

(** [o?.f()]: nothing when [o] is [null]. *)
Definition opt_do {S A} (o : option A) (f : A -> prog S unit) : prog S unit :=
  match o with Some a => f a | None => ret tt end.

(** [o.f]: a [TypeError] when [o] is [null]. *)
Definition deref {S A} (o : option A) : prog S A :=
  match o with Some a => ret a | None => throw TypeError end.

(** [try { m } catch {}] *)
Definition attempt {S} (m : prog S unit) : prog S unit :=
  try_catch m (fun _ => ret tt).

(** A program over a component [T] of the state [S], run on [S]. *)
Definition zoom {S T A} (proj : S -> T) (upd : T -> S -> S) (m : prog T A) : prog S A :=
  fun s => match m (proj s) with
           | Done a t => Done a (upd t s)
           | Raised e t => Raised e (upd t s)
           end.

(** ** Invariants and frames *)

Definition hoare {S A} (P : S -> Prop) (m : prog S A) (Q : A -> S -> Prop)
    (E : exn -> S -> Prop) : Prop :=
  forall s, P s -> match m s with Done a s' => Q a s' | Raised e s' => E e s' end.

Definition preserves {S A} (I : S -> Prop) (m : prog S A) : Prop :=
  forall s, I s -> I (final (m s)).

Definition total {S A} (m : prog S A) : Prop :=
  forall s, exists a s', m s = Done a s'.

Definition frames {S A B} (f : S -> B) (m : prog S A) : Prop :=
  forall s, f (final (m s)) = f s.

Create HintDb preserve discriminated.

Section Rules.
Context {S : Type}.

Section Preserves.
Context (I : S -> Prop).

Lemma preserves_ret {A} (a : A) : preserves I (ret a).
Proof. intros s H. exact H. Qed.

Lemma preserves_throw {A} (e : exn) : preserves I (@throw S A e).
Proof. intros s H. exact H. Qed.

Lemma preserves_get : preserves I get.
Proof. intros s H. exact H. Qed.

Lemma preserves_gets {A} (f : S -> A) : preserves I (gets f).
Proof. intros s H. exact H. Qed.

Lemma preserves_lift {A} (r : result A) : preserves I (lift r).
Proof. intros s H. destruct r; exact H. Qed.

Lemma preserves_deref {A} (o : option A) : preserves I (deref o).
Proof. intros s H. destruct o; exact H. Qed.

Lemma preserves_modify (f : S -> S) : (forall s, I s -> I (f s)) -> preserves I (modify f).
Proof. intros Hf s H. apply Hf, H. Qed.

Lemma preserves_bind {A B} (m : prog S A) (k : A -> prog S B) :
  preserves I m -> (forall a, preserves I (k a)) -> preserves I (bind m k).
Proof.
  intros Hm Hk s H. specialize (Hm s H). unfold bind.
  destruct (m s) as [a s'|e s']; [apply Hk, Hm | exact Hm].
Qed.

(** Two statements taken together, when the invariant holds again only
    after the second. *)
Lemma preserves_bind_bind {A B C} (m : prog S A) (p : A -> prog S B)
    (k : A -> B -> prog S C) :
  preserves I (bind m p) -> (forall a b, preserves I (k a b)) ->
  preserves I (bind m (fun a => bind (p a) (k a))).
Proof.
  intros Hm Hk s H. specialize (Hm s H). unfold bind in *.
  destruct (m s) as [a s'|e s']; [|exact Hm].
  destruct (p a s') as [b s''|e s'']; [apply Hk, Hm | exact Hm].
Qed.

Lemma preserves_try_catch {A} (m : prog S A) (h : exn -> prog S A) :
  preserves I m -> (forall e, preserves I (h e)) -> preserves I (try_catch m h).
Proof.
  intros Hm Hh s H. specialize (Hm s H). unfold try_catch.
  destruct (m s) as [a s'|e s']; [exact Hm | apply Hh, Hm].
Qed.

Lemma preserves_attempt (m : prog S unit) : preserves I m -> preserves I (attempt m).
Proof. intros Hm. apply preserves_try_catch; [exact Hm | intros; apply preserves_ret]. Qed.

Lemma preserves_when (c : bool) (m : prog S unit) : preserves I m -> preserves I (when c m).
Proof. intros Hm. destruct c; [exact Hm | apply preserves_ret]. Qed.

Lemma preserves_opt_do {A} (o : option A) (f : A -> prog S unit) :
  (forall a, preserves I (f a)) -> preserves I (opt_do o f).
Proof. intros Hf. destruct o; [apply Hf | apply preserves_ret]. Qed.

Lemma preserves_for_each {A} (l : list A) (body : A -> prog S unit) :
  (forall a, preserves I (body a)) -> preserves I (for_each l body).
Proof.
  intros Hb. induction l as [|a l IH]; [apply preserves_ret|].
  apply preserves_bind; [apply Hb | intros _; exact IH].
Qed.

Lemma preserves_run {A} (m : prog S A) (s : S) : preserves I m -> I s -> I (run m s).
Proof. intros Hm H. apply Hm, H. Qed.

End Preserves.

(** A program over a component preserves what does not look at it, and what
    the component's invariant implies. *)
Lemma preserves_zoom {T A} (I : S -> Prop) (proj : S -> T) (upd : T -> S -> S)
    (m : prog T A) :
  (forall s t, I s -> I (upd t s)) -> preserves I (zoom proj upd m).
Proof.
  intros Hu s H. unfold zoom. destruct (m (proj s)); apply Hu, H.
Qed.

Lemma preserves_zoom_inv {T A} (I : S -> Prop) (J : T -> Prop) (proj : S -> T)
    (upd : T -> S -> S) (m : prog T A) :
  preserves J m -> (forall s, I s -> J (proj s)) ->
  (forall s t, I s -> J t -> I (upd t s)) -> preserves I (zoom proj upd m).
Proof.
  intros Hm Hp Hu s H. unfold zoom. specialize (Hm (proj s) (Hp s H)).
  destruct (m (proj s)); apply Hu; assumption.
Qed.

Lemma frames_preserves {A B} (f : S -> B) (P : B -> Prop) (m : prog S A) :
  frames f m -> preserves (fun s => P (f s)) m.
Proof. intros Hf s H. rewrite Hf. exact H. Qed.

Lemma preserves_frames {A B} (f : S -> B) (m : prog S A) :
  (forall b, preserves (fun s => f s = b) m) -> frames f m.
Proof. intros H s. apply (H (f s)). reflexivity. Qed.

Lemma preserves_and {A} (I J : S -> Prop) (m : prog S A) :
  preserves I m -> preserves J m -> preserves (fun s => I s /\ J s) m.
Proof. intros HI HJ s [H1 H2]. split; [apply HI, H1 | apply HJ, H2]. Qed.

End Rules.

#[export] Hint Resolve preserves_ret preserves_throw preserves_get preserves_gets
  preserves_lift preserves_deref : preserve.

(** ** Triples *)

Section Triples.
Context {S : Type}.
Implicit Types (P I : S -> Prop) (E : exn -> S -> Prop).

Lemma hoare_preserves {A} I (m : prog S A) :
  preserves I m <-> hoare I m (fun _ => I) (fun _ => I).
Proof.
  unfold preserves, hoare. split; intros H s Hs; specialize (H s Hs);
    destruct (m s); exact H.
Qed.

Lemma hoare_conseq {A} P P' (Q Q' : A -> S -> Prop) E E' (m : prog S A) :
  hoare P' m Q' E' -> (forall s, P s -> P' s) -> (forall a s, Q' a s -> Q a s) ->
  (forall e s, E' e s -> E e s) -> hoare P m Q E.
Proof.
  intros H HP HQ HE s Hs. specialize (H s (HP s Hs)).
  destruct (m s); [apply HQ | apply HE]; exact H.
Qed.

Lemma hoare_bind {A B} P (R : A -> S -> Prop) (Q : B -> S -> Prop) E
    (m : prog S A) (k : A -> prog S B) :
  hoare P m R E -> (forall a, hoare (R a) (k a) Q E) -> hoare P (bind m k) Q E.
Proof.
  intros Hm Hk s Hs. specialize (Hm s Hs). unfold bind.
  destruct (m s) as [a s'|e s']; [apply Hk, Hm | exact Hm].
Qed.

(** A statement that keeps [P], before the rest. *)
Lemma hoare_bind_keep {A B} P (Q : B -> S -> Prop) E
    (m : prog S A) (k : A -> prog S B) :
  preserves P m -> (forall e s, P s -> E e s) -> (forall a, hoare P (k a) Q E) ->
  hoare P (bind m k) Q E.
Proof.
  intros Hm HE Hk. apply hoare_bind with (R := fun _ => P); [|exact Hk].
  apply hoare_preserves in Hm. eapply hoare_conseq; eauto.
Qed.

Lemma hoare_try_catch {A} P (Q : A -> S -> Prop) E E'
    (m : prog S A) (h : exn -> prog S A) :
  hoare P m Q E' -> (forall e, hoare (E' e) (h e) Q E) -> hoare P (try_catch m h) Q E.
Proof.
  intros Hm Hh s Hs. specialize (Hm s Hs). unfold try_catch.
  destruct (m s) as [a s'|e s']; [exact Hm | apply Hh, Hm].
Qed.

Lemma hoare_modify P (Q : unit -> S -> Prop) E (f : S -> S) :
  (forall s, P s -> Q tt (f s)) -> hoare P (modify f) Q E.
Proof. intros H s Hs. apply H, Hs. Qed.

Lemma hoare_gets {A} P E (f : S -> A) :
  hoare P (gets f) (fun a s => P s /\ f s = a) E.
Proof. intros s Hs. split; [exact Hs | reflexivity]. Qed.

(** A fact that does not depend on the state moves to the context. *)
Lemma hoare_assume {A} P (F : Prop) (Q : A -> S -> Prop) E (m : prog S A) :
  (F -> hoare P m Q E) -> hoare (fun s => P s /\ F) m Q E.
Proof. intros H s [Hs HF]. apply H; assumption. Qed.

Lemma hoare_ret {A} P (Q : A -> S -> Prop) E (a : A) :
  (forall s, P s -> Q a s) -> hoare P (ret a) Q E.
Proof. intros H s Hs. apply H, Hs. Qed.

Lemma hoare_run {A} P (Q : S -> Prop) (m : prog S A) (s : S) :
  hoare P m (fun _ => Q) (fun _ => Q) -> P s -> Q (run m s).
Proof. intros H Hs. specialize (H s Hs). unfold run. destruct (m s); exact H. Qed.

(** A statement that does not throw and keeps [P], before the rest. *)
Lemma hoare_bind_total {A B} P (Q : B -> S -> Prop) E
    (m : prog S A) (k : A -> prog S B) :
  total m -> preserves P m -> (forall a, hoare P (k a) Q E) -> hoare P (bind m k) Q E.
Proof.
  intros Ht Hm Hk s Hs. specialize (Hm s Hs). unfold bind.
  destruct (Ht s) as (a & s' & Es). rewrite Es in *. apply Hk, Hm.
Qed.

(** What is thrown is not looked at: only the end of the program counts. *)
Lemma hoare_skip {A B} P (Q : B -> S -> Prop) (m : prog S A) (k : A -> prog S B) :
  (forall a, hoare (fun _ => True) (k a) Q (fun _ _ => True)) ->
  hoare P (bind m k) Q (fun _ _ => True).
Proof.
  intros Hk s _. unfold bind. destruct (m s) as [a s'|e s']; [apply Hk|]; exact I.
Qed.

Lemma hoare_total {A} P (Q : A -> S -> Prop) E (m : prog S A) :
  total m -> hoare P m Q (fun _ _ => True) -> hoare P m Q E.
Proof.
  intros Ht H s Hs. specialize (H s Hs).
  destruct (Ht s) as (a & s' & Es). rewrite Es in *. exact H.
Qed.

(** A program that does not throw and ends in [J] keeps what [J]
    implies. *)
Lemma preserves_of_post {A} P I (J : S -> Prop) (m : prog S A) :
  hoare P m (fun _ => J) (fun _ _ => False) -> (forall s, I s -> P s) ->
  (forall s, J s -> I s) -> preserves I m.
Proof.
  intros H HP HJ s Hs. specialize (H s (HP s Hs)).
  destruct (m s); [apply HJ, H | destruct H].
Qed.

(** The rest of a program after the statement that establishes [J], which
    the rest keeps. *)
Lemma hoare_after {A} P (J : S -> Prop) (m : prog S A) :
  preserves J m -> (forall s, P s -> J s) ->
  hoare P m (fun _ => J) (fun _ => J).
Proof.
  intros Hm HP. apply hoare_conseq with (P' := J) (Q' := fun _ => J) (E' := fun _ => J);
    auto. apply hoare_preserves, Hm.
Qed.

End Triples.

(** The constant at the head of an application. *)
Ltac head_of t :=
  lazymatch t with
  | ?f _ => head_of f
  | _ => t
  end.

(** ** Programs that do not throw *)

Section Total.
Context {S : Type}.

Lemma total_ret {A} (a : A) : total (@ret S A a).
Proof. intros s. eauto. Qed.

Lemma total_get : total (@get S).
Proof. intros s. eexists _, _. reflexivity. Qed.

Lemma total_gets {A} (f : S -> A) : total (gets f).
Proof. intros s. eexists _, _. reflexivity. Qed.

Lemma total_modify (f : S -> S) : total (modify f).
Proof. intros s. eexists _, _. reflexivity. Qed.

Lemma total_bind {A B} (m : prog S A) (k : A -> prog S B) :
  total m -> (forall a, total (k a)) -> total (bind m k).
Proof.
  intros Hm Hk s. destruct (Hm s) as (a & s' & E). unfold bind. rewrite E. apply Hk.
Qed.

Lemma total_attempt (m : prog S unit) : total (attempt m).
Proof.
  intros s. unfold attempt, try_catch. destruct (m s) as [[] s'|e s']; eexists _, _; reflexivity.
Qed.

Lemma total_try_catch {A} (m : prog S A) (h : exn -> prog S A) :
  (forall e, total (h e)) -> total (try_catch m h).
Proof.
  intros Hh s. unfold try_catch. destruct (m s) as [a s'|e s']; [eauto | apply Hh].
Qed.

Lemma total_when (c : bool) (m : prog S unit) : total m -> total (when c m).
Proof. intros Hm. destruct c; [exact Hm | apply total_ret]. Qed.

Lemma total_opt_do {A} (o : option A) (f : A -> prog S unit) :
  (forall a, total (f a)) -> total (opt_do o f).
Proof. intros Hf. destruct o; [apply Hf | apply total_ret]. Qed.

Lemma total_zoom {T A} (proj : S -> T) (upd : T -> S -> S) (m : prog T A) :
  total m -> total (zoom proj upd m).
Proof.
  intros Hm s. destruct (Hm (proj s)) as (a & t & E). unfold zoom. rewrite E. eauto.
Qed.

Lemma total_run {A} (m : prog S A) (s : S) : total m -> exists a, m s = Done a (run m s).
Proof. intros Hm. destruct (Hm s) as (a & s' & E). unfold run. rewrite E. eauto. Qed.

End Total.

#[export] Hint Resolve total_ret total_get total_gets total_modify total_attempt : preserve.

Ltac total_step :=
  lazymatch goal with
  | |- total (bind _ _) => apply total_bind; [|intros ?]
  | |- total (try_catch _ _) => apply total_try_catch; intros ?
  | |- total (when _ _) => apply total_when
  | |- total (opt_do _ _) => apply total_opt_do; intros ?
  | |- total (zoom _ _ _) => apply total_zoom
  | |- total (if ?c then _ else _) => destruct c
  | |- total (match ?o with _ => _ end) => destruct o
  | |- total ?m => let h := head_of m in progress unfold h
  end.

Ltac total_tac := repeat first [solve [auto with preserve] | total_step].

#[export] Hint Resolve preserves_ret preserves_throw preserves_get preserves_gets
  preserves_lift preserves_deref : preserve.

(** One step through the statement at the head of the goal; [leaf] proves
    that an assignment keeps the invariant. *)
Ltac preserve_step leaf :=
  lazymatch goal with
  | |- preserves _ (bind _ _) => apply preserves_bind; [|intros ?]
  | |- preserves _ (try_catch _ _) => apply preserves_try_catch; [|intros ?]
  | |- preserves _ (attempt _) => apply preserves_attempt
  | |- preserves _ (when _ _) => apply preserves_when
  | |- preserves _ (opt_do _ _) => apply preserves_opt_do; intros ?
  | |- preserves _ (for_each _ _) => apply preserves_for_each; intros ?
  | |- preserves _ (modify _) => apply preserves_modify; leaf
  | |- preserves _ (zoom _ _ _) => apply preserves_zoom; leaf
  | |- preserves _ (if ?c then _ else _) => destruct c
  | |- preserves _ (match ?o with _ => _ end) => destruct o
  | |- preserves _ ?m => let h := head_of m in progress unfold h
  end.

Ltac preserve_with leaf :=
  repeat first [solve [auto with preserve] | preserve_step leaf].

(** The leaf for an invariant that the assignment does not touch. *)
Ltac untouched :=
  intros; match goal with H : _ |- _ => exact H end.
