(* ===== verification/Machine.v ===== *)
(** * Event machines

    A page is a machine that reacts to events: the browser runs one
    listener or one continuation at a time, to its end, and what it runs
    next is not in the page's hands.  This file fixes the interface, a
    [Machine] with its events, which of them can occur in a state and what
    the page does then, and proves the facts that hold of every machine:
    runs compose, the states a run reaches are the reachable ones, a
    property that holds initially and that every event preserves holds of
    every reachable state, and a measure that the events of a kind
    decrease bounds the runs of such events.

    [EmfPage], [Site] and the recorder ([EventLoop]) are machines; their
    invariants and bounds are proved against this interface. *)

From Stdlib Require Import List Lia.
From stdpp Require Import base tactics list.

(** ** The interface *)

Class Machine (W E : Type) : Type := {
  (** whether the event can occur in the state *)
  ready : E -> W -> bool;
  (** the state after the page has handled the event *)
  react : E -> W -> W;
}.

Section Runs.
Context {W E : Type} `{Machine W E}.

(** One event, if it can occur. *)
Definition fire (e : E) (w : W) : option W :=
  if ready e w then Some (react e w) else None.

(** A sequence of events, each in the state the previous ones led to. *)
Fixpoint fires (es : list E) (w : W) : option W :=
  match es with
  | [] => Some w
  | e :: es =>
      match fire e w with
      | Some w' => fires es w'
      | None => None
      end
  end.

(** The states the machine can be in, started in [w0]. *)
Inductive reaches (w0 : W) : W -> Prop :=
| reaches_start : reaches w0 w0
| reaches_fire e w : reaches w0 w -> ready e w = true -> reaches w0 (react e w).

(** A property of states that the events cannot break. *)
Definition stable (I : W -> Prop) : Prop :=
  forall e w, I w -> ready e w = true -> I (react e w).

(** ** Runs *)

Lemma fires_app es1 es2 w :
  fires (es1 ++ es2) w = fires es1 w ≫= fires es2.
Proof.
  revert w. induction es1 as [|e es1 IH]; intros w; [reflexivity|].
  cbn [app fires]. destruct (fire e w); [apply IH|reflexivity].
Qed.

Lemma fires_snoc es e w :
  fires (es ++ [e]) w = fires es w ≫= fire e.
Proof.
  rewrite fires_app. destruct (fires es w) as [w'|]; [|reflexivity].
  cbn [mbind option_bind fires]. destruct (fire e w'); reflexivity.
Qed.

Lemma fire_Some e w w' : fire e w = Some w' <-> ready e w = true /\ w' = react e w.
Proof. unfold fire. destruct (ready e w); split; intros; destruct_and?; simplify_eq; auto. Qed.

(** ** Reachability *)

Lemma reaches_trans w0 w es w' :
  reaches w0 w -> fires es w = Some w' -> reaches w0 w'.
Proof.
  revert w. induction es as [|e es IH]; intros w Hw Hf; cbn [fires] in Hf.
  - simplify_eq. exact Hw.
  - destruct (fire e w) as [w1|] eqn:Ef; [|discriminate].
    apply fire_Some in Ef as [He ->]. eapply IH; [|exact Hf]. constructor; assumption.
Qed.

(** Every run from the initial state ends in a reachable state. *)
Lemma fires_reaches w0 es w : fires es w0 = Some w -> reaches w0 w.
Proof. apply reaches_trans. constructor. Qed.

(** Every reachable state is the end of a run. *)
Lemma reaches_run w0 w : reaches w0 w -> exists es, fires es w0 = Some w.
Proof.
  induction 1 as [|e w Hw [es IH] He]; [exists []; reflexivity|].
  exists (es ++ [e]). rewrite fires_snoc, IH. cbn [mbind option_bind].
  apply fire_Some. auto.
Qed.

(** ** Invariants *)

Lemma reaches_invariant (I : W -> Prop) w0 w :
  I w0 -> stable I -> reaches w0 w -> I w.
Proof. intros H0 Hs. induction 1; eauto. Qed.

Lemma stable_and (I J : W -> Prop) :
  stable I -> (forall e w, I w -> J w -> ready e w = true -> J (react e w)) ->
  stable (fun w => I w /\ J w).
Proof. intros HI HJ e w [Hi Hj] He. split; eauto. Qed.

Lemma fires_invariant (I : W -> Prop) es w w' :
  stable I -> I w -> fires es w = Some w' -> I w'.
Proof.
  intros Hs. revert w. induction es as [|e es IH]; intros w Hw Hf; cbn [fires] in Hf.
  - simplify_eq. exact Hw.
  - destruct (fire e w) as [w1|] eqn:Ef; [|discriminate].
    apply fire_Some in Ef as [He ->]. eauto.
Qed.

(** ** Measures *)

(** A measure that every event of a kind decreases bounds the runs of
    events of that kind: such a run is no longer than the measure of the
    state it starts in. *)
Lemma fires_measure (m : W -> nat) (kind : E -> bool) :
  (forall e w, kind e = true -> ready e w = true -> m (react e w) < m w) ->
  forall es w w', forallb kind es = true -> fires es w = Some w' ->
  length es + m w' <= m w.
Proof.
  intros Hm es. induction es as [|e es IH]; intros w w' Hk Hf; cbn [fires forallb] in *.
  - simplify_eq. reflexivity.
  - apply andb_prop in Hk as [He Hk]. destruct (fire e w) as [w1|] eqn:Ef; [|discriminate].
    apply fire_Some in Ef as [Hr ->]. specialize (IH _ _ Hk Hf).
    specialize (Hm e w He Hr). cbn [length]. lia.
Qed.

End Runs.
