(* ===== verification/JsNum.v ===== *)
(** * JavaScript numbers

    The values of the Number type that the recorder computes with, and the
    operations of the language it applies to them: [Math.min], [Math.max],
    [<], [*], and the conversions a typed array or a [DataView] performs when
    a Number is stored at a fixed width ([ToInt16], [ToUint32], ...).

    A finite Number is modelled by the rational it denotes.  Comparison,
    minimum, maximum and the integer conversions are exact on binary64
    values, so the model is exact for them.  [js_mul] is multiplication of
    reals: it agrees with binary64 multiplication whenever the product needs
    at most 53 significant bits ([Pcm.scale_exact] shows that every product
    the PCM conversion forms does).  The sign of zero is not modelled: no
    operation of the sources distinguishes [-0] from [0].

    Two rationals that are equal as fractions denote the same Number, so the
    model's equality is [num_eq], coarser than Leibniz equality; the
    operations are [Proper] for it and the integer conversions map it to
    equality on [Z]. *)

From Stdlib Require Import ZArith QArith Qround Lia Lqa Bool.
From stdpp Require Import base tactics.
From S2P Require Import Prelude.

#[local] Open Scope Q_scope.

(** ** Values *)

Inductive num : Type :=
| NaN
| Inf (neg : bool)
| Fin (q : Q).

Definition of_Z (z : Z) : num := Fin (inject_Z z).

Definition num_eq (a b : num) : Prop :=
  match a, b with
  | NaN, NaN => True
  | Inf s, Inf t => s = t
  | Fin p, Fin q => p == q
  | _, _ => False
  end.

#[export] Instance num_equiv : Equiv num := num_eq.

(** ** Operations of the language *)

Definition Qltb (p q : Q) : bool := negb (Qle_bool q p).

(** [a < b]; false when either operand is [NaN]. *)
Definition js_lt (a b : num) : bool :=
  match a, b with
  | NaN, _ | _, NaN => false
  | Inf true, Inf true => false
  | Inf true, _ => true
  | Inf false, _ => false
  | Fin _, Inf neg => negb neg
  | Fin p, Fin q => Qltb p q
  end.

(** [Math.min(a, b)] *)
Definition js_min (a b : num) : num :=
  match a, b with
  | NaN, _ | _, NaN => NaN
  | _, _ => if js_lt b a then b else a
  end.

(** [Math.max(a, b)] *)
Definition js_max (a b : num) : num :=
  match a, b with
  | NaN, _ | _, NaN => NaN
  | _, _ => if js_lt a b then b else a
  end.

(** [a * b] *)
Definition js_mul (a b : num) : num :=
  match a, b with
  | NaN, _ | _, NaN => NaN
  | Inf s, Inf t => Inf (xorb s t)
  | Inf s, Fin q | Fin q, Inf s =>
      if Qeq_bool q 0 then NaN else Inf (xorb s (Qltb q 0))
  | Fin p, Fin q => Fin (p * q)
  end.

(** ** Conversion to integers *)

(** Truncation toward zero. *)
Definition Qtrunc (q : Q) : Z :=
  if Qle_bool 0 q then Qfloor q else Qceiling q.

(** The integer a modular conversion starts from: [NaN] and the
    infinities give 0, a finite number is truncated. *)
Definition ToIntegerOrZero (n : num) : Z :=
  match n with
  | Fin q => Qtrunc q
  | _ => 0%Z
  end.

Definition ToInt16 (n : num) : Z := wrapS 16 (ToIntegerOrZero n).
Definition ToUint8 (n : num) : Z := wrapU 8 (ToIntegerOrZero n).
Definition ToUint16 (n : num) : Z := wrapU 16 (ToIntegerOrZero n).
Definition ToUint32 (n : num) : Z := wrapU 32 (ToIntegerOrZero n).

(** ** The equivalence and its morphisms *)

#[export] Instance num_eq_equivalence : Equivalence num_eq.
Proof.
  split.
  - intros [| |q]; simpl; auto. reflexivity.
  - intros [| |p] [| |q]; simpl; auto. intros H. symmetry. exact H.
  - intros [| |p] [| |q] [| |r]; simpl; try tauto; try congruence.
    intros H1 H2. rewrite H1. exact H2.
Qed.

#[export] Instance Fin_proper : Proper (Qeq ==> num_eq) Fin.
Proof. intros p q H. exact H. Qed.

#[export] Instance Qltb_proper : Proper (Qeq ==> Qeq ==> eq) Qltb.
Proof. intros p p' Hp q q' Hq. unfold Qltb. rewrite Hp, Hq. reflexivity. Qed.

#[export] Instance Qeq_bool_proper : Proper (Qeq ==> Qeq ==> eq) Qeq_bool.
Proof.
  intros p p' Hp q q' Hq. apply eq_true_iff_eq.
  rewrite !Qeq_bool_iff, Hp, Hq. reflexivity.
Qed.

#[export] Instance js_lt_proper : Proper (num_eq ==> num_eq ==> eq) js_lt.
Proof.
  intros [| |p] [| |p'] Hp [| |q] [| |q'] Hq; simpl in *;
    try tauto; subst; try reflexivity.
  rewrite Hp, Hq. reflexivity.
Qed.

#[export] Instance js_min_proper : Proper (num_eq ==> num_eq ==> num_eq) js_min.
Proof.
  intros a a' Ha b b' Hb. pose proof (js_lt_proper _ _ Hb _ _ Ha) as E.
  destruct a, a', b, b'; simpl in *; try tauto; subst;
    try rewrite E; repeat case_match; simpl; auto.
Qed.

#[export] Instance js_max_proper : Proper (num_eq ==> num_eq ==> num_eq) js_max.
Proof.
  intros a a' Ha b b' Hb. pose proof (js_lt_proper _ _ Ha _ _ Hb) as E.
  destruct a, a', b, b'; simpl in *; try tauto; subst;
    try rewrite E; repeat case_match; simpl; auto.
Qed.

#[export] Instance js_mul_proper : Proper (num_eq ==> num_eq ==> num_eq) js_mul.
Proof.
  intros [| |p] [| |p'] Hp [| |q] [| |q'] Hq; simpl in *;
    try tauto; subst; try reflexivity.
  - rewrite (Qeq_bool_proper _ _ Hq 0 0 (Qeq_refl 0)),
      (Qltb_proper _ _ Hq 0 0 (Qeq_refl 0)). reflexivity.
  - rewrite (Qeq_bool_proper _ _ Hp 0 0 (Qeq_refl 0)),
      (Qltb_proper _ _ Hp 0 0 (Qeq_refl 0)). reflexivity.
  - rewrite Hp, Hq. reflexivity.
Qed.

#[export] Instance Qtrunc_proper : Proper (Qeq ==> eq) Qtrunc.
Proof.
  intros p q H. unfold Qtrunc.
  rewrite (Qleb_comp 0 0 (Qeq_refl 0) _ _ H), (Qfloor_comp _ _ H), (Qceiling_comp _ _ H).
  reflexivity.
Qed.

#[export] Instance ToIntegerOrZero_proper : Proper (num_eq ==> eq) ToIntegerOrZero.
Proof.
  intros [| |p] [| |q] H; simpl in *; try tauto; try reflexivity.
  rewrite H. reflexivity.
Qed.

#[export] Instance ToInt16_proper : Proper (num_eq ==> eq) ToInt16.
Proof. intros a b H. unfold ToInt16. rewrite H. reflexivity. Qed.

#[export] Instance ToUint32_proper : Proper (num_eq ==> eq) ToUint32.
Proof. intros a b H. unfold ToUint32. rewrite H. reflexivity. Qed.

(** ** Comparison *)

Lemma Qltb_lt (p q : Q) : Qltb p q = true <-> p < q.
Proof.
  unfold Qltb. rewrite negb_true_iff, <- not_true_iff_false, Qle_bool_iff.
  split; [apply Qnot_le_lt | apply Qlt_not_le].
Qed.

Lemma Qltb_ge (p q : Q) : Qltb p q = false <-> q <= p.
Proof. unfold Qltb. rewrite negb_false_iff. apply Qle_bool_iff. Qed.

Lemma Qle_bool_false (p q : Q) : Qle_bool p q = false <-> q < p.
Proof. rewrite <- Qltb_lt. unfold Qltb. rewrite negb_true_iff. reflexivity. Qed.

(** Case analysis on a comparison, with the order fact in the context. *)
Ltac case_Qle p q :=
  let E := fresh "E" in
  destruct (Qle_bool p q) eqn:E;
  [apply Qle_bool_iff in E | apply Qle_bool_false in E].

(** Closed comparisons of rationals. *)
Ltac q_decide := repeat split; unfold Qle, Qlt; simpl; lia.

(** ** Truncation *)

Lemma Qle_bool_neg (q : Q) : q < 0 -> Qle_bool 0 q = false.
Proof. intros H. apply Qltb_lt in H. unfold Qltb in H. apply negb_true_iff, H. Qed.

Lemma Qtrunc_nonneg (q : Q) :
  0 <= q -> inject_Z (Qtrunc q) <= q /\ q < inject_Z (Qtrunc q) + 1.
Proof.
  intros H. unfold Qtrunc. rewrite (proj2 (Qle_bool_iff 0 q) H).
  pose proof (Qfloor_le q). pose proof (Qlt_floor q) as L.
  rewrite inject_Z_plus in L. split; [assumption | exact L].
Qed.

Lemma Qtrunc_neg (q : Q) :
  q < 0 -> q <= inject_Z (Qtrunc q) /\ inject_Z (Qtrunc q) < q + 1.
Proof.
  intros H. unfold Qtrunc. rewrite Qle_bool_neg by assumption.
  pose proof (Qle_ceiling q). pose proof (Qceiling_lt q) as L.
  unfold Z.sub in L. rewrite inject_Z_plus in L.
  assert (inject_Z (-1) == -(1)) as E1 by reflexivity. rewrite E1 in L.
  split; [assumption | lra].
Qed.

Lemma Qtrunc_Z (z : Z) : Qtrunc (inject_Z z) = z.
Proof. unfold Qtrunc. destruct (Qle_bool _ _); [apply Qfloor_Z | apply Qceiling_Z]. Qed.

(** Truncation loses less than one unit, toward zero. *)
Lemma Qtrunc_error (q : Q) :
  (0 <= q -> 0 <= q - inject_Z (Qtrunc q) < 1) /\
  (q < 0 -> 0 <= inject_Z (Qtrunc q) - q < 1).
Proof.
  split; intros H.
  - destruct (Qtrunc_nonneg q H). lra.
  - destruct (Qtrunc_neg q H). lra.
Qed.

Lemma Qtrunc_nonneg_sign (q : Q) : 0 <= q -> (0 <= Qtrunc q)%Z.
Proof.
  intros H. destruct (Qtrunc_nonneg q H) as [_ U].
  assert (inject_Z (-1) < inject_Z (Qtrunc q)) as L.
  { assert (inject_Z (-1) == -(1)) as E by reflexivity. rewrite E. lra. }
  rewrite <- Zlt_Qlt in L. lia.
Qed.

Lemma Qtrunc_neg_sign (q : Q) : q < 0 -> (Qtrunc q <= 0)%Z.
Proof.
  intros H. destruct (Qtrunc_neg q H) as [_ U].
  assert (inject_Z (Qtrunc q) < inject_Z 1) as L.
  { assert (inject_Z 1 == 1) as E by reflexivity. rewrite E. lra. }
  rewrite <- Zlt_Qlt in L. lia.
Qed.

Lemma Qtrunc_mono (p q : Q) : p <= q -> (Qtrunc p <= Qtrunc q)%Z.
Proof.
  intros H. destruct (Qlt_le_dec p 0) as [Hp|Hp], (Qlt_le_dec q 0) as [Hq|Hq].
  - unfold Qtrunc. rewrite !Qle_bool_neg by assumption.
    apply Qceiling_resp_le, H.
  - pose proof (Qtrunc_neg_sign p Hp). pose proof (Qtrunc_nonneg_sign q Hq). lia.
  - lra.
  - unfold Qtrunc. rewrite !(proj2 (Qle_bool_iff 0 _)) by assumption.
    apply Qfloor_resp_le, H.
Qed.

Lemma Qtrunc_bounds (a b : Z) (q : Q) :
  inject_Z a <= q <= inject_Z b -> (a <= Qtrunc q <= b)%Z.
Proof.
  intros [Ha Hb]. rewrite <- (Qtrunc_Z a), <- (Qtrunc_Z b).
  split; apply Qtrunc_mono; assumption.
Qed.

(** ** Integers as numbers *)

Lemma ToIntegerOrZero_of_Z (z : Z) : ToIntegerOrZero (of_Z z) = z.
Proof. apply Qtrunc_Z. Qed.

Lemma ToUint32_of_Z (z : Z) : in_unsigned 32 z -> ToUint32 (of_Z z) = z.
Proof. intros H. unfold ToUint32. rewrite ToIntegerOrZero_of_Z. apply wrapU_small, H. Qed.

Lemma ToInt16_of_Z (z : Z) : in_signed 16 z -> ToInt16 (of_Z z) = z.
Proof. intros H. unfold ToInt16. rewrite ToIntegerOrZero_of_Z. apply wrapS_small; [lia|exact H]. Qed.

#[export] Hint Rewrite ToIntegerOrZero_of_Z Qtrunc_Z : js.
