(* ===== verification/TypedArray.v ===== *)
(** * Array buffers, typed arrays and data views

    The host objects the recorder stores samples and bytes in.  A typed
    array or an [ArrayBuffer] is the list of its elements; its length never
    changes.  The operations are those the sources call:

    - [ArrayBuffer n], [new ArrayBuffer(n)]: [n] zero bytes;
    - [ta_set target source offset], [target.set(source, offset)]: copies
      [source] into [target] at [offset], and throws [RangeError] when it
      does not fit;
    - [setUint8], [setUint16], [setInt16], [setUint32], the [DataView]
      setters: convert the Number to the field's width, lay the bytes out in
      the requested byte order, and throw [RangeError] when the field does
      not fit in the view.

    Bytes are [Init.Byte.byte]; a field's byte layout is coqutil's
    [le_split], so its round-trip lemmas ([le_combine_split],
    [split_le_combine]) apply. *)

From Stdlib Require Import ZArith Lia List.
From coqutil Require Import Byte Word.LittleEndianList.
From stdpp Require Import base tactics list.
From S2P Require Import Prelude JsNum.

#[local] Open Scope Z_scope.

(** ** Buffers *)

Definition ArrayBuffer (n : nat) : list byte := replicate n Byte.x00.

(** Overwrites the elements of [buf] from index [off] with [bs]. *)
Definition write_at {A} (off : Z) (bs buf : list A) : result (list A) :=
  if decide (0 <= off /\ off + Z.of_nat (length bs) <= Z.of_nat (length buf))
  then Ok (take (Z.to_nat off) buf ++ bs ++ drop (Z.to_nat off + length bs) buf)
  else Throw RangeError.

Definition ta_set {A} (target source : list A) (offset : Z) : result (list A) :=
  write_at offset source target.

(** ** Data views *)

(** The bytes of a field in the order asked for. *)
Definition endian (littleEndian : bool) (bs : list byte) : list byte :=
  if littleEndian then bs else rev bs.

Definition setUint8 (view : list byte) (byteOffset : Z) (value : num) :
    result (list byte) :=
  write_at byteOffset (le_split 1 (ToUint8 value)) view.

Definition setUint16 (view : list byte) (byteOffset : Z) (value : num)
    (littleEndian : bool) : result (list byte) :=
  write_at byteOffset (endian littleEndian (le_split 2 (ToUint16 value))) view.

Definition setInt16 (view : list byte) (byteOffset : Z) (value : num)
    (littleEndian : bool) : result (list byte) :=
  write_at byteOffset (endian littleEndian (le_split 2 (ToInt16 value))) view.

Definition setUint32 (view : list byte) (byteOffset : Z) (value : num)
    (littleEndian : bool) : result (list byte) :=
  write_at byteOffset (endian littleEndian (le_split 4 (ToUint32 value))) view.

(** ** Writes *)

Section WriteAt.
Context {A : Type}.
Implicit Types (bs buf done rest : list A).

Lemma write_at_length off bs buf buf' :
  write_at off bs buf = Ok buf' -> length buf' = length buf.
Proof.
  unfold write_at. case_decide; [|discriminate]. intros [= <-].
  rewrite !length_app, length_take, length_drop. lia.
Qed.

Lemma write_at_range off bs buf :
  is_ok (write_at off bs buf) = true <->
  0 <= off /\ off + Z.of_nat (length bs) <= Z.of_nat (length buf).
Proof. unfold write_at. case_decide; simpl; intuition congruence. Qed.

(** A write just past what was written so far extends it: the case of a
    writer that advances its offset by what it wrote. *)
Lemma write_at_seq done bs rest :
  (length bs <= length rest)%nat ->
  write_at (Z.of_nat (length done)) bs (done ++ rest)
  = Ok ((done ++ bs) ++ drop (length bs) rest).
Proof.
  intros H. unfold write_at. rewrite length_app.
  case_decide; [|lia]. rewrite Nat2Z.id. f_equal.
  rewrite take_app_length, drop_app_add, <- app_assoc. reflexivity.
Qed.

Lemma write_at_all bs buf :
  length bs = length buf -> write_at 0 bs buf = Ok bs.
Proof.
  intros H. change 0 with (Z.of_nat (length (@nil A))).
  change buf with ([] ++ buf) at 1. rewrite write_at_seq by lia.
  rewrite H, drop_all, app_nil_r. reflexivity.
Qed.

Lemma write_at_overflow off bs buf :
  Z.of_nat (length buf) < off + Z.of_nat (length bs) ->
  write_at off bs buf = Throw RangeError.
Proof. intros H. unfold write_at. case_decide; [lia|reflexivity]. Qed.

End WriteAt.

(** ** Byte layout of a field *)

Lemma length_endian le bs : length (endian le bs) = length bs.
Proof. destruct le; simpl; [reflexivity | apply length_rev]. Qed.

(** [le_split] stores its argument modulo the field's width, so the
    conversion a setter applies first does not change the bytes. *)
Lemma le_split_wrapU (n : nat) (z : Z) :
  le_split n (wrapU (Z.of_nat n * 8) z) = le_split n z.
Proof. symmetry. apply le_split_mod. Qed.

Lemma le_split_wrapS (n : nat) (z : Z) :
  (0 < n)%nat -> le_split n (wrapS (Z.of_nat n * 8) z) = le_split n z.
Proof.
  intros H. rewrite (le_split_mod (wrapS _ _)), (le_split_mod z).
  f_equal. apply wrapU_wrapS. lia.
Qed.

(** Reading a little-endian field back gives the stored integer. *)
Lemma le_combine_split_unsigned (n : nat) (z : Z) :
  in_unsigned (Z.of_nat n * 8) z -> le_combine (le_split n z) = z.
Proof. intros H. rewrite le_combine_split. apply Z.mod_small, H. Qed.

Lemma le_combine_split_signed (n : nat) (z : Z) :
  (0 < n)%nat -> in_signed (Z.of_nat n * 8) z ->
  wrapS (Z.of_nat n * 8) (le_combine (le_split n z)) = z.
Proof.
  intros Hn H. rewrite le_combine_split.
  change (z mod 2 ^ (Z.of_nat n * 8)) with (wrapU (Z.of_nat n * 8) z).
  rewrite wrapS_wrapU by lia. apply wrapS_small; [lia | exact H].
Qed.

#[export] Hint Rewrite length_le_split length_endian : js.
