(* ===== verification/Pcm.v ===== *)
(** * Conversion of samples to 16-bit PCM

    [floatTo16BitPCM] of [src/recorder/app.js]: each sample of a
    [Float32Array] is clamped to [-1, 1], scaled by [0x8000] when negative
    and by [0x7fff] otherwise, and stored in an [Int16Array], which applies
    [ToInt16].

    The loop is modelled as written, with the output array allocated first
    and one indexed store per iteration; [floatTo16BitPCM_map] shows it is
    the map of [sample_to_int16].  The theorems give the converted value on
    every branch, show that the stored value never wraps, that the
    conversion is monotone, and bound the quantisation error. *)

From Stdlib Require Import ZArith QArith Qround Lia Lqa List Bool.
From stdpp Require Import base tactics list.
From S2P Require Import Prelude JsNum.

#[local] Open Scope Z_scope.

(** ** The model *)

(** [Math.max(-1, Math.min(1, x))] *)
Definition clamp (x : num) : num := js_max (Fin (-1)) (js_min (Fin 1) x).

(** The right-hand side of the store, before the array converts it. *)
Definition pcm_sample (x : num) : num :=
  let s := clamp x in
  if js_lt s (Fin 0) then js_mul s (Fin 0x8000) else js_mul s (Fin 0x7fff).

Definition floatTo16BitPCM (float32 : list num) : list Z :=
  let out := replicate (length float32) 0 in
  for_range (length float32)
    (fun i out => <[i := ToInt16 (pcm_sample (nth i float32 NaN))]> out) out.

(** ** Reference definitions *)

(** The 16-bit value one sample is stored as. *)
Definition sample_to_int16 (x : num) : Z := ToInt16 (pcm_sample x).

(** The scaled value of a finite sample, as a function on the rationals. *)
Definition scaleQ (q : Q) : Q :=
  if Qle_bool q (-1) then -32768
  else if Qle_bool 1 q then 32767
  else if Qle_bool 0 q then q * 32767
  else q * 32768.

(** The sample a decoder reads a 16-bit value as. *)
Definition pcm_decode (v : Z) : Q := inject_Z v * (1 # 32768).

(** A value of a [Float32Array]: an integer of at most 24 bits times a
    power of two. *)
Definition float32_value (m e : Z) : Q := inject_Z m * 2 ^ e.

(** ** The loop is a map *)

(** The loop of [floatTo16BitPCM], which allocates the [Int16Array]
    and stores one converted sample per index, computes the element-wise
    conversion of its input: every index is written once, none is left at
    the initial zero, and the length is that of the input. *)
Lemma floatTo16BitPCM_map (float32 : list num) :
  floatTo16BitPCM float32 = map sample_to_int16 float32.
Proof.
  unfold floatTo16BitPCM.
  rewrite (for_range_fill _ 0 (fun i => sample_to_int16 (nth i float32 NaN))).
  rewrite <- (map_map (fun i => nth i float32 NaN) sample_to_int16).
  rewrite map_nth_seq. reflexivity.
Qed.

Lemma floatTo16BitPCM_length (float32 : list num) :
  length (floatTo16BitPCM float32) = length float32.
Proof. rewrite floatTo16BitPCM_map. apply length_map. Qed.

Lemma floatTo16BitPCM_app (l1 l2 : list num) :
  floatTo16BitPCM (l1 ++ l2) = floatTo16BitPCM l1 ++ floatTo16BitPCM l2.
Proof. rewrite !floatTo16BitPCM_map. apply map_app. Qed.

#[export] Hint Rewrite floatTo16BitPCM_length : js.

(** ** Clamping and scaling *)

#[export] Instance clamp_proper : Proper (num_eq ==> num_eq) clamp.
Proof. intros a b H. unfold clamp. rewrite H. reflexivity. Qed.

#[export] Instance pcm_sample_proper : Proper (num_eq ==> num_eq) pcm_sample.
Proof.
  intros a b H. unfold pcm_sample. cbv zeta.
  pose proof (clamp_proper _ _ H) as Hc.
  rewrite (js_lt_proper _ _ Hc (Fin 0) (Fin 0) (reflexivity _)).
  destruct (js_lt (clamp b) (Fin 0)); rewrite Hc; reflexivity.
Qed.

#[export] Instance sample_to_int16_proper : Proper (num_eq ==> eq) sample_to_int16.
Proof. intros a b H. unfold sample_to_int16. rewrite H. reflexivity. Qed.

Lemma clamp_fin (q : Q) :
  clamp (Fin q) =
    if Qle_bool q (-1) then Fin (-1) else if Qle_bool 1 q then Fin 1 else Fin q.
Proof.
  unfold clamp, js_min, js_lt, Qltb. case_Qle 1%Q q; simpl.
  - rewrite (proj2 (Qle_bool_false q (-1))) by lra. reflexivity.
  - unfold Qltb. destruct (Qle_bool q (-1)); reflexivity.
Qed.

(** The scaled value of a finite sample is [scaleQ] of it. *)
Lemma pcm_sample_fin (q : Q) : pcm_sample (Fin q) = Fin (scaleQ q).
Proof.
  unfold pcm_sample, scaleQ. cbv zeta. rewrite clamp_fin.
  case_Qle q (-1)%Q; [reflexivity|].
  case_Qle 1%Q q; [reflexivity|].
  unfold js_lt, Qltb, js_mul. case_Qle 0%Q q; reflexivity.
Qed.

Lemma scaleQ_range (q : Q) : (-32768 <= scaleQ q <= 32767)%Q.
Proof.
  unfold scaleQ. case_Qle q (-1)%Q; [lra|]. case_Qle 1%Q q; [lra|].
  case_Qle 0%Q q; lra.
Qed.

Lemma scaleQ_mono (p q : Q) : (p <= q)%Q -> (scaleQ p <= scaleQ q)%Q.
Proof.
  intros H. unfold scaleQ.
  case_Qle p (-1)%Q; case_Qle q (-1)%Q; try lra;
    case_Qle 1%Q p; case_Qle 1%Q q; try lra;
    case_Qle 0%Q p; case_Qle 0%Q q; lra.
Qed.

#[export] Instance scaleQ_proper : Proper (Qeq ==> Qeq) scaleQ.
Proof.
  intros p q H. unfold scaleQ.
  case_Qle p (-1)%Q; case_Qle q (-1)%Q; try lra;
    case_Qle 1%Q p; case_Qle 1%Q q; try lra;
    case_Qle 0%Q p; case_Qle 0%Q q; lra.
Qed.

(** ** The stored value never wraps *)

(** The number stored for a sample lies in the range of a signed 16-bit
    integer before the [Int16Array] converts it, for every Number including
    [NaN] and the infinities. *)
Lemma pcm_sample_in_signed (x : num) :
  in_signed 16 (ToIntegerOrZero (pcm_sample x)).
Proof.
  unfold in_signed. change (2 ^ (16 - 1)) with 32768.
  destruct x as [|[]|q]; [cbv; intuition congruence..|].
  rewrite pcm_sample_fin.
  enough (-32768 <= Qtrunc (scaleQ q) <= 32767) by (simpl; lia).
  apply Qtrunc_bounds, scaleQ_range.
Qed.

Lemma sample_to_int16_trunc (x : num) :
  sample_to_int16 x = ToIntegerOrZero (pcm_sample x).
Proof. apply wrapS_small; [lia | apply pcm_sample_in_signed]. Qed.

Lemma sample_to_int16_fin (q : Q) : sample_to_int16 (Fin q) = Qtrunc (scaleQ q).
Proof. rewrite sample_to_int16_trunc, pcm_sample_fin. reflexivity. Qed.

Lemma sample_to_int16_range (x : num) : in_signed 16 (sample_to_int16 x).
Proof. rewrite sample_to_int16_trunc. apply pcm_sample_in_signed. Qed.

Lemma floatTo16BitPCM_range (float32 : list num) :
  Forall (in_signed 16) (floatTo16BitPCM float32).
Proof.
  rewrite floatTo16BitPCM_map. apply Forall_map, Forall_forall.
  intros x _. apply sample_to_int16_range.
Qed.

(** C5: [floatTo16BitPCM] never wraps around: the value it stores for each
    sample is the scaled sample truncated toward zero, which the store into
    the [Int16Array] leaves as it is, for every Number including [NaN] and
    the infinities. *)
Theorem floatTo16BitPCM_no_wrap (float32 : list num) :
  floatTo16BitPCM float32 = map (fun x => ToIntegerOrZero (pcm_sample x)) float32.
Proof.
  rewrite floatTo16BitPCM_map. apply map_ext. intros x. apply sample_to_int16_trunc.
Qed.

#[export] Hint Resolve sample_to_int16_range floatTo16BitPCM_range : js.

(** ** The value on every branch *)

(** C38: [floatTo16BitPCM] stores 0 for [NaN], the extreme values for the
    infinities and for samples outside [-1, 1], and otherwise the sample
    scaled by [0x7fff] (non-negative) or [0x8000] (negative) and truncated
    toward zero. *)
Theorem sample_to_int16_spec (x : num) :
  sample_to_int16 x =
    match x with
    | NaN => 0
    | Inf neg => if neg then -32768 else 32767
    | Fin q =>
        if Qle_bool q (-1) then -32768
        else if Qle_bool 1 q then 32767
        else if Qle_bool 0 q then Qfloor (q * 32767)
        else Qceiling (q * 32768)
    end.
Proof.
  destruct x as [|[]|q]; [reflexivity..|].
  rewrite sample_to_int16_fin. unfold scaleQ.
  case_Qle q (-1)%Q; [reflexivity|]. case_Qle 1%Q q; [reflexivity|].
  unfold Qtrunc. case_Qle 0%Q q.
  - rewrite (proj2 (Qle_bool_iff 0 (q * 32767))) by lra. reflexivity.
  - rewrite Qle_bool_neg by lra. reflexivity.
Qed.

(** ** Monotonicity *)

(** A larger sample is never stored as a smaller 16-bit value. *)
Theorem sample_to_int16_mono (p q : Q) :
  (p <= q)%Q -> sample_to_int16 (Fin p) <= sample_to_int16 (Fin q).
Proof.
  intros H. rewrite !sample_to_int16_fin. apply Qtrunc_mono, scaleQ_mono, H.
Qed.

Lemma sample_to_int16_mono_witness :
  (-1 # 2 <= 3 # 4)%Q /\ sample_to_int16 (Fin (-1 # 2)) <= sample_to_int16 (Fin (3 # 4)).
Proof. split; [q_decide | apply (sample_to_int16_mono (-1 # 2) (3 # 4)); q_decide]. Defined.

(** ** Quantisation error *)

(** C37: a sample in [-1, 1] is read back from its 16-bit value, decoded as
    [v / 32768], with an error below [2 / 32768]: the value read is in
    [(q - 2/32768, q]] for a non-negative sample and in [[q, q + 1/32768)]
    for a negative one. *)
Theorem quantization_error (q : Q) :
  (-1 <= q <= 1)%Q ->
  (q - (2 # 32768) < pcm_decode (sample_to_int16 (Fin q)) < q + (1 # 32768))%Q.
Proof.
  intros [L U]. rewrite sample_to_int16_fin. unfold pcm_decode.
  destruct (Qtrunc_error (scaleQ q)) as [Hp Hn]. revert Hp Hn.
  generalize (inject_Z (Qtrunc (scaleQ q))). intros v. unfold scaleQ.
  case_Qle q (-1)%Q; [lra|]. case_Qle 1%Q q; [lra|]. case_Qle 0%Q q; lra.
Qed.

Lemma quantization_error_witness :
  (-1 <= 1 # 3 <= 1)%Q /\
  ((1 # 3) - (2 # 32768) < pcm_decode (sample_to_int16 (Fin (1 # 3)))
     < (1 # 3) + (1 # 32768))%Q.
Proof. split; [q_decide | apply (quantization_error (1 # 3)); q_decide]. Defined.

(** ** Exactness of the scaling in binary64 *)

(** The product of a [Float32Array] value with [0x8000] or [0x7fff] has a
    significand below [2 ^ 53]: binary64 multiplication does not round it,
    so [js_mul] is the value the engine computes. *)
Lemma scale_exact (m e c : Z) :
  Z.abs m < 2 ^ 24 -> Z.abs c <= 2 ^ 15 ->
  num_eq (js_mul (Fin (float32_value m e)) (of_Z c)) (Fin (float32_value (m * c) e))
  /\ Z.abs (m * c) < 2 ^ 53.
Proof.
  intros Hm Hc. split; [|nia].
  unfold float32_value, of_Z. simpl. rewrite inject_Z_mult. ring.
Qed.
