(* ===== verification/Collector.v ===== *)
(** * The frame collector

    The path of a block of samples in [src/recorder/app.js]: the worklet's
    [process] callback copies channel 0 of its first input and posts it;
    the port's [onmessage] handler appends the block to [chunks] and adds
    its length to [recordedSamples]; [flattenChunks] allocates an array of
    [recordedSamples] samples and copies the blocks into it one after the
    other.

    The collector keeps the invariant that [recordedSamples] is the total
    length of [chunks].  Under it [flattenChunks] returns the concatenation
    of the blocks in arrival order; [flattenChunks_spec] also says what the
    code does without it (a [RangeError] when the count is too small, zero
    padding when it is too large). *)

From Stdlib Require Import ZArith QArith Lia List.
From stdpp Require Import base tactics list.
From S2P Require Import Prelude JsNum TypedArray.

#[local] Open Scope Z_scope.

(** ** The worklet processor *)

(** [inputs] is the list of the node's inputs, each the list of its
    channels, each a block of samples.  The result is the message posted to
    the port, if any; the callback always returns [true]. *)
Definition process (inputs : list (list (list num))) :
    result (option (list num) * bool) :=
  match inputs with
  | [] => Ok (None, true)
  | input :: _ =>
      match input with
      | [] => Ok (None, true)
      | ch0 :: _ =>
          let copy := replicate (length ch0) (Fin 0) in
          result_bind (ta_set copy ch0 0) (fun copy => Ok (Some copy, true))
      end
  end.

(** ** The collector's state and handler *)

Record collector : Type := {
  chunks : list (list num);
  recordedSamples : Z;
}.

(** The assignments at the top of [start]. *)
Definition reset : collector := {| chunks := []; recordedSamples := 0 |}.

Definition onmessage (data : list num) (c : collector) : collector :=
  let f32 := data in
  {| chunks := chunks c ++ [f32];
     recordedSamples := recordedSamples c + Z.of_nat (length f32) |}.

(** ** Flattening *)

(** One iteration: [out.set(c, offset); offset += c.length]. *)
Definition flatten_step (c : list num) : prog (list num * Z) unit :=
  fun '(out, offset) =>
    match ta_set out c offset with
    | Ok out' => Done tt (out', offset + Z.of_nat (length c))
    | Throw e => Raised e (out, offset)
    end.

Definition flattenChunks (c : collector) : result (list num) :=
  if decide (recordedSamples c < 0) then Throw RangeError
  else
    let out := replicate (Z.to_nat (recordedSamples c)) (Fin 0) in
    result_bind (exec (for_each (chunks c) flatten_step) (out, 0))
      (fun '(out, _) => Ok out).

(** ** Specification *)

Definition collector_inv (c : collector) : Prop :=
  recordedSamples c = Z.of_nat (total_length (chunks c)).

(** The collector after the blocks [msgs] arrived in this order. *)
Definition deliver (msgs : list (list num)) (c : collector) : collector :=
  foldl (fun c m => onmessage m c) c msgs.

(** ** The processor *)

(** [process] never throws, keeps the processor alive, posts nothing
    when the node has no input or the input no channel, and otherwise posts
    exactly the samples of channel 0 of the first input. *)
Theorem process_spec (inputs : list (list (list num))) :
  process inputs =
    Ok (match inputs with
        | (ch0 :: _) :: _ => Some ch0
        | _ => None
        end, true).
Proof.
  destruct inputs as [|[|ch0 ?] ?]; try reflexivity.
  simpl. unfold ta_set. rewrite write_at_all by (symmetry; apply length_replicate). reflexivity.
Qed.

(** ** The invariant *)

Lemma reset_inv : collector_inv reset.
Proof. reflexivity. Qed.

Lemma onmessage_inv data c : collector_inv c -> collector_inv (onmessage data c).
Proof.
  unfold collector_inv, onmessage. simpl. intros ->.
  rewrite total_length_app, total_length_cons, total_length_nil. lia.
Qed.

Lemma deliver_snoc msgs m c : deliver (msgs ++ [m]) c = onmessage m (deliver msgs c).
Proof. unfold deliver. rewrite foldl_snoc. reflexivity. Qed.

Lemma deliver_chunks msgs c : chunks (deliver msgs c) = chunks c ++ msgs.
Proof.
  induction msgs as [|m msgs IH] using rev_ind; [symmetry; apply app_nil_r|].
  rewrite deliver_snoc. simpl. rewrite IH, app_assoc. reflexivity.
Qed.

(** [recordedSamples] is the total length of [chunks] after [start]'s
    reset and any sequence of deliveries. *)
Lemma deliver_inv (msgs : list (list num)) : collector_inv (deliver msgs reset).
Proof.
  induction msgs as [|m msgs IH] using rev_ind; [exact reset_inv|].
  rewrite deliver_snoc. apply onmessage_inv, IH.
Qed.

#[export] Hint Resolve reset_inv onmessage_inv deliver_inv : js.

(** ** The copy loop *)

Section FlattenLoop.
Implicit Types (chs : list (list num)) (done rest : list num).

Lemma flatten_loop_fits chs done rest :
  (total_length chs <= length rest)%nat ->
  exec (for_each chs flatten_step) (done ++ rest, Z.of_nat (length done))
  = Ok ((done ++ concat chs) ++ drop (total_length chs) rest,
        Z.of_nat (length (done ++ concat chs))).
Proof.
  revert done rest. induction chs as [|ch chs IH]; intros done rest H.
  - simpl. rewrite !app_nil_r. reflexivity.
  - rewrite total_length_cons in *. cbn [for_each concat].
    unfold exec, bind, flatten_step at 1, ta_set.
    rewrite write_at_seq by lia.
    rewrite <- Nat2Z.inj_add, <- length_app.
    specialize (IH (done ++ ch) (drop (length ch) rest)). unfold exec in IH.
    rewrite IH by (rewrite length_drop; lia).
    rewrite drop_drop, <- !app_assoc. reflexivity.
Qed.

Lemma flatten_loop_overflow chs done rest :
  (length rest < total_length chs)%nat ->
  exec (for_each chs flatten_step) (done ++ rest, Z.of_nat (length done))
  = Throw RangeError.
Proof.
  revert done rest. induction chs as [|ch chs IH]; intros done rest H.
  - rewrite total_length_nil in H. lia.
  - rewrite total_length_cons in H.
    cbn [for_each]. unfold exec, bind, flatten_step at 1, ta_set.
    destruct (decide (length ch <= length rest)%nat) as [Hfit|Hfit].
    + rewrite write_at_seq by lia.
      rewrite <- Nat2Z.inj_add, <- length_app.
      apply IH. rewrite length_drop. lia.
    + rewrite write_at_overflow by (rewrite length_app; lia). reflexivity.
Qed.

End FlattenLoop.

(** ** What [flattenChunks] returns *)

(** C35: [flattenChunks] on any collector state: a [RangeError] when
    [recordedSamples] is negative or smaller than the total length of the
    blocks, and otherwise the blocks in order followed by one zero for each
    sample [recordedSamples] counts beyond them. *)
Theorem flattenChunks_spec (c : collector) :
  flattenChunks c =
    if decide (0 <= recordedSamples c /\
               Z.of_nat (total_length (chunks c)) <= recordedSamples c)
    then Ok (concat (chunks c) ++
             replicate (Z.to_nat (recordedSamples c) - total_length (chunks c)) (Fin 0))
    else Throw RangeError.
Proof.
  unfold flattenChunks. destruct (decide (recordedSamples c < 0)) as [N|N].
  { case_decide; [lia|reflexivity]. }
  set (out := replicate _ _).
  pose proof (length_replicate (Z.to_nat (recordedSamples c)) (Fin 0)) as L.
  fold out in L. case_decide as D.
  - rewrite (flatten_loop_fits _ [] out) by lia. simpl. f_equal. f_equal.
    unfold out. rewrite drop_replicate. reflexivity.
  - rewrite (flatten_loop_overflow _ [] out) by lia. reflexivity.
Qed.

(** Under the collector's invariant [flattenChunks] does not throw and
    returns the concatenation of the blocks in the order they were
    stored. *)
Lemma flattenChunks_concat (c : collector) :
  collector_inv c -> flattenChunks c = Ok (concat (chunks c)).
Proof.
  intros H. unfold flattenChunks. rewrite H. case_decide; [lia|].
  rewrite Nat2Z.id. set (out := replicate _ _).
  rewrite (flatten_loop_fits _ [] out) by (unfold out; rewrite length_replicate; lia).
  cbn [result_bind app]. unfold out. rewrite drop_replicate, Nat.sub_diag.
  apply f_equal, app_nil_r.
Qed.

(** C8: the samples [save] encodes after a recording are the delivered
    blocks, each once, in arrival order: none is dropped, duplicated or
    reordered between the port and the flattened array. *)
Theorem flatten_deliver (msgs : list (list num)) :
  flattenChunks (deliver msgs reset) = Ok (concat msgs).
Proof.
  rewrite flattenChunks_concat by apply deliver_inv.
  rewrite deliver_chunks. reflexivity.
Qed.
