(* ===== verification/Wav.v ===== *)
(** * The WAV encoder

    [encodeWavMono16] of [src/recorder/app.js]: converts the samples to
    16-bit PCM, allocates a buffer of [44 + dataSize] bytes, and fills it
    through a [DataView] with the RIFF header and the samples, advancing the
    offset [o] after each field.

    The function is modelled as written: a program over the two things it
    mutates, the buffer behind [view] and the offset [o], in which every
    setter can throw [RangeError].  [wav_file] is the layout the format
    prescribes, as a concatenation of fields.  [encodeWavMono16_layout] shows
    the program never throws and produces exactly that layout. *)

From Stdlib Require Import String Ascii ZArith QArith Lia List.
From coqutil Require Import Byte Word.LittleEndianList.
From stdpp Require Import base tactics list.
From S2P Require Import Prelude JsNum TypedArray Pcm.

#[local] Open Scope Z_scope.

(** ** The model *)

Record Blob : Type := {
  blob_bytes : list byte;
  blob_type : string;
}.

(** The locals of [encodeWavMono16] that its writes change. *)
Record writer : Type := {
  view : list byte;
  o : Z;
}.

(** A call of a setter of [view] at the current offset. *)
Definition on_view (set : list byte -> Z -> result (list byte)) : prog writer unit :=
  fun w => match set (view w) (o w) with
           | Ok v => Done tt {| view := v; o := o w |}
           | Throw e => Raised e w
           end.

(** [o += n] *)
Definition advance (n : Z) : prog writer unit :=
  modify (fun w => {| view := view w; o := o w + n |}).

Definition charCodeAt (c : ascii) : num := of_Z (Z.of_N (N_of_ascii c)).

Definition writeStr (s : string) : prog writer unit :=
  for_each (list_ascii_of_string s)
    (fun c => on_view (fun v o => setUint8 v o (charCodeAt c)) ;; advance 1)%prog.

Definition encodeWavMono16 (samplesF32 : list num) (sr : num) : result Blob :=
  let pcm16 := floatTo16BitPCM samplesF32 in
  let bytesPerSample := 2 in
  let numChannels := 1 in
  let blockAlign := numChannels * bytesPerSample in
  let byteRate := js_mul sr (of_Z blockAlign) in
  let dataSize := Z.of_nat (length pcm16) * bytesPerSample in
  let buffer := ArrayBuffer (Z.to_nat (44 + dataSize)) in
  result_bind
    (exec
      (writeStr "RIFF" ;;
      on_view (fun v o => setUint32 v o (of_Z (36 + dataSize)) true) ;; advance 4 ;;
      writeStr "WAVE" ;;
      writeStr "fmt " ;;
      on_view (fun v o => setUint32 v o (of_Z 16) true) ;; advance 4 ;;
      on_view (fun v o => setUint16 v o (of_Z 1) true) ;; advance 2 ;;
      on_view (fun v o => setUint16 v o (of_Z numChannels) true) ;; advance 2 ;;
      on_view (fun v o => setUint32 v o sr true) ;; advance 4 ;;
      on_view (fun v o => setUint32 v o byteRate true) ;; advance 4 ;;
      on_view (fun v o => setUint16 v o (of_Z blockAlign) true) ;; advance 2 ;;
      on_view (fun v o => setUint16 v o (of_Z 16) true) ;; advance 2 ;;
      writeStr "data" ;;
      on_view (fun v o => setUint32 v o (of_Z dataSize) true) ;; advance 4 ;;
      for_each (seq 0 (length pcm16)) (fun i =>
        on_view (fun v o => setInt16 v o (of_Z (nth i pcm16 0)) true) ;;
        advance 2))%prog
     {| view := buffer; o := 0 |})
    (fun w => Ok {| blob_bytes := view w; blob_type := "audio/wav" |}).

(** ** The layout of a WAV file *)

Definition chars (s : string) : list byte :=
  map byte_of_ascii (list_ascii_of_string s).

Definition wav_header (sr : num) (dataSize : Z) : list byte :=
  chars "RIFF" ++ le_split 4 (36 + dataSize) ++ chars "WAVE" ++
  chars "fmt " ++ le_split 4 16 ++ le_split 2 1 ++ le_split 2 1 ++
  le_split 4 (ToUint32 sr) ++ le_split 4 (ToUint32 (js_mul sr (of_Z 2))) ++
  le_split 2 2 ++ le_split 2 16 ++
  chars "data" ++ le_split 4 dataSize.

Definition wav_payload (pcm16 : list Z) : list byte :=
  flat_map (le_split 2) pcm16.

Definition wav_file (sr : num) (pcm16 : list Z) : list byte :=
  wav_header sr (Z.of_nat (length pcm16) * 2) ++ wav_payload pcm16.

(** ** Sequential writers *)

(** [emits m bs]: run at the end of what was written so far, with room for
    [bs], the program [m] appends [bs] and leaves the offset after it. *)
Definition emits (m : prog writer unit) (bs : list byte) : Prop :=
  forall done rest, (length bs <= length rest)%nat ->
    m {| view := done ++ rest; o := Z.of_nat (length done) |}
    = Done tt {| view := (done ++ bs) ++ drop (length bs) rest;
                 o := Z.of_nat (length (done ++ bs)) |}.

Lemma emits_nil : emits (ret tt) [].
Proof. intros done rest _. unfold ret. simpl. rewrite !app_nil_r. reflexivity. Qed.

Lemma emits_bind m1 m2 b1 b2 :
  emits m1 b1 -> emits m2 b2 -> emits (m1 ;; m2)%prog (b1 ++ b2).
Proof.
  intros H1 H2 done rest L. rewrite length_app in L.
  unfold bind. rewrite H1 by lia. rewrite H2 by (rewrite length_drop; lia).
  rewrite drop_drop, <- !app_assoc, !length_app. repeat f_equal; lia.
Qed.

(** A setter that writes [bs] at the offset, followed by [o += length bs]. *)
Lemma emits_field set bs n :
  (forall v off, set v off = write_at off bs v) -> Z.of_nat (length bs) = n ->
  emits (on_view set ;; advance n)%prog bs.
Proof.
  intros Hset <- done rest L. unfold bind, on_view, advance, modify. simpl.
  rewrite Hset, write_at_seq by exact L. simpl.
  rewrite <- Nat2Z.inj_add, <- length_app. reflexivity.
Qed.

Lemma emits_for_each {A} (l : list A) body (f : A -> list byte) :
  (forall x, emits (body x) (f x)) -> emits (for_each l body) (flat_map f l).
Proof.
  intros H. induction l as [|x l IH]; [exact emits_nil|].
  simpl. apply emits_bind; [apply H | exact IH].
Qed.

(** The whole buffer: a program that emits as many bytes as the buffer
    holds fills it and does not throw. *)
Lemma emits_run m bs :
  emits m bs ->
  m {| view := ArrayBuffer (length bs); o := 0 |}
  = Done tt {| view := bs; o := Z.of_nat (length bs) |}.
Proof.
  intros H. specialize (H [] (ArrayBuffer (length bs))).
  change (Z.of_nat (length [])) with 0 in H. simpl app in H.
  rewrite H by (unfold ArrayBuffer; rewrite length_replicate; lia).
  unfold ArrayBuffer. rewrite drop_replicate, Nat.sub_diag, app_nil_r. reflexivity.
Qed.

(** ** The fields *)

Lemma byte_of_charCode (c : ascii) :
  le_split 1 (ToUint8 (charCodeAt c)) = [byte_of_ascii c].
Proof. destruct c as [[] [] [] [] [] [] [] []]; reflexivity. Qed.

Lemma emits_setUint8 c :
  emits (on_view (fun v o => setUint8 v o (charCodeAt c)) ;; advance 1)%prog
    [byte_of_ascii c].
Proof.
  apply emits_field; [|reflexivity].
  intros v off. unfold setUint8. rewrite byte_of_charCode. reflexivity.
Qed.

Lemma emits_writeStr s : emits (writeStr s) (chars s).
Proof.
  unfold writeStr, chars. rewrite <- flat_map_singleton.
  apply emits_for_each. intros c. apply emits_setUint8.
Qed.

Lemma emits_setUint32 x :
  emits (on_view (fun v o => setUint32 v o x true) ;; advance 4)%prog
    (le_split 4 (ToUint32 x)).
Proof. apply emits_field; [reflexivity | rewrite length_le_split; reflexivity]. Qed.

Lemma emits_setUint16 x :
  emits (on_view (fun v o => setUint16 v o x true) ;; advance 2)%prog
    (le_split 2 (ToUint16 x)).
Proof. apply emits_field; [reflexivity | rewrite length_le_split; reflexivity]. Qed.

Lemma emits_setInt16 x :
  emits (on_view (fun v o => setInt16 v o x true) ;; advance 2)%prog
    (le_split 2 (ToInt16 x)).
Proof. apply emits_field; [reflexivity | rewrite length_le_split; reflexivity]. Qed.

(** The bytes of an integer field do not depend on the conversion the
    setter applies to it. *)
Lemma le_split_ToUint32 z : le_split 4 (ToUint32 (of_Z z)) = le_split 4 z.
Proof. unfold ToUint32. rewrite ToIntegerOrZero_of_Z. apply (le_split_wrapU 4). Qed.

Lemma le_split_ToUint16 z : le_split 2 (ToUint16 (of_Z z)) = le_split 2 z.
Proof. unfold ToUint16. rewrite ToIntegerOrZero_of_Z. apply (le_split_wrapU 2). Qed.

Lemma le_split_ToInt16 z : le_split 2 (ToInt16 (of_Z z)) = le_split 2 z.
Proof.
  unfold ToInt16. rewrite ToIntegerOrZero_of_Z. apply (le_split_wrapS 2). lia.
Qed.

Lemma emits_samples (pcm16 : list Z) :
  emits (for_each (seq 0 (length pcm16)) (fun i =>
           on_view (fun v o => setInt16 v o (of_Z (nth i pcm16 0)) true) ;;
           advance 2)%prog)
    (wav_payload pcm16).
Proof.
  unfold wav_payload.
  rewrite <- (map_nth_seq pcm16 0) at 2. rewrite flat_map_concat_map, map_map.
  rewrite <- flat_map_concat_map. apply emits_for_each. intros i.
  rewrite <- le_split_ToInt16. apply emits_setInt16.
Qed.

(** ** Lengths *)

Lemma length_chars s : length (chars s) = String.length s.
Proof.
  unfold chars. rewrite length_map.
  induction s as [|c s IH]; simpl; [reflexivity | f_equal; exact IH].
Qed.

Lemma length_wav_header sr dataSize : length (wav_header sr dataSize) = 44%nat.
Proof.
  unfold wav_header. rewrite !length_app, !length_le_split, !length_chars. reflexivity.
Qed.

Lemma length_wav_payload pcm16 : length (wav_payload pcm16) = (2 * length pcm16)%nat.
Proof. apply List.length_flat_map. intros a. apply length_le_split. Qed.

Lemma length_wav_file sr pcm16 :
  length (wav_file sr pcm16) = (44 + 2 * length pcm16)%nat.
Proof.
  unfold wav_file. rewrite length_app, length_wav_header, length_wav_payload.
  reflexivity.
Qed.

#[export] Hint Rewrite length_chars length_wav_header length_wav_payload
  length_wav_file : js.

(** ** Chaining fields *)

Lemma emits_ext m m' bs : (forall w, m w = m' w) -> emits m bs -> emits m' bs.
Proof. intros E H done rest L. rewrite <- E. apply H, L. Qed.

Lemma emits_field_then set bs n m rest :
  (forall v off, set v off = write_at off bs v) -> Z.of_nat (length bs) = n ->
  emits m rest -> emits (on_view set ;; advance n ;; m)%prog (bs ++ rest).
Proof.
  intros Hset Hn Hm.
  apply (emits_ext ((on_view set ;; advance n) ;; m)%prog); [apply bind_assoc|].
  apply emits_bind; [apply emits_field; assumption | exact Hm].
Qed.

Section Fields.
Variables (m : prog writer unit) (rest : list byte).
Hypothesis Hm : emits m rest.

Lemma emits_writeStr_then s : emits (writeStr s ;; m)%prog (chars s ++ rest).
Proof. apply emits_bind; [apply emits_writeStr | exact Hm]. Qed.

Lemma emits_setUint32_then x :
  emits (on_view (fun v o => setUint32 v o x true) ;; advance 4 ;; m)%prog
    (le_split 4 (ToUint32 x) ++ rest).
Proof.
  apply emits_field_then; [reflexivity | rewrite length_le_split; reflexivity | exact Hm].
Qed.

Lemma emits_setUint32_Z z :
  emits (on_view (fun v o => setUint32 v o (of_Z z) true) ;; advance 4 ;; m)%prog
    (le_split 4 z ++ rest).
Proof. rewrite <- le_split_ToUint32. apply emits_setUint32_then. Qed.

Lemma emits_setUint16_Z z :
  emits (on_view (fun v o => setUint16 v o (of_Z z) true) ;; advance 2 ;; m)%prog
    (le_split 2 z ++ rest).
Proof.
  rewrite <- le_split_ToUint16.
  apply emits_field_then; [reflexivity | rewrite length_le_split; reflexivity | exact Hm].
Qed.

End Fields.

Create HintDb emits discriminated.
#[export] Hint Resolve emits_writeStr_then emits_setUint32_Z emits_setUint16_Z
  emits_setUint32_then emits_samples : emits.

(** ** The encoder produces the layout *)

(** The program never throws and writes the layout of its 16-bit samples. *)
Lemma encodeWavMono16_layout (samplesF32 : list num) (sr : num) :
  encodeWavMono16 samplesF32 sr
  = Ok {| blob_bytes := wav_file sr (floatTo16BitPCM samplesF32);
          blob_type := "audio/wav" |}.
Proof.
  unfold encodeWavMono16. cbv zeta. set (pcm16 := floatTo16BitPCM samplesF32).
  replace (Z.to_nat (44 + Z.of_nat (length pcm16) * 2))
    with (length (wav_file sr pcm16)) by (rewrite length_wav_file; lia).
  unfold exec. rewrite emits_run; [reflexivity|].
  unfold wav_file, wav_header. rewrite <- !app_assoc. change (1 * 2) with 2.
  auto 20 with emits.
Qed.

(** C2: [encodeWavMono16] never throws, and the blob it returns holds
    exactly the canonical layout: the 44-byte header for the sample rate
    and the payload size, then each converted sample as two little-endian
    bytes, with type [audio/wav]. *)
Theorem encodeWavMono16_spec (samplesF32 : list num) (sr : num) :
  encodeWavMono16 samplesF32 sr
  = Ok {| blob_bytes := wav_file sr (map sample_to_int16 samplesF32);
          blob_type := "audio/wav" |}.
Proof. rewrite encodeWavMono16_layout, floatTo16BitPCM_map. reflexivity. Qed.

(** The size of the file in bytes. *)
Lemma encodeWavMono16_length samplesF32 sr blob :
  encodeWavMono16 samplesF32 sr = Ok blob ->
  length (blob_bytes blob) = (44 + 2 * length samplesF32)%nat.
Proof.
  rewrite encodeWavMono16_layout. intros [= <-]. cbn [blob_bytes].
  rewrite length_wav_file, floatTo16BitPCM_length. reflexivity.
Qed.

(** ** Silence *)

Lemma floatTo16BitPCM_silence (n : nat) :
  floatTo16BitPCM (replicate n (Fin 0)) = replicate n 0.
Proof.
  rewrite floatTo16BitPCM_map. induction n as [|n IH]; [reflexivity|].
  simpl. rewrite IH. reflexivity.
Qed.

Lemma wav_payload_silence (n : nat) :
  wav_payload (replicate n 0) = replicate (2 * n) Byte.x00.
Proof.
  unfold wav_payload. induction n as [|n IH]; [reflexivity|].
  replace (2 * S n)%nat with (S (S (2 * n))) by lia. simpl in *. rewrite IH.
  reflexivity.
Qed.

(** [n] zero-valued samples are encoded as a file of [44 + 2 * n]
    bytes whose payload bytes are all zero. *)
Lemma encode_silence (n : nat) (sr : num) :
  encodeWavMono16 (replicate n (Fin 0)) sr
  = Ok {| blob_bytes := wav_header sr (Z.of_nat n * 2) ++ replicate (2 * n) Byte.x00;
          blob_type := "audio/wav" |}.
Proof.
  rewrite encodeWavMono16_layout, floatTo16BitPCM_silence. unfold wav_file.
  rewrite wav_payload_silence, length_replicate. reflexivity.
Qed.

(** One second of silence at 48 kHz, 48000 zero-valued samples, is
    encoded as a file of [44 + 48000 * 2 = 96044] bytes whose payload bytes
    are all zero. *)
Theorem one_second_of_silence :
  encodeWavMono16 (replicate (Z.to_nat 48000) (Fin 0)) (of_Z 48000)
  = Ok {| blob_bytes :=
            wav_header (of_Z 48000) 96000 ++ replicate (Z.to_nat 96000) Byte.x00;
          blob_type := "audio/wav" |}
  /\ Z.of_nat (length (wav_header (of_Z 48000) 96000
                        ++ replicate (Z.to_nat 96000) Byte.x00)) = 96044.
Proof.
  split.
  - rewrite encode_silence.
    replace (Z.of_nat (Z.to_nat 48000) * 2) with 96000 by lia.
    replace (2 * Z.to_nat 48000)%nat with (Z.to_nat 96000) by lia. reflexivity.
  - rewrite length_app, length_wav_header, length_replicate. lia.
Qed.

(** ** A concrete file *)

Import Init.Byte.

Example encode_two_samples :
  encodeWavMono16 [Fin 1; Fin (-1)] (of_Z 48000)
  = Ok {| blob_bytes :=
            [x52; x49; x46; x46; x28; x00; x00; x00; x57; x41; x56; x45;
             x66; x6d; x74; x20; x10; x00; x00; x00; x01; x00; x01; x00;
             x80; xbb; x00; x00; x00; x77; x01; x00; x02; x00; x10; x00;
             x64; x61; x74; x61; x04; x00; x00; x00; xff; x7f; x00; x80];
          blob_type := "audio/wav" |}.
Proof. vm_compute. reflexivity. Qed.
