(* ===== verification/WavRead.v ===== *)
(** * Reading a WAV file back

    A reader of canonical 44-byte-header WAV files, as the specification of
    what [encodeWavMono16] must produce: a file is well formed when a
    reader recovers the format fields and the samples from it.  The reader
    is not code of the repository.

    [read_header] reads the thirteen fields of the header; [decode_wav]
    also checks that the sizes the header declares are the sizes of the
    file, and reads the samples.  The theorems show that the header of an
    encoded recording declares its sizes modulo [2 ^ 32], so that the
    declared data size is the payload's length exactly when the file is
    shorter than 4 GiB, and that decoding an encoded recording gives back
    its 16-bit samples. *)

From Stdlib Require Import String Ascii ZArith QArith Lia List.
From coqutil Require Import Byte Word.LittleEndianList.
From stdpp Require Import base tactics list.
From S2P Require Import Prelude JsNum TypedArray Pcm Wav.

#[local] Open Scope Z_scope.

#[export] Instance byte_eq_dec : EqDecision byte := Byte.byte_eq_dec.

(** ** The reader *)

Record wav_info : Type := {
  riff_size : Z;
  fmt_size : Z;
  audio_format : Z;
  channels : Z;
  sample_rate : Z;
  byte_rate : Z;
  block_align : Z;
  bits_per_sample : Z;
  data_size : Z;
}.

Definition bad_file {A} : prog (list byte) A :=
  throw (DOMException "EncodingError").

Definition read (n : nat) : prog (list byte) (list byte) :=
  fun bs => if decide (n <= length bs)%nat then Done (take n bs) (drop n bs)
            else Raised (DOMException "EncodingError") bs.

Definition tag (s : string) : prog (list byte) unit :=
  (bs <- read (String.length s) ;;
   if decide (bs = chars s) then ret tt else bad_file)%prog.

Definition u16 : prog (list byte) Z := (bs <- read 2 ;; ret (le_combine bs))%prog.

Definition u32 : prog (list byte) Z := (bs <- read 4 ;; ret (le_combine bs))%prog.

Definition i16 : prog (list byte) Z :=
  (bs <- read 2 ;; ret (wrapS 16 (le_combine bs)))%prog.

Fixpoint read_samples (n : nat) : prog (list byte) (list Z) :=
  match n with
  | O => ret []
  | S n => (x <- i16 ;; xs <- read_samples n ;; ret (x :: xs))%prog
  end.

Definition read_header : prog (list byte) wav_info :=
  (tag "RIFF" ;; riff <- u32 ;; tag "WAVE" ;;
   tag "fmt " ;; fsize <- u32 ;; fmt <- u16 ;; ch <- u16 ;;
   rate <- u32 ;; brate <- u32 ;; align <- u16 ;; bits <- u16 ;;
   tag "data" ;; dsize <- u32 ;;
   ret {| riff_size := riff; fmt_size := fsize; audio_format := fmt;
          channels := ch; sample_rate := rate; byte_rate := brate;
          block_align := align; bits_per_sample := bits; data_size := dsize |})%prog.

(** The sizes the header declares are those of the file. *)
Definition sizes_ok (h : wav_info) (payload : list byte) : Prop :=
  data_size h = Z.of_nat (length payload) /\ riff_size h = 36 + data_size h.

Definition decode_wav (file : list byte) : result (wav_info * list Z) :=
  match read_header file with
  | Raised e _ => Throw e
  | Done h payload =>
      if decide (sizes_ok h payload) then
        match read_samples (length payload / 2) payload with
        | Done xs _ => Ok (h, xs)
        | Raised e _ => Throw e
        end
      else Throw (DOMException "EncodingError")
  end.

(** The header [encodeWavMono16] writes for [n] samples, as a reader sees
    it. *)
Definition encoded_info (sr : num) (n : nat) : wav_info :=
  {| riff_size := wrapU 32 (36 + Z.of_nat n * 2); fmt_size := 16;
     audio_format := 1; channels := 1; sample_rate := ToUint32 sr;
     byte_rate := ToUint32 (js_mul sr (of_Z 2)); block_align := 2;
     bits_per_sample := 16; data_size := wrapU 32 (Z.of_nat n * 2) |}.

(** ** Reading what was written *)

Section ReadBack.
Context {A : Type}.
Implicit Types (k : Z -> prog (list byte) A) (rest : list byte).

Lemma read_app (bs rest : list byte) : read (length bs) (bs ++ rest) = Done bs rest.
Proof.
  unfold read. rewrite length_app. case_decide; [|lia].
  rewrite take_app_length, drop_app_length. reflexivity.
Qed.

Lemma bind_read (bs rest : list byte) (n : nat) (k' : list byte -> prog (list byte) A) :
  length bs = n -> bind (read n) k' (bs ++ rest) = k' bs rest.
Proof. intros <-. unfold bind. rewrite read_app. reflexivity. Qed.

Lemma bind_tag s (k' : unit -> prog (list byte) A) rest :
  bind (tag s) k' (chars s ++ rest) = k' tt rest.
Proof.
  unfold tag. rewrite bind_assoc, bind_read by apply length_chars.
  case_decide; [reflexivity | contradiction].
Qed.

Lemma bind_u32 z k rest : bind u32 k (le_split 4 z ++ rest) = k (wrapU 32 z) rest.
Proof.
  unfold u32. rewrite bind_assoc, bind_read by apply length_le_split.
  rewrite bind_ret_l, le_combine_split. reflexivity.
Qed.

Lemma bind_u16 z k rest : bind u16 k (le_split 2 z ++ rest) = k (wrapU 16 z) rest.
Proof.
  unfold u16. rewrite bind_assoc, bind_read by apply length_le_split.
  rewrite bind_ret_l, le_combine_split. reflexivity.
Qed.

Lemma bind_i16 z k rest : bind i16 k (le_split 2 z ++ rest) = k (wrapS 16 z) rest.
Proof.
  unfold i16. rewrite bind_assoc, bind_read by apply length_le_split.
  rewrite bind_ret_l, le_combine_split.
  change (z mod 2 ^ (Z.of_nat 2 * 8)) with (wrapU 16 z).
  rewrite wrapS_wrapU by lia. reflexivity.
Qed.

End ReadBack.

Lemma read_samples_payload (pcm16 : list Z) (rest : list byte) :
  read_samples (length pcm16) (wav_payload pcm16 ++ rest)
  = Done (map (wrapS 16) pcm16) rest.
Proof.
  induction pcm16 as [|x l IH]; [reflexivity|].
  unfold wav_payload in *. cbn [length flat_map read_samples map].
  rewrite <- app_assoc, bind_i16. unfold bind. rewrite IH. reflexivity.
Qed.

(** ** The header of an encoded recording *)

(** The header [encodeWavMono16] writes, read field by field: format
    1 (PCM), one channel, 16 bits, block alignment 2, the sample rate and
    the byte rate converted to 32 bits, and the two sizes modulo
    [2 ^ 32]. *)
Lemma read_header_encoded (sr : num) (pcm16 : list Z) :
  read_header (wav_file sr pcm16)
  = Done (encoded_info sr (length pcm16)) (wav_payload pcm16).
Proof.
  unfold read_header, wav_file, wav_header. rewrite <- !app_assoc.
  repeat first [rewrite bind_tag | rewrite bind_u16 | rewrite bind_u32].
  unfold encoded_info, ret, ToUint32. rewrite !wrapU_idem by lia. reflexivity.
Qed.

(** ** Declared sizes *)

(** The sizes the header of an encoded recording declares are the
    sizes of the file exactly when the file is shorter than [2 ^ 32 + 8]
    bytes; a longer recording gets a header whose size fields have wrapped
    around. *)
Lemma declared_sizes_exact (sr : num) (pcm16 : list Z) :
  sizes_ok (encoded_info sr (length pcm16)) (wav_payload pcm16)
  <-> 36 + Z.of_nat (length pcm16) * 2 < 2 ^ 32.
Proof.
  unfold sizes_ok, encoded_info, wrapU. cbn [data_size riff_size].
  rewrite length_wav_payload. change (2 ^ 32) with 4294967296.
  Z.div_mod_to_equations. lia.
Qed.

(** ** Decoding an encoded recording *)

(** Decoding the layout [encodeWavMono16] produces succeeds exactly
    when the declared sizes have not wrapped, and then returns the header
    fields and every 16-bit sample. *)
Lemma decode_wav_file (sr : num) (pcm16 : list Z) :
  decode_wav (wav_file sr pcm16) =
    if decide (36 + Z.of_nat (length pcm16) * 2 < 2 ^ 32)
    then Ok (encoded_info sr (length pcm16), map (wrapS 16) pcm16)
    else Throw (DOMException "EncodingError").
Proof.
  unfold decode_wav. rewrite read_header_encoded.
  pose proof (declared_sizes_exact sr pcm16) as S.
  destruct (decide (sizes_ok _ _)) as [Hs|Hs]; case_decide; try tauto.
  rewrite length_wav_payload, Nat.mul_comm, Nat.div_mul by lia.
  rewrite <- (app_nil_r (wav_payload pcm16)), read_samples_payload. reflexivity.
Qed.

(** C4: a recording of fewer than [2 ^ 31 - 18] samples survives the round
    trip through the file: the encoder does not throw, and a reader gets
    back the sample rate and byte rate as 32-bit integers, the PCM format
    fields, and the 16-bit value of every sample in order. *)
Theorem encode_decode (samplesF32 : list num) (sr : num) :
  36 + Z.of_nat (length samplesF32) * 2 < 2 ^ 32 ->
  result_bind (encodeWavMono16 samplesF32 sr) (fun b => decode_wav (blob_bytes b))
  = Ok (encoded_info sr (length samplesF32), map sample_to_int16 samplesF32).
Proof.
  intros H. rewrite encodeWavMono16_layout. cbn [result_bind blob_bytes].
  rewrite decode_wav_file, floatTo16BitPCM_length. case_decide; [|lia].
  rewrite floatTo16BitPCM_map, map_map. f_equal. f_equal.
  apply map_ext. intros x. apply wrapS_small; [lia | apply sample_to_int16_range].
Qed.

Lemma encode_decode_witness :
  36 + Z.of_nat (length [Fin 1; Fin (-1 # 2); NaN]) * 2 < 2 ^ 32 /\
  result_bind (encodeWavMono16 [Fin 1; Fin (-1 # 2); NaN] (of_Z 44100))
    (fun b => decode_wav (blob_bytes b))
  = Ok (encoded_info (of_Z 44100) 3, [32767; -16384; 0]).
Proof. split; [reflexivity | apply (encode_decode [Fin 1; Fin (-1 # 2); NaN]); reflexivity]. Defined.

(** The header of the file [encodeWavMono16] returns, read field by
    field: format 1 (PCM), one channel, 16 bits per sample, block alignment
    2, the sample rate and the byte rate (the rate times 2) converted to 32
    bits, and the two sizes modulo [2 ^ 32]. *)
Theorem encoded_header (samplesF32 : list num) (sr : num) :
  result_bind (encodeWavMono16 samplesF32 sr) (fun b => exec read_header (blob_bytes b))
  = Ok (wav_payload (map sample_to_int16 samplesF32))
  /\ result_bind (encodeWavMono16 samplesF32 sr)
       (fun b => match read_header (blob_bytes b) with
                 | Done h _ => Ok h
                 | Raised e _ => Throw e
                 end)
     = Ok (encoded_info sr (length samplesF32)).
Proof.
  rewrite encodeWavMono16_layout. cbn [result_bind blob_bytes]. unfold exec.
  rewrite read_header_encoded, floatTo16BitPCM_length, floatTo16BitPCM_map. auto.
Qed.

(** C36: the file [encodeWavMono16] returns declares its true sizes, and
    reads back, exactly when it is shorter than [2 ^ 32 + 8] bytes: for a
    longer recording the 32-bit size fields have wrapped around and a
    reader that checks them rejects the file. *)
Theorem encoded_sizes_fit (samplesF32 : list num) (sr : num) :
  is_ok (result_bind (encodeWavMono16 samplesF32 sr)
           (fun b => decode_wav (blob_bytes b)))
  = bool_decide (36 + Z.of_nat (length samplesF32) * 2 < 2 ^ 32).
Proof.
  rewrite encodeWavMono16_layout. cbn [result_bind blob_bytes].
  rewrite decode_wav_file, floatTo16BitPCM_length.
  destruct (decide _) as [H|H]; [rewrite bool_decide_eq_true_2 | rewrite bool_decide_eq_false_2];
    auto.
Qed.
