(* ===== verification/JsString.v ===== *)
(** * JavaScript strings

    A string is the list of its UTF-16 code units, each a [Z] in
    [0, 65535].  The operations are those the recorder applies to the
    session label, to the date and to the elapsed time: [trim],
    [toLowerCase], [slice], [padStart] and the conversion of an integer to
    its decimal numeral.

    [toLowerCase] is exact on the code units below 128 and on the two code
    units whose lower case contains an ASCII letter (U+0130, whose lower
    case is [i] followed by U+0307, and U+212A, the Kelvin sign, whose
    lower case is [k]).  Every other code unit is mapped to itself: the
    engine maps it to code units that are again 128 or above, and the only
    caller ([sanitizeLabel]) deletes every code unit outside
    [[a-z0-9_-]] afterwards, so the difference cannot be observed. *)

From Stdlib Require Import String Ascii ZArith Lia List.
From stdpp Require Import base tactics list.
From S2P Require Import Prelude.

#[local] Open Scope Z_scope.

(** ** Literals *)

Definition unit_of_ascii (a : ascii) : Z := Z.of_N (N_of_ascii a).

(** The code units of an ASCII literal of the source. *)
Definition lit (s : string) : list Z := map unit_of_ascii (list_ascii_of_string s).

(** ** White space *)

(** The code points of WhiteSpace and LineTerminator: what [trim] strips and
    what [\s] matches. *)
Definition white_space : list Z :=
  [9; 10; 11; 12; 13; 32; 160; 5760;
   8192; 8193; 8194; 8195; 8196; 8197; 8198; 8199; 8200; 8201; 8202;
   8232; 8233; 8239; 8287; 12288; 65279].

Definition is_space (c : Z) : bool := bool_decide (c ∈ white_space).

Fixpoint drop_while {A} (p : A -> bool) (l : list A) : list A :=
  match l with
  | [] => []
  | x :: l' => if p x then drop_while p l' else l
  end.

Definition trimStart (s : list Z) : list Z := drop_while is_space s.

Definition trimEnd (s : list Z) : list Z :=
  reverse (drop_while is_space (reverse s)).

Definition trim (s : list Z) : list Z := trimEnd (trimStart s).

(** ** Case *)

Definition lower_unit (c : Z) : list Z :=
  if decide (65 <= c <= 90) then [c + 32]
  else if decide (c = 304) then [105; 775]
  else if decide (c = 8490) then [107]
  else [c].

Definition toLowerCase (s : list Z) : list Z := flat_map lower_unit s.

(** ** Padding and slicing *)

(** [s.padStart(n, fill)] for a one-unit [fill]. *)
Definition padStart (n : nat) (fill : Z) (s : list Z) : list Z :=
  replicate (n - length s) fill ++ s.

(** [s.slice(0, n)] *)
Definition slice_to (n : nat) (s : list Z) : list Z := take n s.

(** ** Decimal numerals *)

Definition digit (d : Z) : Z := 48 + d.

(** The digits of [n >= 0] before [acc]; [fuel] bounds the number of
    digits. *)
Fixpoint digits_aux (fuel : nat) (n : Z) (acc : list Z) : list Z :=
  match fuel with
  | O => acc
  | S fuel' =>
      if n <? 10 then digit n :: acc
      else digits_aux fuel' (n / 10) (digit (n mod 10) :: acc)
  end.

(** A number below [2 ^ k] has at most [k] decimal digits (and 0 has
    one). *)
Definition digits (n : Z) : list Z := digits_aux (S (Z.to_nat (Z.log2 n))) n [].

(** [String(z)] for an integer [z]. *)
Definition string_of_Z (z : Z) : list Z :=
  if z <? 0 then 45 :: digits (- z) else digits z.

(** The text of an exception, [err.message]: the host's wording is not
    fixed by any standard, and the name of the exception stands for it. *)
Definition message (e : exn) : list Z :=
  match e with
  | RangeError => lit "RangeError"
  | TypeError => lit "TypeError"
  | DOMException name => lit name
  end.

(** The number a decimal numeral denotes, most significant digit first. *)
Definition value_of_digits (s : list Z) : Z :=
  foldl (fun acc c => acc * 10 + (c - 48)) 0 s.

(** ** Properties of literals and white space *)

Lemma length_lit s : length (lit s) = String.length s.
Proof.
  unfold lit. rewrite length_map.
  induction s as [|c s IH]; simpl; [reflexivity | f_equal; exact IH].
Qed.

Lemma drop_while_app_not {A} (p : A -> bool) (l : list A) :
  match drop_while p l with [] => True | x :: _ => p x = false end.
Proof.
  induction l as [|x l IH]; simpl; [exact I|].
  destruct (p x) eqn:E; [exact IH | exact E].
Qed.

Lemma drop_while_none {A} (p : A -> bool) (l : list A) :
  Forall (fun x => p x = false) l -> drop_while p l = l.
Proof. destruct 1 as [|x l H]; simpl; [reflexivity | rewrite H; reflexivity]. Qed.

Lemma drop_while_suffix {A} (p : A -> bool) (l : list A) :
  exists pre, l = pre ++ drop_while p l /\ Forall (fun x => p x = true) pre.
Proof.
  induction l as [|x l (pre & E & F)]; simpl; [exists []; auto|].
  destruct (p x) eqn:Hx; [|exists []; auto].
  exists (x :: pre). split; [simpl; f_equal; exact E | constructor; assumption].
Qed.

Lemma Forall_drop_while {A} (P : A -> Prop) (p : A -> bool) (l : list A) :
  Forall P l -> Forall P (drop_while p l).
Proof.
  intros H. destruct (drop_while_suffix p l) as (pre & E & _).
  rewrite E in H. apply Forall_app in H. tauto.
Qed.

Lemma Forall_trim (P : Z -> Prop) s : Forall P s -> Forall P (trim s).
Proof.
  intros H. unfold trim, trimEnd, trimStart.
  rewrite Forall_reverse. apply Forall_drop_while.
  rewrite Forall_reverse. apply Forall_drop_while, H.
Qed.

(** A string without white space is not changed by [trim]. *)
Lemma trim_no_space s : Forall (fun c => is_space c = false) s -> trim s = s.
Proof.
  intros H. unfold trim, trimEnd, trimStart.
  rewrite (drop_while_none _ s H), drop_while_none by (rewrite Forall_reverse; exact H).
  apply reverse_involutive.
Qed.

(** ** Padding *)

Lemma length_padStart n fill s : length (padStart n fill s) = max n (length s).
Proof. unfold padStart. rewrite length_app, length_replicate. lia. Qed.

(** ** Decimal numerals *)

Lemma value_of_digits_app s1 s2 :
  value_of_digits (s1 ++ s2)
  = foldl (fun acc c => acc * 10 + (c - 48)) (value_of_digits s1) s2.
Proof. unfold value_of_digits. apply foldl_app. Qed.

Lemma digits_aux_value fuel n acc :
  0 <= n < 2 ^ Z.of_nat fuel -> (0 < fuel)%nat ->
  foldl (fun a c => a * 10 + (c - 48)) 0 (digits_aux fuel n acc)
  = foldl (fun a c => a * 10 + (c - 48)) n acc.
Proof.
  revert n acc. induction fuel as [|fuel IH]; intros n acc Hn Hf; [lia|].
  cbn [digits_aux]. destruct (Z.ltb_spec n 10) as [L|L].
  - simpl. unfold digit. f_equal. lia.
  - rewrite Nat2Z.inj_succ, Z.pow_succ_r in Hn by lia.
    assert (0 <= n / 10 < 2 ^ Z.of_nat fuel) as Hq.
    { split; [apply Z.div_pos; lia|].
      apply Z.div_lt_upper_bound; lia. }
    destruct fuel as [|fuel'].
    { simpl in Hq. assert (n / 10 = 0) by lia.
      assert (n < 10) by (apply Z.div_small_iff in H; lia). lia. }
    rewrite IH by (try exact Hq; lia). simpl. unfold digit. f_equal.
    pose proof (Z.div_mod n 10). lia.
Qed.

(** The numeral printed for a non-negative integer denotes it. *)
Lemma value_of_digits_digits n : 0 <= n -> value_of_digits (digits n) = n.
Proof.
  intros H. unfold value_of_digits, digits. rewrite digits_aux_value; [reflexivity| |lia].
  split; [exact H|]. rewrite Nat2Z.inj_succ, Z2Nat.id by apply Z.log2_nonneg.
  destruct (decide (n = 0)) as [->|]; [reflexivity|].
  apply Z.log2_spec. lia.
Qed.

Lemma digits_aux_length fuel n acc :
  0 <= n -> (length acc < length (digits_aux fuel n acc) \/ fuel = O)%nat.
Proof.
  revert n acc. induction fuel as [|fuel IH]; intros n acc Hn; [auto|left].
  cbn [digits_aux]. destruct (n <? 10); [simpl; lia|].
  destruct (IH (n / 10) (digit (n mod 10) :: acc)) as [L| ->];
    [apply Z.div_pos; lia | simpl in *; lia | simpl; lia].
Qed.

Lemma digits_small n : 0 <= n < 10 -> digits n = [digit n].
Proof.
  intros H. unfold digits. cbn [digits_aux].
  destruct (Z.ltb_spec n 10); [reflexivity | lia].
Qed.

Lemma digits_two n : 10 <= n < 100 -> digits n = [digit (n / 10); digit (n mod 10)].
Proof.
  intros H. unfold digits.
  assert (0 < Z.log2 n) as L by (apply Z.log2_pos; lia).
  destruct (Z.to_nat (Z.log2 n)) as [|k] eqn:E; [lia|].
  cbn [digits_aux]. destruct (Z.ltb_spec n 10); [lia|].
  destruct (Z.ltb_spec (n / 10) 10) as [|G]; [reflexivity|].
  assert (n / 10 < 10) by (apply Z.div_lt_upper_bound; lia). lia.
Qed.

(** ** The recursive equation of [digits] *)

Lemma digits_aux_acc fuel n acc :
  digits_aux fuel n acc = digits_aux fuel n [] ++ acc.
Proof.
  revert n acc. induction fuel as [|fuel IH]; intros n acc; [reflexivity|].
  cbn [digits_aux]. destruct (n <? 10); [reflexivity|].
  rewrite IH, (IH _ [_]), <- app_assoc. reflexivity.
Qed.

(** Fuel beyond the number of digits changes nothing. *)
Lemma digits_aux_enough f1 f2 n :
  0 <= n < 2 ^ Z.of_nat f1 -> 0 <= n < 2 ^ Z.of_nat f2 ->
  (0 < f1)%nat -> (0 < f2)%nat ->
  digits_aux f1 n [] = digits_aux f2 n [].
Proof.
  revert f2 n. induction f1 as [|f1 IH]; intros f2 n H1 H2 P1 P2; [lia|].
  destruct f2 as [|f2]; [lia|]. cbn [digits_aux].
  destruct (Z.ltb_spec n 10) as [L|L]; [reflexivity|].
  rewrite !Nat2Z.inj_succ, !Z.pow_succ_r in * by lia.
  assert (forall f, n < 2 * 2 ^ Z.of_nat f -> 0 <= n / 10 < 2 ^ Z.of_nat f /\ (0 < f)%nat)
    as Hq.
  { intros f Hf. assert (n / 10 < 2 ^ Z.of_nat f) by (apply Z.div_lt_upper_bound; lia).
    assert (1 <= n / 10) by (apply Z.div_le_lower_bound; lia).
    repeat split; try lia. destruct f; [simpl in *; lia | lia]. }
  destruct (Hq f1) as [? ?]; [lia|]. destruct (Hq f2) as [? ?]; [lia|].
  rewrite (digits_aux_acc f1), (digits_aux_acc f2). f_equal. apply IH; assumption.
Qed.

Lemma digits_step n :
  10 <= n -> digits n = digits (n / 10) ++ [digit (n mod 10)].
Proof.
  intros H.
  assert (1 <= n / 10) as Hq by (apply Z.div_le_lower_bound; lia).
  pose proof (Z.log2_spec n ltac:(lia)) as [_ U].
  pose proof (Z.log2_spec (n / 10) ltac:(lia)) as [_ U'].
  pose proof (Z.log2_nonneg n). pose proof (Z.log2_nonneg (n / 10)).
  assert (0 < Z.log2 n) by (apply Z.log2_pos; lia).
  unfold digits at 1. cbn [digits_aux]. destruct (Z.ltb_spec n 10); [lia|].
  rewrite digits_aux_acc. f_equal. unfold digits.
  rewrite Z.pow_succ_r in U by lia.
  assert (n / 10 < 2 ^ Z.log2 n) by (apply Z.div_lt_upper_bound; lia).
  apply digits_aux_enough; rewrite ?Nat2Z.inj_succ, ?Z2Nat.id by lia; lia.
Qed.

Lemma length_digits_4 n : 1000 <= n <= 9999 -> length (digits n) = 4%nat.
Proof.
  intros H.
  assert (100 <= n / 10 <= 999)
    by (split; [apply Z.div_le_lower_bound | apply Z.lt_succ_r, Z.div_lt_upper_bound]; lia).
  assert (10 <= n / 10 / 10 <= 99)
    by (split; [apply Z.div_le_lower_bound | apply Z.lt_succ_r, Z.div_lt_upper_bound]; lia).
  rewrite (digits_step n), (digits_step (n / 10)), digits_two by lia. reflexivity.
Qed.

(** A numeral padded to two digits, for the fields of a date. *)
Lemma pad_two_digits n :
  0 <= n <= 99 ->
  padStart 2 48 (string_of_Z n) = [digit (n / 10); digit (n mod 10)].
Proof.
  intros H. unfold string_of_Z. destruct (Z.ltb_spec n 0); [lia|].
  destruct (decide (n < 10)).
  - rewrite digits_small, Z.div_small, Z.mod_small by lia. reflexivity.
  - rewrite digits_two by lia. reflexivity.
Qed.

(** ** The characters of a numeral *)

Lemma Forall_digits_aux (P : Z -> Prop) fuel n acc :
  (forall d, 0 <= d <= 9 -> P (digit d)) -> 0 <= n -> Forall P acc ->
  Forall P (digits_aux fuel n acc).
Proof.
  intros HP. revert n acc. induction fuel as [|fuel IH]; intros n acc Hn Hacc; [exact Hacc|].
  cbn [digits_aux]. destruct (Z.ltb_spec n 10).
  - constructor; [apply HP; lia | exact Hacc].
  - apply IH; [apply Z.div_pos; lia|].
    constructor; [apply HP; pose proof (Z.mod_pos_bound n 10); lia | exact Hacc].
Qed.

(** A numeral is made of digits and, for a negative integer, a leading
    minus sign. *)
Lemma Forall_string_of_Z (P : Z -> Prop) z :
  (forall d, 0 <= d <= 9 -> P (digit d)) -> P 45 -> Forall P (string_of_Z z).
Proof.
  intros Hd Hm. unfold string_of_Z, digits. destruct (Z.ltb_spec z 0).
  - constructor; [exact Hm|]. apply Forall_digits_aux; [exact Hd | lia | constructor].
  - apply Forall_digits_aux; [exact Hd | lia | constructor].
Qed.

Lemma Forall_padStart (P : Z -> Prop) n fill s :
  P fill -> Forall P s -> Forall P (padStart n fill s).
Proof.
  intros Hf Hs. unfold padStart. apply Forall_app. split; [|exact Hs].
  apply Forall_replicate, Hf.
Qed.
