(* ===== verification/Timer.v ===== *)
(** * The elapsed-time display

    [pad2] and the text [updateTimer] of [src/recorder/app.js] writes into
    the timer field: the whole seconds elapsed since [startAt], as minutes
    and seconds, each padded to two digits.

    The two readings of the clock are finite Numbers, modelled as exact
    rationals in milliseconds.  The theorems give the text for a clock that
    has not gone back, show that the seconds field stays below 60, and that
    the text has five code units during the first hundred minutes. *)

From Stdlib Require Import String ZArith QArith Qround Lia Lqa List.
From stdpp Require Import base tactics list.
From S2P Require Import Prelude JsNum JsString.

#[local] Open Scope Z_scope.

(** ** The model *)

Definition pad2 (n : Z) : list Z := padStart 2 48 (string_of_Z n).

(** The text [updateTimer] computes when [performance.now()] returns
    [now]. *)
Definition timer_text (now startAt : Q) : list Z :=
  let sec := Qfloor ((now - startAt) / 1000) in
  let mm := sec / 60 in
  let ss := Z.rem sec 60 in
  pad2 mm ++ lit ":" ++ pad2 ss.

(** ** Specification *)

(** The whole seconds in [ms] milliseconds. *)
Definition whole_seconds (ms : Q) : Z := Qfloor (ms * (1 # 1000)).

(** ** Seconds *)

Lemma whole_seconds_bounds (ms : Q) :
  (inject_Z (whole_seconds ms) * 1000 <= ms < (inject_Z (whole_seconds ms) + 1) * 1000)%Q.
Proof.
  unfold whole_seconds. pose proof (Qfloor_le (ms * (1 # 1000))) as L.
  pose proof (Qlt_floor (ms * (1 # 1000))) as U.
  rewrite inject_Z_plus in U. change (inject_Z 1) with 1%Q in U. lra.
Qed.

Lemma whole_seconds_nonneg (ms : Q) : (0 <= ms)%Q -> 0 <= whole_seconds ms.
Proof.
  intros H. unfold whole_seconds. change 0 with (Qfloor 0).
  apply Qfloor_resp_le. lra.
Qed.

Lemma whole_seconds_lt (ms : Q) (n : Z) :
  (ms < inject_Z n * 1000)%Q -> whole_seconds ms < n.
Proof.
  intros H. destruct (whole_seconds_bounds ms) as [L _].
  assert (inject_Z (whole_seconds ms) < inject_Z n)%Q as I by lra.
  rewrite <- Zlt_Qlt in I. exact I.
Qed.

Lemma pad2_two (n : Z) : 0 <= n <= 99 -> pad2 n = [digit (n / 10); digit (n mod 10)].
Proof. apply pad_two_digits. Qed.

(** ** The text *)

(** C40: while the clock has not gone back and fewer than 100 minutes have
    elapsed, the timer shows [MM:SS]: five code units, the minutes and the
    seconds of the whole seconds elapsed, and the seconds below 60. *)
Theorem timer_text_shape (now startAt : Q) :
  (startAt <= now)%Q -> (now - startAt < 6000000)%Q ->
  let sec := whole_seconds (now - startAt) in
  0 <= sec mod 60 < 60 /\ 0 <= sec / 60 < 100 /\
  timer_text now startAt =
    [digit (sec / 60 / 10); digit (sec / 60 mod 10); 58;
     digit (sec mod 60 / 10); digit (sec mod 60 mod 10)].
Proof.
  intros H U sec.
  assert (0 <= sec) as S0 by (apply whole_seconds_nonneg; lra).
  assert (sec < 6000) as S1 by (apply whole_seconds_lt; change (inject_Z 6000) with 6000%Q; lra).
  assert (0 <= sec mod 60 < 60) as M by (apply Z.mod_pos_bound; lia).
  assert (0 <= sec / 60 < 100) as D
    by (split; [apply Z.div_pos | apply Z.div_lt_upper_bound]; lia).
  repeat split; try lia.
  unfold timer_text. cbv zeta.
  change (Qfloor ((now - startAt) / 1000)) with sec.
  rewrite Z.rem_mod_nonneg, !pad2_two by lia. reflexivity.
Qed.

Lemma timer_text_shape_witness :
  timer_text 83500 1000 = lit "01:22".
Proof.
  destruct (timer_text_shape 83500 1000) as (_ & _ & E); [q_decide | q_decide |].
  rewrite E. reflexivity.
Defined.

(** The text at the instant recording starts. *)
Lemma timer_text_start (t : Q) : timer_text t t = lit "00:00".
Proof.
  destruct (timer_text_shape t t) as (_ & _ & E); [lra | lra |].
  rewrite E. unfold whole_seconds.
  assert (Qfloor ((t - t) * (1 # 1000)) = 0) as ->; [|reflexivity].
  rewrite <- (Qfloor_Z 0). apply Qfloor_comp. change (inject_Z 0) with 0%Q. lra.
Qed.
