(* ===== verification/Meter.v ===== *)
(** * The level meter

    The width [updateMeterAndScope] of [src/recorder/app.js] gives the level
    bar: the root mean square of the analyser's bytes, each taken as
    [(d - 128) / 128], times 220, clamped to [[0, 100]] and printed with one
    decimal.

    The source computes the level with [Math.sqrt] and prints it with
    [toFixed(1)].  The number printed is the integer [k] of tenths nearest
    to [2200 * rms], the larger one at a tie, so
    [(2 k - 1) ^ 2 <= 4 * 2200 ^ 2 * mean < (2 k + 1) ^ 2]: it is computed
    here from the integer square root of the mean of the squares, which is
    exact.  The squares and their sum are multiples of [2 ^ -14] below
    [2 ^ 11] for at most 2048 bytes, so the engine's sum is exact too. *)

From Stdlib Require Import String ZArith QArith Qround Lia Lqa List.
From stdpp Require Import base tactics list.
From S2P Require Import Prelude JsNum JsString.

#[local] Open Scope Z_scope.

(** ** The model *)

(** [sum] after the loop over [data]. *)
Definition meter_sum (data : list Z) : Q :=
  foldl (fun sum d => let v := inject_Z (d - 128) / 128 in sum + v * v)%Q 0%Q data.

(** The tenths of a percent shown: [pct * 10], rounded. *)
Definition meter_tenths (data : list Z) : Z :=
  let mean := (meter_sum data / inject_Z (Z.of_nat (length data)))%Q in
  Z.min 1000 (Z.max 0 ((Z.sqrt (Qfloor (4 * 2200 * 2200 * mean)) + 1) / 2)).

(** [x.toFixed(1)] of the number of [tenths] tenths. *)
Definition toFixed1 (tenths : Z) : list Z :=
  string_of_Z (tenths / 10) ++ lit "." ++ [digit (tenths mod 10)].

(** [Number.prototype.toFixed] with [f] decimals, from the integer [n] the
    number rounds to: the numeral of [n], padded with zeros to [f + 1]
    digits, with a dot before the last [f]. *)
Definition toFixed_digits (f : nat) (n : Z) : list Z :=
  let m := padStart (f + 1) 48 (digits n) in
  let k := length m in
  take (k - f) m ++ match f with O => [] | _ => 46 :: drop (k - f) m end.

(** The text assigned to [levelBar.style.width]; an empty array has no
    mean. *)
Definition meter_width (data : list Z) : list Z :=
  match data with
  | [] => lit "NaN%"
  | _ => toFixed1 (meter_tenths data) ++ lit "%"
  end.

(** ** The sum of squares *)

Lemma meter_loop_le (data : list Z) (acc : Q) :
  (acc <= foldl (fun sum d => let v := inject_Z (d - 128) / 128 in sum + v * v) acc data)%Q.
Proof.
  revert acc. induction data as [|d data IH]; intros acc; simpl; [apply Qle_refl|].
  eapply Qle_trans; [|apply IH].
  set (v := (inject_Z (d - 128) / 128)%Q).
  assert (0 <= v * v)%Q by (destruct v as [n m]; unfold Qle; simpl; nia).
  lra.
Qed.

Lemma meter_sum_nonneg (data : list Z) : (0 <= meter_sum data)%Q.
Proof. apply meter_loop_le. Qed.

(** ** Printing *)

Lemma toFixed1_digits (n : Z) : 0 <= n -> toFixed1 n = toFixed_digits 1 n.
Proof.
  intros Hn. unfold toFixed1, toFixed_digits, string_of_Z, padStart. cbv zeta.
  assert (0 <= n / 10) by (apply Z.div_pos; lia).
  destruct (Z.ltb_spec (n / 10) 0); [lia|]. destruct (decide (n < 10)) as [Hs|Hs].
  - rewrite (digits_small n), Z.div_small, Z.mod_small by lia. reflexivity.
  - rewrite (digits_step n) by lia. set (q := digits (n / 10)).
    assert (length q <> 0%nat) as Hq.
    { destruct (digits_aux_length (S (Z.to_nat (Z.log2 (n / 10)))) (n / 10) []) as [L|L];
        [lia | fold (digits (n / 10)) in L; fold q in L; simpl in L; lia | discriminate]. }
    set (m := q ++ [digit (n mod 10)]).
    assert (length m = S (length q)) as L by (unfold m; rewrite length_app; simpl; lia).
    replace (1 + 1 - length m)%nat with 0%nat by lia. cbn [replicate app].
    replace (length m - 1)%nat with (length q) by lia. unfold m.
    rewrite take_app_length, drop_app_length. reflexivity.
Qed.

(** ** Range *)

Lemma meter_tenths_range (data : list Z) : 0 <= meter_tenths data <= 1000.
Proof. unfold meter_tenths. lia. Qed.

Example meter_width_silence : meter_width (replicate 8 128) = lit "0.0%".
Proof. vm_compute. reflexivity. Qed.

Example meter_width_tie : meter_width (replicate 8 136) = lit "13.8%".
Proof. vm_compute. reflexivity. Qed.

Example meter_width_full : meter_width (replicate 8 0) = lit "100.0%".
Proof. vm_compute. reflexivity. Qed.
