(* ===== verification/MeterSpec.v ===== *)
(** * The level meter over the reals

    [updateMeterAndScope] of [src/recorder/app.js] computes the level with
    floating-point arithmetic: [rms = Math.sqrt(sum / data.length)] and
    [pct = Math.min(100, Math.max(0, rms * 220))], printed by
    [pct.toFixed(1)].  [Meter.meter_tenths] computes the tenths printed from
    an integer square root.  This file states the level over the real
    numbers, [level], and what printing a real with one decimal means,
    [rounds_to], and proves that the integer computation prints the real
    level: [meter_tenths_rounds].

    The real numbers stand for the engine's doubles.  The sum of squares is
    exact in both (see [Meter]); the square root and the product by 220 are
    each rounded by the engine to the nearest double, so the two agree
    except when [2200 * rms] is within a few units in the last place of a
    half-integer; that rounding is not modelled. *)

From Stdlib Require Import ZArith QArith Qround Reals Qreals Lra Lia List.
From stdpp Require Import base tactics list.
From S2P Require Import Prelude JsNum JsString Meter.

#[local] Open Scope R_scope.

(** ** The level over the reals *)

(** [Math.min(100, Math.max(0, rms * 220))] for the root mean square of
    [data]. *)
Definition level (data : list Z) : R :=
  let sum := Q2R (meter_sum data) in
  let rms := sqrt (sum / IZR (Z.of_nat (length data))) in
  Rmin 100 (Rmax 0 (rms * 220)).

(** [x.toFixed(1)] prints the integer [k] of tenths for which [k / 10 - x]
    is closest to zero, the larger one when two are as close. *)
Definition rounds_to (x : R) (k : Z) : Prop :=
  IZR k - / 2 <= 10 * x < IZR k + / 2.

(** ** Integer and real square roots *)

Lemma Zsqrt_sqrt (n : Z) (x : R) :
  (0 <= n)%Z -> IZR n <= x < IZR n + 1 ->
  IZR (Z.sqrt n) <= sqrt x < IZR (Z.sqrt n) + 1.
Proof.
  intros Hn [Hl Hu]. pose proof (Z.sqrt_spec n Hn) as [S1 S2].
  pose proof (Z.sqrt_nonneg n) as S0. set (s := Z.sqrt n) in *.
  assert (0 <= IZR s) as R0 by (apply IZR_le; exact S0).
  assert (IZR s * IZR s <= x) as L.
  { rewrite <- mult_IZR. apply Rle_trans with (IZR n); [apply IZR_le; lia | exact Hl]. }
  assert (x < (IZR s + 1) * (IZR s + 1)) as U.
  { apply Rlt_le_trans with (IZR n + 1); [exact Hu|].
    rewrite <- (plus_IZR s 1), <- mult_IZR, <- (plus_IZR n 1). apply IZR_le. lia. }
  split.
  - rewrite <- (sqrt_square (IZR s)) at 1 by exact R0. apply sqrt_le_1_alt, L.
  - rewrite <- (sqrt_square (IZR s + 1)) by lra. apply sqrt_lt_1_alt. split; [|exact U].
    apply Rle_trans with (IZR s * IZR s); [nra | exact L].
Qed.

Lemma Qfloor_bounds (q : Q) : IZR (Qfloor q) <= Q2R q < IZR (Qfloor q) + 1.
Proof.
  assert (forall z, Q2R (inject_Z z) = IZR z) as E
    by (intros z; unfold Q2R, inject_Z; simpl; lra).
  split.
  - rewrite <- E. apply Qle_Rle, Qfloor_le.
  - rewrite <- (plus_IZR _ 1), <- E. apply Qlt_Rlt, Qlt_floor.
Qed.

(** Halving: the integer nearest to [x], the larger at a tie, from the
    integer part of [2 * x]. *)
Lemma half_round (s : Z) (x : R) :
  IZR s <= 2 * x < IZR s + 1 -> rounds_to (x / 10) ((s + 1) / 2).
Proof.
  intros [L U]. unfold rounds_to.
  assert (2 * ((s + 1) / 2) <= s + 1 <= 2 * ((s + 1) / 2) + 1)%Z as [D1 D2]
    by (Z.div_mod_to_equations; lia).
  set (k := ((s + 1) / 2)%Z) in *.
  apply IZR_le in D1, D2. rewrite plus_IZR in D1, D2.
  rewrite mult_IZR in D1. rewrite plus_IZR, mult_IZR in D2. lra.
Qed.

(** ** The width printed is the level rounded *)

Lemma Q2R_inject_Z (z : Z) : Q2R (inject_Z z) = IZR z.
Proof. unfold Q2R, inject_Z. simpl. lra. Qed.

(** The mean of the squares, as the source computes it. *)
Lemma Q2R_mean (data : list Z) :
  data <> [] ->
  Q2R (meter_sum data / inject_Z (Z.of_nat (length data)))
  = Q2R (meter_sum data) / IZR (Z.of_nat (length data))
  /\ 0 <= Q2R (meter_sum data) / IZR (Z.of_nat (length data)).
Proof.
  intros Hd. assert (0 < Z.of_nat (length data))%Z as HN by (destruct data; [congruence | simpl; lia]).
  assert (0 < IZR (Z.of_nat (length data))) as HR by (apply IZR_lt; exact HN).
  split.
  - rewrite Q2R_div, Q2R_inject_Z; [reflexivity|].
    intros E. apply Qeq_eqR in E. rewrite Q2R_inject_Z in E. change (Q2R 0) with (0 * / 1) in E. lra.
  - apply Rmult_le_pos; [|left; apply Rinv_0_lt_compat, HR].
    apply Rle_trans with (Q2R 0); [unfold Q2R; simpl; lra | apply Qle_Rle, meter_sum_nonneg].
Qed.

(** The root mean square times 2200, between the integer square root and
    its successor halved. *)
Lemma scaled_root (m : Q) :
  (0 <= m)%Q ->
  let s := Z.sqrt (Qfloor (4 * 2200 * 2200 * m)) in
  IZR s <= 2 * (sqrt (Q2R m) * 220 * 10) < IZR s + 1.
Proof.
  intros Hm s.
  assert (0 <= Q2R m) as Rm by (apply Rle_trans with (Q2R 0); [unfold Q2R; simpl; lra | apply Qle_Rle, Hm]).
  assert (Q2R (4 * 2200 * 2200 * m) = 4400 * 4400 * Q2R m) as EX
    by (rewrite !Q2R_mult; unfold Q2R at 1 2 3; simpl; lra).
  assert (0 <= Qfloor (4 * 2200 * 2200 * m))%Z as Hf.
  { change 0%Z with (Qfloor 0). apply Qfloor_resp_le.
    apply Rle_Qle. rewrite EX. unfold Q2R at 1. simpl. nra. }
  pose proof (Zsqrt_sqrt _ _ Hf (Qfloor_bounds _)) as H. fold s in H.
  rewrite EX, sqrt_mult_alt, sqrt_square in H by lra. lra.
Qed.

(** C21: the text of the level bar is the level of the source, printed with
    one decimal: for a non-empty array of bytes, the tenths [meter_tenths]
    computes from the integer square root are those [toFixed(1)] prints for
    [Math.min(100, Math.max(0, rms * 220))], the root mean square taken
    over the reals. *)
Theorem meter_tenths_rounds (data : list Z) :
  data <> [] -> rounds_to (level data) (meter_tenths data).
Proof.
  intros Hd. destruct (Q2R_mean data Hd) as [Em Hm].
  unfold level, meter_tenths. cbv zeta. rewrite <- Em.
  set (m := (meter_sum data / inject_Z (Z.of_nat (length data)))%Q) in *.
  assert (0 <= m)%Q as Qm by (apply Rle_Qle; rewrite Em; unfold Q2R at 1; simpl; lra).
  pose proof (scaled_root m Qm) as Hs. cbv zeta in Hs.
  set (s := Z.sqrt (Qfloor (4 * 2200 * 2200 * m))) in *.
  pose proof (half_round s _ Hs) as Hk. unfold rounds_to in *.
  set (k := ((s + 1) / 2)%Z) in *. set (r := sqrt (Q2R m)) in *.
  assert (0 <= r) as Hr by apply sqrt_pos.
  rewrite Rmax_right by lra.
  destruct (Rle_dec (r * 220) 100) as [Hle|Hgt].
  - rewrite Rmin_right by lra.
    assert (k < 1001)%Z by (apply lt_IZR; lra). assert (-1 < k)%Z by (apply lt_IZR; lra).
    rewrite Z.max_r, Z.min_r by lia. lra.
  - rewrite Rmin_left by lra.
    assert (999 < k)%Z by (apply lt_IZR; lra).
    rewrite Z.max_r, Z.min_l by lia. lra.
Qed.

Lemma meter_tenths_rounds_witness :
  rounds_to (level [136; 120]%Z) (meter_tenths [136; 120]%Z).
Proof. apply meter_tenths_rounds. discriminate. Defined.
