(* ===== verification/Scope.v ===== *)
(** * The oscilloscope

    [drawScope] and [clearScope] of [src/recorder/app.js] as the list of
    operations they perform on the 2D context of the canvas, in order.
    The canvas is output only: no handler reads it, and its pixels are not
    part of the page's state.

    [drawScope] fades what was drawn, strokes the centre line, and strokes
    the waveform twice, with two line widths: one point for each column
    [x] of the canvas, at the height of the byte at index
    [Math.floor(x * step)] of the analyser's data, [step] being
    [data.length / w].

    Coordinates are rationals; the index is the exact floor of
    [x * data.length / w].  The engine computes [step] and [x * step] in
    binary64, which can move an index by one where the exact product is
    an integer; the index stays within the array either way.  A read past
    the array is [undefined], and the height [NaN]. *)

From Stdlib Require Import String ZArith QArith Qround Lia Lqa List.
From stdpp Require Import base tactics list list_numbers.
From S2P Require Import Prelude JsNum.

#[local] Open Scope string_scope.
#[local] Open Scope list_scope.
#[local] Open Scope Z_scope.

(** ** Operations of the context *)

Inductive canvas_op : Type :=
| fillStyle (s : string)
| strokeStyle (s : string)
| lineWidth (n : Z)
| fillRect (x y w h : Z)
| clearRect (x y w h : Z)
| beginPath
| moveTo (x : Z) (y : num)
| lineTo (x : Z) (y : num)
| stroke.

(** ** The waveform *)

(** [(h/2) + v * (h * 0.35)] for [v = (d - 128) / 128], [d] being
    [data[i]]. *)
Definition scope_y (h : Z) (d : option Z) : num :=
  match d with
  | Some d =>
      let v := (inject_Z (d - 128) / 128)%Q in
      Fin (inject_Z h / 2 + v * (inject_Z h * (35 # 100)))%Q
  | None => NaN
  end.

(** [Math.floor(x * step)] *)
Definition scope_index (len w x : Z) : Z := x * len / w.

(** One iteration of the loop. *)
Definition scope_point (data : list Z) (w h x : Z) : canvas_op :=
  let i := scope_index (Z.of_nat (length data)) w x in
  let y := scope_y h (data !! Z.to_nat i) in
  if x =? 0 then moveTo x y else lineTo x y.

(** The loop [for (let x = 0; x < w; x++)]. *)
Definition wave (data : list Z) (w h : Z) : list canvas_op :=
  scope_point data w h <$> seqZ 0 w.

Definition drawScope (data : list Z) (w h : Z) : list canvas_op :=
  [fillStyle "rgba(0,0,0,0.18)"; fillRect 0 0 w h;
   strokeStyle "rgba(57,255,20,0.12)"; lineWidth 2; beginPath;
   moveTo 0 (Fin (inject_Z h / 2)); lineTo w (Fin (inject_Z h / 2)); stroke;
   strokeStyle "rgba(57,255,20,0.95)"; lineWidth 3; beginPath]
  ++ wave data w h
  ++ [stroke; strokeStyle "rgba(57,255,20,0.25)"; lineWidth 10; beginPath]
  ++ wave data w h
  ++ [stroke].

Definition clearScope (w h : Z) : list canvas_op :=
  [clearRect 0 0 w h; fillStyle "rgba(0,0,0,0.55)"; fillRect 0 0 w h].

(** ** Specification *)

(** The point of an operation of a path. *)
Definition point_of (op : canvas_op) : option (Z * num) :=
  match op with
  | moveTo x y | lineTo x y => Some (x, y)
  | _ => None
  end.

(** A height inside the band the waveform is drawn in: between 15% and
    85% of the height of the canvas. *)
Definition in_band (h : Z) (y : num) : Prop :=
  match y with
  | Fin q => (inject_Z h * (15 # 100) <= q <= inject_Z h * (85 # 100))%Q
  | _ => False
  end.

(** ** The index *)

Lemma scope_index_range (len w x : Z) :
  0 < w -> 0 <= x < w -> 0 < len -> 0 <= scope_index len w x < len.
Proof.
  intros Hw Hx Hl. unfold scope_index. split.
  - apply Z.div_pos; nia.
  - apply Z.div_lt_upper_bound; nia.
Qed.

Lemma scope_index_mono (len w x x' : Z) :
  0 < w -> 0 <= len -> x <= x' -> scope_index len w x <= scope_index len w x'.
Proof. intros Hw Hl Hx. unfold scope_index. apply Z.div_le_mono; nia. Qed.

(** On a canvas as wide as the data is long, column [x] shows sample
    [x]. *)
Lemma scope_index_same (w x : Z) : 0 < w -> scope_index w w x = x.
Proof. intros Hw. unfold scope_index. apply Z.div_mul. lia. Qed.

(** ** The height *)

Lemma scope_y_band (h d : Z) :
  0 <= h -> 0 <= d <= 255 -> in_band h (scope_y h (Some d)).
Proof.
  intros Hh Hd. unfold in_band, scope_y.
  assert (0 <= inject_Z h)%Q as H0 by (change 0%Q with (inject_Z 0); rewrite <- Zle_Qle; lia).
  assert (-128 <= inject_Z (d - 128) <= 127)%Q as [H1 H2].
  { change (-128)%Q with (inject_Z (-128)). change 127%Q with (inject_Z 127).
    rewrite <- !Zle_Qle. lia. }
  set (a := inject_Z h) in *. set (b := inject_Z (d - 128)) in *.
  assert (0 <= (b + 128) * a)%Q by (apply Qmult_le_0_compat; lra).
  assert (0 <= (128 - b) * a)%Q by (apply Qmult_le_0_compat; lra).
  unfold Qdiv. change (/ 2)%Q with (1 # 2)%Q. change (/ 128)%Q with (1 # 128)%Q.
  split; lra.
Qed.

(** ** The points *)

Section Waveform.
Context (data : list Z) (w h : Z).
Context (Hw : 0 < w) (Hh : 0 <= h) (Hdata : data <> []).
Context (Hbytes : Forall (fun d => 0 <= d <= 255) data).

Lemma scope_read (x : Z) :
  0 <= x < w ->
  exists d, data !! Z.to_nat (scope_index (Z.of_nat (length data)) w x) = Some d /\
            0 <= d <= 255.
Proof.
  intros Hx. assert (0 < Z.of_nat (length data)) as Hl by (destruct data; [congruence|simpl; lia]).
  pose proof (scope_index_range _ w x Hw Hx Hl) as Hi.
  destruct (lookup_lt_is_Some_2 data (Z.to_nat (scope_index (Z.of_nat (length data)) w x)))
    as [d Hd]; [lia|].
  exists d. split; [exact Hd|]. rewrite Forall_lookup in Hbytes. exact (Hbytes _ _ Hd).
Qed.

Lemma wave_point (op : canvas_op) :
  op ∈ wave data w h ->
  exists x y, point_of op = Some (x, y) /\ 0 <= x < w /\ in_band h y.
Proof.
  unfold wave. intros (x & -> & Hx)%list_elem_of_fmap. apply elem_of_seqZ in Hx.
  destruct (scope_read x) as (d & Hd & Hb); [lia|].
  exists x, (scope_y h (Some d)). unfold scope_point. rewrite Hd.
  split; [destruct (x =? 0); reflexivity|]. split; [lia|]. apply scope_y_band; assumption.
Qed.

Lemma length_wave : length (wave data w h) = Z.to_nat w.
Proof. unfold wave. rewrite length_fmap, length_seqZ. reflexivity. Qed.

(** The oscilloscope stays inside the canvas: for a canvas of
    positive width and a non-empty array of bytes, every point
    [drawScope] strokes has a height, so that every index it reads is
    inside the array, and it lies in a column of the canvas (or at its
    right edge, for the centre line) between 15% and 85% of its height. *)
Theorem drawScope_in_band (op : canvas_op) (x : Z) (y : num) :
  op ∈ drawScope data w h -> point_of op = Some (x, y) ->
  0 <= x <= w /\ in_band h y.
Proof.
  assert (in_band h (Fin (inject_Z h / 2))) as Hc.
  { assert (0 <= inject_Z h)%Q by (change 0%Q with (inject_Z 0); rewrite <- Zle_Qle; lia).
    unfold in_band, Qdiv. change (/ 2)%Q with (1 # 2)%Q. split; lra. }
  unfold drawScope. rewrite !elem_of_app. intros Hin Hp.
  destruct Hin as [Hin|[Hin|[Hin|[Hin|Hin]]]];
    try (destruct (wave_point op Hin) as (x' & y' & Hp' & Hx & Hy);
         rewrite Hp in Hp'; injection Hp' as -> ->; split; [lia|exact Hy]);
    apply list_elem_of_In in Hin; cbn in Hin;
    repeat (destruct Hin as [<-|Hin]; [try discriminate Hp|]); try contradiction;
    injection Hp as <- <-; (split; [lia | exact Hc]).
Qed.

End Waveform.

Lemma drawScope_in_band_witness :
  0 <= 1 <= 4 /\ in_band 100 (scope_y 100 (Some 255)).
Proof.
  apply (drawScope_in_band [128; 0; 255; 64; 128; 200; 100; 128] 4 100
           ltac:(lia) ltac:(lia) ltac:(discriminate)
           ltac:(repeat constructor; lia)
           (lineTo 1 (scope_y 100 (Some 255))));
    [apply list_elem_of_In; do 12 right; left; reflexivity | reflexivity].
Defined.
