(* ===== verification/Emf.v ===== *)
(** * The magnetometer page: values, texts and the ring buffer

    The parts of [src/emf/app.js] that compute: the magnitude
    [Math.sqrt(x*x + y*y + z*z)] of a reading, the text [fmt] prints for a
    value, the ring buffer [mags] with its cursor [idx] that [pushMag]
    fills, and what [drawChart] takes from the buffer: the least and the
    greatest finite value, the two labels, and the path it plots, slot by
    slot in the order [(idx + i) % BUF].

    A magnitude is kept as the number under the square root, so that the
    model is exact: [Root s] is the real number whose square is [s].
    Comparing two magnitudes compares their squares, and printing one with
    one decimal takes an integer square root ([EmfSpec] shows that it is
    the real root rounded).

    The buffer is specified by its [window]: the last [BUF] values pushed,
    oldest first, with [null] before them while fewer than [BUF] have been
    pushed.  [window_pushes] is the refinement; [plot_window] says the loop
    of [drawChart] walks the window.

    [toFixed_1] is [toFixed(1)] for numbers below [10 ^ 21] in absolute
    value; beyond, the engine prints an exponent, which is not modelled.

    A number is a rational, not a fraction: the operations are [Proper]
    for the equality of rationals, and the texts do not depend on the
    fraction that represents a number. *)

From Stdlib Require Import String ZArith QArith Qround Qabs Qminmax Lia Lqa List Bool.
From stdpp Require Import base tactics list.
From S2P Require Import Prelude JsNum JsString Meter.

#[local] Open Scope Z_scope.

(** ** Numbers *)

(** [a + b] *)
Definition js_add (a b : num) : num :=
  match a, b with
  | NaN, _ | _, NaN => NaN
  | Inf s, Inf t => if eqb s t then Inf s else NaN
  | Inf s, Fin _ | Fin _, Inf s => Inf s
  | Fin p, Fin q => Fin (p + q)
  end.

(** A value of [Math.sqrt]: [Root s] is the square root of [s]. *)
Inductive magnitude : Type :=
| MNaN
| MInf
| Root (square : Q).

(** Two magnitudes that are the same number: the rationals under the
    root are equal as rationals, whatever fractions represent them. *)
Definition magnitude_eq (a b : magnitude) : Prop :=
  match a, b with
  | MNaN, MNaN | MInf, MInf => True
  | Root p, Root q => p == q
  | _, _ => False
  end.

(** [Math.sqrt(n)] *)
Definition js_sqrt (n : num) : magnitude :=
  match n with
  | NaN | Inf true => MNaN
  | Inf false => MInf
  | Fin q => if Qltb q 0 then MNaN else Root q
  end.

(** The conversion of an attribute of type [double?] in arithmetic:
    [null] is [+0]. *)
Definition ToNumber (v : option num) : num :=
  match v with Some n => n | None => Fin 0 end.

(** [Math.sqrt(x*x + y*y + z*z)] *)
Definition magnitude_of (x y z : option num) : magnitude :=
  let x := ToNumber x in
  let y := ToNumber y in
  let z := ToNumber z in
  js_sqrt (js_add (js_add (js_mul x x) (js_mul y y)) (js_mul z z)).

(** ** Printing *)

(** The tenths [toFixed(1)] prints for a number of absolute value [q]: the
    integer nearest to [10 * q], the larger one at a tie. *)
Definition num_tenths (q : Q) : Z := Qfloor (Qabs q * 10 + (1 # 2)).

(** The same for the square root of [s]. *)
Definition root_tenths (s : Q) : Z := (Z.sqrt (Qfloor (400 * s)) + 1) / 2.

(** What the page asks of a number. *)
Class Number (A : Type) : Type := {
  isFinite : A -> bool;
  toFixed_1 : A -> list Z;
}.

#[export] Instance num_Number : Number num := {|
  isFinite n := match n with Fin _ => true | _ => false end;
  toFixed_1 n :=
    match n with
    | NaN => lit "NaN"
    | Inf neg => (if neg then lit "-" else []) ++ lit "Infinity"
    | Fin q => (if Qltb q 0 then lit "-" else []) ++ toFixed1 (num_tenths q)
    end;
|}.

#[export] Instance magnitude_Number : Number magnitude := {|
  isFinite m := match m with Root _ => true | _ => false end;
  toFixed_1 m :=
    match m with
    | MNaN => lit "NaN"
    | MInf => lit "Infinity"
    | Root s => toFixed1 (root_tenths s)
    end;
|}.

(** The em dash. *)
Definition dash : list Z := [8212].

(** [fmt(n)]; [None] is a value that is not of type number. *)
Definition fmt {A} `{Number A} (n : option A) : list Z :=
  match n with
  | Some n => if isFinite n then toFixed_1 n else dash
  | None => dash
  end.

(** ** The ring buffer *)

Definition BUF : nat := 220.

Record ring : Type := {
  mags : list (option magnitude);
  idx : nat;
}.

(** [new Array(BUF).fill(null)] and [idx = 0]. *)
Definition ring0 : ring := {| mags := replicate BUF None; idx := 0 |}.

(** [a[i] = v]: an index past the end extends the array; the slots between
    are holes, which read as [undefined] and are [None] here as [null]
    is. *)
Definition array_store {A} (i : nat) (v : A) (a : list (option A)) : list (option A) :=
  if decide (i < length a)%nat then <[i := Some v]> a
  else a ++ replicate (i - length a) None ++ [Some v].

Definition pushMag (v : magnitude) (r : ring) : ring :=
  {| mags := array_store (idx r) v (mags r);
     idx := (idx r + 1) mod BUF |}.

(** ** The chart *)

(** [mags.filter(v => typeof v === "number" && Number.isFinite(v))], each
    value by its square. *)
Definition chart_data (r : ring) : list Q :=
  omap (fun v => match v with Some (Root s) => Some s | _ => None end) (mags r).

(** [data.length ? Math.min(...data) : 0] *)
Definition chart_min (r : ring) : magnitude :=
  match chart_data r with
  | [] => Root 0
  | d :: ds => Root (foldl Qmin d ds)
  end.

(** [data.length ? Math.max(...data) : 100] *)
Definition chart_max (r : ring) : magnitude :=
  match chart_data r with
  | [] => Root (100 * 100)
  | d :: ds => Root (foldl Qmax d ds)
  end.

(** A command of the path: the point of slot [i] of the loop, for the
    value [v]; its coordinates are [EmfSpec.point_x] and
    [EmfSpec.point_y]. *)
Inductive path_command : Type :=
| MoveTo (i : nat) (v : magnitude)
| LineTo (i : nat) (v : magnitude).

(** The command for the point [i], if the slot holds a number. *)
Definition plot_point (i : nat) (v : option magnitude) : list path_command :=
  match v with
  | Some v => [if decide (i = 0%nat) then MoveTo i v else LineTo i v]
  | None => []
  end.

(** One iteration of the plot loop. *)
Definition plot_step (r : ring) (i : nat) : list path_command :=
  let j := ((idx r + i) mod BUF)%nat in
  plot_point i (mjoin (mags r !! j)).

(** The plot loop. *)
Definition plot (r : ring) : list path_command :=
  flat_map (plot_step r) (seq 0 BUF).

(** The heights of the three grid lines, [pad + (h - pad * 2) * (i / 4)]
    for [i] from 1 to 3, on a canvas of height [h]. *)
Definition grid_line (h : Q) (i : Z) : Q := (14 + (h - 14 * 2) * (inject_Z i / 4))%Q.

Definition grid_lines (h : Q) : list Q := grid_line h <$> [1; 2; 3].

(** [" µT"] *)
Definition microtesla : list Z := [32; 181; 84].

(** What [drawChart] puts on the canvas it has cleared: the path and the
    two labels.  The grid lines are [grid_lines] of the height of the
    canvas; they and the styles are the same on every call. *)
Record chart : Type := {
  path : list path_command;
  min_label : list Z;
  max_label : list Z;
}.

Definition drawChart (r : ring) : chart :=
  let min := chart_min r in
  let max := chart_max r in
  {| path := plot r;
     min_label := lit "min " ++ toFixed_1 min ++ microtesla;
     max_label := lit "max " ++ toFixed_1 max ++ microtesla |}.

(** ** Specification of the buffer *)

Definition ring_ok (r : ring) : Prop :=
  length (mags r) = BUF /\ (idx r < BUF)%nat.

(** A root is taken of a number that is not negative. *)
Definition magnitude_ok (m : magnitude) : Prop :=
  match m with Root s => (0 <= s)%Q | _ => True end.

Definition values_ok (r : ring) : Prop :=
  Forall (from_option magnitude_ok True) (mags r).

(** The buffer read from the cursor on: the slots in the order they were
    written. *)
Definition window (r : ring) : list (option magnitude) :=
  rotate (idx r) (mags r).

(** The buffer after the values [vs] were pushed in this order. *)
Definition pushes (vs : list magnitude) (r : ring) : ring :=
  foldl (fun r v => pushMag v r) r vs.

(** The last [BUF] of the values [vs], after as many [null]s as are
    missing. *)
Definition last_values (vs : list magnitude) : list (option magnitude) :=
  drop (length vs) (replicate BUF None ++ (Some <$> vs)).

(** ** Rotation *)

Section Rotate.
Context {A : Type}.
Implicit Types (l : list A) (n : nat).

(** Overwriting the slot under the cursor and advancing the cursor drops
    the oldest value and appends the new one. *)
Lemma rotate_insert_next l n v :
  (n < length l)%nat ->
  rotate ((n + 1) mod length l) (<[n := v]> l) = drop 1 (rotate n l) ++ [v].
Proof.
  intros Hn. destruct (lookup_lt_is_Some_2 l n Hn) as [x Hx].
  rewrite <- (take_drop_middle l n x Hx).
  assert (length (take n l) = n) as La by (rewrite length_take; lia).
  set (a := take n l) in *. set (b := drop (S n) l).
  rewrite <- La at 2. rewrite insert_app_r_alt, Nat.sub_diag by lia. cbn [insert list_insert].
  unfold rotate. rewrite !length_app. cbn [length]. rewrite La.
  rewrite (Nat.mod_small n) by lia.
  rewrite Nat.Div0.mod_mod.
  replace (drop n (a ++ x :: b)) with (x :: b) by (rewrite <- La, drop_app_length; reflexivity).
  replace (take n (a ++ x :: b)) with a by (rewrite <- La, take_app_length; reflexivity).
  cbn [app drop]. rewrite drop_0. destruct b as [|y b]; cbn [length app].
  - rewrite Nat.Div0.mod_same, drop_0, take_0, app_nil_r. reflexivity.
  - rewrite Nat.mod_small by lia.
    replace (n + 1)%nat with (length (a ++ [v])) by (rewrite length_app; simpl; lia).
    replace (a ++ v :: y :: b) with ((a ++ [v]) ++ y :: b)
      by (rewrite <- app_assoc; reflexivity).
    rewrite drop_app_length, take_app_length. cbn [app]. rewrite <- app_assoc. reflexivity.
Qed.

End Rotate.

Lemma rotate_nat_add_mod (n i len : nat) :
  rotate_nat_add n i len = ((n + i) mod len)%nat.
Proof.
  unfold rotate_nat_add. rewrite <- Nat2Z.inj_add, <- Nat2Z.inj_mod. apply Nat2Z.id.
Qed.

(** A loop over the indices of a list that skips what it finds missing is
    a traversal of the list. *)
Lemma flat_map_seq_imap {A B} (f : nat -> A -> list B) (l : list A) :
  flat_map (fun i => from_option (f i) [] (l !! i)) (seq 0 (length l))
  = concat (imap f l).
Proof.
  revert f. induction l as [|x l IH]; intros f; [reflexivity|].
  cbn [length seq flat_map imap concat lookup list_lookup from_option]. f_equal.
  rewrite <- fmap_S_seq, <- IH, !flat_map_concat_map.
  change (S <$> seq 0 (length l)) with (map S (seq 0 (length l))).
  rewrite map_map. reflexivity.
Qed.

(** ** The invariant of the buffer *)

Lemma ring0_ok : ring_ok ring0.
Proof. split; [apply length_replicate | unfold BUF; simpl; lia]. Qed.

Lemma pushMag_mags v r :
  ring_ok r -> mags (pushMag v r) = <[idx r := Some v]> (mags r).
Proof. intros [L I]. unfold pushMag, array_store. cbn [mags]. case_decide; [reflexivity|lia]. Qed.

Lemma pushMag_ok v r : ring_ok r -> ring_ok (pushMag v r).
Proof.
  intros H. split; [rewrite pushMag_mags, length_insert by exact H; apply H|].
  cbn [pushMag idx]. apply Nat.mod_upper_bound. discriminate.
Qed.

Lemma pushes_snoc vs v r : pushes (vs ++ [v]) r = pushMag v (pushes vs r).
Proof. unfold pushes. rewrite foldl_snoc. reflexivity. Qed.

Lemma pushes_ok vs r : ring_ok r -> ring_ok (pushes vs r).
Proof.
  intros H. induction vs as [|v vs IH] using rev_ind; [exact H|].
  rewrite pushes_snoc. apply pushMag_ok, IH.
Qed.

#[export] Hint Resolve ring0_ok pushMag_ok pushes_ok : js.

(** ** The window *)

Lemma length_window r : length (window r) = length (mags r).
Proof. apply length_rotate. Qed.

Lemma window_push v r :
  ring_ok r -> window (pushMag v r) = drop 1 (window r) ++ [Some v].
Proof.
  intros H. unfold window. rewrite pushMag_mags by exact H. destruct H as [L I].
  cbn [pushMag idx]. rewrite <- L at 1. apply rotate_insert_next. lia.
Qed.

Lemma last_values_snoc vs v :
  last_values (vs ++ [v]) = drop 1 (last_values vs) ++ [Some v].
Proof.
  unfold last_values. rewrite length_app, fmap_app, app_assoc. cbn [length fmap list_fmap].
  rewrite drop_drop.
  rewrite drop_app_le by (rewrite length_app, length_replicate, length_fmap; unfold BUF; lia).
  reflexivity.
Qed.

Lemma window_ring0 : window ring0 = replicate BUF None.
Proof.
  unfold window. cbn [ring0 mags idx]. rewrite rotate_replicate. reflexivity.
Qed.

(** Pushing into any buffer: the window slides over the old window
    followed by the values pushed. *)
Lemma window_pushes_from (vs : list magnitude) (r : ring) :
  ring_ok r -> window (pushes vs r) = drop (length vs) (window r ++ (Some <$> vs)).
Proof.
  intros H. induction vs as [|v vs IH] using rev_ind.
  - cbn [pushes foldl length fmap list_fmap drop]. rewrite app_nil_r. reflexivity.
  - rewrite pushes_snoc, window_push, IH by auto with js.
    rewrite length_app, fmap_app, app_assoc. cbn [length fmap list_fmap].
    rewrite drop_drop.
    rewrite (drop_app_le (_ ++ _))
      by (rewrite length_app, length_window, length_fmap; destruct H as [-> _]; unfold BUF; lia).
    reflexivity.
Qed.

(** C26: the buffer holds the last [BUF] values: after any sequence of
    [pushMag] from the initial buffer, reading the slots from the cursor
    on gives the values pushed, oldest first, and only the last [BUF] of
    them; while fewer have been pushed, the [null]s of the initial array
    come first. *)
Theorem window_pushes (vs : list magnitude) :
  window (pushes vs ring0) = last_values vs.
Proof. rewrite window_pushes_from, window_ring0 by auto with js. reflexivity. Qed.

Lemma window_lookup r i :
  ring_ok r -> (i < BUF)%nat -> window r !! i = mags r !! ((idx r + i) mod BUF)%nat.
Proof.
  intros [L I] Hi. unfold window.
  rewrite lookup_rotate_r, rotate_nat_add_mod, L by lia. reflexivity.
Qed.

(** The plot loop of [drawChart] walks the window: point [i] of the
    path is the [i]-th oldest slot, skipped when it holds no number, and
    only the oldest slot can begin the path with [moveTo]. *)
Theorem plot_window (r : ring) :
  ring_ok r -> plot r = concat (imap plot_point (window r)).
Proof.
  intros H. rewrite <- flat_map_seq_imap, length_window, (proj1 H).
  unfold plot. rewrite !flat_map_concat_map. f_equal. apply map_ext_in.
  intros i Hi%in_seq. unfold plot_step. rewrite window_lookup by (auto; lia).
  destruct (mags r !! _) as [[v|]|]; reflexivity.
Qed.

(** ** The range of the chart *)

Section Extremes.
Implicit Types (d x : Q) (ds : list Q).

Lemma foldl_Qmin_le d ds x : x ∈ d :: ds -> (foldl Qmin d ds <= x)%Q.
Proof.
  revert d x. induction ds as [|e ds IH]; intros d x Hx.
  - apply list_elem_of_singleton in Hx as ->. apply Qle_refl.
  - cbn [foldl]. apply elem_of_cons in Hx as [->|Hx].
    + eapply Qle_trans; [apply IH; left|apply Q.le_min_l].
    + apply elem_of_cons in Hx as [->|Hx].
      * eapply Qle_trans; [apply IH; left|apply Q.le_min_r].
      * apply IH. right. exact Hx.
Qed.

Lemma foldl_Qmax_ge d ds x : x ∈ d :: ds -> (x <= foldl Qmax d ds)%Q.
Proof.
  revert d x. induction ds as [|e ds IH]; intros d x Hx.
  - apply list_elem_of_singleton in Hx as ->. apply Qle_refl.
  - cbn [foldl]. apply elem_of_cons in Hx as [->|Hx].
    + eapply Qle_trans; [apply Q.le_max_l|apply IH; left].
    + apply elem_of_cons in Hx as [->|Hx].
      * eapply Qle_trans; [apply Q.le_max_r|apply IH; left].
      * apply IH. right. exact Hx.
Qed.

Lemma foldl_Qmin_in d ds : foldl Qmin d ds ∈ d :: ds.
Proof.
  revert d. induction ds as [|e ds IH]; intros d; [left|]. cbn [foldl].
  specialize (IH (Qmin d e)). apply elem_of_cons in IH as [->|IH]; [|right; right; exact IH].
  unfold Qmin, GenericMinMax.gmin. destruct (d ?= e)%Q; [left|left|right; left].
Qed.

Lemma foldl_Qmax_in d ds : foldl Qmax d ds ∈ d :: ds.
Proof.
  revert d. induction ds as [|e ds IH]; intros d; [left|]. cbn [foldl].
  specialize (IH (Qmax d e)). apply elem_of_cons in IH as [->|IH]; [|right; right; exact IH].
  unfold Qmax, GenericMinMax.gmax. destruct (d ?= e)%Q; [left|right; left|left].
Qed.

End Extremes.

Lemma elem_of_chart_data r s : s ∈ chart_data r <-> Some (Root s) ∈ mags r.
Proof.
  unfold chart_data. rewrite list_elem_of_omap. split.
  - intros ([[| |q]|] & Hin & E); simplify_eq. exact Hin.
  - intros H. exists (Some (Root s)). auto.
Qed.

(** The range of the chart: when the buffer holds a finite value,
    [min] and [max] are values of the buffer and every finite value of the
    buffer lies between them. *)
Theorem chart_range (r : ring) (s : Q) :
  Some (Root s) ∈ mags r ->
  exists lo hi,
    chart_min r = Root lo /\ chart_max r = Root hi /\
    Some (Root lo) ∈ mags r /\ Some (Root hi) ∈ mags r /\
    forall x, Some (Root x) ∈ mags r -> (lo <= x <= hi)%Q.
Proof.
  setoid_rewrite <- elem_of_chart_data. unfold chart_min, chart_max.
  destruct (chart_data r) as [|d ds]; [intros H; inversion H|]. intros _.
  exists (foldl Qmin d ds), (foldl Qmax d ds).
  repeat split; auto using foldl_Qmin_in, foldl_Qmax_in, foldl_Qmin_le, foldl_Qmax_ge.
Qed.

(** ** The magnitude of a reading *)

Lemma magnitude_of_finite (x y z : Q) :
  magnitude_of (Some (Fin x)) (Some (Fin y)) (Some (Fin z))
  = Root (x * x + y * y + z * z).
Proof.
  unfold magnitude_of, ToNumber. cbn [js_mul js_add js_sqrt].
  assert (Qltb (x * x + y * y + z * z) 0 = false) as ->; [|reflexivity].
  unfold Qltb. apply negb_false_iff, Qle_bool_iff. nra.
Qed.

Lemma js_sqrt_ok (n : num) : magnitude_ok (js_sqrt n).
Proof.
  destruct n as [|[|]|q]; cbn [js_sqrt magnitude_ok]; auto.
  destruct (Qltb q 0) eqn:E; cbn [magnitude_ok]; [auto|].
  unfold Qltb in E. apply negb_false_iff, Qle_bool_iff in E. exact E.
Qed.

Lemma magnitude_of_ok (x y z : option num) : magnitude_ok (magnitude_of x y z).
Proof. apply js_sqrt_ok. Qed.

Lemma ring0_values_ok : values_ok ring0.
Proof. apply Forall_replicate. exact I. Qed.

Lemma pushMag_values_ok v r :
  ring_ok r -> magnitude_ok v -> values_ok r -> values_ok (pushMag v r).
Proof.
  intros H Hv Hr. unfold values_ok. rewrite pushMag_mags by exact H.
  apply Forall_insert; [exact Hr | exact Hv].
Qed.

#[export] Hint Resolve js_sqrt_ok magnitude_of_ok ring0_values_ok pushMag_values_ok : js.

(** ** Numbers and their representations

    A rational has many fractions.  The operations of the page map equal
    numbers to equal numbers, and the texts it prints are the same for
    every fraction of a number. *)

#[export] Instance magnitude_eq_equivalence : Equivalence magnitude_eq.
Proof.
  split.
  - intros [| |q]; simpl; auto. reflexivity.
  - intros [| |p] [| |q]; simpl; auto. intros H. symmetry. exact H.
  - intros [| |p] [| |q] [| |r]; simpl; try tauto. intros H1 H2. rewrite H1. exact H2.
Qed.

#[export] Instance js_add_proper : Proper (num_eq ==> num_eq ==> num_eq) js_add.
Proof.
  intros [|s|p] [|s'|p'] Hp [|t|q] [|t'|q'] Hq; simpl in *;
    try tauto; subst; try reflexivity.
  rewrite Hp, Hq. reflexivity.
Qed.

#[export] Instance js_sqrt_proper : Proper (num_eq ==> magnitude_eq) js_sqrt.
Proof.
  intros [|s|p] [|s'|p'] H; simpl in *; try tauto; subst; try reflexivity.
  rewrite (Qltb_proper _ _ H 0%Q 0%Q (Qeq_refl 0)). destruct (Qltb p' 0); [exact I | exact H].
Qed.

#[export] Instance magnitude_of_proper :
  Proper (option_Forall2 num_eq ==> option_Forall2 num_eq ==> option_Forall2 num_eq
          ==> magnitude_eq) magnitude_of.
Proof.
  intros x x' Hx y y' Hy z z' Hz. unfold magnitude_of.
  assert (forall v v', option_Forall2 num_eq v v' -> num_eq (ToNumber v) (ToNumber v')) as HT.
  { intros v v' [a b H|]; [exact H | reflexivity]. }
  apply js_sqrt_proper. repeat apply js_add_proper; apply js_mul_proper; auto.
Qed.

#[export] Instance num_tenths_proper : Proper (Qeq ==> eq) num_tenths.
Proof. intros p q H. unfold num_tenths. rewrite H. reflexivity. Qed.

#[export] Instance root_tenths_proper : Proper (Qeq ==> eq) root_tenths.
Proof. intros p q H. unfold root_tenths. rewrite H. reflexivity. Qed.

#[export] Instance fmt_num_proper :
  Proper (option_Forall2 num_eq ==> eq) (fmt (A := num)).
Proof.
  intros ? ? [[|s|p] [|s'|p'] H|]; simpl in *; try tauto; subst; try reflexivity.
  rewrite (Qltb_proper _ _ H 0%Q 0%Q (Qeq_refl 0)), (num_tenths_proper _ _ H). reflexivity.
Qed.

#[export] Instance fmt_magnitude_proper :
  Proper (option_Forall2 magnitude_eq ==> eq) (fmt (A := magnitude)).
Proof.
  intros ? ? [[| |p] [| |p'] H|]; simpl in *; try tauto; try reflexivity.
  rewrite (root_tenths_proper _ _ H). reflexivity.
Qed.

(** A coordinate the sensor has not measured counts as zero. *)
Lemma magnitude_of_null : magnitude_of None None None = Root 0.
Proof. reflexivity. Qed.

(** The grid lines divide the plotting area in four: they lie a quarter
    of it apart, inside the padding. *)
Lemma grid_lines_spec (h : Q) :
  (28 <= h)%Q ->
  Forall (fun y => 14 <= y <= h - 14)%Q (grid_lines h) /\
  forall i, grid_line h (i + 1) - grid_line h i == (h - 28) / 4.
Proof.
  intros H. split.
  - unfold grid_lines. cbn [fmap list_fmap]. rewrite !Forall_cons, Forall_nil.
    unfold grid_line, Qdiv. change (/ 4)%Q with (1 # 4)%Q.
    change (inject_Z 1) with 1%Q. change (inject_Z 2) with 2%Q. change (inject_Z 3) with 3%Q.
    repeat split; lra.
  - intros i. unfold grid_line, Qdiv. rewrite inject_Z_plus.
    change (/ 4)%Q with (1 # 4)%Q. change (inject_Z 1) with 1%Q. ring.
Qed.
