(* ===== verification/EmfSpec.v ===== *)
(** * The magnetometer page over the reals

    What the numbers of [Emf] mean: a magnitude [Root s] is the real
    [sqrt s]; the tenths [Emf.root_tenths] and [Emf.num_tenths] are those
    [toFixed(1)] prints; and the points [drawChart] of [src/emf/app.js]
    plots lie inside the canvas, the padding kept free above and below.

    The real numbers stand for the engine's doubles; the rounding of
    [Math.sqrt] and of the arithmetic of [drawChart] is not modelled. *)

From Stdlib Require Import ZArith QArith Qround Qabs Reals Qreals Lra Lia List.
From stdpp Require Import base tactics list.
From S2P Require Import Prelude JsNum JsString Meter MeterSpec Emf.

#[local] Open Scope R_scope.

(** ** The chart's coordinates *)

(** The real number a finite magnitude is. *)
Definition root (s : Q) : R := sqrt (Q2R s).

(** [pad] *)
Definition pad : R := 14.

(** [yMax - yMin], with [yMax] one above [max] when [max === min]. *)
Definition y_span (lo hi : Q) : R :=
  (if Qeq_bool hi lo then root hi + 1 else root hi) - root lo.

(** [scaleY] for a canvas of height [h]. *)
Definition scaleY (h : R) (lo hi : Q) : R := (h - pad * 2) / y_span lo hi.

(** [y] of the point plotted for the value [sqrt v]. *)
Definition point_y (h : R) (lo hi v : Q) : R :=
  h - pad - (root v - root lo) * scaleY h lo hi.

(** [x] of the point plotted for slot [i], on a canvas of width [w]. *)
Definition point_x (w : R) (i : nat) : R :=
  INR i / (INR BUF - 1) * w.

(** [y] of a value of the buffer [r]. *)
Definition chart_y (h : R) (r : ring) (v : Q) : R :=
  match chart_min r, chart_max r with
  | Root lo, Root hi => point_y h lo hi v
  | _, _ => 0
  end.

(** ** Printing *)

Lemma Q2R_nonneg (q : Q) : (0 <= q)%Q -> 0 <= Q2R q.
Proof. intros H. apply Qle_Rle in H. unfold Q2R at 1 in H. simpl in H. lra. Qed.

Lemma Q2R_abs (q : Q) : Q2R (Qabs q) = Rabs (Q2R q).
Proof.
  destruct (Qlt_le_dec q 0) as [H|H].
  - rewrite (Qeq_eqR _ _ (Qabs_neg q (Qlt_le_weak _ _ H))), Q2R_opp, Rabs_left; [reflexivity|].
    apply Qlt_Rlt in H. unfold Q2R at 2 in H. simpl in H. lra.
  - rewrite (Qeq_eqR _ _ (Qabs_pos q H)), Rabs_right; [reflexivity|].
    apply Rle_ge, Q2R_nonneg, H.
Qed.

(** The text of a magnitude is its root printed with one decimal. *)
Theorem root_tenths_rounds (s : Q) :
  (0 <= s)%Q -> rounds_to (root s) (root_tenths s).
Proof.
  intros Hs. unfold root_tenths, root.
  assert (Q2R (400 * s) = 20 * 20 * Q2R s) as EX
    by (rewrite Q2R_mult; unfold Q2R at 1; simpl; lra).
  assert (0 <= Qfloor (400 * s))%Z as Hf.
  { change 0%Z with (Qfloor 0). apply Qfloor_resp_le. apply Rle_Qle. rewrite EX.
    pose proof (Q2R_nonneg s Hs). unfold Q2R at 1. simpl. lra. }
  pose proof (Zsqrt_sqrt _ _ Hf (Qfloor_bounds _)) as H.
  rewrite EX, sqrt_mult_alt, sqrt_square in H by lra.
  replace (sqrt (Q2R s)) with (10 * sqrt (Q2R s) / 10) by lra.
  apply half_round. lra.
Qed.

(** The text of a coordinate is its absolute value printed with one
    decimal, after the sign. *)
Theorem num_tenths_rounds (q : Q) : rounds_to (Rabs (Q2R q)) (num_tenths q).
Proof.
  unfold rounds_to, num_tenths. pose proof (Qfloor_bounds (Qabs q * 10 + (1 # 2))) as H.
  rewrite Q2R_plus, Q2R_mult, Q2R_abs in H.
  replace (Q2R 10) with 10 in H by (unfold Q2R; simpl; lra).
  replace (Q2R (1 # 2)) with (/ 2) in H by (unfold Q2R; simpl; lra).
  lra.
Qed.

(** ** The points of the chart *)

Lemma root_le (p q : Q) : (p <= q)%Q -> root p <= root q.
Proof. intros H. apply sqrt_le_1_alt, Qle_Rle, H. Qed.

Lemma y_span_pos (lo hi : Q) : (0 <= lo)%Q -> (lo <= hi)%Q -> 0 < y_span lo hi.
Proof.
  intros H0 H. unfold y_span. destruct (Qeq_bool hi lo) eqn:E.
  - apply Qeq_bool_iff, Qeq_eqR in E. unfold root. rewrite E. lra.
  - apply Qeq_bool_neq in E.
    assert (lo < hi)%Q as Hlt
      by (apply Qle_lteq in H as [|]; [auto|]; exfalso; apply E; symmetry; auto).
    pose proof (Q2R_nonneg lo H0). apply Qlt_Rlt in Hlt.
    pose proof (sqrt_lt_1_alt (Q2R lo) (Q2R hi)). unfold root. lra.
Qed.

Lemma y_span_ge (lo hi : Q) : root hi - root lo <= y_span lo hi.
Proof. unfold y_span. destruct (Qeq_bool hi lo); lra. Qed.

(** Every finite value of the buffer is plotted inside the canvas, [pad]
    below its top and above its bottom. *)
Lemma point_y_in_canvas (h : R) (lo hi v : Q) :
  pad * 2 <= h -> (0 <= lo)%Q -> (lo <= v <= hi)%Q ->
  pad <= point_y h lo hi v <= h - pad.
Proof.
  intros Hh H0 [Hl Hu]. pose proof (root_le _ _ Hl). pose proof (root_le _ _ Hu).
  pose proof (y_span_pos lo hi H0 (Qle_trans _ _ _ Hl Hu)) as Hs.
  pose proof (y_span_ge lo hi) as Hg. unfold point_y, scaleY.
  set (t := (root v - root lo) / y_span lo hi).
  replace ((root v - root lo) * ((h - pad * 2) / y_span lo hi)) with (t * (h - pad * 2))
    by (unfold t; field; lra).
  assert (0 <= t <= 1) as [T0 T1].
  { unfold t. split; [apply Rmult_le_pos; [lra | left; apply Rinv_0_lt_compat, Hs]|].
    apply Rmult_le_reg_r with (y_span lo hi); [exact Hs|].
    unfold Rdiv. rewrite Rmult_assoc, Rinv_l by lra. lra. }
  unfold pad in *. nra.
Qed.

Lemma point_x_in_canvas (w : R) (i : nat) :
  0 <= w -> (i < BUF)%nat -> 0 <= point_x w i <= w.
Proof.
  intros Hw Hi. unfold point_x. apply lt_INR in Hi as Hi'. pose proof (pos_INR i) as Hp.
  assert (INR BUF = 220) as E by (unfold BUF; simpl; lra). rewrite E in *.
  assert (INR i <= 219) as Hi2.
  { replace 219 with (INR 219) by (simpl; lra). apply le_INR. unfold BUF in Hi. lia. }
  replace (220 - 1) with 219 by lra.
  assert (0 <= INR i / 219 <= 1) by (split; [apply Rmult_le_pos; lra | lra]).
  nra.
Qed.

(** The chart stays inside the canvas: on a canvas at least twice the
    padding high, every finite value of the buffer is plotted between
    [pad] and [h - pad], and every slot between [0] and the width. *)
Theorem chart_in_canvas (h : R) (r : ring) (v : Q) :
  pad * 2 <= h -> values_ok r -> Some (Root v) ∈ mags r ->
  pad <= chart_y h r v <= h - pad.
Proof.
  intros Hh Hok Hv. destruct (chart_range r v Hv) as (lo & hi & Elo & Ehi & Hlo & _ & Hb).
  unfold chart_y. rewrite Elo, Ehi. apply point_y_in_canvas; [exact Hh | | apply Hb, Hv].
  unfold values_ok in Hok. rewrite Forall_forall in Hok. exact (Hok _ Hlo).
Qed.

Lemma chart_in_canvas_witness :
  pad <= chart_y 180 (pushMag (Root 2500) (pushMag (Root 900) ring0)) 2500 <= 180 - pad.
Proof.
  apply chart_in_canvas.
  - unfold pad. lra.
  - repeat apply pushMag_values_ok; auto using ring0_ok, pushMag_ok, ring0_values_ok;
      unfold magnitude_ok, Qle; simpl; lia.
  - apply list_elem_of_In. right. left. reflexivity.
Defined.
