(* ===== verification/EmfPage.v ===== *)
(** * The magnetometer page

    The page of [src/emf/app.js] as an event machine: its globals
    ([sensor], [running], the ring buffer), the properties of the document
    it writes, the browser as the page uses it (the sensors it has
    constructed, the service worker registrations, the features it has),
    and one program for each listener and for each stretch of [start]
    between two [await]s.

    [start] awaits the registration of the service worker, when the
    browser has service workers, and the answer of the permission query,
    when it has one; each await ends a stretch, and the continuation runs
    when the event [Settle] delivers the answer.  The two [try] blocks of
    [start] span the awaits: a stretch that throws runs the handler of the
    block it is in.

    The names [start], [stop] and [setStatus] of the source carry the
    prefix [emf_] here, the recorder's page having functions of the same
    names. *)

From Stdlib Require Import String ZArith QArith List Bool.
From stdpp Require Import base tactics list.
From S2P Require Import Prelude Hoare JsNum JsString Meter Emf Machine.

#[local] Open Scope string_scope.
#[local] Open Scope Z_scope.

(** ** State *)

(** A [Magnetometer] object: whether it is activated, and its latest
    reading ([null] before the first). *)
Record sensor_object : Type := {
  activated : bool;
  sensor_x : option num;
  sensor_y : option num;
  sensor_z : option num;
}.

(** The browser. *)
Record emf_host : Type := {
  (** ["serviceWorker" in navigator] *)
  has_serviceWorker : bool;
  (** ["Magnetometer" in window] *)
  has_Magnetometer : bool;
  (** [navigator.permissions?.query] *)
  has_permissions_query : bool;
  (** what the constructor [Magnetometer] does: it throws when the
      permissions policy forbids the sensor *)
  construct : result unit;
  (** the scripts registered as service workers *)
  registrations : list (list Z);
  (** the sensors constructed, by handle *)
  sensors : list sensor_object;
}.

(** The globals. *)
Record emf_globals : Type := {
  sensor : option nat;
  running : bool;
  buffer : ring;
}.

(** The properties of the elements that the page writes. *)
Record emf_dom : Type := {
  status : list Z;
  x_text : list Z;
  y_text : list Z;
  z_text : list Z;
  mag_text : list Z;
  start_disabled : bool;
  stop_disabled : bool;
  canvas : chart;
}.

(** A promise [start] awaits. *)
Inductive emf_task : Type :=
| Register
| Query.

Record emf_world : Type := {
  emf_page : emf_globals;
  emf_ui : emf_dom;
  emf_env : emf_host;
  emf_pending : list emf_task;
}.

(** How a promise settles; a permission query resolves to a state. *)
Inductive emf_answer : Type :=
| Fulfilled (state : string)
| Refused (e : exn).

(** ** Field updates *)

Definition set_activated (v : bool) (s : sensor_object) : sensor_object :=
  {| activated := v; sensor_x := sensor_x s; sensor_y := sensor_y s;
     sensor_z := sensor_z s |}.

Definition set_reading (x y z : option num) (s : sensor_object) : sensor_object :=
  {| activated := activated s; sensor_x := x; sensor_y := y; sensor_z := z |}.

Definition set_registrations (v : list (list Z)) (h : emf_host) : emf_host :=
  {| has_serviceWorker := has_serviceWorker h; has_Magnetometer := has_Magnetometer h;
     has_permissions_query := has_permissions_query h; construct := construct h;
     registrations := v; sensors := sensors h |}.

Definition set_sensors (v : list sensor_object) (h : emf_host) : emf_host :=
  {| has_serviceWorker := has_serviceWorker h; has_Magnetometer := has_Magnetometer h;
     has_permissions_query := has_permissions_query h; construct := construct h;
     registrations := registrations h; sensors := v |}.

Definition set_sensor (v : option nat) (g : emf_globals) : emf_globals :=
  {| sensor := v; running := running g; buffer := buffer g |}.

Definition set_running (v : bool) (g : emf_globals) : emf_globals :=
  {| sensor := sensor g; running := v; buffer := buffer g |}.

Definition set_buffer (v : ring) (g : emf_globals) : emf_globals :=
  {| sensor := sensor g; running := running g; buffer := v |}.

Definition set_status (v : list Z) (d : emf_dom) : emf_dom :=
  {| status := v; x_text := x_text d; y_text := y_text d; z_text := z_text d;
     mag_text := mag_text d; start_disabled := start_disabled d;
     stop_disabled := stop_disabled d; canvas := canvas d |}.

Definition set_texts (x y z mag : list Z) (d : emf_dom) : emf_dom :=
  {| status := status d; x_text := x; y_text := y; z_text := z; mag_text := mag;
     start_disabled := start_disabled d; stop_disabled := stop_disabled d;
     canvas := canvas d |}.

Definition set_start_disabled (v : bool) (d : emf_dom) : emf_dom :=
  {| status := status d; x_text := x_text d; y_text := y_text d; z_text := z_text d;
     mag_text := mag_text d; start_disabled := v; stop_disabled := stop_disabled d;
     canvas := canvas d |}.

Definition set_stop_disabled (v : bool) (d : emf_dom) : emf_dom :=
  {| status := status d; x_text := x_text d; y_text := y_text d; z_text := z_text d;
     mag_text := mag_text d; start_disabled := start_disabled d; stop_disabled := v;
     canvas := canvas d |}.

Definition set_canvas (v : chart) (d : emf_dom) : emf_dom :=
  {| status := status d; x_text := x_text d; y_text := y_text d; z_text := z_text d;
     mag_text := mag_text d; start_disabled := start_disabled d;
     stop_disabled := stop_disabled d; canvas := v |}.

Definition set_emf_page (v : emf_globals) (w : emf_world) : emf_world :=
  {| emf_page := v; emf_ui := emf_ui w; emf_env := emf_env w;
     emf_pending := emf_pending w |}.

Definition set_emf_ui (v : emf_dom) (w : emf_world) : emf_world :=
  {| emf_page := emf_page w; emf_ui := v; emf_env := emf_env w;
     emf_pending := emf_pending w |}.

Definition set_emf_env (v : emf_host) (w : emf_world) : emf_world :=
  {| emf_page := emf_page w; emf_ui := emf_ui w; emf_env := v;
     emf_pending := emf_pending w |}.

Definition set_emf_pending (v : list emf_task) (w : emf_world) : emf_world :=
  {| emf_page := emf_page w; emf_ui := emf_ui w; emf_env := emf_env w;
     emf_pending := v |}.

(** ** Access *)

Definition var {A} (f : emf_globals -> A) : prog emf_world A :=
  gets (fun w => f (emf_page w)).

Definition assign (f : emf_globals -> emf_globals) : prog emf_world unit :=
  modify (fun w => set_emf_page (f (emf_page w)) w).

Definition write (f : emf_dom -> emf_dom) : prog emf_world unit :=
  modify (fun w => set_emf_ui (f (emf_ui w)) w).

Definition feature {A} (f : emf_host -> A) : prog emf_world A :=
  gets (fun w => f (emf_env w)).

Definition browser (f : emf_host -> emf_host) : prog emf_world unit :=
  modify (fun w => set_emf_env (f (emf_env w)) w).

(** The end of a stretch: the promise [t] is awaited. *)
Definition emf_await (t : emf_task) : prog emf_world unit :=
  modify (fun w => set_emf_pending (emf_pending w ++ [t]) w).

(** ** The sensors of the browser *)

(** [new Magnetometer({ frequency: 30 })] *)
Definition new_Magnetometer : prog emf_world nat :=
  (c <- feature construct ;;
   _ <- lift c ;;
   ss <- feature sensors ;;
   _ <- browser (set_sensors
          (ss ++ [{| activated := false; sensor_x := None; sensor_y := None;
                     sensor_z := None |}])) ;;
   ret (length ss))%prog.

Definition update_sensor (s : nat) (f : sensor_object -> sensor_object) :
    prog emf_world unit :=
  browser (fun h => set_sensors (alter f s (sensors h)) h).

(** [sensor.start()] *)
Definition sensor_start (s : nat) : prog emf_world unit :=
  update_sensor s (set_activated true).

(** [sensor.stop()] *)
Definition sensor_stop (s : nat) : prog emf_world unit :=
  update_sensor s (set_activated false).

(** [sensor.x], [sensor.y], [sensor.z] *)
Definition sensor_reading (s : nat) : prog emf_world (option num * option num * option num) :=
  (ss <- feature sensors ;;
   match ss !! s with
   | Some o => ret (sensor_x o, sensor_y o, sensor_z o)
   | None => ret (None, None, None)
   end)%prog.

(** ** The page *)

Definition emf_setStatus (msg : list Z) : prog emf_world unit :=
  write (set_status msg).

Definition updateUI (x y z : option num) : prog emf_world unit :=
  (let mag := magnitude_of x y z in
   _ <- write (set_texts (fmt x) (fmt y) (fmt z) (fmt (Some mag))) ;;
   _ <- assign (fun g => set_buffer (pushMag mag (buffer g)) g) ;;
   r <- var buffer ;;
   write (set_canvas (drawChart r)))%prog.

Definition emf_stop : prog emf_world unit :=
  (o <- var sensor ;;
   _ <- opt_do o (fun s =>
          _ <- attempt (sensor_stop s) ;;
          assign (set_sensor None)) ;;
   _ <- assign (set_running false) ;;
   _ <- write (set_start_disabled false) ;;
   _ <- write (set_stop_disabled true) ;;
   emf_setStatus (lit "Stopped."))%prog.

(** The listener of [reading]. *)
Definition on_reading : prog emf_world unit :=
  (o <- var sensor ;;
   s <- deref o ;;
   r <- sensor_reading s ;;
   let '(x, y, z) := r in
   updateUI x y z)%prog.

(** The listener of [error]; [name] is [e.error?.name]. *)
Definition on_error (name : option (list Z)) : prog emf_world unit :=
  (let shown :=
     match name with
     | Some (c :: n) => c :: n
     | _ => lit "unknown"
     end in
   _ <- emf_setStatus (lit "Sensor error: " ++ shown) ;;
   emf_stop)%prog.

(** The handler of the outer [try] of [start]. *)
Definition start_failed (err : exn) : prog emf_world unit :=
  (_ <- emf_setStatus (lit "Could not start magnetometer: " ++ message err) ;;
   emf_stop)%prog.

Definition denied_status : list Z :=
  lit "Permission for magnetometer is denied in browser settings.".

Definition unavailable_status : list Z :=
  lit ("Magnetometer API not available in this browser/device. "
       ++ "Try Android Chrome/Edge, and ensure sensors are allowed.").

Definition reading_status : list Z :=
  lit "Reading magnetometer" ++ [8230]
  ++ lit " move near a magnet or a power adapter to see changes.".

(** [start] from the construction of the sensor on. *)
Definition start_sensor : prog emf_world unit :=
  (s <- new_Magnetometer ;;
   _ <- assign (set_sensor (Some s)) ;;
   _ <- sensor_start s ;;
   _ <- assign (set_running true) ;;
   _ <- write (set_start_disabled true) ;;
   _ <- write (set_stop_disabled false) ;;
   emf_setStatus reading_status)%prog.

(** [start] after the permission query has settled. *)
Definition start_queried (a : emf_answer) : prog emf_world unit :=
  try_catch
    (match a with
     | Fulfilled state =>
         if String.eqb state "denied" then
           emf_setStatus denied_status
         else start_sensor
     | Refused _ => start_sensor
     end)
    start_failed.

(** [start] after the registration of the service worker has settled. *)
Definition start_registered : prog emf_world unit :=
  (m <- feature has_Magnetometer ;;
   if negb m then
     emf_setStatus unavailable_status
   else
     try_catch
       (q <- feature has_permissions_query ;;
        if q then emf_await Query else start_sensor)
       start_failed)%prog.

Definition emf_start : prog emf_world unit :=
  (r <- var running ;;
   if r then ret tt
   else
     sw <- feature has_serviceWorker ;;
     if sw then
       regs <- feature registrations ;;
       _ <- browser (set_registrations (regs ++ [lit "./sw.js"])) ;;
       emf_await Register
     else start_registered)%prog.

(** The statements the script runs when it is loaded: the listeners of
    the two buttons are the events [PressStart] and [PressStop]; the chart
    is drawn once. *)
Definition emf_load : prog emf_world unit :=
  (r <- var buffer ;; write (set_canvas (drawChart r)))%prog.

Definition emf_init (d : emf_dom) (h : emf_host) : emf_world :=
  run emf_load
    {| emf_page := {| sensor := None; running := false; buffer := ring0 |};
       emf_ui := d; emf_env := h; emf_pending := [] |}.

(** ** Events *)

Inductive emf_event : Type :=
| PressStart
| PressStop
| Settled (i : nat) (a : emf_answer)
| Reading (s : nat) (x y z : num)
| SensorError (s : nat) (name : option (list Z)).

Definition is_active (s : nat) (w : emf_world) : bool :=
  match sensors (emf_env w) !! s with
  | Some o => activated o
  | None => false
  end.

Definition emf_settle (i : nat) (a : emf_answer) : prog emf_world unit :=
  (ts <- gets emf_pending ;;
   match ts !! i with
   | Some t =>
       _ <- modify (set_emf_pending (delete i ts)) ;;
       match t with
       | Register => start_registered
       | Query => start_queried a
       end
   | None => ret tt
   end)%prog.

Definition emf_handle (e : emf_event) : prog emf_world unit :=
  match e with
  | PressStart => emf_start
  | PressStop => emf_stop
  | Settled i a => emf_settle i a
  | Reading s x y z =>
      (_ <- update_sensor s (set_reading (Some x) (Some y) (Some z)) ;;
       on_reading)%prog
  | SensorError s name =>
      (_ <- sensor_stop s ;; on_error name)%prog
  end.

Definition emf_enabled (e : emf_event) (w : emf_world) : bool :=
  match e with
  | PressStart => negb (start_disabled (emf_ui w))
  | PressStop => negb (stop_disabled (emf_ui w))
  | Settled i _ => bool_decide (i < length (emf_pending w))%nat
  | Reading s _ _ _ => is_active s w
  | SensorError s _ => is_active s w
  end.

#[export] Instance emf_machine : Machine emf_world emf_event := {|
  ready := emf_enabled;
  react e := run (emf_handle e);
|}.

(** ** Specification *)

(** The canvas shows the chart of the buffer, and the buffer is a ring of
    [BUF] slots that holds roots of numbers that are not negative. *)
Definition chart_shown (w : emf_world) : Prop :=
  ring_ok (buffer (emf_page w)) /\ values_ok (buffer (emf_page w)) /\
  canvas (emf_ui w) = drawChart (buffer (emf_page w)).

(** The controls show whether the page is reading, and the page is reading
    exactly while it holds a sensor, which is activated. *)
Definition controls_ok (w : emf_world) : Prop :=
  start_disabled (emf_ui w) = running (emf_page w) /\
  stop_disabled (emf_ui w) = negb (running (emf_page w)) /\
  match sensor (emf_page w) with
  | Some s => running (emf_page w) = true /\ is_active s w = true
  | None => running (emf_page w) = false
  end.

(** What [stop] leaves. *)
Definition idle (w : emf_world) : Prop :=
  controls_ok w /\ sensor (emf_page w) = None /\ status (emf_ui w) = lit "Stopped.".

(** The state [stop] leaves. *)
Definition stopped (w : emf_world) : emf_world :=
  {| emf_page := {| sensor := None; running := false; buffer := buffer (emf_page w) |};
     emf_ui := set_status (lit "Stopped.")
                 (set_stop_disabled true (set_start_disabled false (emf_ui w)));
     emf_env := match sensor (emf_page w) with
                | Some s => set_sensors (alter (set_activated false) s
                                           (sensors (emf_env w))) (emf_env w)
                | None => emf_env w
                end;
     emf_pending := emf_pending w |}.

(** The texts the status line can show between two events, [s0] being
    the text of the document. *)
Definition shown_status (s0 : list Z) : list (list Z) :=
  [s0; lit "Stopped."; reading_status; denied_status; unavailable_status].

Definition status_shown (s0 : list Z) (w : emf_world) : Prop :=
  status (emf_ui w) ∈ shown_status s0.

(** No sensor is activated but the one the page holds. *)
Definition no_stray_sensor (w : emf_world) : Prop :=
  forall s, is_active s w = true -> sensor (emf_page w) = Some s.

(** A browser in which [start] awaits nothing: it has no service workers
    and no permission query. *)
Definition immediate (h : emf_host) : Prop :=
  has_serviceWorker h = false /\ has_permissions_query h = false.

Definition lone_sensor (w : emf_world) : Prop :=
  immediate (emf_env w) /\ emf_pending w = [] /\ no_stray_sensor w.

Definition tidy (w : emf_world) : Prop := controls_ok w /\ lone_sensor w.

(** ** An example *)

(** A document with the start button enabled and the stop button
    disabled, and a browser that has service workers, the sensor and the
    permission query or not, and whose constructor of the sensor does
    [c]. *)
Definition emf_document : emf_dom :=
  {| status := lit "Idle"; x_text := dash; y_text := dash; z_text := dash;
     mag_text := dash; start_disabled := false; stop_disabled := true;
     canvas := drawChart ring0 |}.

Definition emf_browser (sw m pq : bool) (c : result unit) : emf_host :=
  {| has_serviceWorker := sw; has_Magnetometer := m; has_permissions_query := pq;
     construct := c; registrations := []; sensors := [] |}.

(** The page after a press of the start button and one reading, in a
    browser in which [start] awaits nothing. *)
Definition emf_example : emf_world :=
  react (Reading 0 (Fin 3) (Fin 4) (Fin 12))
    (react PressStart (emf_init emf_document (emf_browser false true false (Ok tt)))).

(** ** The chart *)

Lemma updateUI_chart x y z : preserves chart_shown (updateUI x y z).
Proof.
  intros [g d h p] (Hr & Hv & _). unfold chart_shown. cbn.
  auto using pushMag_ok, pushMag_values_ok, magnitude_of_ok.
Qed.

#[local] Hint Resolve updateUI_chart : preserve.

Lemma emf_handle_chart e : preserves chart_shown (emf_handle e).
Proof. destruct e; preserve_with untouched. Qed.

Lemma emf_init_chart d h : chart_shown (emf_init d h).
Proof. unfold chart_shown. cbn. auto using ring0_ok, ring0_values_ok. Qed.

Lemma stable_chart_shown : stable chart_shown.
Proof. intros e w H _. apply (emf_handle_chart e), H. Qed.

(** ** The controls *)

Lemma is_active_alter_reading s s' x y z w :
  is_active s (set_emf_env (set_sensors (alter (set_reading x y z) s' (sensors (emf_env w)))
                              (emf_env w)) w)
  = is_active s w.
Proof.
  unfold is_active. cbn. rewrite list_lookup_alter.
  case_decide; [subst|reflexivity]. destruct (sensors (emf_env w) !! s); reflexivity.
Qed.

(** [stop] never throws. *)
Lemma emf_stop_eq w : emf_stop w = Done tt (stopped w).
Proof. destruct w as [[[s|] r b] d h p]; reflexivity. Qed.

(** [stop] leaves the page idle, whatever state it is called in. *)
Lemma emf_stop_idle :
  hoare (fun _ => True) emf_stop (fun _ => idle) (fun _ _ => False).
Proof. intros w _. rewrite emf_stop_eq. repeat split. Qed.

Lemma emf_stop_controls : preserves controls_ok emf_stop.
Proof.
  apply (preserves_of_post (fun _ => True) _ _ _ emf_stop_idle); [auto|].
  intros w H. apply H.
Qed.

Lemma start_sensor_controls : preserves controls_ok start_sensor.
Proof.
  intros [g d h p] H. unfold start_sensor, new_Magnetometer, bind, feature, gets. cbn.
  destruct (construct h); cbn; [|exact H].
  unfold controls_ok, is_active. cbn.
  rewrite list_lookup_alter, lookup_app_r, Nat.sub_diag by lia. cbn.
  case_decide; [auto|congruence].
Qed.

Lemma reading_controls s x y z :
  preserves controls_ok (update_sensor s (set_reading x y z)).
Proof.
  intros w (H1 & H2 & H3). unfold controls_ok. cbn.
  destruct (sensor (emf_page w)); [|auto]. rewrite is_active_alter_reading. auto.
Qed.

Lemma on_error_idle name :
  hoare (fun _ => True) (on_error name) (fun _ => idle) (fun _ _ => False).
Proof.
  unfold on_error. apply hoare_bind with (R := fun _ _ => True); [|intros _; apply emf_stop_idle].
  apply hoare_modify. auto.
Qed.

Lemma start_failed_idle err :
  hoare (fun _ => True) (start_failed err) (fun _ => idle) (fun _ _ => False).
Proof.
  unfold start_failed. apply hoare_bind with (R := fun _ _ => True); [|intros _; apply emf_stop_idle].
  apply hoare_modify. auto.
Qed.

Lemma sensor_error_idle s name :
  hoare (fun _ => True) (emf_handle (SensorError s name)) (fun _ => idle) (fun _ _ => False).
Proof.
  cbn [emf_handle]. apply hoare_bind with (R := fun _ _ => True); [|intros _; apply on_error_idle].
  apply hoare_modify. auto.
Qed.

Lemma start_failed_controls err : preserves controls_ok (start_failed err).
Proof.
  apply (preserves_of_post (fun _ => True) _ _ _ (start_failed_idle err)); [auto|].
  intros w H. apply H.
Qed.

#[local] Hint Resolve emf_stop_controls start_sensor_controls start_failed_controls
  reading_controls : preserve.

Lemma emf_handle_controls e : preserves controls_ok (emf_handle e).
Proof.
  destruct e; [..|apply (preserves_of_post _ _ _ _ (sensor_error_idle s name)); firstorder];
    preserve_with untouched.
Qed.

Lemma emf_init_controls d h :
  start_disabled d = false -> stop_disabled d = true -> controls_ok (emf_init d h).
Proof. intros H1 H2. unfold controls_ok. cbn. auto. Qed.

Lemma stable_controls_ok : stable controls_ok.
Proof. intros e w H _. apply (emf_handle_controls e), H. Qed.

(** ** One sensor at a time *)

Lemma is_active_deactivate s s' w :
  is_active s (set_emf_env (set_sensors (alter (set_activated false) s' (sensors (emf_env w)))
                              (emf_env w)) w)
  = if decide (s' = s) then false else is_active s w.
Proof.
  unfold is_active. cbn. rewrite list_lookup_alter.
  case_decide; [subst|reflexivity]. destruct (sensors (emf_env w) !! s); reflexivity.
Qed.

Lemma emf_stop_lone : hoare lone_sensor emf_stop (fun _ => tidy) (fun _ _ => False).
Proof.
  intros w (Hi & Hp & Hn). rewrite emf_stop_eq. split; [repeat split|].
  split; [|split; [exact Hp|]].
  - unfold stopped. cbn. destruct (sensor (emf_page w)); exact Hi.
  - intros s' Hs'. unfold is_active, stopped in Hs'. cbn in Hs'.
    destruct (sensor (emf_page w)) as [s|] eqn:Es; [|rewrite (Hn s' Hs') in Es; discriminate].
    cbn in Hs'. rewrite list_lookup_alter in Hs'.
    case_decide; [subst; destruct (sensors (emf_env w) !! s'); discriminate|].
    specialize (Hn s' Hs'). congruence.
Qed.

Lemma emf_stop_tidy : preserves tidy emf_stop.
Proof.
  apply (preserves_of_post _ _ _ _ emf_stop_lone); [intros w H; apply H | auto].
Qed.

Lemma sensor_stop_lone s : preserves lone_sensor (sensor_stop s).
Proof.
  intros w (Hi & Hp & Hn). split; [exact Hi|split; [exact Hp|]].
  intros s'. cbn. rewrite is_active_deactivate. case_decide; [discriminate|apply Hn].
Qed.

Lemma sensor_error_tidy s name : preserves tidy (emf_handle (SensorError s name)).
Proof.
  apply (preserves_of_post lone_sensor _ tidy); [|intros w H; apply H|auto].
  cbn [emf_handle]. apply hoare_bind with (R := fun _ => lone_sensor).
  - apply hoare_modify. intros w H. apply (sensor_stop_lone s w H).
  - intros _. unfold on_error. apply hoare_bind with (R := fun _ => lone_sensor);
      [apply hoare_modify; intros w H; exact H | intros _; apply emf_stop_lone].
Qed.

Lemma tidy_idle_no_sensor w s :
  tidy w -> running (emf_page w) = false -> is_active s w = false.
Proof.
  intros ((_ & _ & Hc) & _ & _ & Hn) Hr. destruct (is_active s w) eqn:E; [|reflexivity].
  rewrite (Hn s E) in Hc. destruct Hc. congruence.
Qed.

Lemma start_sensor_tidy :
  hoare (fun w => tidy w /\ running (emf_page w) = false) start_sensor
    (fun _ => tidy) (fun _ => tidy).
Proof.
  intros w [Ht Hr]. pose proof (start_sensor_controls w (proj1 Ht)) as Hc.
  pose proof (fun s => tidy_idle_no_sensor w s Ht Hr) as Hnone.
  destruct Ht as (_ & Hi & Hp & _). destruct w as [g d h p].
  unfold start_sensor, new_Magnetometer, bind, feature, gets in *. cbn in *.
  destruct (construct h); cbn in *.
  2:{ split; [exact Hc|split; [exact Hi|split; [exact Hp|]]].
      intros s Hs. rewrite Hnone in Hs. discriminate. }
  split; [exact Hc|split; [exact Hi|split; [exact Hp|]]]. intros s Hs. cbn. f_equal.
  unfold is_active in *. cbn in *. rewrite list_lookup_alter in Hs.
  case_decide; [auto|]. specialize (Hnone s).
  destruct (decide (s < length (sensors h))%nat).
  - rewrite lookup_app_l in Hs by auto. congruence.
  - rewrite lookup_ge_None_2 in Hs by (rewrite length_app; simpl; lia). discriminate.
Qed.

#[local] Hint Resolve emf_stop_tidy : preserve.

Lemma start_failed_tidy err : preserves tidy (start_failed err).
Proof. preserve_with untouched. Qed.

Lemma start_registered_tidy :
  hoare (fun w => tidy w /\ running (emf_page w) = false) start_registered
    (fun _ => tidy) (fun _ => tidy).
Proof.
  intros w [Ht Hr]. pose proof (start_sensor_tidy w (conj Ht Hr)) as Hs.
  pose proof Ht as (_ & [_ Hq] & _).
  cbv [start_registered bind feature gets try_catch].
  destruct (has_Magnetometer (emf_env w)); cbv [negb]; [|exact Ht]. rewrite Hq.
  destruct (start_sensor w) as [[] w'|e w']; [exact Hs|].
  pose proof (start_failed_tidy e w' Hs) as Hf. destruct (start_failed e w'); exact Hf.
Qed.

Lemma emf_start_tidy : preserves tidy emf_start.
Proof.
  intros w Ht. pose proof (start_registered_tidy w) as Hs.
  pose proof Ht as (_ & [Hsw _] & _).
  cbv [emf_start bind var feature gets ret].
  destruct (running (emf_page w)) eqn:Hr; [exact Ht|]. rewrite Hsw.
  specialize (Hs (conj Ht Hr)). destruct (start_registered w); exact Hs.
Qed.

Lemma reading_tidy s x y z : preserves tidy (update_sensor s (set_reading x y z)).
Proof.
  intros w (Hc & Hi & Hp & Hn). split; [apply reading_controls, Hc|].
  repeat split; try apply Hi; auto. intros s'. cbn. rewrite is_active_alter_reading. apply Hn.
Qed.

Lemma updateUI_tidy x y z : preserves tidy (updateUI x y z).
Proof. intros [g d h p] H. exact H. Qed.

Lemma emf_settle_tidy i a : preserves tidy (emf_settle i a).
Proof.
  intros w Ht. pose proof Ht as (_ & _ & Hp & _).
  cbv [emf_settle bind gets]. rewrite Hp. exact Ht.
Qed.

#[local] Hint Resolve emf_start_tidy reading_tidy updateUI_tidy emf_settle_tidy : preserve.

Lemma emf_handle_tidy e : preserves tidy (emf_handle e).
Proof. destruct e; [..|apply sensor_error_tidy]; preserve_with untouched. Qed.

Lemma emf_init_tidy d h :
  start_disabled d = false -> stop_disabled d = true -> immediate h ->
  Forall (fun o => activated o = false) (sensors h) ->
  tidy (emf_init d h).
Proof.
  intros H1 H2 Hi Hs. split; [apply emf_init_controls; assumption|].
  split; [exact Hi|split; [reflexivity|]]. intros s. unfold is_active. cbn.
  destruct (sensors h !! s) as [o|] eqn:E; [|discriminate].
  rewrite Forall_lookup in Hs. rewrite (Hs s o E). discriminate.
Qed.

Lemma stable_tidy : stable tidy.
Proof. intros e w H _. apply (emf_handle_tidy e), H. Qed.

(** ** The status line *)

Section Status.
Context (s0 : list Z).

Lemma idle_status_shown w : idle w -> status_shown s0 w.
Proof.
  intros (_ & _ & E). unfold status_shown, shown_status. rewrite E.
  apply list_elem_of_In. simpl. auto.
Qed.

Lemma emf_stop_status : preserves (status_shown s0) emf_stop.
Proof.
  apply (preserves_of_post _ _ _ _ emf_stop_idle); auto using idle_status_shown.
Qed.

Lemma start_failed_status err : preserves (status_shown s0) (start_failed err).
Proof.
  apply (preserves_of_post _ _ _ _ (start_failed_idle err)); auto using idle_status_shown.
Qed.

Lemma sensor_error_status s name :
  preserves (status_shown s0) (emf_handle (SensorError s name)).
Proof.
  apply (preserves_of_post _ _ _ _ (sensor_error_idle s name)); auto using idle_status_shown.
Qed.

Lemma emf_setStatus_shown msg :
  msg ∈ shown_status s0 -> preserves (status_shown s0) (emf_setStatus msg).
Proof. intros H w _. exact H. Qed.

#[local] Hint Extern 1 (preserves (status_shown _) (emf_setStatus _)) =>
  apply emf_setStatus_shown, list_elem_of_In; simpl; tauto : preserve.
#[local] Hint Resolve emf_stop_status start_failed_status : preserve.

Lemma emf_handle_status e : preserves (status_shown s0) (emf_handle e).
Proof. destruct e; [..|apply sensor_error_status]; preserve_with untouched. Qed.

End Status.

(** ** What holds in every state *)

Lemma emf_example_reaches :
  reaches (emf_init emf_document (emf_browser false true false (Ok tt))) emf_example.
Proof. unfold emf_example. do 2 (apply reaches_fire; [|reflexivity]). apply reaches_start. Qed.

Section Reachable.
Context (d : emf_dom) (h : emf_host).
Implicit Type w : emf_world.

(** In every state the page reaches, the buffer is a ring of [BUF]
    slots with its cursor inside, and the canvas shows the chart of the
    buffer as it is: no reading is stored without being drawn. *)
Theorem emf_chart_always w : reaches (emf_init d h) w -> chart_shown w.
Proof. apply reaches_invariant; [apply emf_init_chart | apply stable_chart_shown]. Qed.

(** C27: when the document has the start button enabled and the stop button
    disabled, then in every state the page reaches the start button is
    disabled exactly while [running], the stop button exactly while not,
    and [running] holds exactly while the page holds a sensor, which is
    activated. *)
Theorem emf_controls_always w :
  start_disabled d = false -> stop_disabled d = true ->
  reaches (emf_init d h) w -> controls_ok w.
Proof.
  intros H1 H2. apply reaches_invariant; [apply emf_init_controls; assumption|].
  apply stable_controls_ok.
Qed.

(** In a browser in which [start] awaits nothing (no service workers,
    no permission query), no sensor is ever activated but the one the
    page holds: [stop] leaves no sensor reading. *)
Theorem emf_one_sensor w :
  start_disabled d = false -> stop_disabled d = true -> immediate h ->
  Forall (fun o => activated o = false) (sensors h) ->
  reaches (emf_init d h) w -> no_stray_sensor w.
Proof.
  intros H1 H2 Hi Hs Hw. apply (reaches_invariant tidy (emf_init d h) w); auto.
  - apply emf_init_tidy; assumption.
  - apply stable_tidy.
Qed.

(** C29: the status line never shows an error: between two events its text
    is the one of the document or one of four fixed messages.  The
    messages [Sensor error: ...] and [Could not start magnetometer: ...]
    that the page writes are replaced by [Stopped.] before the handler
    that wrote them returns. *)
Theorem emf_error_unseen w :
  reaches (emf_init d h) w -> status (emf_ui w) ∈ shown_status (status d).
Proof.
  apply (reaches_invariant (status_shown (status d))).
  - apply list_elem_of_In. left. reflexivity.
  - intros e w' H _. apply (emf_handle_status _ e), H.
Qed.

End Reachable.

Lemma emf_chart_always_witness : chart_shown emf_example.
Proof. exact (emf_chart_always _ _ _ emf_example_reaches). Defined.

Lemma emf_controls_always_witness : controls_ok emf_example.
Proof.
  exact (emf_controls_always emf_document (emf_browser false true false (Ok tt)) _
           eq_refl eq_refl emf_example_reaches).
Defined.

Lemma emf_one_sensor_witness : no_stray_sensor emf_example.
Proof.
  apply (emf_one_sensor emf_document (emf_browser false true false (Ok tt)));
    [reflexivity | reflexivity | split; reflexivity | constructor |].
  exact emf_example_reaches.
Defined.

Lemma emf_error_unseen_witness :
  status (emf_ui emf_example) ∈ shown_status (status emf_document).
Proof. exact (emf_error_unseen _ _ _ emf_example_reaches). Defined.
