(* ===== verification/EmfScenarios.v ===== *)
(** * Sessions of the magnetometer page

    Runs of the machine of [EmfPage] from the loaded page: a session
    (start, readings, stop) with what it displays and what it leaves, the
    refusals of [start] (no sensor in the browser, permission denied, the
    constructor throwing), and the overlap of two calls of [start] while
    the first awaits the service worker, which leaves a sensor reading
    that [stop] cannot reach. *)

From Stdlib Require Import String ZArith QArith List Bool Lia.
From stdpp Require Import base tactics list.
From S2P Require Import Prelude Hoare Machine JsNum JsString Meter Emf EmfPage.

#[local] Open Scope string_scope.
#[local] Open Scope Z_scope.

(** ** Runs *)

(** A reading: the three coordinates. *)
Definition coordinates : Type := (num * num * num)%type.

Definition magnitude_at (r : coordinates) : magnitude :=
  let '(x, y, z) := r in magnitude_of (Some x) (Some y) (Some z).

(** The events of the readings [rs] of the sensor [s]. *)
Definition readings (s : nat) (rs : list coordinates) : list emf_event :=
  map (fun '(x, y, z) => Reading s x y z) rs.

(** The page after it has handled a reading of the sensor it holds. *)
Definition after_reading (s : nat) (r : coordinates) (w : emf_world) : emf_world :=
  let '(x, y, z) := r in
  let b := pushMag (magnitude_at r) (buffer (emf_page w)) in
  {| emf_page := set_buffer b (emf_page w);
     emf_ui := set_canvas (drawChart b)
                 (set_texts (fmt (Some x)) (fmt (Some y)) (fmt (Some z))
                    (fmt (Some (magnitude_at r))) (emf_ui w));
     emf_env := set_sensors (alter (set_reading (Some x) (Some y) (Some z)) s
                               (sensors (emf_env w))) (emf_env w);
     emf_pending := emf_pending w |}.

(** The page loaded in a browser with service workers and the permission
    query. *)
Definition emf_loaded (c : result unit) : emf_world :=
  emf_init emf_document (emf_browser true true true c).

(** A press of the start button, the registration of the service worker
    and the permission query settling, the permission being in [state]. *)
Definition emf_begin (state : string) : list emf_event :=
  [PressStart; Settled 0 (Fulfilled ""); Settled 0 (Fulfilled state)].

(** The page while it reads: the state [emf_begin] leads to when the
    permission is granted. *)
Definition emf_started : emf_world :=
  {| emf_page := {| sensor := Some 0%nat; running := true; buffer := ring0 |};
     emf_ui := set_status reading_status
                 (set_stop_disabled false (set_start_disabled true emf_document));
     emf_env := {| has_serviceWorker := true; has_Magnetometer := true;
                   has_permissions_query := true; construct := Ok tt;
                   registrations := [lit "./sw.js"];
                   sensors := [{| activated := true; sensor_x := None;
                                  sensor_y := None; sensor_z := None |}] |};
     emf_pending := [] |}.

Definition emf_session (rs : list coordinates) : list emf_event :=
  emf_begin "granted" ++ readings 0 rs ++ [PressStop].

(** Two presses of the start button before the first registration has
    settled. *)
Definition emf_double_start : list emf_event :=
  [PressStart; PressStart;
   Settled 0 (Fulfilled ""); Settled 0 (Fulfilled "");
   Settled 0 (Fulfilled "granted"); Settled 0 (Fulfilled "granted")].

(** ** What a run keeps *)

(** The page holds the activated sensor [s]. *)
Definition listening (s : nat) (w : emf_world) : Prop :=
  sensor (emf_page w) = Some s /\ is_active s w = true.

(** Everything but the buffer, the texts of the reading and the canvas is
    as it was. *)
Definition same_but_reading (w w' : emf_world) : Prop :=
  sensor (emf_page w') = sensor (emf_page w) /\
  running (emf_page w') = running (emf_page w) /\
  status (emf_ui w') = status (emf_ui w) /\
  start_disabled (emf_ui w') = start_disabled (emf_ui w) /\
  stop_disabled (emf_ui w') = stop_disabled (emf_ui w) /\
  emf_pending w' = emf_pending w /\
  forall s, is_active s w' = is_active s w.

(** The four texts show the reading [r]. *)
Definition displays (r : coordinates) (d : emf_dom) : Prop :=
  let '(x, y, z) := r in
  x_text d = fmt (Some x) /\ y_text d = fmt (Some y) /\ z_text d = fmt (Some z) /\
  mag_text d = fmt (Some (magnitude_at r)).

(** ** Readings *)

#[local] Opaque fmt drawChart pushMag magnitude_of lit message.

Lemma reading_fire s r w :
  listening s w ->
  fires (readings s [r]) w = Some (after_reading s r w).
Proof.
  intros [Hs Ha]. destruct r as [[x y] z]. cbn [readings map fires].
  unfold fire. cbn [ready emf_machine emf_enabled]. rewrite Ha. f_equal.
  unfold is_active in Ha. destruct w as [[o rn b] d h p]. cbn in Hs, Ha. subst o.
  destruct (sensors h !! s) as [q|] eqn:E; [|discriminate].
  unfold after_reading, magnitude_at.
  cbv [react emf_machine run emf_handle bind update_sensor browser modify on_reading var
       gets deref ret sensor_reading feature final].
  cbn [emf_page emf_env sensor set_emf_env sensors set_sensors].
  rewrite list_lookup_alter, E. case_decide; [|congruence]. reflexivity.
Qed.

Lemma after_reading_same s r w : same_but_reading w (after_reading s r w).
Proof.
  destruct r as [[x y] z]. unfold same_but_reading, after_reading.
  cbn [emf_page emf_ui emf_pending set_buffer sensor running set_canvas set_texts status
       start_disabled stop_disabled]. repeat split.
  intros s'. apply is_active_alter_reading.
Qed.

Lemma same_but_reading_trans w1 w2 w3 :
  same_but_reading w1 w2 -> same_but_reading w2 w3 -> same_but_reading w1 w3.
Proof.
  unfold same_but_reading. intros (?&?&?&?&?&?&Ha) (?&?&?&?&?&?&Hb).
  repeat split; try congruence; intros s; rewrite Hb; apply Ha.
Qed.

Lemma listening_same s w w' : same_but_reading w w' -> listening s w -> listening s w'.
Proof. intros (Hs & _ & _ & _ & _ & _ & Ha) [H1 H2]. split; [congruence|rewrite Ha; exact H2]. Qed.

(** The page handles every reading of the sensor it holds: it pushes the
    magnitudes in order, shows the last reading and draws the buffer, and
    changes nothing else. *)
Lemma readings_fires s rs w :
  listening s w ->
  exists w', fires (readings s rs) w = Some w' /\
    same_but_reading w w' /\
    buffer (emf_page w') = pushes (magnitude_at <$> rs) (buffer (emf_page w)) /\
    match last rs with
    | Some r => displays r (emf_ui w') /\
                canvas (emf_ui w') = drawChart (buffer (emf_page w'))
    | None => emf_ui w' = emf_ui w
    end.
Proof.
  revert w. induction rs as [|r rs IH]; intros w Hl.
  - exists w. repeat split.
  - pose proof (after_reading_same s r w) as Hk.
    destruct (IH (after_reading s r w) (listening_same _ _ _ Hk Hl))
      as (w' & Hf & Hk' & Hb & Hd).
    exists w'. change (readings s (r :: rs)) with (readings s [r] ++ readings s rs)%list.
    rewrite fires_app, (reading_fire s r w Hl). cbn [mbind option_bind].
    split; [exact Hf|]. split; [eapply same_but_reading_trans; eassumption|].
    split; [rewrite Hb; destruct r as [[x y] z]; reflexivity|].
    rewrite last_cons. destruct (last rs) eqn:El; [exact Hd|].
    apply last_None in El. subst rs. rewrite Hd, Hb.
    destruct r as [[x y] z]. repeat split.
Qed.

(** ** A session *)

Lemma begin_fires : fires (emf_begin "granted") (emf_loaded (Ok tt)) = Some emf_started.
Proof. vm_compute. reflexivity. Qed.

Lemma started_listening : listening 0 emf_started.
Proof. split; reflexivity. Qed.

Lemma stop_fire w :
  stop_disabled (emf_ui w) = false -> fires [PressStop] w = Some (stopped w).
Proof.
  intros H. cbn [fires]. unfold fire. cbn [ready emf_machine emf_enabled]. rewrite H.
  cbv [negb react emf_machine emf_handle run]. rewrite emf_stop_eq. reflexivity.
Qed.

(** C25: a session.  The user presses start, the registration of the
    service worker and the permission query settle, the sensor delivers
    the readings [rs], and the user presses stop.  Every event is
    handled; the buffer holds the magnitudes of the last [BUF] readings in
    order, the texts show the last reading and the canvas the buffer; the
    page is idle again, its buttons as in the beginning, and no sensor is
    left reading. *)
Theorem emf_session_shows (rs : list coordinates) :
  exists w, fires (emf_session rs) (emf_loaded (Ok tt)) = Some w /\
    window (buffer (emf_page w)) = last_values (magnitude_at <$> rs) /\
    match last rs with
    | Some r => displays r (emf_ui w) /\
                canvas (emf_ui w) = drawChart (buffer (emf_page w))
    | None => True
    end /\
    status (emf_ui w) = lit "Stopped." /\
    start_disabled (emf_ui w) = false /\ stop_disabled (emf_ui w) = true /\
    sensor (emf_page w) = None /\ running (emf_page w) = false /\
    emf_pending w = [] /\ forall s, is_active s w = false.
Proof.
  destruct (readings_fires 0 rs _ started_listening)
    as (w & Hf & (Hs & _ & _ & _ & Hd & Hp & Ha) & Hb & Hl).
  exists (stopped w). unfold emf_session.
  rewrite fires_app, begin_fires. cbn [mbind option_bind].
  rewrite fires_app, Hf. cbn [mbind option_bind]. rewrite stop_fire by exact Hd.
  split; [reflexivity|]. cbn [stopped emf_page emf_ui emf_pending buffer].
  split; [rewrite Hb, window_pushes_from by auto with js; exact (f_equal (fun l => drop _ (l ++ _)) window_ring0)|]. split; [destruct (last rs); [exact Hl|exact I]|].
  repeat split; [rewrite Hp; reflexivity|].
  intros s. unfold stopped. rewrite Hs. cbn [sensor emf_page emf_started].
  change (is_active s _) with
    (is_active s (set_emf_env (set_sensors (alter (set_activated false) 0%nat
                                              (sensors (emf_env w))) (emf_env w)) w)).
  rewrite is_active_deactivate. case_decide; [reflexivity|]. rewrite Ha.
  destruct s as [|s]; [congruence|reflexivity].
Qed.

(** ** Refusals *)

(** The permission is denied: the status says so, no sensor is
    constructed, and the buttons stay as they were, so that the user can
    press start again. *)
Theorem emf_denied (c : result unit) :
  exists w, fires (emf_begin "denied") (emf_loaded c) = Some w /\
    status (emf_ui w) = denied_status /\ sensors (emf_env w) = [] /\
    emf_page w = emf_page (emf_loaded c) /\
    start_disabled (emf_ui w) = false /\ emf_pending w = [].
Proof. eexists. split; [vm_compute; reflexivity|]. repeat split. Qed.

(** The browser has no [Magnetometer]: after the registration of the
    service worker the status says so and nothing else has changed. *)
Theorem emf_unavailable (c : result unit) :
  let w0 := emf_init emf_document (emf_browser true false true c) in
  exists w, fires [PressStart; Settled 0 (Fulfilled "")] w0 = Some w /\
    status (emf_ui w) = unavailable_status /\ sensors (emf_env w) = [] /\
    emf_page w = emf_page w0 /\ emf_pending w = [].
Proof. eexists. split; [vm_compute; reflexivity|]. repeat split. Qed.

(** The constructor of the sensor throws: the page is left idle with
    no sensor, and the status reads [Stopped.]: the message that names
    the failure, written first, is not the one the user sees. *)
Theorem emf_constructor_throws (e : exn) :
  exists w, fires (emf_begin "granted") (emf_loaded (Throw e)) = Some w /\
    status (emf_ui w) = lit "Stopped." /\ sensors (emf_env w) = [] /\
    emf_page w = emf_page (emf_loaded (Throw e)) /\
    start_disabled (emf_ui w) = false /\ stop_disabled (emf_ui w) = true /\
    emf_pending w = [].
Proof. eexists. split; [vm_compute; reflexivity|]. repeat split. Qed.

(** ** Two starts *)

(** C28: a second press of the start button while the first call of
    [start] awaits the service worker: both calls pass the test of
    [running], each constructs and activates a sensor, and the page holds
    the second only.  A reading of the first then shows the coordinates of
    the second, which has none yet, and pushes a zero into the chart.
    After a press of the stop button the page is idle and the first sensor
    still reads; each of its readings then throws a [TypeError] in the
    listener. *)
Theorem emf_double_start_leaks (x y z : num) :
  exists w, fires emf_double_start (emf_loaded (Ok tt)) = Some w /\
    sensor (emf_page w) = Some 1%nat /\
    is_active 0 w = true /\ is_active 1 w = true /\
    (let w1 := react (Reading 0 x y z) w in
     x_text (emf_ui w1) = dash /\ mag_text (emf_ui w1) = fmt (Some (Root 0)) /\
     buffer (emf_page w1) = pushMag (Root 0) ring0) /\
    exists w', fires [PressStop] w = Some w' /\
      running (emf_page w') = false /\ sensor (emf_page w') = None /\
      is_active 0 w' = true /\
      exists w'', emf_handle (Reading 0 x y z) w' = Raised TypeError w'' /\
        emf_ui w'' = emf_ui w' /\ emf_page w'' = emf_page w'.
Proof.
  eexists. split; [vm_compute; reflexivity|]. do 3 (split; [reflexivity|]).
  split; [vm_compute; repeat split|].
  eexists. split; [vm_compute; reflexivity|]. do 3 (split; [reflexivity|]).
  eexists. split; [vm_compute; reflexivity|]. split; reflexivity.
Qed.
