(* ===== verification/EmfLiveness.v ===== *)
(** * The magnetometer page comes to rest

    [start] of [src/emf/app.js] is a chain of at most two promises: the
    registration of the service worker, then the permission query.  This
    file gives each pending promise the number of settlements its chain
    can still take and shows that the sum decreases with every
    settlement: without a new press of the start button the chains end,
    after at most that many settlements.  From every state the page
    reaches, settling what is pending and pressing stop if the page is
    reading leads to a state in which nothing is pending and the page
    holds no sensor. *)

From Stdlib Require Import String ZArith QArith List Bool Lia.
From stdpp Require Import base tactics list.
From S2P Require Import Prelude Hoare Machine JsNum JsString Meter Emf EmfPage.

#[local] Open Scope string_scope.

(** ** The measure *)

(** The settlements the chain of a promise can still take: the
    continuation of the registration may await the permission query. *)
Definition task_weight (t : emf_task) : nat :=
  match t with
  | Register => 2
  | Query => 1
  end.

Definition pending_weight (w : emf_world) : nat :=
  sum_list_with task_weight (emf_pending w).

Definition is_settlement (e : emf_event) : bool :=
  match e with Settled _ _ => true | _ => false end.

(** The page reads nothing and awaits nothing. *)
Definition at_rest (w : emf_world) : Prop :=
  emf_pending w = [] /\ running (emf_page w) = false /\ sensor (emf_page w) = None.

(** Settle the first pending promise, the permission denied, until none
    is pending, and then press stop if the button is enabled. *)
Fixpoint bring_to_rest (fuel : nat) (w : emf_world) : list emf_event :=
  match emf_pending w, fuel with
  | _ :: _, S fuel =>
      let e := Settled 0 (Fulfilled "denied") in
      e :: bring_to_rest fuel (react e w)
  | _, _ => if stop_disabled (emf_ui w) then [] else [PressStop]
  end.

(** ** What the handlers await *)

Lemma start_sensor_pending : frames emf_pending (try_catch start_sensor start_failed).
Proof. apply preserves_frames. intros b. preserve_with untouched. Qed.

Lemma start_queried_pending a : frames emf_pending (start_queried a).
Proof. apply preserves_frames. intros b. preserve_with untouched. Qed.

Lemma start_registered_pending w :
  (pending_weight (run start_registered w) <= pending_weight w + 1)%nat.
Proof.
  unfold run. cbv [start_registered bind feature gets].
  destruct (has_Magnetometer (emf_env w)); cbv [negb];
    [|change (pending_weight w <= pending_weight w + 1)%nat; lia].
  destruct (has_permissions_query (emf_env w)) eqn:Hq.
  - cbv [try_catch]. rewrite Hq. unfold pending_weight.
    cbn [emf_await modify final emf_pending set_emf_pending].
    rewrite sum_list_with_app. cbn. lia.
  - pose proof (start_sensor_pending w) as H. unfold pending_weight.
    cbv [try_catch] in *. rewrite Hq. rewrite H. apply Nat.le_add_r.
Qed.

(** ** Settlements *)

(** Every settlement takes one from the measure, at least. *)
Lemma emf_settle_decreases i a w :
  (i < length (emf_pending w))%nat ->
  (pending_weight (react (Settled i a) w) < pending_weight w)%nat.
Proof.
  intros Hi. destruct (lookup_lt_is_Some_2 _ _ Hi) as [t Ht].
  cbn [react emf_machine emf_handle]. unfold run. cbv [emf_settle bind gets]. rewrite Ht.
  cbv [modify]. set (w1 := set_emf_pending _ w).
  assert (pending_weight w1 + task_weight t = pending_weight w)%nat as Hw
    by (apply sum_list_with_delete, Ht).
  destruct t; cbn [task_weight] in Hw.
  - pose proof (start_registered_pending w1) as H. unfold run in H. lia.
  - pose proof (start_queried_pending a w1) as H. unfold pending_weight at 1. rewrite H.
    fold (pending_weight w1). lia.
Qed.

(** The chains of [start] end: in a run of settlements only, each
    takes at least one from the measure of what is pending, so the run is
    no longer than the measure it starts from: two for each registration
    awaited and one for each permission query. *)
Theorem emf_settlements_bounded (es : list emf_event) (w w' : emf_world) :
  forallb is_settlement es = true -> fires es w = Some w' ->
  (length es + pending_weight w' <= pending_weight w)%nat.
Proof.
  apply fires_measure. intros [| |i a| |] w0 He Hr; try discriminate.
  apply emf_settle_decreases. cbn [ready emf_machine emf_enabled] in Hr.
  apply bool_decide_eq_true in Hr. exact Hr.
Qed.

Lemma emf_settlements_bounded_witness :
  (length [Settled 0 (Fulfilled ""); Settled 0 (Fulfilled "granted")]
   + pending_weight
       (react (Settled 0 (Fulfilled "granted"))
          (react (Settled 0 (Fulfilled ""))
             (react PressStart (emf_init emf_document (emf_browser true true true (Ok tt))))))
   <= pending_weight
        (react PressStart (emf_init emf_document (emf_browser true true true (Ok tt)))))%nat.
Proof. apply emf_settlements_bounded; vm_compute; reflexivity. Defined.

(** ** Coming to rest *)

Lemma stop_rests w :
  emf_pending w = [] -> stop_disabled (emf_ui w) = false ->
  exists w', fires [PressStop] w = Some w' /\ at_rest w'.
Proof.
  intros Hp Hs. exists (stopped w). cbn [fires]. unfold fire.
  cbn [ready emf_machine emf_enabled]. rewrite Hs. cbv [negb react emf_machine emf_handle run].
  rewrite emf_stop_eq. split; [reflexivity|]. repeat split. exact Hp.
Qed.

Lemma rest_now w :
  controls_ok w -> emf_pending w = [] ->
  exists w', fires (if stop_disabled (emf_ui w) then [] else [PressStop]) w = Some w' /\
             at_rest w'.
Proof.
  intros Hc Hp. destruct (stop_disabled (emf_ui w)) eqn:Hs; [|apply stop_rests; assumption].
  destruct Hc as (_ & H2 & H3). rewrite Hs in H2. exists w. split; [reflexivity|].
  unfold at_rest. destruct (running (emf_page w)); [discriminate H2|].
  destruct (sensor (emf_page w)); [destruct H3; discriminate|]. auto.
Qed.

Lemma bring_to_rest_rests fuel w :
  controls_ok w -> (pending_weight w <= fuel)%nat ->
  exists w', fires (bring_to_rest fuel w) w = Some w' /\ at_rest w'.
Proof.
  revert w. induction fuel as [|fuel IH]; intros w Hc Hf; cbn [bring_to_rest];
    destruct (emf_pending w) as [|t ts] eqn:Hp; try (apply rest_now; assumption).
  - unfold pending_weight in Hf. rewrite Hp in Hf. destruct t; cbn in Hf; lia.
  - set (e := Settled 0 (Fulfilled "denied")).
    assert (ready e w = true) as Hr
      by (cbn [ready emf_machine emf_enabled e]; rewrite Hp; reflexivity).
    pose proof (emf_settle_decreases 0 (Fulfilled "denied") w) as Hd. rewrite Hp in Hd.
    specialize (Hd ltac:(cbn; lia)). fold e in Hd.
    destruct (IH (react e w)) as (w' & Hf' & Hrest);
      [apply stable_controls_ok; assumption | lia |].
    exists w'. cbn [fires]. unfold fire. rewrite Hr. auto.
Qed.

Section Rest.
Context (d : emf_dom) (h : emf_host).

(** C30: the page can always come to rest: from every state it reaches,
    settling the promises that are pending and then pressing the stop
    button if it is enabled is a run the page accepts, of at most one
    event more than the measure of what is pending, and it ends in a
    state in which nothing is pending, the page does not read and holds
    no sensor. *)
Theorem emf_comes_to_rest (w : emf_world) :
  start_disabled d = false -> stop_disabled d = true ->
  reaches (emf_init d h) w ->
  exists w', fires (bring_to_rest (pending_weight w) w) w = Some w' /\ at_rest w'.
Proof.
  intros H1 H2 Hw. apply bring_to_rest_rests; [|lia].
  apply (reaches_invariant controls_ok (emf_init d h)); auto using stable_controls_ok.
  apply emf_init_controls; assumption.
Qed.

End Rest.

Lemma emf_comes_to_rest_witness :
  let w := react PressStart (emf_init emf_document (emf_browser true true true (Ok tt))) in
  exists w', fires (bring_to_rest (pending_weight w) w) w = Some w' /\ at_rest w'.
Proof.
  apply (emf_comes_to_rest emf_document (emf_browser true true true (Ok tt)));
    [reflexivity | reflexivity |].
  apply reaches_fire; [apply reaches_start | reflexivity].
Defined.
