(* ===== verification/Dom.v ===== *)
(** * Nodes of the document and the element builder

    The nodes [el] of [src/assets/app.js] builds: a text, or an element
    with its tag, its attributes in the order they were set, its listeners
    and its children.  [el] creates an element, goes through the entries
    of the attribute object ([class] sets the class, an entry [on...]
    whose value is a function adds a listener, any other entry sets an
    attribute) and appends the children, a string as a text node.

    [el_eq] says what [el] builds without the two loops; [all_nodes] is a
    property of a node and of every node below it.

    Names of tags and attributes are [string]s; the values of attributes
    and the texts are strings of the language ([list Z]). *)

From Stdlib Require Import String Ascii ZArith List Bool Lia.
From stdpp Require Import base tactics list.
From S2P Require Import Prelude JsString.

#[local] Open Scope string_scope.
#[local] Open Scope list_scope.
#[local] Open Scope Z_scope.

(** ** Nodes *)

#[local] Unset Elimination Schemes.

Inductive node : Type :=
| Text (data : list Z)
| Element (tag : string) (attributes : list (string * list Z))
    (listeners : list (string * list Z)) (children : list node).

#[local] Set Elimination Schemes.

(** A value of an attribute object: a string, or a function, which stands
    here as its source text. *)
Inductive value : Type :=
| Str (s : list Z)
| Fn (source : list Z).

Definition ToString (v : value) : list Z :=
  match v with Str s => s | Fn source => source end.

Definition is_function (v : value) : bool :=
  match v with Fn _ => true | Str _ => false end.

(** [setAttribute(k, v)] on a list of attributes: the value of an
    attribute that is present is replaced in place. *)
Definition set_attr (k : string) (v : list Z) (attrs : list (string * list Z)) :
    list (string * list Z) :=
  if existsb (fun p => String.eqb (fst p) k) attrs
  then map (fun p => if String.eqb (fst p) k then (k, v) else p) attrs
  else attrs ++ [(k, v)].

(** [getAttribute(k)] *)
Definition get_attr (k : string) (attrs : list (string * list Z)) : option (list Z) :=
  snd <$> find (fun p => String.eqb (fst p) k) attrs.

(** [k.slice(n)] *)
Definition slice_from (n : nat) (k : string) : string :=
  substring n (String.length k - n) k.

(** [node.appendChild(c)] *)
Definition appendChild (c : node) (n : node) : node :=
  match n with
  | Element t a l cs => Element t a l (cs ++ [c])
  | Text _ => n
  end.

Definition childNodes (n : node) : list node :=
  match n with Element _ _ _ cs => cs | Text _ => [] end.

(** ** [el] *)

(** One entry of the attribute object. *)
Definition el_entry (n : node) (kv : string * value) : node :=
  let '(k, v) := kv in
  match n with
  | Element t a l cs =>
      if String.eqb k "class" then Element t (set_attr "class" (ToString v) a) l cs
      else if String.prefix "on" k && is_function v
      then Element t a (l ++ [(slice_from 2 k, ToString v)]) cs
      else Element t (set_attr k (ToString v) a) l cs
  | Text _ => n
  end.

(** A child is a string, which becomes a text node, or a node. *)
Definition el_child (n : node) (c : list Z + node) : node :=
  appendChild (match c with inl s => Text s | inr c => c end) n.

Definition el (tag : string) (attrs : list (string * value))
    (children : list (list Z + node)) : node :=
  let node := Element tag [] [] [] in
  let node := foldl el_entry node attrs in
  foldl el_child node children.

(** ** Specification *)

(** [s] between every two elements of [l]. *)
Fixpoint intersperse {A} (s : A) (l : list A) : list A :=
  match l with
  | [] => []
  | x :: l' => match l' with [] => [x] | _ => x :: s :: intersperse s l' end
  end.

(** What an entry of the attribute object adds to the attributes and to
    the listeners. *)
Definition attr_step (a : list (string * list Z)) (kv : string * value) :
    list (string * list Z) :=
  let '(k, v) := kv in
  if String.eqb k "class" then set_attr "class" (ToString v) a
  else if String.prefix "on" k && is_function v then a
  else set_attr k (ToString v) a.

Definition listener_step (l : list (string * list Z)) (kv : string * value) :
    list (string * list Z) :=
  let '(k, v) := kv in
  if String.eqb k "class" then l
  else if String.prefix "on" k && is_function v then l ++ [(slice_from 2 k, ToString v)]
  else l.

(** The attributes and the listeners [el] gives an element. *)
Definition el_attributes (attrs : list (string * value)) : list (string * list Z) :=
  foldl attr_step [] attrs.

Definition el_listeners (attrs : list (string * value)) : list (string * list Z) :=
  foldl listener_step [] attrs.

Definition child_node (c : list Z + node) : node :=
  match c with inl s => Text s | inr n => n end.

(** Whether [p] holds of a node and of every node below it. *)
Fixpoint all_nodes (p : node -> bool) (n : node) : bool :=
  p n &&
  match n with
  | Text _ => true
  | Element _ _ _ cs => forallb (all_nodes p) cs
  end.

(** ** What [el] builds *)

Lemma el_entries attrs t a l cs :
  foldl el_entry (Element t a l cs) attrs
  = Element t (foldl attr_step a attrs) (foldl listener_step l attrs) cs.
Proof.
  revert a l. induction attrs as [|[k v] attrs IH]; intros a l; [reflexivity|].
  cbn [foldl el_entry attr_step listener_step]. destruct (String.eqb k "class"); [apply IH|].
  destruct (String.prefix "on" k && is_function v); apply IH.
Qed.

Lemma el_children cs' t a l cs :
  foldl el_child (Element t a l cs) cs' = Element t a l (cs ++ (child_node <$> cs')).
Proof.
  revert cs. induction cs' as [|c cs' IH]; intros cs; cbn [foldl fmap list_fmap].
  - rewrite app_nil_r. reflexivity.
  - cbn [el_child appendChild]. rewrite IH, <- app_assoc. reflexivity.
Qed.

(** What [el] builds. *)
Lemma el_eq tag attrs children :
  el tag attrs children
  = Element tag (el_attributes attrs) (el_listeners attrs) (child_node <$> children).
Proof. unfold el. rewrite el_entries, el_children. reflexivity. Qed.

(** ** Attributes *)

Lemma get_attr_app_None k a b :
  existsb (fun p => String.eqb (fst p) k) a = false ->
  get_attr k (a ++ b) = get_attr k b.
Proof.
  unfold get_attr. induction a as [|[k' v'] a IH]; [reflexivity|]. cbn.
  destruct (String.eqb k' k); [discriminate|]. exact IH.
Qed.

Lemma get_set_attr k v a : get_attr k (set_attr k v a) = Some v.
Proof.
  unfold set_attr. destruct (existsb _ a) eqn:E.
  - unfold get_attr. induction a as [|[k' v'] a IH]; [discriminate|]. cbn in *.
    destruct (String.eqb k' k) eqn:Ek; cbn; [rewrite String.eqb_refl; reflexivity|].
    rewrite Ek. apply IH, E.
  - rewrite get_attr_app_None by exact E. unfold get_attr. cbn.
    rewrite String.eqb_refl. reflexivity.
Qed.

(** ** Lists *)

Lemma intersperse_cons {A} (s x : A) (l : list A) :
  intersperse s (x :: l) = x :: flat_map (fun y => [s; y]) l.
Proof.
  revert x. induction l as [|y l IH]; intros x; [reflexivity|].
  change (intersperse s (x :: y :: l)) with (x :: s :: intersperse s (y :: l)).
  rewrite IH. reflexivity.
Qed.

Lemma flat_map_fmap {A B C} (g : A -> B) (f : B -> list C) (l : list A) :
  flat_map f (g <$> l) = flat_map (fun x => f (g x)) l.
Proof. induction l as [|x l IH]; [reflexivity|]. cbn. rewrite IH. reflexivity. Qed.

Lemma forallb_fmap_true {A B} (f : A -> B) (p : B -> bool) (l : list A) :
  (forall x, p (f x) = true) -> forallb p (f <$> l) = true.
Proof. intros H. induction l as [|x l IH]; [reflexivity|]. cbn. rewrite H, IH. reflexivity. Qed.

Lemma forallb_intersperse {A} (p : A -> bool) (s : A) (l : list A) :
  p s = true -> forallb p l = true -> forallb p (intersperse s l) = true.
Proof.
  intros Hs H. destruct l as [|x l]; [reflexivity|]. rewrite intersperse_cons.
  cbn [forallb] in *. apply andb_prop in H as [Hx Hl]. rewrite Hx. cbn [andb].
  induction l as [|y l IH]; [reflexivity|].
  cbn [forallb flat_map app] in *. apply andb_prop in Hl as [Hy Hl].
  rewrite Hs, Hy, IH by exact Hl. reflexivity.
Qed.
