(* ===== verification/Site.v ===== *)
(** * The site

    [src/assets/app.js]: the configuration [CONFIG], the three renderers
    that fill the grids of the page from the configuration with the cards
    [Dom.el] builds, the mobile menu and the updates form, and the
    statements the script runs when it is loaded.

    The page is what the script finds by id or selector: each element the
    script looks up may be missing, and the script's guards decide what
    happens then.  The script and its two listeners are programs over the
    page; the page is a [Machine] whose events are a click on the menu
    button, a submission of the form and the user typing in a field.

    [SiteProps] has the theorems. *)

From Stdlib Require Import String Ascii ZArith List Bool Lia.
From stdpp Require Import base tactics list.
From S2P Require Import Prelude Hoare Machine JsString Dom.

#[local] Open Scope string_scope.
#[local] Open Scope list_scope.
#[local] Open Scope Z_scope.

(** ** The configuration *)

Record link : Type := {
  label : list Z;
  href : list Z;
}.

(** An optional property is [None] when the object does not have it. *)
Record music_item : Type := {
  title : list Z;
  desc : option (list Z);
  tags : option (list (list Z));
  embedUrl : list Z;
  links : option (list link);
}.

Record software_item : Type := {
  name : list Z;
  version : option (list Z);
  sw_desc : option (list Z);
  sw_tags : option (list (list Z));
  sw_links : option (list link);
}.

Record photo : Type := {
  src : list Z;
  alt : list Z;
}.

Record config : Type := {
  music : list music_item;
  software : list software_item;
  gallery : list photo;
}.

Definition three_tags (a b c : string) : option (list (list Z)) :=
  Some [lit a; lit b; lit c].

Definition CONFIG : config :=
  {| music :=
       [ {| title := lit "Sound Cloud";
            desc := Some (lit "Acid / Minimal Wave");
            tags := three_tags "Acid" "Minimal Wave" "Live";
            embedUrl := lit ("https://w.soundcloud.com/player/?url=https%3A//api.soundcloud.com"
              ++ "/tracks/soundcloud%253Atracks%253A2241053156&color=%23000000&auto_play=false"
              ++ "&hide_related=false&show_comments=true&show_user=true&show_reposts=false"
              ++ "&show_teaser=true&visual=true")%string;
            links := Some [ {| label := lit "Open on SoundCloud";
                               href := lit "https://soundcloud.com/rgbelasco/" |} ] |};
         {| title := lit "Band Camp";
            desc := Some (lit "Acid / Minimal Wave");
            tags := three_tags "Acid" "Minimal Wave" "Live";
            embedUrl := lit ("https://bandcamp.com/EmbeddedPlayer/track=870727442/size=small"
              ++ "/bgcol=333333/linkcol=0f91ff/transparent=true/")%string;
            links := Some [ {| label := lit "Open on Bandcamp";
                               href := lit "https://androidacid.bandcamp.com/" |} ] |} ];
     software :=
       [ {| name := lit "Acid Utility #1";
            version := Some (lit "v0.1");
            sw_desc := Some (lit "Coming Soon : 2026.");
            sw_tags := three_tags "VST3" "Windows" "Experimental";
            sw_links := Some [ {| label := lit "Download"; href := lit "#" |};
                               {| label := lit "Docs"; href := lit "#" |};
                               {| label := lit "Source"; href := lit "#" |} ] |};
         {| name := lit "Sample Pack / Presets";
            version := Some (lit "2025.01");
            sw_desc := Some (lit "Coming Soon : 2026.");
            sw_tags := three_tags "Samples" "Patches" "303-ish";
            sw_links := Some
              [ {| label := lit "Download";
                   href := lit "https://androidacid.com/software.html" |};
                {| label := lit "Source";
                   href := lit "https://github.com/AndroidAcid/AndroidAcid.github.io" |} ] |};
         {| name := lit "Games";
            version := Some (lit "2026.01");
            sw_desc := Some (lit "Javascript Games");
            sw_tags := three_tags "Games" "Javascript" "Old-Skool";
            sw_links := Some [ {| label := lit "Get it"; href := lit "#" |} ] |} ];
     gallery :=
       [ {| src := lit "photos/5953779113233419213.jpg"; alt := lit "Studio" |};
         {| src := lit "photos/5953779113233419236.jpg"; alt := lit "Studio" |};
         {| src := lit "photos/5953779113233419238.jpg"; alt := lit "Studio" |} ] |}.

(** ** Cards *)

(** [v || ""] *)
Definition or_empty (v : option (list Z)) : list Z := default [] v.

Definition pill (t : list Z) : list Z + node :=
  inr (el "span" [("class", Str (lit "pill"))] [inl t]).

(** The bullet between two links. *)
Definition separator : node := el "span" [("class", Str (lit "sep"))] [inl [8226]].

Definition anchor (l : link) : node :=
  el "a" [("class", Str (lit "link")); ("href", Str (href l));
          ("target", Str (lit "_blank")); ("rel", Str (lit "noreferrer"))]
     [inl (label l)].

(** The loop over the links, [idx] counting them. *)
Fixpoint links_loop (idx : nat) (ls : list link) (row : node) : node :=
  match ls with
  | [] => row
  | l :: ls =>
      let row := if (0 <? idx)%nat then appendChild separator row else row in
      links_loop (S idx) ls (appendChild (anchor l) row)
  end.

(** [links] after [(item.links || []).forEach(...)]. *)
Definition links_row (ls : option (list link)) : node :=
  links_loop 0 (default [] ls) (el "div" [("class", Str (lit "links-row"))] []).

(** The card of a music item; [item.tags.map] throws when the item has no
    tags. *)
Definition music_card (item : music_item) : result node :=
  match tags item with
  | None => Throw TypeError
  | Some ts =>
      let tags := el "div" [("class", Str (lit "meta"))] (pill <$> ts) in
      let links := links_row (links item) in
      let iframe := el "iframe" [("title", Str (title item)); ("scrolling", Str (lit "no"));
                                 ("allow", Str (lit "autoplay"));
                                 ("src", Str (embedUrl item))] [] in
      Ok (el "div" [("class", Str (lit "card"))]
            [inr (el "h3" [] [inl (title item)]);
             inr (el "p" [("class", Str (lit "muted"))] [inl (or_empty (desc item))]);
             inr tags;
             inr (el "div" [("class", Str (lit "embed"))] [inr iframe]);
             inr links])
  end.

Definition software_card (item : software_item) : node :=
  let tags := el "div" [("class", Str (lit "meta"))] (pill <$> default [] (sw_tags item)) in
  let links := links_row (sw_links item) in
  el "div" [("class", Str (lit "card"))]
    [inr (el "h3" [] [inl (name item)]);
     inr (el "p" [("class", Str (lit "muted small"))] [inl (or_empty (version item))]);
     inr (el "p" [("class", Str (lit "muted"))] [inl (or_empty (sw_desc item))]);
     inr tags;
     inr links].

Definition photo_frame (p : photo) : node :=
  let img := el "img" [("src", Str (src p)); ("alt", Str (alt p));
                       ("loading", Str (lit "lazy"))] [] in
  el "div" [("class", Str (lit "photo"))] [inr img].

(** ** The page *)

(** A form: the values of its fields by name, and the values [reset]
    gives them. *)
Record form : Type := {
  fields : list (string * list Z);
  defaults : list (string * list Z);
}.

(** What the script finds in the document; an element that the page does
    not have is [None]. *)
Record site_page : Type := {
  (** [new Date().getFullYear()] *)
  this_year : Z;
  (** the text of [#year] *)
  year_text : option (list Z);
  (** the children of [#musicGrid] *)
  musicGrid : option (list node);
  (** the children of [#softwareGrid] *)
  softwareGrid : option (list node);
  (** the children of [#gallery] *)
  galleryGrid : option (list node);
  (** the attributes of [.menu-btn] *)
  menu_btn : option (list (string * list Z));
  (** the inline style of [.nav], by property *)
  nav_style : option (list (string * list Z));
  (** whether the menu button has its listener *)
  menu_listening : bool;
  (** [#updatesForm] *)
  updatesForm : option form;
  (** the text of [#updatesMsg] *)
  updatesMsg : option (list Z);
  (** whether the form has its listener *)
  form_listening : bool;
}.

(** ** Field updates *)

Definition set_this_year (v : Z) (p : site_page) : site_page :=
  {| this_year := v; year_text := year_text p; musicGrid := musicGrid p;
     softwareGrid := softwareGrid p; galleryGrid := galleryGrid p; menu_btn
     := menu_btn p; nav_style := nav_style p; menu_listening :=
     menu_listening p; updatesForm := updatesForm p; updatesMsg :=
     updatesMsg p; form_listening := form_listening p |}.

Definition set_year_text (v : option (list Z)) (p : site_page) : site_page :=
  {| this_year := this_year p; year_text := v; musicGrid := musicGrid p;
     softwareGrid := softwareGrid p; galleryGrid := galleryGrid p; menu_btn
     := menu_btn p; nav_style := nav_style p; menu_listening :=
     menu_listening p; updatesForm := updatesForm p; updatesMsg :=
     updatesMsg p; form_listening := form_listening p |}.

Definition set_musicGrid (v : option (list node)) (p : site_page) : site_page :=
  {| this_year := this_year p; year_text := year_text p; musicGrid := v;
     softwareGrid := softwareGrid p; galleryGrid := galleryGrid p; menu_btn
     := menu_btn p; nav_style := nav_style p; menu_listening :=
     menu_listening p; updatesForm := updatesForm p; updatesMsg :=
     updatesMsg p; form_listening := form_listening p |}.

Definition set_softwareGrid (v : option (list node)) (p : site_page) : site_page :=
  {| this_year := this_year p; year_text := year_text p; musicGrid :=
     musicGrid p; softwareGrid := v; galleryGrid := galleryGrid p; menu_btn
     := menu_btn p; nav_style := nav_style p; menu_listening :=
     menu_listening p; updatesForm := updatesForm p; updatesMsg :=
     updatesMsg p; form_listening := form_listening p |}.

Definition set_galleryGrid (v : option (list node)) (p : site_page) : site_page :=
  {| this_year := this_year p; year_text := year_text p; musicGrid :=
     musicGrid p; softwareGrid := softwareGrid p; galleryGrid := v; menu_btn
     := menu_btn p; nav_style := nav_style p; menu_listening :=
     menu_listening p; updatesForm := updatesForm p; updatesMsg :=
     updatesMsg p; form_listening := form_listening p |}.

Definition set_menu_btn (v : option (list (string * list Z))) (p : site_page) : site_page :=
  {| this_year := this_year p; year_text := year_text p; musicGrid :=
     musicGrid p; softwareGrid := softwareGrid p; galleryGrid := galleryGrid
     p; menu_btn := v; nav_style := nav_style p; menu_listening :=
     menu_listening p; updatesForm := updatesForm p; updatesMsg :=
     updatesMsg p; form_listening := form_listening p |}.

Definition set_nav_style (v : option (list (string * list Z))) (p : site_page) : site_page :=
  {| this_year := this_year p; year_text := year_text p; musicGrid :=
     musicGrid p; softwareGrid := softwareGrid p; galleryGrid := galleryGrid
     p; menu_btn := menu_btn p; nav_style := v; menu_listening :=
     menu_listening p; updatesForm := updatesForm p; updatesMsg :=
     updatesMsg p; form_listening := form_listening p |}.

Definition set_menu_listening (v : bool) (p : site_page) : site_page :=
  {| this_year := this_year p; year_text := year_text p; musicGrid :=
     musicGrid p; softwareGrid := softwareGrid p; galleryGrid := galleryGrid
     p; menu_btn := menu_btn p; nav_style := nav_style p; menu_listening :=
     v; updatesForm := updatesForm p; updatesMsg := updatesMsg p;
     form_listening := form_listening p |}.

Definition set_updatesForm (v : option form) (p : site_page) : site_page :=
  {| this_year := this_year p; year_text := year_text p; musicGrid :=
     musicGrid p; softwareGrid := softwareGrid p; galleryGrid := galleryGrid
     p; menu_btn := menu_btn p; nav_style := nav_style p; menu_listening :=
     menu_listening p; updatesForm := v; updatesMsg := updatesMsg p;
     form_listening := form_listening p |}.

Definition set_updatesMsg (v : option (list Z)) (p : site_page) : site_page :=
  {| this_year := this_year p; year_text := year_text p; musicGrid :=
     musicGrid p; softwareGrid := softwareGrid p; galleryGrid := galleryGrid
     p; menu_btn := menu_btn p; nav_style := nav_style p; menu_listening :=
     menu_listening p; updatesForm := updatesForm p; updatesMsg := v;
     form_listening := form_listening p |}.

Definition set_form_listening (v : bool) (p : site_page) : site_page :=
  {| this_year := this_year p; year_text := year_text p; musicGrid :=
     musicGrid p; softwareGrid := softwareGrid p; galleryGrid := galleryGrid
     p; menu_btn := menu_btn p; nav_style := nav_style p; menu_listening :=
     menu_listening p; updatesForm := updatesForm p; updatesMsg :=
     updatesMsg p; form_listening := v |}.

(** ** The renderers *)

Definition append_to (c : node) (grid : option (list node)) : option (list node) :=
  (fun cs => cs ++ [c]) <$> grid.

Definition renderMusic (c : config) : prog site_page unit :=
  (grid <- gets musicGrid ;;
   match grid with
   | None => ret tt
   | Some _ =>
       for_each (music c) (fun item =>
         card <- lift (music_card item) ;;
         modify (fun p => set_musicGrid (append_to card (musicGrid p)) p))
   end)%prog.

Definition renderSoftware (c : config) : prog site_page unit :=
  (grid <- gets softwareGrid ;;
   match grid with
   | None => ret tt
   | Some _ =>
       for_each (software c) (fun item =>
         modify (fun p => set_softwareGrid (append_to (software_card item) (softwareGrid p)) p))
   end)%prog.

Definition renderGallery (c : config) : prog site_page unit :=
  (gal <- gets galleryGrid ;;
   match gal with
   | None => ret tt
   | Some _ =>
       for_each (gallery c) (fun p =>
         modify (fun s => set_galleryGrid (append_to (photo_frame p) (galleryGrid s)) s))
   end)%prog.

(** ** The mobile menu *)

(** The properties the listener gives the inline style of the menu. *)
Definition menu_style : list (string * list Z) :=
  [("display", lit "flex"); ("flexDirection", lit "column");
   ("position", lit "absolute"); ("right", lit "20px"); ("top", lit "68px");
   ("padding", lit "12px"); ("background", lit "rgba(0,0,0,0.72)");
   ("border", lit "1px solid rgba(0,255,102,0.18)"); ("borderRadius", lit "16px");
   ("boxShadow", lit "0 0 22px rgba(0,255,102,0.12)")].

(** [String(b)] *)
Definition string_of_bool (b : bool) : list Z := if b then lit "true" else lit "false".

(** The listener of the menu button. *)
Definition menu_click : prog site_page unit :=
  (b <- gets menu_btn ;;
   btn <- deref b ;;
   n <- gets nav_style ;;
   style <- deref n ;;
   let expanded := bool_decide (get_attr "aria-expanded" btn = Some (lit "true")) in
   _ <- modify (set_menu_btn
          (Some (set_attr "aria-expanded" (string_of_bool (negb expanded)) btn))) ;;
   if negb expanded then
     modify (set_nav_style
       (Some (foldl (fun s '(k, v) => set_attr k v s) style menu_style)))
   else modify (set_nav_style (Some [])))%prog.

Definition setupMobileMenu : prog site_page unit :=
  (btn <- gets menu_btn ;;
   nav <- gets nav_style ;;
   match btn, nav with
   | Some _, Some _ => modify (set_menu_listening true)
   | _, _ => ret tt
   end)%prog.

(** ** The updates form *)

Definition saved_message (email : list Z) : list Z :=
  lit "Saved locally: " ++ email ++ lit " (wire this to a real list when you're ready).".

(** The listener of [submit]; [FormData.get] of a name the form does not
    have is [null]. *)
Definition form_submit : prog site_page unit :=
  (f <- gets updatesForm ;;
   form <- deref f ;;
   let email := default (lit "null") (get_attr "email" (fields form)) in
   _ <- modify (set_updatesMsg (Some (saved_message email))) ;;
   modify (set_updatesForm (Some {| fields := defaults form; defaults := defaults form |})))%prog.

Definition setupUpdatesForm : prog site_page unit :=
  (form <- gets updatesForm ;;
   msg <- gets updatesMsg ;;
   match form, msg with
   | Some _, Some _ => modify (set_form_listening true)
   | _, _ => ret tt
   end)%prog.

(** ** The script *)

(** The statements at the end of the script. *)
Definition site_load (c : config) : prog site_page unit :=
  (y <- gets year_text ;;
   _ <- deref y ;;
   t <- gets this_year ;;
   _ <- modify (set_year_text (Some (string_of_Z t))) ;;
   _ <- renderMusic c ;;
   _ <- renderSoftware c ;;
   _ <- renderGallery c ;;
   _ <- setupMobileMenu ;;
   setupUpdatesForm)%prog.

(** ** Events *)

Inductive site_event : Type :=
| MenuClick
| Submit
| Input (name : string) (v : list Z).

(** The user types [v] into the field [name]. *)
Definition form_input (name : string) (v : list Z) : prog site_page unit :=
  (f <- gets updatesForm ;;
   match f with
   | Some form =>
       modify (set_updatesForm
         (Some {| fields := set_attr name v (fields form); defaults := defaults form |}))
   | None => ret tt
   end)%prog.

Definition has_field (name : string) (p : site_page) : bool :=
  match updatesForm p with
  | Some form => bool_decide (is_Some (get_attr name (fields form)))
  | None => false
  end.

Definition site_handle (e : site_event) : prog site_page unit :=
  match e with
  | MenuClick => menu_click
  | Submit => form_submit
  | Input name v => form_input name v
  end.

Definition site_enabled (e : site_event) (p : site_page) : bool :=
  match e with
  | MenuClick => menu_listening p
  | Submit => form_listening p
  | Input name _ => has_field name p
  end.

#[export] Instance site_machine : Machine site_page site_event := {|
  ready := site_enabled;
  react e := run (site_handle e);
|}.

(** ** Specification *)

(** A link that opens a new browsing context gives it no reference to the
    page: an [a] with a [target] has [rel="noreferrer"]. *)
Definition link_safe (n : node) : bool :=
  match n with
  | Element t a _ _ =>
      negb (String.eqb t "a") || negb (bool_decide (is_Some (get_attr "target" a)))
      || bool_decide (get_attr "rel" a = Some (lit "noreferrer"))
  | Text _ => true
  end.

(** The cards of the music items, or the exception of the first item that
    has no tags. *)
Definition music_cards (items : list music_item) : result (list node) :=
  foldr (fun item r =>
           result_bind (music_card item) (fun c =>
           result_bind r (fun cs => Ok (c :: cs)))) (Ok []) items.

(** The cards of the items before the first that has no tags. *)
Fixpoint music_prefix (items : list music_item) : list node :=
  match items with
  | [] => []
  | item :: items =>
      match music_card item with
      | Ok n => n :: music_prefix items
      | Throw _ => []
      end
  end.

(** The children [cs] appended to a grid, if the page has it. *)
Definition extend (cs : list node) (grid : option (list node)) : option (list node) :=
  (fun old => old ++ cs) <$> grid.

Definition both {A B} (a : option A) (b : option B) : bool :=
  match a, b with Some _, Some _ => true | _, _ => false end.

(** The page after the script has run, [cards] being the cards of the
    music items. *)
Definition loaded (c : config) (cards : list node) (p : site_page) : site_page :=
  {| this_year := this_year p;
     year_text := Some (string_of_Z (this_year p));
     musicGrid := extend cards (musicGrid p);
     softwareGrid := extend (software_card <$> software c) (softwareGrid p);
     galleryGrid := extend (photo_frame <$> gallery c) (galleryGrid p);
     menu_btn := menu_btn p;
     nav_style := nav_style p;
     menu_listening := both (menu_btn p) (nav_style p) || menu_listening p;
     updatesForm := updatesForm p;
     updatesMsg := updatesMsg p;
     form_listening := both (updatesForm p) (updatesMsg p) || form_listening p |}.

(** The menu is closed or open: the button says [true] exactly when the
    menu has its style; and a listener is attached only where its two
    elements are. *)
Definition menu_ok (p : site_page) : Prop :=
  match menu_btn p, nav_style p with
  | Some b, Some s =>
      (get_attr "aria-expanded" b = Some (lit "true") /\ s = menu_style) \/
      (get_attr "aria-expanded" b <> Some (lit "true") /\ s = [])
  | _, _ => menu_listening p = false
  end.

(** ** An example *)

(** A page that has every element the script looks for. *)
Definition site_document : site_page :=
  {| this_year := 2026; year_text := Some []; musicGrid := Some [];
     softwareGrid := Some []; galleryGrid := Some [];
     menu_btn := Some [("class", lit "menu-btn"); ("aria-expanded", lit "false")];
     nav_style := Some []; menu_listening := false;
     updatesForm := Some {| fields := [("email", [])]; defaults := [("email", [])] |};
     updatesMsg := Some []; form_listening := false |}.

(** The same page without the element of the year. *)
Definition site_document_bare : site_page := set_year_text None site_document.

(** The cards of the music items of [CONFIG]. *)
Definition config_cards : list node := music_prefix (music CONFIG).

(** A configuration whose second music item has no tags. *)
Definition config_untagged : config :=
  {| music := [ {| title := lit "First"; desc := None; tags := Some []; embedUrl := [];
                   links := None |};
                {| title := lit "Second"; desc := None; tags := None; embedUrl := [];
                   links := None |} ];
     software := software CONFIG;
     gallery := gallery CONFIG |}.

(** ** The script *)

(** The page after the script has run on [site_document]. *)
Definition site_loaded : site_page := loaded CONFIG config_cards site_document.
