(* ===== verification/SiteProps.v ===== *)
(** * What the site's script does

    Theorems about [Site]: the row of links a card ends with, the safety
    of the links on the page, what the script renders and where it stops
    when the page lacks the element of the year or a music item lacks its
    tags, the two states of the mobile menu, and the message of the
    updates form. *)

From Stdlib Require Import String Ascii ZArith List Bool Lia.
From stdpp Require Import base tactics list.
From S2P Require Import Prelude Hoare Machine JsString Dom Site.

#[local] Open Scope string_scope.
#[local] Open Scope list_scope.
#[local] Open Scope Z_scope.

(** ** The row of links *)

Lemma links_loop_later idx ls t a l cs :
  (0 < idx)%nat ->
  links_loop idx ls (Element t a l cs)
  = Element t a l (cs ++ flat_map (fun x => [separator; anchor x]) ls).
Proof.
  revert idx cs. induction ls as [|x ls IH]; intros idx cs Hi; cbn [links_loop flat_map].
  - rewrite app_nil_r. reflexivity.
  - destruct (Nat.ltb_spec 0 idx); [|lia]. cbn [appendChild].
    rewrite IH by lia. rewrite <- !app_assoc. reflexivity.
Qed.

(** The row of links has the links of the item in their order, each
    an [a] with the label as its text, and one bullet between every two:
    none before the first and none after the last. *)
Theorem links_row_children (ls : option (list link)) :
  childNodes (links_row ls) = intersperse separator (anchor <$> default [] ls).
Proof.
  unfold links_row. rewrite el_eq. destruct (default [] ls) as [|x l]; [reflexivity|].
  cbn [links_loop Nat.ltb Nat.leb appendChild fmap list_fmap app].
  rewrite links_loop_later by lia. cbn [childNodes app].
  change (list_fmap _ _ anchor l) with (anchor <$> l).
  rewrite intersperse_cons, flat_map_fmap. reflexivity.
Qed.

Lemma links_row_eq (ls : option (list link)) :
  links_row ls
  = Element "div" [("class", lit "links-row")] []
      (intersperse separator (anchor <$> default [] ls)).
Proof.
  rewrite <- links_row_children. unfold links_row. rewrite el_eq.
  destruct (default [] ls) as [|x l]; [reflexivity|].
  cbn [links_loop Nat.ltb Nat.leb appendChild fmap list_fmap app].
  rewrite links_loop_later by lia. reflexivity.
Qed.

(** ** Links are safe *)

(** An element built by [el] is safe when it is itself and its children
    are. *)
Lemma el_safe tag attrs children :
  link_safe (Element tag (el_attributes attrs) [] []) = true ->
  Forall (fun c => all_nodes link_safe (child_node c) = true) children ->
  all_nodes link_safe (el tag attrs children) = true.
Proof.
  intros H Hc. rewrite el_eq. cbn [all_nodes]. apply andb_true_intro. split; [exact H|].
  induction Hc as [|c cs Hc _ IH]; [reflexivity|]. cbn. rewrite Hc, IH. reflexivity.
Qed.

Lemma anchor_safe (l : link) : all_nodes link_safe (anchor l) = true.
Proof. reflexivity. Qed.

Lemma pill_safe (t : list Z) : all_nodes link_safe (child_node (pill t)) = true.
Proof. reflexivity. Qed.

Lemma links_row_safe (ls : option (list link)) : all_nodes link_safe (links_row ls) = true.
Proof.
  rewrite links_row_eq. cbn [all_nodes link_safe String.eqb Ascii.eqb Bool.eqb negb orb andb].
  apply forallb_intersperse; [reflexivity|]. apply forallb_fmap_true, anchor_safe.
Qed.

Ltac safe_children :=
  repeat first [ apply Forall_nil_2
               | apply Forall_cons_2
               | apply Forall_fmap, Forall_forall; intros ? _; apply pill_safe
               | apply links_row_safe
               | apply el_safe; [reflexivity|]
               | reflexivity ].

(** C32: every link the renderers put on the page that opens in a new
    browsing context has [rel="noreferrer"]: the page it opens gets no
    reference to the site, whatever the configuration holds. *)
Theorem rendered_links_safe :
  (forall item n, music_card item = Ok n -> all_nodes link_safe n = true) /\
  (forall item, all_nodes link_safe (software_card item) = true) /\
  (forall p, all_nodes link_safe (photo_frame p) = true).
Proof.
  split; [|split].
  - intros item n. unfold music_card. destruct (tags item); [|discriminate].
    intros [= <-]. safe_children.
  - intros item. unfold software_card. safe_children.
  - intros p. unfold photo_frame. safe_children.
Qed.

(** ** The renderers *)

Lemma extend_nil grid : extend [] grid = grid.
Proof. destruct grid as [cs|]; [|reflexivity]. cbn. rewrite app_nil_r. reflexivity. Qed.

Lemma extend_extend cs1 cs2 grid : extend cs2 (extend cs1 grid) = extend (cs1 ++ cs2) grid.
Proof. destruct grid as [cs|]; [|reflexivity]. cbn. rewrite app_assoc. reflexivity. Qed.

Lemma append_to_extend c grid : append_to c grid = extend [c] grid.
Proof. reflexivity. Qed.

Lemma music_cards_cons item items :
  music_cards (item :: items)
  = result_bind (music_card item) (fun c =>
    result_bind (music_cards items) (fun cs => Ok (c :: cs))).
Proof. reflexivity. Qed.

Lemma music_cards_prefix items cards :
  music_cards items = Ok cards -> music_prefix items = cards.
Proof.
  revert cards. induction items as [|item items IH]; intros cards.
  - cbn. congruence.
  - rewrite music_cards_cons. cbn [music_prefix].
    destruct (music_card item) as [n|]; [|discriminate]. cbn [result_bind].
    destruct (music_cards items) as [cs|]; [|discriminate]. cbn [result_bind].
    intros [= <-]. rewrite (IH cs) by reflexivity. reflexivity.
Qed.

(** The loop of [renderMusic]: the cards are appended in order, up to the
    first item that has no tags, where the loop ends by its exception. *)
Lemma music_loop items p :
  let p' := set_musicGrid (extend (music_prefix items) (musicGrid p)) p in
  for_each items (fun item =>
    card <- lift (music_card item) ;;
    modify (fun p => set_musicGrid (append_to card (musicGrid p)) p))%prog p
  = match music_cards items with
    | Ok _ => Done tt p'
    | Throw e => Raised e p'
    end.
Proof.
  revert p. induction items as [|item items IH]; intros p.
  - cbn. rewrite extend_nil. destruct p; reflexivity.
  - rewrite music_cards_cons. cbn [for_each music_prefix]. unfold bind at 1 2, lift at 1.
    destruct (music_card item) as [n|e]; cbn [result_bind].
    + unfold modify at 1. rewrite IH. cbn [musicGrid set_musicGrid].
      rewrite append_to_extend, extend_extend.
      destruct (music_cards items); reflexivity.
    + cbn zeta. rewrite extend_nil. destruct p; reflexivity.
Qed.

Lemma for_each_modify {S A} (f : A -> S -> S) (l : list A) (s : S) :
  for_each l (fun x => modify (f x)) s = Done tt (foldl (fun s x => f x s) s l).
Proof.
  revert s. induction l as [|x l IH]; intros s; [reflexivity|].
  cbn [for_each foldl]. unfold bind, modify at 1. apply IH.
Qed.

Lemma software_loop items p :
  foldl (fun p item => set_softwareGrid (append_to (software_card item) (softwareGrid p)) p)
    p items
  = set_softwareGrid (extend (software_card <$> items) (softwareGrid p)) p.
Proof.
  revert p. induction items as [|item items IH]; intros p; cbn [foldl fmap list_fmap].
  - rewrite extend_nil. destruct p; reflexivity.
  - rewrite IH. cbn [softwareGrid set_softwareGrid].
    rewrite append_to_extend, extend_extend. reflexivity.
Qed.

Lemma gallery_loop items p :
  foldl (fun s x => set_galleryGrid (append_to (photo_frame x) (galleryGrid s)) s) p items
  = set_galleryGrid (extend (photo_frame <$> items) (galleryGrid p)) p.
Proof.
  revert p. induction items as [|item items IH]; intros p; cbn [foldl fmap list_fmap].
  - rewrite extend_nil. destruct p; reflexivity.
  - rewrite IH. cbn [galleryGrid set_galleryGrid].
    rewrite append_to_extend, extend_extend. reflexivity.
Qed.

(** ** The script *)

Lemma renderMusic_eq c p :
  let p' := set_musicGrid (extend (music_prefix (music c)) (musicGrid p)) p in
  renderMusic c p
  = match musicGrid p, music_cards (music c) with
    | Some _, Throw e => Raised e p'
    | _, _ => Done tt p'
    end.
Proof.
  intros p'. unfold renderMusic, bind at 1, gets. destruct (musicGrid p) eqn:E.
  - rewrite music_loop. cbv zeta. subst p'. rewrite E. reflexivity.
  - subst p'. destruct p; cbn in *; subst. reflexivity.
Qed.

Lemma renderSoftware_eq c p :
  renderSoftware c p
  = Done tt (set_softwareGrid (extend (software_card <$> software c) (softwareGrid p)) p).
Proof.
  unfold renderSoftware, bind at 1, gets. destruct (softwareGrid p) eqn:E.
  - rewrite for_each_modify, software_loop, E. reflexivity.
  - cbn. destruct p; cbn in *; subst. reflexivity.
Qed.

Lemma renderGallery_eq c p :
  renderGallery c p
  = Done tt (set_galleryGrid (extend (photo_frame <$> gallery c) (galleryGrid p)) p).
Proof.
  unfold renderGallery, bind at 1, gets. destruct (galleryGrid p) eqn:E.
  - rewrite for_each_modify, gallery_loop, E. reflexivity.
  - cbn. destruct p; cbn in *; subst. reflexivity.
Qed.

Lemma setupMobileMenu_eq p :
  setupMobileMenu p
  = Done tt (set_menu_listening (both (menu_btn p) (nav_style p) || menu_listening p) p).
Proof. destruct p as [? ? ? ? ? [?|] [?|] ? ? ? ?]; reflexivity. Qed.

Lemma setupUpdatesForm_eq p :
  setupUpdatesForm p
  = Done tt (set_form_listening (both (updatesForm p) (updatesMsg p) || form_listening p) p).
Proof. destruct p as [? ? ? ? ? ? ? ? [?|] [?|] ?]; reflexivity. Qed.

(** C31: on a page that has the element of the year, and for a
    configuration whose music items all have tags, the script ends without
    an exception: it writes the year, appends to each grid the page has
    the cards of the configuration in their order, and attaches each
    listener whose two elements the page has.  It changes nothing else. *)
Theorem site_load_renders (c : config) (p : site_page) (cards : list node) :
  is_Some (year_text p) -> music_cards (music c) = Ok cards ->
  site_load c p = Done tt (loaded c cards p).
Proof.
  intros [y Hy] Hc. unfold site_load, bind, gets, deref, modify. rewrite Hy. cbn [ret].
  rewrite renderMusic_eq, Hc, (music_cards_prefix _ _ Hc). cbv zeta.
  destruct p as [ty yt [mg|] sg gg mb ns ml uf um fl]; cbn [musicGrid set_year_text];
    rewrite renderSoftware_eq, renderGallery_eq, setupMobileMenu_eq, setupUpdatesForm_eq;
    reflexivity.
Qed.

(** The page has no element of the year: the first statement of
    the script throws, and the script ends there: no grid is filled and
    no listener attached, although each of the five functions it would
    have called checks for the elements it needs. *)
Theorem site_load_without_year (c : config) (p : site_page) :
  year_text p = None -> site_load c p = Raised TypeError p.
Proof. intros H. unfold site_load, bind, gets, deref. rewrite H. reflexivity. Qed.

(** C34: a music item without tags: [renderMusic] throws at that item,
    after the cards of the items before it, and the script ends: the
    software grid and the gallery stay empty and no listener is attached.
    [renderSoftware] takes a missing list of tags for an empty one. *)
Theorem site_load_music_untagged (c : config) (p : site_page) (e : exn) :
  is_Some (year_text p) -> is_Some (musicGrid p) -> music_cards (music c) = Throw e ->
  site_load c p
  = Raised e (set_musicGrid (extend (music_prefix (music c)) (musicGrid p))
                (set_year_text (Some (string_of_Z (this_year p))) p)).
Proof.
  intros [y Hy] [g Hg] Hc. unfold site_load, bind, gets, deref, modify. rewrite Hy. cbn [ret].
  rewrite renderMusic_eq, Hc. destruct p. cbn in *. subst. reflexivity.
Qed.

(** ** The mobile menu *)

Lemma menu_style_set : foldl (fun s '(k, v) => set_attr k v s) [] menu_style = menu_style.
Proof. vm_compute. reflexivity. Qed.

(** A click on the closed menu opens it. *)
Lemma menu_click_opens p b :
  menu_btn p = Some b -> nav_style p = Some [] ->
  get_attr "aria-expanded" b <> Some (lit "true") ->
  menu_click p
  = Done tt (set_nav_style (Some menu_style)
               (set_menu_btn (Some (set_attr "aria-expanded" (lit "true") b)) p)).
Proof.
  intros Hb Hs He. cbv [menu_click bind gets]. rewrite Hb. cbv [deref ret]. rewrite Hs.
  rewrite bool_decide_false by exact He. cbv [negb string_of_bool modify].
  rewrite menu_style_set. reflexivity.
Qed.

(** A click on the open menu closes it. *)
Lemma menu_click_closes p b s :
  menu_btn p = Some b -> nav_style p = Some s ->
  get_attr "aria-expanded" b = Some (lit "true") ->
  menu_click p
  = Done tt (set_nav_style (Some [])
               (set_menu_btn (Some (set_attr "aria-expanded" (lit "false") b)) p)).
Proof.
  intros Hb Hs He. cbv [menu_click bind gets]. rewrite Hb. cbv [deref ret]. rewrite Hs.
  rewrite bool_decide_true by exact He. reflexivity.
Qed.

(** The menu toggles: a click on the closed menu marks the button
    expanded and gives the menu its ten style properties; the next click
    marks it collapsed and removes the inline style.  No click changes
    anything but the attribute of the button and the style of the menu. *)
Theorem menu_click_twice (p : site_page) (b : list (string * list Z)) :
  menu_listening p = true -> menu_btn p = Some b -> nav_style p = Some [] ->
  get_attr "aria-expanded" b <> Some (lit "true") ->
  exists p1 p2 b1 b2,
    fires [MenuClick] p = Some p1 /\ fires [MenuClick] p1 = Some p2 /\
    menu_btn p1 = Some b1 /\ get_attr "aria-expanded" b1 = Some (lit "true") /\
    nav_style p1 = Some menu_style /\
    menu_btn p2 = Some b2 /\ get_attr "aria-expanded" b2 = Some (lit "false") /\
    nav_style p2 = Some [] /\
    p2 = set_nav_style (Some []) (set_menu_btn (Some b2) p).
Proof.
  intros Hl Hb Hs He.
  pose (b1 := set_attr "aria-expanded" (lit "true") b).
  pose (p1 := set_nav_style (Some menu_style) (set_menu_btn (Some b1) p)).
  pose (b2 := set_attr "aria-expanded" (lit "false") b1).
  exists p1, (set_nav_style (Some []) (set_menu_btn (Some b2) p1)), b1, b2.
  assert (get_attr "aria-expanded" b1 = Some (lit "true")) as E1 by apply get_set_attr.
  cbn [fires]. unfold fire. cbn [ready react site_machine site_enabled site_handle].
  rewrite Hl. unfold run. rewrite (menu_click_opens p b Hb Hs He). cbn [final].
  fold b1. fold p1. replace (menu_listening p1) with true by (symmetry; exact Hl).
  rewrite (menu_click_closes p1 b1 menu_style eq_refl eq_refl E1). cbn [final]. fold b2.
  repeat split; try reflexivity; try exact E1. apply get_set_attr.
Qed.

Lemma menu_click_ok : preserves menu_ok menu_click.
Proof.
  intros p H. unfold menu_ok in H.
  destruct (menu_btn p) as [b|] eqn:Hb.
  2:{ cbv [menu_click bind gets]. rewrite Hb. cbv [deref throw final].
      unfold menu_ok. rewrite Hb. exact H. }
  destruct (nav_style p) as [s|] eqn:Hs.
  2:{ cbv [menu_click bind gets]. rewrite Hb. cbv [deref ret]. rewrite Hs.
      cbv [throw final]. unfold menu_ok. rewrite Hb, Hs. exact H. }
  destruct H as [[He ->]|[He ->]].
  - rewrite (menu_click_closes p b _ Hb Hs He). right. cbn. split; [|reflexivity].
    rewrite get_set_attr. intros [=].
  - rewrite (menu_click_opens p b Hb Hs He). left. cbn. split; [|reflexivity].
    apply get_set_attr.
Qed.

Lemma setupMobileMenu_ok : preserves menu_ok setupMobileMenu.
Proof.
  intros p H. rewrite setupMobileMenu_eq. unfold menu_ok in *. cbn.
  destruct (menu_btn p), (nav_style p); auto.
Qed.

#[local] Hint Resolve menu_click_ok setupMobileMenu_ok : preserve.

Lemma site_load_menu_ok c : preserves menu_ok (site_load c).
Proof. preserve_with untouched. Qed.

Lemma site_handle_menu_ok e : preserves menu_ok (site_handle e).
Proof. destruct e; preserve_with untouched. Qed.

(** C33: the menu is never half open: started on a page whose menu is
    closed, in every state the page reaches the button says it is expanded
    exactly when the menu has its inline style, and the listener is
    attached only when the page has both the button and the menu. *)
Theorem site_menu_always (c : config) (p0 p : site_page) :
  menu_ok p0 -> reaches (run (site_load c) p0) p -> menu_ok p.
Proof.
  intros H0. apply reaches_invariant; [apply site_load_menu_ok, H0|].
  intros e w Hw _. apply (site_handle_menu_ok e), Hw.
Qed.

(** ** The updates form *)

Lemma form_submit_eq p f :
  updatesForm p = Some f ->
  form_submit p
  = Done tt (set_updatesForm (Some {| fields := defaults f; defaults := defaults f |})
       (set_updatesMsg
          (Some (saved_message (default (lit "null") (get_attr "email" (fields f))))) p)).
Proof. intros Hf. cbv [form_submit bind gets]. rewrite Hf. reflexivity. Qed.

(** The form: the user types an address into the field [email] and
    submits.  The message quotes the address after [Saved locally: ], the
    fields are reset to their defaults, and nothing else changes: the
    address is kept nowhere but in the text of the message. *)
Theorem form_submit_message (p : site_page) (f : form) (v : list Z) :
  form_listening p = true -> updatesForm p = Some f ->
  is_Some (get_attr "email" (fields f)) ->
  fires [Input "email" v; Submit] p
  = Some (set_updatesForm (Some {| fields := defaults f; defaults := defaults f |})
            (set_updatesMsg (Some (saved_message v)) p)).
Proof.
  intros Hl Hf He. cbn [fires]. unfold fire.
  cbn [ready react site_machine site_enabled site_handle]. unfold has_field. rewrite Hf.
  rewrite bool_decide_true by exact He. unfold run.
  cbv [form_input bind gets]. rewrite Hf. cbv [modify final].
  cbn [form_listening set_updatesForm]. rewrite Hl.
  erewrite form_submit_eq by reflexivity. cbn [fields defaults final]. rewrite get_set_attr.
  reflexivity.
Qed.

(** ** Examples *)

Lemma config_cards_ok : music_cards (music CONFIG) = Ok config_cards.
Proof. vm_compute. reflexivity. Qed.

Lemma site_loaded_run : run (site_load CONFIG) site_document = site_loaded.
Proof. vm_compute. reflexivity. Qed.

Lemma rendered_links_safe_witness :
  forallb (all_nodes link_safe) (software_card <$> software CONFIG) = true.
Proof. apply forallb_fmap_true. exact (proj1 (proj2 rendered_links_safe)). Defined.

Lemma site_load_renders_witness :
  site_load CONFIG site_document = Done tt (loaded CONFIG config_cards site_document).
Proof.
  apply site_load_renders; [eexists; reflexivity | exact config_cards_ok].
Defined.

Lemma site_load_without_year_witness :
  site_load CONFIG site_document_bare = Raised TypeError site_document_bare.
Proof. apply site_load_without_year. reflexivity. Defined.

Lemma site_load_music_untagged_witness :
  site_load config_untagged site_document
  = Raised TypeError
      (set_musicGrid (extend (music_prefix (music config_untagged)) (musicGrid site_document))
         (set_year_text (Some (string_of_Z (this_year site_document))) site_document)).
Proof.
  apply site_load_music_untagged; [eexists; reflexivity | eexists; reflexivity |].
  vm_compute. reflexivity.
Defined.

Lemma menu_click_twice_witness :
  exists p1 p2 b1 b2,
    fires [MenuClick] site_loaded = Some p1 /\ fires [MenuClick] p1 = Some p2 /\
    menu_btn p1 = Some b1 /\ get_attr "aria-expanded" b1 = Some (lit "true") /\
    nav_style p1 = Some menu_style /\
    menu_btn p2 = Some b2 /\ get_attr "aria-expanded" b2 = Some (lit "false") /\
    nav_style p2 = Some [] /\
    p2 = set_nav_style (Some []) (set_menu_btn (Some b2) site_loaded).
Proof.
  apply (menu_click_twice site_loaded
           [("class", lit "menu-btn"); ("aria-expanded", lit "false")]);
    [reflexivity | reflexivity | reflexivity | vm_compute; discriminate].
Defined.

Lemma site_menu_always_witness : menu_ok (react MenuClick site_loaded).
Proof.
  apply (site_menu_always CONFIG site_document).
  - right. split; [vm_compute; discriminate | reflexivity].
  - rewrite site_loaded_run. apply reaches_fire; [apply reaches_start | reflexivity].
Defined.

Lemma form_submit_message_witness :
  fires [Input "email" (lit "a@b.c"); Submit] site_loaded
  = Some (set_updatesForm (Some {| fields := [("email", [])]; defaults := [("email", [])] |})
            (set_updatesMsg (Some (saved_message (lit "a@b.c"))) site_loaded)).
Proof.
  apply (form_submit_message site_loaded
           {| fields := [("email", [])]; defaults := [("email", [])] |});
    [reflexivity | reflexivity | eexists; reflexivity].
Defined.

