(* ===== verification/Label.v ===== *)
(** * Session label and suggested file name

    [sanitizeLabel] and the string computed by [buildSuggestedName] of
    [src/recorder/app.js].  The label typed by the user is an arbitrary
    string of code units; the sanitised label is trimmed, lower-cased, has
    each run of white space replaced by one underscore, keeps only
    [[a-z0-9_-]], and is cut to 40 code units.  The name is
    [acid_<label>_<stamp>.wav], or [acid_<stamp>.wav] when the sanitised
    label is empty, with the stamp [YYYY-MM-DD_HHMMSS] of the local time.

    The theorems show that the sanitised label is safe in a file name and
    at most 40 units long, that sanitising is idempotent, and give the
    shape of the name. *)

From Stdlib Require Import String Ascii ZArith Lia List Bool.
From stdpp Require Import base tactics list.
From S2P Require Import Prelude JsString.

#[local] Open Scope Z_scope.

(** ** The model *)

(** [s.replace(/\s+/g, "_")]: [in_run] says that the previous code unit was
    white space, whose run has been replaced already. *)
Fixpoint replace_spaces (in_run : bool) (s : list Z) : list Z :=
  match s with
  | [] => []
  | c :: s' =>
      if is_space c then
        if in_run then replace_spaces true s' else 95 :: replace_spaces true s'
      else c :: replace_spaces false s'
  end.

(** The class [[a-z0-9_-]]. *)
Definition is_name_char (c : Z) : bool :=
  (97 <=? c) && (c <=? 122) || (48 <=? c) && (c <=? 57) || (c =? 95) || (c =? 45).

Definition sanitizeLabel (label : list Z) : list Z :=
  slice_to 40
    (List.filter is_name_char
       (replace_spaces false (toLowerCase (trim label)))).

(** The fields of [new Date()] that the name uses, in local time. *)
Record date : Type := {
  getFullYear : Z;
  getMonth : Z;
  getDate : Z;
  getHours : Z;
  getMinutes : Z;
  getSeconds : Z;
}.

Definition stamp (ts : date) : list Z :=
  string_of_Z (getFullYear ts) ++ lit "-" ++
  padStart 2 48 (string_of_Z (getMonth ts + 1)) ++ lit "-" ++
  padStart 2 48 (string_of_Z (getDate ts)) ++ lit "_" ++
  padStart 2 48 (string_of_Z (getHours ts)) ++
  padStart 2 48 (string_of_Z (getMinutes ts)) ++
  padStart 2 48 (string_of_Z (getSeconds ts)).

(** The name [buildSuggestedName] computes from the value of the label
    field and the current date. *)
Definition suggested_name (value : list Z) (ts : date) : list Z :=
  let label := sanitizeLabel value in
  let base :=
    match label with
    | [] => lit "acid_" ++ stamp ts
    | _ => lit "acid_" ++ label ++ lit "_" ++ stamp ts
    end in
  base ++ lit ".wav".

(** ** Specification *)

(** A date as [new Date()] returns it. *)
Definition valid_date (ts : date) : Prop :=
  0 <= getMonth ts <= 11 /\ 1 <= getDate ts <= 31 /\ 0 <= getHours ts <= 23 /\
  0 <= getMinutes ts <= 59 /\ 0 <= getSeconds ts <= 59.

(** The characters of a suggested name: the label's class, and the dot. *)
Definition is_file_char (c : Z) : bool := is_name_char c || (c =? 46).

Definition example_date : date :=
  {| getFullYear := 2026; getMonth := 0; getDate := 9;
     getHours := 7; getMinutes := 5; getSeconds := 0 |}.

(** ** The sanitised label *)

Lemma is_name_char_not_space c : is_name_char c = true -> is_space c = false.
Proof.
  unfold is_name_char, is_space. intros H. apply bool_decide_eq_false.
  unfold white_space. rewrite !elem_of_cons, elem_of_nil. lia.
Qed.

Lemma is_name_char_lower c : is_name_char c = true -> lower_unit c = [c].
Proof.
  unfold is_name_char, lower_unit. intros H. repeat case_decide; try reflexivity; lia.
Qed.

(** Every code unit of a sanitised label is in [[a-z0-9_-]], whatever
    the user typed. *)
Lemma sanitizeLabel_chars (label : list Z) :
  Forall (fun c => is_name_char c = true) (sanitizeLabel label).
Proof.
  unfold sanitizeLabel, slice_to. apply Forall_take, Forall_forall.
  intros c Hc. apply list_elem_of_In, filter_In in Hc. tauto.
Qed.

(** A sanitised label has as many code units as survive the filtering, and 40 when
    more than 40 survive the filtering. *)
Lemma sanitizeLabel_length (label : list Z) :
  length (sanitizeLabel label)
  = Nat.min 40 (length (List.filter is_name_char
                          (replace_spaces false (toLowerCase (trim label))))).
Proof. unfold sanitizeLabel, slice_to. apply length_take. Qed.

(** C39: a sanitised label is safe in a file name: every code unit is in
    [[a-z0-9_-]] and there are at most 40 of them, exactly 40 when more
    than 40 survive the filtering, whatever the user typed. *)
Theorem sanitizeLabel_safe (label : list Z) :
  Forall (fun c => is_name_char c = true) (sanitizeLabel label) /\
  (length (sanitizeLabel label) <= 40)%nat /\
  ((40 < length (List.filter is_name_char
                   (replace_spaces false (toLowerCase (trim label)))))%nat ->
   length (sanitizeLabel label) = 40%nat).
Proof.
  pose proof (sanitizeLabel_length label) as L.
  split; [apply sanitizeLabel_chars|]. lia.
Qed.

Section Idempotence.
Implicit Types (s : list Z).
#[local] Abbreviation name_chars := (Forall (fun c => is_name_char c = true)).

Lemma name_chars_no_space s : name_chars s -> Forall (fun c => is_space c = false) s.
Proof. intros Hs. eapply Forall_impl; [exact Hs | apply is_name_char_not_space]. Qed.

Lemma toLowerCase_name_chars s : name_chars s -> toLowerCase s = s.
Proof.
  unfold toLowerCase. induction 1 as [|c l Hc Hl IH]; [reflexivity|].
  simpl. rewrite is_name_char_lower, IH by assumption. reflexivity.
Qed.

Lemma replace_spaces_name_chars b s : name_chars s -> replace_spaces b s = s.
Proof.
  intros Hs. revert b. induction Hs as [|c l Hc Hl IH]; intros b; [reflexivity|].
  simpl. rewrite is_name_char_not_space, IH by assumption. reflexivity.
Qed.

Lemma filter_name_chars s : name_chars s -> List.filter is_name_char s = s.
Proof.
  induction 1 as [|c l Hc Hl IH]; [reflexivity|].
  simpl. rewrite Hc, IH. reflexivity.
Qed.

End Idempotence.

(** Sanitising a sanitised label changes nothing. *)
Theorem sanitizeLabel_idempotent (label : list Z) :
  sanitizeLabel (sanitizeLabel label) = sanitizeLabel label.
Proof.
  pose proof (sanitizeLabel_chars label) as H.
  pose proof (sanitizeLabel_length label) as L.
  set (t := sanitizeLabel label) in *. unfold sanitizeLabel at 1.
  rewrite trim_no_space by (apply name_chars_no_space, H).
  rewrite toLowerCase_name_chars, replace_spaces_name_chars, filter_name_chars by exact H.
  unfold slice_to. apply take_ge. lia.
Qed.

(** A label of white space only is sanitised to the empty string, and the
    name then has no label segment. *)
Lemma sanitizeLabel_blank (label : list Z) :
  Forall (fun c => is_space c = true) label -> sanitizeLabel label = [].
Proof.
  intros H. unfold sanitizeLabel, trim, trimStart.
  assert (drop_while is_space label = []) as ->; [|reflexivity].
  induction H as [|c l Hc Hl IH]; [reflexivity|]. simpl. rewrite Hc. exact IH.
Qed.

(** The label ["My Track!! 01"] is sanitised to ["my_track_01"]: trimmed,
    lower-cased, each run of spaces replaced by one underscore, the
    exclamation marks removed. *)
Example sanitizeLabel_my_track :
  sanitizeLabel (lit "My Track!! 01") = lit "my_track_01".
Proof. vm_compute. reflexivity. Qed.

Example sanitizeLabel_spaces_and_case :
  sanitizeLabel (lit "  LIVE   set - 303  ") = lit "live_set_-_303".
Proof. vm_compute. reflexivity. Qed.

Example sanitizeLabel_kelvin : sanitizeLabel [8490; 304] = lit "ki".
Proof. vm_compute. reflexivity. Qed.

(** ** The stamp and the name *)

Lemma is_name_char_digit d : 0 <= d <= 9 -> is_name_char (digit d) = true.
Proof. unfold is_name_char, digit. lia. Qed.

Lemma Forall_name_lit s :
  forallb is_name_char (lit s) = true -> Forall (fun c => is_name_char c = true) (lit s).
Proof.
  induction (lit s) as [|c l IH]; simpl; intros H; constructor;
    apply andb_prop in H; tauto.
Qed.

Lemma stamp_chars (ts : date) : Forall (fun c => is_name_char c = true) (stamp ts).
Proof.
  unfold stamp.
  repeat first
    [ apply Forall_padStart; [reflexivity|]
    | apply Forall_app; split
    | apply Forall_string_of_Z; [apply is_name_char_digit | reflexivity]
    | apply Forall_name_lit; reflexivity ].
Qed.

(** A suggested name consists of code units of [[a-z0-9_-]] and the
    dot of its extension only, for every label and every date. *)
Theorem suggested_name_chars (value : list Z) (ts : date) :
  Forall (fun c => is_file_char c = true) (suggested_name value ts).
Proof.
  assert (forall l, Forall (fun c => is_name_char c = true) l ->
                    Forall (fun c => is_file_char c = true) l) as Hsub.
  { intros l Hl. eapply Forall_impl; [exact Hl|].
    intros c Hc. unfold is_file_char. simpl in Hc. rewrite Hc. reflexivity. }
  unfold suggested_name. cbv zeta. apply Forall_app. split.
  - apply Hsub. pose proof (sanitizeLabel_chars value) as Hl.
    destruct (sanitizeLabel value) as [|c l] eqn:E.
    all: repeat first [ apply stamp_chars | exact Hl | apply Forall_name_lit; reflexivity
                      | apply Forall_app; split ].
  - apply Forall_forall. intros c Hc. apply list_elem_of_In in Hc.
    simpl in Hc. intuition (subst; reflexivity).
Qed.

(** The stamp of a date in the years 1000 to 9999 is [YYYY-MM-DD_HHMMSS]:
    the fields in this order, each at its width. *)
Lemma stamp_shape (ts : date) :
  valid_date ts -> 1000 <= getFullYear ts <= 9999 ->
  stamp ts =
    digits (getFullYear ts) ++ [45] ++
    [digit ((getMonth ts + 1) / 10); digit ((getMonth ts + 1) mod 10)] ++ [45] ++
    [digit (getDate ts / 10); digit (getDate ts mod 10)] ++ [95] ++
    [digit (getHours ts / 10); digit (getHours ts mod 10)] ++
    [digit (getMinutes ts / 10); digit (getMinutes ts mod 10)] ++
    [digit (getSeconds ts / 10); digit (getSeconds ts mod 10)]
  /\ length (stamp ts) = 17%nat.
Proof.
  intros (Hm & Hd & Hh & Hmi & Hs) Hy. unfold stamp.
  rewrite !pad_two_digits by lia. unfold string_of_Z.
  destruct (Z.ltb_spec (getFullYear ts) 0); [lia|].
  split; [reflexivity|]. rewrite length_app, length_digits_4 by lia. reflexivity.
Qed.

(** The name [buildSuggestedName] computes is [acid_<stamp>.wav] when
    the sanitised label is empty and [acid_<label>_<stamp>.wav] otherwise,
    and for a date in the years 1000 to 9999 it has 26 code units plus,
    when there is a label, the label's length and one. *)
Theorem suggested_name_length (value : list Z) (ts : date) :
  valid_date ts -> 1000 <= getFullYear ts <= 9999 ->
  length (suggested_name value ts)
  = match sanitizeLabel value with
    | [] => 26%nat
    | label => (27 + length label)%nat
    end.
Proof.
  intros Hv Hy. destruct (stamp_shape ts Hv Hy) as [_ L].
  unfold suggested_name. cbv zeta.
  destruct (sanitizeLabel value) as [|c l];
    rewrite !length_app, ?L, !length_lit; simpl; lia.
Qed.

Lemma example_date_valid :
  valid_date example_date /\ 1000 <= getFullYear example_date <= 9999.
Proof. unfold valid_date. simpl. lia. Qed.

Lemma suggested_name_length_witness :
  length (suggested_name (lit "My Track!! 01") example_date)
  = match sanitizeLabel (lit "My Track!! 01") with
    | [] => 26%nat
    | label => (27 + length label)%nat
    end.
Proof.
  apply (suggested_name_length (lit "My Track!! 01") example_date);
    apply example_date_valid.
Defined.

Example suggested_name_my_track :
  suggested_name (lit "My Track!! 01") example_date
  = lit "acid_my_track_01_2026-01-09_070500.wav".
Proof. vm_compute. reflexivity. Qed.

Example suggested_name_no_label :
  suggested_name (lit "   ") example_date = lit "acid_2026-01-09_070500.wav".
Proof. vm_compute. reflexivity. Qed.
