(* ===== verification/Host.v ===== *)
(** * The browser, as the recorder uses it

    The part of the host that [src/recorder/app.js] calls: media streams,
    audio contexts and their nodes and connections, intervals and animation
    frames, object URLs, the console, the clock, the two ways a file
    leaves the page, and the registration of a service worker.  None of it
    is code of the repository: the operations follow the Web Audio, Media
    Capture, HTML, File System Access and Service Worker interfaces as far
    as the recorder depends on them.

    An identifier of a stream, a context or a node is its index in the
    host's table; a handle of an interval, an animation frame or an object
    URL is a fresh integer.  An operation that returns a promise has the
    effect of the call here; the effect of its settling is a separate
    operation, run by the event loop when the promise settles. *)

From Stdlib Require Import String ZArith QArith List Bool.
From stdpp Require Import base tactics list strings.
From S2P Require Import Prelude Hoare JsNum JsString Wav Label.

#[local] Open Scope string_scope.
#[local] Open Scope Z_scope.

(** ** Data *)

(** The audio constraints of a [getUserMedia] request. *)
Module Audio.
Record constraints : Type := {
  channelCount : Z;
  sampleRate : Z;
  sampleSize : Z;
  echoCancellation : bool;
  noiseSuppression : bool;
  autoGainControl : bool;
}.
End Audio.

Inductive context_state : Type := Running | Closed.

(** An [AudioContext]: the options it was constructed with, its state, the
    rate it runs at, and the names of the processors registered in its
    worklet scope. *)
Record context : Type := {
  latencyHint : string;
  requested_sampleRate : Z;
  ctx_state : context_state;
  ctx_sampleRate : num;
  processors : list string;
}.

Inductive param : Type :=
| threshold | knee | ratio | attack | release | frequency | gain.

Inductive node_kind : Type :=
| MediaStreamSource (stream : nat)
| DynamicsCompressor
| BiquadFilter
| Analyser
| AudioWorkletNode (name : string) (numberOfInputs numberOfOutputs channels : Z).

(** An [AudioNode]: the context that owns it, the values of its
    [AudioParam]s, and the attributes the recorder sets. *)
Record node : Type := {
  kind : node_kind;
  owner : nat;
  params : list (param * Q);
  filter_type : string;
  fftSize : Z;
  has_onmessage : bool;
}.

Record host : Type := {
  has_getUserMedia : bool;
  has_showSaveFilePicker : bool;
  now : Q;
  today : date;
  audio_device : result num;
  signal : list Z;
  streams : list bool;
  contexts : list context;
  nodes : list node;
  edges : list (nat * nat);
  intervals : list (Z * Z);
  raf_requests : list Z;
  next_handle : Z;
  object_urls : list Z;
  mailbox : list (nat * list num);
  console : list exn;
  files : list (list Z * Blob);
  downloads : list (list Z * Blob);
  has_serviceWorker : bool;
  worker_scripts : list (list Z);
}.

#[export] Instance param_eq_dec : EqDecision param.
Proof. solve_decision. Defined.

#[export] Instance context_state_eq_dec : EqDecision context_state.
Proof. solve_decision. Defined.

(** ** Field updates *)

Definition set_ctx_state (v : context_state) (r : context) : context :=
  {| latencyHint := latencyHint r; requested_sampleRate := requested_sampleRate r;
     ctx_state := v; ctx_sampleRate := ctx_sampleRate r; processors := processors r |}.

Definition set_processors (v : list string) (r : context) : context :=
  {| latencyHint := latencyHint r; requested_sampleRate := requested_sampleRate r;
     ctx_state := ctx_state r; ctx_sampleRate := ctx_sampleRate r; processors := v |}.

Definition set_kind (v : node_kind) (r : node) : node :=
  {| kind := v; owner := owner r; params := params r; filter_type := filter_type r;
     fftSize := fftSize r; has_onmessage := has_onmessage r |}.

Definition set_owner (v : nat) (r : node) : node :=
  {| kind := kind r; owner := v; params := params r; filter_type := filter_type r;
     fftSize := fftSize r; has_onmessage := has_onmessage r |}.

Definition set_params (v : list (param * Q)) (r : node) : node :=
  {| kind := kind r; owner := owner r; params := v; filter_type := filter_type r;
     fftSize := fftSize r; has_onmessage := has_onmessage r |}.

Definition set_filter_type (v : string) (r : node) : node :=
  {| kind := kind r; owner := owner r; params := params r; filter_type := v;
     fftSize := fftSize r; has_onmessage := has_onmessage r |}.

Definition set_fftSize (v : Z) (r : node) : node :=
  {| kind := kind r; owner := owner r; params := params r;
     filter_type := filter_type r; fftSize := v; has_onmessage := has_onmessage r |}.

Definition set_has_onmessage (v : bool) (r : node) : node :=
  {| kind := kind r; owner := owner r; params := params r;
     filter_type := filter_type r; fftSize := fftSize r; has_onmessage := v |}.

Definition set_has_getUserMedia (v : bool) (r : host) : host :=
  {| has_getUserMedia := v; has_showSaveFilePicker := has_showSaveFilePicker r;
     now := now r; today := today r; audio_device := audio_device r;
     signal := signal r; streams := streams r; contexts := contexts r;
     nodes := nodes r; edges := edges r; intervals := intervals r;
     raf_requests := raf_requests r; next_handle := next_handle r;
     object_urls := object_urls r; mailbox := mailbox r; console := console r;
     files := files r; downloads := downloads r;
     has_serviceWorker := has_serviceWorker r; worker_scripts := worker_scripts r |}.

Definition set_has_showSaveFilePicker (v : bool) (r : host) : host :=
  {| has_getUserMedia := has_getUserMedia r; has_showSaveFilePicker := v; now := now r;
     today := today r; audio_device := audio_device r; signal := signal r;
     streams := streams r; contexts := contexts r; nodes := nodes r; edges := edges r;
     intervals := intervals r; raf_requests := raf_requests r;
     next_handle := next_handle r; object_urls := object_urls r; mailbox := mailbox r;
     console := console r; files := files r; downloads := downloads r;
     has_serviceWorker := has_serviceWorker r; worker_scripts := worker_scripts r |}.

Definition set_now (v : Q) (r : host) : host :=
  {| has_getUserMedia := has_getUserMedia r;
     has_showSaveFilePicker := has_showSaveFilePicker r; now := v; today := today r;
     audio_device := audio_device r; signal := signal r; streams := streams r;
     contexts := contexts r; nodes := nodes r; edges := edges r;
     intervals := intervals r; raf_requests := raf_requests r;
     next_handle := next_handle r; object_urls := object_urls r; mailbox := mailbox r;
     console := console r; files := files r; downloads := downloads r;
     has_serviceWorker := has_serviceWorker r; worker_scripts := worker_scripts r |}.

Definition set_today (v : date) (r : host) : host :=
  {| has_getUserMedia := has_getUserMedia r;
     has_showSaveFilePicker := has_showSaveFilePicker r; now := now r; today := v;
     audio_device := audio_device r; signal := signal r; streams := streams r;
     contexts := contexts r; nodes := nodes r; edges := edges r;
     intervals := intervals r; raf_requests := raf_requests r;
     next_handle := next_handle r; object_urls := object_urls r; mailbox := mailbox r;
     console := console r; files := files r; downloads := downloads r;
     has_serviceWorker := has_serviceWorker r; worker_scripts := worker_scripts r |}.

Definition set_audio_device (v : result num) (r : host) : host :=
  {| has_getUserMedia := has_getUserMedia r;
     has_showSaveFilePicker := has_showSaveFilePicker r; now := now r;
     today := today r; audio_device := v; signal := signal r; streams := streams r;
     contexts := contexts r; nodes := nodes r; edges := edges r;
     intervals := intervals r; raf_requests := raf_requests r;
     next_handle := next_handle r; object_urls := object_urls r; mailbox := mailbox r;
     console := console r; files := files r; downloads := downloads r;
     has_serviceWorker := has_serviceWorker r; worker_scripts := worker_scripts r |}.

Definition set_signal (v : list Z) (r : host) : host :=
  {| has_getUserMedia := has_getUserMedia r;
     has_showSaveFilePicker := has_showSaveFilePicker r; now := now r;
     today := today r; audio_device := audio_device r; signal := v;
     streams := streams r; contexts := contexts r; nodes := nodes r; edges := edges r;
     intervals := intervals r; raf_requests := raf_requests r;
     next_handle := next_handle r; object_urls := object_urls r; mailbox := mailbox r;
     console := console r; files := files r; downloads := downloads r;
     has_serviceWorker := has_serviceWorker r; worker_scripts := worker_scripts r |}.

Definition set_streams (v : list bool) (r : host) : host :=
  {| has_getUserMedia := has_getUserMedia r;
     has_showSaveFilePicker := has_showSaveFilePicker r; now := now r;
     today := today r; audio_device := audio_device r; signal := signal r;
     streams := v; contexts := contexts r; nodes := nodes r; edges := edges r;
     intervals := intervals r; raf_requests := raf_requests r;
     next_handle := next_handle r; object_urls := object_urls r; mailbox := mailbox r;
     console := console r; files := files r; downloads := downloads r;
     has_serviceWorker := has_serviceWorker r; worker_scripts := worker_scripts r |}.

Definition set_contexts (v : list context) (r : host) : host :=
  {| has_getUserMedia := has_getUserMedia r;
     has_showSaveFilePicker := has_showSaveFilePicker r; now := now r;
     today := today r; audio_device := audio_device r; signal := signal r;
     streams := streams r; contexts := v; nodes := nodes r; edges := edges r;
     intervals := intervals r; raf_requests := raf_requests r;
     next_handle := next_handle r; object_urls := object_urls r; mailbox := mailbox r;
     console := console r; files := files r; downloads := downloads r;
     has_serviceWorker := has_serviceWorker r; worker_scripts := worker_scripts r |}.

Definition set_nodes (v : list node) (r : host) : host :=
  {| has_getUserMedia := has_getUserMedia r;
     has_showSaveFilePicker := has_showSaveFilePicker r; now := now r;
     today := today r; audio_device := audio_device r; signal := signal r;
     streams := streams r; contexts := contexts r; nodes := v; edges := edges r;
     intervals := intervals r; raf_requests := raf_requests r;
     next_handle := next_handle r; object_urls := object_urls r; mailbox := mailbox r;
     console := console r; files := files r; downloads := downloads r;
     has_serviceWorker := has_serviceWorker r; worker_scripts := worker_scripts r |}.

Definition set_edges (v : list (nat * nat)) (r : host) : host :=
  {| has_getUserMedia := has_getUserMedia r;
     has_showSaveFilePicker := has_showSaveFilePicker r; now := now r;
     today := today r; audio_device := audio_device r; signal := signal r;
     streams := streams r; contexts := contexts r; nodes := nodes r; edges := v;
     intervals := intervals r; raf_requests := raf_requests r;
     next_handle := next_handle r; object_urls := object_urls r; mailbox := mailbox r;
     console := console r; files := files r; downloads := downloads r;
     has_serviceWorker := has_serviceWorker r; worker_scripts := worker_scripts r |}.

Definition set_intervals (v : list (Z * Z)) (r : host) : host :=
  {| has_getUserMedia := has_getUserMedia r;
     has_showSaveFilePicker := has_showSaveFilePicker r; now := now r;
     today := today r; audio_device := audio_device r; signal := signal r;
     streams := streams r; contexts := contexts r; nodes := nodes r; edges := edges r;
     intervals := v; raf_requests := raf_requests r; next_handle := next_handle r;
     object_urls := object_urls r; mailbox := mailbox r; console := console r;
     files := files r; downloads := downloads r;
     has_serviceWorker := has_serviceWorker r; worker_scripts := worker_scripts r |}.

Definition set_raf_requests (v : list Z) (r : host) : host :=
  {| has_getUserMedia := has_getUserMedia r;
     has_showSaveFilePicker := has_showSaveFilePicker r; now := now r;
     today := today r; audio_device := audio_device r; signal := signal r;
     streams := streams r; contexts := contexts r; nodes := nodes r; edges := edges r;
     intervals := intervals r; raf_requests := v; next_handle := next_handle r;
     object_urls := object_urls r; mailbox := mailbox r; console := console r;
     files := files r; downloads := downloads r;
     has_serviceWorker := has_serviceWorker r; worker_scripts := worker_scripts r |}.

Definition set_next_handle (v : Z) (r : host) : host :=
  {| has_getUserMedia := has_getUserMedia r;
     has_showSaveFilePicker := has_showSaveFilePicker r; now := now r;
     today := today r; audio_device := audio_device r; signal := signal r;
     streams := streams r; contexts := contexts r; nodes := nodes r; edges := edges r;
     intervals := intervals r; raf_requests := raf_requests r; next_handle := v;
     object_urls := object_urls r; mailbox := mailbox r; console := console r;
     files := files r; downloads := downloads r;
     has_serviceWorker := has_serviceWorker r; worker_scripts := worker_scripts r |}.

Definition set_object_urls (v : list Z) (r : host) : host :=
  {| has_getUserMedia := has_getUserMedia r;
     has_showSaveFilePicker := has_showSaveFilePicker r; now := now r;
     today := today r; audio_device := audio_device r; signal := signal r;
     streams := streams r; contexts := contexts r; nodes := nodes r; edges := edges r;
     intervals := intervals r; raf_requests := raf_requests r;
     next_handle := next_handle r; object_urls := v; mailbox := mailbox r;
     console := console r; files := files r; downloads := downloads r;
     has_serviceWorker := has_serviceWorker r; worker_scripts := worker_scripts r |}.

Definition set_mailbox (v : list (nat * list num)) (r : host) : host :=
  {| has_getUserMedia := has_getUserMedia r;
     has_showSaveFilePicker := has_showSaveFilePicker r; now := now r;
     today := today r; audio_device := audio_device r; signal := signal r;
     streams := streams r; contexts := contexts r; nodes := nodes r; edges := edges r;
     intervals := intervals r; raf_requests := raf_requests r;
     next_handle := next_handle r; object_urls := object_urls r; mailbox := v;
     console := console r; files := files r; downloads := downloads r;
     has_serviceWorker := has_serviceWorker r; worker_scripts := worker_scripts r |}.

Definition set_console (v : list exn) (r : host) : host :=
  {| has_getUserMedia := has_getUserMedia r;
     has_showSaveFilePicker := has_showSaveFilePicker r; now := now r;
     today := today r; audio_device := audio_device r; signal := signal r;
     streams := streams r; contexts := contexts r; nodes := nodes r; edges := edges r;
     intervals := intervals r; raf_requests := raf_requests r;
     next_handle := next_handle r; object_urls := object_urls r; mailbox := mailbox r;
     console := v; files := files r; downloads := downloads r;
     has_serviceWorker := has_serviceWorker r; worker_scripts := worker_scripts r |}.

Definition set_files (v : list (list Z * Blob)) (r : host) : host :=
  {| has_getUserMedia := has_getUserMedia r;
     has_showSaveFilePicker := has_showSaveFilePicker r; now := now r;
     today := today r; audio_device := audio_device r; signal := signal r;
     streams := streams r; contexts := contexts r; nodes := nodes r; edges := edges r;
     intervals := intervals r; raf_requests := raf_requests r;
     next_handle := next_handle r; object_urls := object_urls r; mailbox := mailbox r;
     console := console r; files := v; downloads := downloads r;
     has_serviceWorker := has_serviceWorker r; worker_scripts := worker_scripts r |}.

Definition set_downloads (v : list (list Z * Blob)) (r : host) : host :=
  {| has_getUserMedia := has_getUserMedia r;
     has_showSaveFilePicker := has_showSaveFilePicker r; now := now r;
     today := today r; audio_device := audio_device r; signal := signal r;
     streams := streams r; contexts := contexts r; nodes := nodes r; edges := edges r;
     intervals := intervals r; raf_requests := raf_requests r;
     next_handle := next_handle r; object_urls := object_urls r; mailbox := mailbox r;
     console := console r; files := files r; downloads := v;
     has_serviceWorker := has_serviceWorker r; worker_scripts := worker_scripts r |}.

Definition set_worker_scripts (v : list (list Z)) (r : host) : host :=
  {| has_getUserMedia := has_getUserMedia r;
     has_showSaveFilePicker := has_showSaveFilePicker r; now := now r; today := today r;
     audio_device := audio_device r; signal := signal r; streams := streams r;
     contexts := contexts r; nodes := nodes r; edges := edges r;
     intervals := intervals r; raf_requests := raf_requests r;
     next_handle := next_handle r; object_urls := object_urls r; mailbox := mailbox r;
     console := console r; files := files r; downloads := downloads r;
     has_serviceWorker := has_serviceWorker r; worker_scripts := v |}.

(** ** Tables *)

(** Apply [f] to entry [i] of a table, when there is one. *)
Definition update {A} (i : nat) (f : A -> A) (l : list A) : list A :=
  match l !! i with Some a => <[i := f a]> l | None => l end.

Definition remove_handle (id : Z) (l : list Z) : list Z :=
  List.filter (fun x => negb (x =? id)) l.

Definition fresh : prog host Z :=
  (n <- gets next_handle ;;
   modify (set_next_handle (n + 1)) ;;
   ret n)%prog.

Definition alloc_node (n : node) : prog host nat :=
  (ns <- gets nodes ;;
   modify (set_nodes (ns ++ [n])) ;;
   ret (length ns))%prog.

Definition the_context (c : nat) : prog host context :=
  (cs <- gets contexts ;; deref (cs !! c))%prog.

Definition the_node (n : nat) : prog host node :=
  (ns <- gets nodes ;; deref (ns !! n))%prog.

Definition update_node (n : nat) (f : node -> node) : prog host unit :=
  (ns <- gets nodes ;; modify (set_nodes (update n f ns)))%prog.

(** ** Clock and console *)

Definition performance_now : prog host Q := gets now.

Definition new_Date : prog host date := gets today.

Definition console_error (e : exn) : prog host unit :=
  (l <- gets console ;; modify (set_console (l ++ [e])))%prog.

(** ** Streams *)

(** The stream a granted [getUserMedia] request resolves with. *)
Definition grant_stream : prog host nat :=
  (ss <- gets streams ;;
   modify (set_streams (ss ++ [true])) ;;
   ret (length ss))%prog.

(** [stream.getTracks().forEach(t => t.stop())] *)
Definition stop_tracks (s : nat) : prog host unit :=
  (ss <- gets streams ;; modify (set_streams (update s (fun _ => false) ss)))%prog.

(** ** Audio contexts *)

(** [new AudioContext({ latencyHint, sampleRate })]: the context the audio
    device gives, running at the rate the device settles on, or the
    exception of the constructor. *)
Definition new_AudioContext (hint : string) (rate : Z) : prog host nat :=
  (dev <- gets audio_device ;;
   r <- lift dev ;;
   cs <- gets contexts ;;
   modify (set_contexts
     (cs ++ [{| latencyHint := hint; requested_sampleRate := rate;
                ctx_state := Running; ctx_sampleRate := r; processors := [] |}])) ;;
   ret (length cs))%prog.

Definition context_sampleRate (c : nat) : prog host num :=
  (x <- the_context c ;; ret (ctx_sampleRate x))%prog.

(** The module of a settled [audioWorklet.addModule] has run
    [registerProcessor(name, _)]. *)
Definition register_processor (c : nat) (name : string) : prog host unit :=
  (cs <- gets contexts ;;
   modify (set_contexts
     (update c (fun x => set_processors (name :: processors x) x) cs)))%prog.

(** The settling of [ctx.close()]. *)
Definition finish_close (c : nat) : prog host unit :=
  (cs <- gets contexts ;;
   modify (set_contexts (update c (set_ctx_state Closed) cs)))%prog.

(** ** Nodes *)

Definition new_node (k : node_kind) (c : nat) (ps : list (param * Q)) (ty : string)
    (fft : Z) : node :=
  {| kind := k; owner := c; params := ps; filter_type := ty; fftSize := fft;
     has_onmessage := false |}.

(** A [null] argument is not a [MediaStream]. *)
Definition createMediaStreamSource (c : nat) (s : option nat) : prog host nat :=
  (s <- deref s ;;
   alloc_node (new_node (MediaStreamSource s) c [] "" 0))%prog.

Definition createDynamicsCompressor (c : nat) : prog host nat :=
  alloc_node (new_node DynamicsCompressor c
    [(threshold, -24); (knee, 30); (ratio, 12); (attack, 3 # 1000); (release, 1 # 4)]%Q
    "" 0).

Definition createBiquadFilter (c : nat) : prog host nat :=
  alloc_node (new_node BiquadFilter c [(frequency, 350); (gain, 0)]%Q "lowpass" 0).

Definition createAnalyser (c : nat) : prog host nat :=
  alloc_node (new_node Analyser c [] "" 2048).

(** [new AudioWorkletNode(ctx, name, options)]: an [InvalidStateError]
    when no processor of this name is registered in the context. *)
Definition new_AudioWorkletNode (c : nat) (name : string) (ins outs chans : Z) :
    prog host nat :=
  (x <- the_context c ;;
   if decide (name ∈ processors x)
   then alloc_node (new_node (AudioWorkletNode name ins outs chans) c [] "" 0)
   else throw (DOMException "InvalidStateError"))%prog.

Definition assoc_set (p : param) (v : Q) (l : list (param * Q)) : list (param * Q) :=
  map (fun '(p', v') => if decide (p' = p) then (p', v) else (p', v')) l.

(** [node.p.value = v] *)
Definition set_value (n : nat) (p : param) (v : Q) : prog host unit :=
  update_node n (fun x => set_params (assoc_set p v (params x)) x).

(** [node.type = ty] *)
Definition set_type (n : nat) (ty : string) : prog host unit :=
  update_node n (set_filter_type ty).

Definition valid_fftSize (v : Z) : bool :=
  (32 <=? v) && (v <=? 32768) && (2 ^ Z.log2 v =? v).

(** [analyser.fftSize = v]: an [IndexSizeError] unless [v] is a power of two
    between 32 and 32768. *)
Definition set_fft (n : nat) (v : Z) : prog host unit :=
  if valid_fftSize v then update_node n (set_fftSize v)
  else throw (DOMException "IndexSizeError").

(** [node.port.onmessage = handler] *)
Definition set_handler (n : nat) : prog host unit :=
  update_node n (set_has_onmessage true).

(** [a.connect(b)]: an [InvalidAccessError] across contexts; connecting
    twice is connecting once. *)
Definition connect (a b : nat) : prog host unit :=
  (x <- the_node a ;;
   y <- the_node b ;;
   if decide (owner x = owner y) then
     es <- gets edges ;;
     if decide ((a, b) ∈ es) then ret tt else modify (set_edges (es ++ [(a, b)]))
   else throw (DOMException "InvalidAccessError"))%prog.

(** [a.disconnect()]: every connection from [a] goes. *)
Definition disconnect (a : nat) : prog host unit :=
  (es <- gets edges ;;
   modify (set_edges (List.filter (fun e => negb (fst e =? a)%nat) es)))%prog.

(** The byte the analyser writes for a value of the waveform: what is
    outside of [0, 255] is clamped. *)
Definition to_byte (d : Z) : Z := Z.max 0 (Z.min 255 d).

(** [analyser.getByteTimeDomainData(data)] on an array of [fftSize] bytes:
    the current waveform, [signal], is what the host has of it; a byte it
    does not have reads as 128, the value of silence. *)
Definition getByteTimeDomainData (a : nat) : prog host (list Z) :=
  (x <- the_node a ;;
   sig <- gets signal ;;
   ret (resize (Z.to_nat (fftSize x)) 128 (to_byte <$> sig)))%prog.

(** ** Timers and frames *)

(** [setInterval(callback, ms)]: the handle and the period of the interval;
    its callback is the code of the tick event. *)
Definition setInterval (ms : Z) : prog host Z :=
  (id <- fresh ;;
   l <- gets intervals ;;
   modify (set_intervals (l ++ [(id, ms)])) ;;
   ret id)%prog.

Definition clearInterval (id : Z) : prog host unit :=
  (l <- gets intervals ;;
   modify (set_intervals (List.filter (fun i => negb (fst i =? id)) l)))%prog.

Definition requestAnimationFrame : prog host Z :=
  (id <- fresh ;;
   l <- gets raf_requests ;;
   modify (set_raf_requests (l ++ [id])) ;;
   ret id)%prog.

Definition cancelAnimationFrame (id : Z) : prog host unit :=
  (l <- gets raf_requests ;; modify (set_raf_requests (remove_handle id l)))%prog.

(** ** Object URLs and files *)

Definition createObjectURL : prog host Z :=
  (u <- fresh ;;
   l <- gets object_urls ;;
   modify (set_object_urls (l ++ [u])) ;;
   ret u)%prog.

Definition revokeObjectURL (u : Z) : prog host unit :=
  (l <- gets object_urls ;; modify (set_object_urls (remove_handle u l)))%prog.

(** A click on an anchor with a [download] attribute. *)
Definition download (name : list Z) (blob : Blob) : prog host unit :=
  (l <- gets downloads ;; modify (set_downloads (l ++ [(name, blob)])))%prog.

(** The closing of a writable opened through the file picker. *)
Definition write_file (name : list Z) (blob : Blob) : prog host unit :=
  (l <- gets files ;; modify (set_files (l ++ [(name, blob)])))%prog.

(** ** Messages of worklet ports *)

Definition post (n : nat) (data : list num) : prog host unit :=
  (l <- gets mailbox ;; modify (set_mailbox (l ++ [(n, data)])))%prog.

(** ** Service workers *)

(** [navigator.serviceWorker.register(url)]: the script is recorded; the
    promise of the registration settles later. *)
Definition register_worker (url : list Z) : prog host unit :=
  modify (fun h => set_worker_scripts (worker_scripts h ++ [url]) h).

(** ** A host at page load *)

Definition fresh_host (gum picker sw : bool) (t : Q) (d : date) (dev : result num) :
    host :=
  {| has_getUserMedia := gum; has_showSaveFilePicker := picker; now := t; today := d;
     audio_device := dev; signal := []; streams := []; contexts := []; nodes := []; edges := [];
     intervals := []; raf_requests := []; next_handle := 1; object_urls := [];
     mailbox := []; console := []; files := []; downloads := [];
     has_serviceWorker := sw; worker_scripts := [] |}.

(** ** Facts *)

Lemma length_update {A} (i : nat) (f : A -> A) (l : list A) :
  length (update i f l) = length l.
Proof. unfold update. destruct (l !! i); [apply length_insert | reflexivity]. Qed.

Lemma update_lookup {A} (i : nat) (f : A -> A) (l : list A) :
  update i f l !! i = f <$> l !! i.
Proof.
  unfold update. destruct (l !! i) as [a|] eqn:E; [|exact E].
  apply list_lookup_insert_eq. eapply lookup_lt_Some, E.
Qed.

Lemma update_lookup_ne {A} (i j : nat) (f : A -> A) (l : list A) :
  i <> j -> update i f l !! j = l !! j.
Proof.
  intros H. unfold update. destruct (l !! i); [|reflexivity].
  apply list_lookup_insert_ne, H.
Qed.

Lemma remove_handle_not_in (id : Z) (l : list Z) : id ∉ remove_handle id l.
Proof.
  unfold remove_handle. rewrite list_elem_of_In, filter_In. intros [_ H].
  rewrite Z.eqb_refl in H. discriminate.
Qed.

Lemma remove_handle_subset (id x : Z) (l : list Z) : x ∈ remove_handle id l -> x ∈ l.
Proof. unfold remove_handle. rewrite !list_elem_of_In, filter_In. tauto. Qed.
