(* ===== verification/Recorder.v ===== *)
(** * The recorder's state and functions

    The globals of [src/recorder/app.js], the elements of the document it
    writes to, and its functions: [setUI], [setStatus], [updateTimer],
    [buildSuggestedName], [updateMeterAndScope], [getBestMicStream],
    [ensureWorklet], [buildProcessingGraph], [saveBlob], [start], [stop],
    [cleanup], [save], [holdStart], [holdEnd] and the listener of [load]
    that registers the service worker.

    A function is a program over the [world]: the globals, the document,
    the host, and the promises the page is waiting for.  An [async]
    function is one program for each stretch between two [await]s: the
    first ends by recording the promise it awaits as a [task], the next is
    run by the event loop when the promise settles.  A [try] block that
    spans an [await] is a [try_catch] in each stretch, with the same
    handler.

    The canvas is output only.  Its state is the sequence of operations
    performed on its 2D context so far ([scope_drawn]): [clearScope] and
    [drawScope] ([Scope]) append theirs. *)

From Stdlib Require Import String ZArith QArith List Bool.
From stdpp Require Import base tactics list strings.
From S2P Require Import Prelude Hoare JsNum JsString TypedArray Pcm Collector Wav.
From S2P Require Import Timer Meter Scope Label Host.

#[local] Open Scope string_scope.
#[local] Open Scope Z_scope.

(** ** State *)

(** The globals.  [chunks] and [recordedSamples] are the [collector]. *)
Record globals : Type := {
  stream : option nat;
  ctx : option nat;
  source : option nat;
  compressor : option nat;
  shelf : option nat;
  analyser : option nat;
  workletNode : option nat;
  recording : bool;
  startAt : Q;
  rafId : Z;
  timerId : Z;
  coll : collector;
  sampleRate : num;
  holdActive : bool;
}.

(** The text of the rate tag: what the document has, [<r> Hz], or the dash
    that [cleanup] writes. *)
Inductive rate_text : Type :=
| Markup
| Hz (r : num)
| Dash.

(** The properties of the elements that the page writes, and the value of
    the label field. *)
Record dom : Type := {
  btnStart_disabled : bool;
  btnStop_disabled : bool;
  btnSave_disabled : bool;
  btnHold_isRecording : bool;
  statusText : list Z;
  timeText : list Z;
  srTag : rate_text;
  nameTag : list Z;
  levelBar_width : list Z;
  sessionLabel_value : list Z;
  scope_width : Z;
  scope_height : Z;
  scope_drawn : list canvas_op;
}.

(** A promise the page has a continuation for. *)
Inductive task : Type :=
| GetUserMedia (c : Audio.constraints)
| AddModule (c : nat) (url : Z)
| CloseContext (c : nat) (awaited : bool)
| SaveFilePicker (blob : Blob) (name : list Z)
| CreateWritable (blob : Blob) (name : list Z)
| WriteBlob (blob : Blob) (name : list Z)
| CloseWritable (blob : Blob) (name : list Z)
| RegisterWorker.

Record world : Type := {
  page : globals;
  ui : dom;
  env : host;
  pending : list task;
}.

(** ** Field updates *)

Definition set_stream (v : option nat) (r : globals) : globals :=
  {| stream := v; ctx := ctx r; source := source r; compressor := compressor r;
     shelf := shelf r; analyser := analyser r; workletNode := workletNode r;
     recording := recording r; startAt := startAt r; rafId := rafId r;
     timerId := timerId r; coll := coll r; sampleRate := sampleRate r;
     holdActive := holdActive r |}.

Definition set_ctx (v : option nat) (r : globals) : globals :=
  {| stream := stream r; ctx := v; source := source r; compressor := compressor r;
     shelf := shelf r; analyser := analyser r; workletNode := workletNode r;
     recording := recording r; startAt := startAt r; rafId := rafId r;
     timerId := timerId r; coll := coll r; sampleRate := sampleRate r;
     holdActive := holdActive r |}.

Definition set_source (v : option nat) (r : globals) : globals :=
  {| stream := stream r; ctx := ctx r; source := v; compressor := compressor r;
     shelf := shelf r; analyser := analyser r; workletNode := workletNode r;
     recording := recording r; startAt := startAt r; rafId := rafId r;
     timerId := timerId r; coll := coll r; sampleRate := sampleRate r;
     holdActive := holdActive r |}.

Definition set_compressor (v : option nat) (r : globals) : globals :=
  {| stream := stream r; ctx := ctx r; source := source r; compressor := v;
     shelf := shelf r; analyser := analyser r; workletNode := workletNode r;
     recording := recording r; startAt := startAt r; rafId := rafId r;
     timerId := timerId r; coll := coll r; sampleRate := sampleRate r;
     holdActive := holdActive r |}.

Definition set_shelf (v : option nat) (r : globals) : globals :=
  {| stream := stream r; ctx := ctx r; source := source r; compressor := compressor r;
     shelf := v; analyser := analyser r; workletNode := workletNode r;
     recording := recording r; startAt := startAt r; rafId := rafId r;
     timerId := timerId r; coll := coll r; sampleRate := sampleRate r;
     holdActive := holdActive r |}.

Definition set_analyser (v : option nat) (r : globals) : globals :=
  {| stream := stream r; ctx := ctx r; source := source r; compressor := compressor r;
     shelf := shelf r; analyser := v; workletNode := workletNode r;
     recording := recording r; startAt := startAt r; rafId := rafId r;
     timerId := timerId r; coll := coll r; sampleRate := sampleRate r;
     holdActive := holdActive r |}.

Definition set_workletNode (v : option nat) (r : globals) : globals :=
  {| stream := stream r; ctx := ctx r; source := source r; compressor := compressor r;
     shelf := shelf r; analyser := analyser r; workletNode := v;
     recording := recording r; startAt := startAt r; rafId := rafId r;
     timerId := timerId r; coll := coll r; sampleRate := sampleRate r;
     holdActive := holdActive r |}.

Definition set_recording (v : bool) (r : globals) : globals :=
  {| stream := stream r; ctx := ctx r; source := source r; compressor := compressor r;
     shelf := shelf r; analyser := analyser r; workletNode := workletNode r;
     recording := v; startAt := startAt r; rafId := rafId r; timerId := timerId r;
     coll := coll r; sampleRate := sampleRate r; holdActive := holdActive r |}.

Definition set_startAt (v : Q) (r : globals) : globals :=
  {| stream := stream r; ctx := ctx r; source := source r; compressor := compressor r;
     shelf := shelf r; analyser := analyser r; workletNode := workletNode r;
     recording := recording r; startAt := v; rafId := rafId r; timerId := timerId r;
     coll := coll r; sampleRate := sampleRate r; holdActive := holdActive r |}.

Definition set_rafId (v : Z) (r : globals) : globals :=
  {| stream := stream r; ctx := ctx r; source := source r; compressor := compressor r;
     shelf := shelf r; analyser := analyser r; workletNode := workletNode r;
     recording := recording r; startAt := startAt r; rafId := v; timerId := timerId r;
     coll := coll r; sampleRate := sampleRate r; holdActive := holdActive r |}.

Definition set_timerId (v : Z) (r : globals) : globals :=
  {| stream := stream r; ctx := ctx r; source := source r; compressor := compressor r;
     shelf := shelf r; analyser := analyser r; workletNode := workletNode r;
     recording := recording r; startAt := startAt r; rafId := rafId r; timerId := v;
     coll := coll r; sampleRate := sampleRate r; holdActive := holdActive r |}.

Definition set_coll (v : collector) (r : globals) : globals :=
  {| stream := stream r; ctx := ctx r; source := source r; compressor := compressor r;
     shelf := shelf r; analyser := analyser r; workletNode := workletNode r;
     recording := recording r; startAt := startAt r; rafId := rafId r;
     timerId := timerId r; coll := v; sampleRate := sampleRate r;
     holdActive := holdActive r |}.

Definition set_sampleRate (v : num) (r : globals) : globals :=
  {| stream := stream r; ctx := ctx r; source := source r; compressor := compressor r;
     shelf := shelf r; analyser := analyser r; workletNode := workletNode r;
     recording := recording r; startAt := startAt r; rafId := rafId r;
     timerId := timerId r; coll := coll r; sampleRate := v; holdActive := holdActive r |}.

Definition set_holdActive (v : bool) (r : globals) : globals :=
  {| stream := stream r; ctx := ctx r; source := source r; compressor := compressor r;
     shelf := shelf r; analyser := analyser r; workletNode := workletNode r;
     recording := recording r; startAt := startAt r; rafId := rafId r;
     timerId := timerId r; coll := coll r; sampleRate := sampleRate r; holdActive := v |}.

Definition set_btnStart_disabled (v : bool) (r : dom) : dom :=
  {| btnStart_disabled := v; btnStop_disabled := btnStop_disabled r;
     btnSave_disabled := btnSave_disabled r;
     btnHold_isRecording := btnHold_isRecording r; statusText := statusText r;
     timeText := timeText r; srTag := srTag r; nameTag := nameTag r;
     levelBar_width := levelBar_width r; sessionLabel_value := sessionLabel_value r;
     scope_width := scope_width r; scope_height := scope_height r;
     scope_drawn := scope_drawn r |}.

Definition set_btnStop_disabled (v : bool) (r : dom) : dom :=
  {| btnStart_disabled := btnStart_disabled r; btnStop_disabled := v;
     btnSave_disabled := btnSave_disabled r;
     btnHold_isRecording := btnHold_isRecording r; statusText := statusText r;
     timeText := timeText r; srTag := srTag r; nameTag := nameTag r;
     levelBar_width := levelBar_width r; sessionLabel_value := sessionLabel_value r;
     scope_width := scope_width r; scope_height := scope_height r;
     scope_drawn := scope_drawn r |}.

Definition set_btnSave_disabled (v : bool) (r : dom) : dom :=
  {| btnStart_disabled := btnStart_disabled r; btnStop_disabled := btnStop_disabled r;
     btnSave_disabled := v; btnHold_isRecording := btnHold_isRecording r;
     statusText := statusText r; timeText := timeText r; srTag := srTag r;
     nameTag := nameTag r; levelBar_width := levelBar_width r;
     sessionLabel_value := sessionLabel_value r;
     scope_width := scope_width r; scope_height := scope_height r;
     scope_drawn := scope_drawn r |}.

Definition set_btnHold_isRecording (v : bool) (r : dom) : dom :=
  {| btnStart_disabled := btnStart_disabled r; btnStop_disabled := btnStop_disabled r;
     btnSave_disabled := btnSave_disabled r; btnHold_isRecording := v;
     statusText := statusText r; timeText := timeText r; srTag := srTag r;
     nameTag := nameTag r; levelBar_width := levelBar_width r;
     sessionLabel_value := sessionLabel_value r;
     scope_width := scope_width r; scope_height := scope_height r;
     scope_drawn := scope_drawn r |}.

Definition set_statusText (v : list Z) (r : dom) : dom :=
  {| btnStart_disabled := btnStart_disabled r; btnStop_disabled := btnStop_disabled r;
     btnSave_disabled := btnSave_disabled r;
     btnHold_isRecording := btnHold_isRecording r; statusText := v;
     timeText := timeText r; srTag := srTag r; nameTag := nameTag r;
     levelBar_width := levelBar_width r; sessionLabel_value := sessionLabel_value r;
     scope_width := scope_width r; scope_height := scope_height r;
     scope_drawn := scope_drawn r |}.

Definition set_timeText (v : list Z) (r : dom) : dom :=
  {| btnStart_disabled := btnStart_disabled r; btnStop_disabled := btnStop_disabled r;
     btnSave_disabled := btnSave_disabled r;
     btnHold_isRecording := btnHold_isRecording r; statusText := statusText r;
     timeText := v; srTag := srTag r; nameTag := nameTag r;
     levelBar_width := levelBar_width r; sessionLabel_value := sessionLabel_value r;
     scope_width := scope_width r; scope_height := scope_height r;
     scope_drawn := scope_drawn r |}.

Definition set_srTag (v : rate_text) (r : dom) : dom :=
  {| btnStart_disabled := btnStart_disabled r; btnStop_disabled := btnStop_disabled r;
     btnSave_disabled := btnSave_disabled r;
     btnHold_isRecording := btnHold_isRecording r; statusText := statusText r;
     timeText := timeText r; srTag := v; nameTag := nameTag r;
     levelBar_width := levelBar_width r; sessionLabel_value := sessionLabel_value r;
     scope_width := scope_width r; scope_height := scope_height r;
     scope_drawn := scope_drawn r |}.

Definition set_nameTag (v : list Z) (r : dom) : dom :=
  {| btnStart_disabled := btnStart_disabled r; btnStop_disabled := btnStop_disabled r;
     btnSave_disabled := btnSave_disabled r;
     btnHold_isRecording := btnHold_isRecording r; statusText := statusText r;
     timeText := timeText r; srTag := srTag r; nameTag := v;
     levelBar_width := levelBar_width r; sessionLabel_value := sessionLabel_value r;
     scope_width := scope_width r; scope_height := scope_height r;
     scope_drawn := scope_drawn r |}.

Definition set_levelBar_width (v : list Z) (r : dom) : dom :=
  {| btnStart_disabled := btnStart_disabled r; btnStop_disabled := btnStop_disabled r;
     btnSave_disabled := btnSave_disabled r;
     btnHold_isRecording := btnHold_isRecording r; statusText := statusText r;
     timeText := timeText r; srTag := srTag r; nameTag := nameTag r;
     levelBar_width := v; sessionLabel_value := sessionLabel_value r;
     scope_width := scope_width r; scope_height := scope_height r;
     scope_drawn := scope_drawn r |}.

Definition set_sessionLabel_value (v : list Z) (r : dom) : dom :=
  {| btnStart_disabled := btnStart_disabled r; btnStop_disabled := btnStop_disabled r;
     btnSave_disabled := btnSave_disabled r;
     btnHold_isRecording := btnHold_isRecording r; statusText := statusText r;
     timeText := timeText r; srTag := srTag r; nameTag := nameTag r;
     levelBar_width := levelBar_width r; sessionLabel_value := v;
     scope_width := scope_width r; scope_height := scope_height r;
     scope_drawn := scope_drawn r |}.

Definition set_scope_drawn (v : list canvas_op) (r : dom) : dom :=
  {| btnStart_disabled := btnStart_disabled r; btnStop_disabled := btnStop_disabled r;
     btnSave_disabled := btnSave_disabled r;
     btnHold_isRecording := btnHold_isRecording r; statusText := statusText r;
     timeText := timeText r; srTag := srTag r; nameTag := nameTag r;
     levelBar_width := levelBar_width r; sessionLabel_value := sessionLabel_value r;
     scope_width := scope_width r; scope_height := scope_height r;
     scope_drawn := v |}.

Definition set_page (v : globals) (r : world) : world :=
  {| page := v; ui := ui r; env := env r; pending := pending r |}.

Definition set_ui (v : dom) (r : world) : world :=
  {| page := page r; ui := v; env := env r; pending := pending r |}.

Definition set_env (v : host) (r : world) : world :=
  {| page := page r; ui := ui r; env := v; pending := pending r |}.

Definition set_pending (v : list task) (r : world) : world :=
  {| page := page r; ui := ui r; env := env r; pending := v |}.

(** ** Access *)

Definition global {A} (f : globals -> A) : prog world A := gets (fun w => f (page w)).

(** [x = v] on a global. *)
Definition on_page (f : globals -> globals) : prog world unit :=
  modify (fun w => set_page (f (page w)) w).

Definition on_ui (f : dom -> dom) : prog world unit :=
  modify (fun w => set_ui (f (ui w)) w).

(** A function that draws on the context [sctx] of the canvas, given the
    width and the height of the canvas. *)
Definition on_sctx (f : Z -> Z -> list canvas_op) : prog world unit :=
  on_ui (fun d => set_scope_drawn (scope_drawn d ++ f (scope_width d) (scope_height d)) d).

Definition host_do {A} (m : prog host A) : prog world A := zoom env set_env m.

(** The object a global refers to: a [TypeError] when it is [null]. *)
Definition the {A} (f : globals -> option A) : prog world A :=
  (o <- global f ;; deref o)%prog.

(** The end of a stretch: the promise [t] is awaited. *)
Definition await (t : task) : prog world unit :=
  modify (fun w => set_pending (pending w ++ [t]) w).

(** [ctx.close()]: the promise stays pending until the host has closed the
    context; [awaited] tells whether [stop] waits for it. *)
Definition close (c : nat) (awaited : bool) : prog world unit :=
  await (CloseContext c awaited).

(** A call of an [async] function: its exception rejects the promise it
    returns and does not reach the caller. *)
Definition async_call (m : prog world unit) : prog world unit := attempt m.

(** ** Display *)

Definition setUI (state : string) : prog world unit :=
  (if String.eqb state "idle" then
     on_ui (set_btnStart_disabled false) ;;
     on_ui (set_btnStop_disabled true) ;;
     on_ui (set_btnSave_disabled true) ;;
     on_ui (set_btnHold_isRecording false)
   else if String.eqb state "recording" then
     on_ui (set_btnStart_disabled true) ;;
     on_ui (set_btnStop_disabled false) ;;
     on_ui (set_btnSave_disabled true) ;;
     on_ui (set_btnHold_isRecording true)
   else if String.eqb state "stopped" then
     on_ui (set_btnStart_disabled false) ;;
     on_ui (set_btnStop_disabled true) ;;
     on_ui (set_btnSave_disabled false) ;;
     on_ui (set_btnHold_isRecording false)
   else ret tt)%prog.

Definition setStatus (msg : list Z) : prog world unit := on_ui (set_statusText msg).

Definition updateTimer : prog world unit :=
  (t <- host_do performance_now ;;
   s <- global startAt ;;
   on_ui (set_timeText (timer_text t s)))%prog.

Definition buildSuggestedName : prog world (list Z) :=
  (value <- gets (fun w => sessionLabel_value (ui w)) ;;
   ts <- host_do new_Date ;;
   let name := suggested_name value ts in
   on_ui (set_nameTag (lit "filename: " ++ name)) ;;
   ret name)%prog.

Definition updateMeterAndScope : prog world unit :=
  (a <- global analyser ;;
   match a with
   | None => ret tt
   | Some a =>
       data <- host_do (getByteTimeDomainData a) ;;
       on_ui (set_levelBar_width (meter_width data)) ;;
       on_sctx (drawScope data) ;;
       id <- host_do requestAnimationFrame ;;
       on_page (set_rafId id)
   end)%prog.

(** ** Capture source and worklet *)

Definition getBestMicStream : prog world unit :=
  let constraints :=
    {| Audio.channelCount := 1; Audio.sampleRate := 48000; Audio.sampleSize := 16;
       Audio.echoCancellation := false; Audio.noiseSuppression := false;
       Audio.autoGainControl := false |} in
  await (GetUserMedia constraints).

(** The name the worklet's code registers [CaptureProcessor] under. *)
Definition processor_name : string := "capture-processor".

(** [ensureWorklet] up to its [await]. *)
Definition ensureWorklet (c : nat) : prog world unit :=
  (url <- host_do createObjectURL ;;
   await (AddModule c url))%prog.

(** [ensureWorklet] after its [await]. *)
Definition ensureWorklet_loaded (url : Z) : prog world unit :=
  host_do (revokeObjectURL url).

(** ** Processing graph *)

Definition buildProcessingGraph : prog world unit :=
  (c <- the ctx ;;
   n <- host_do (createDynamicsCompressor c) ;;
   on_page (set_compressor (Some n)) ;;
   n <- the compressor ;;
   host_do (set_value n threshold (-28)) ;;
   host_do (set_value n knee 24) ;;
   host_do (set_value n ratio (32 # 10)) ;;
   host_do (set_value n attack (5 # 1000)) ;;
   host_do (set_value n release (20 # 100)) ;;

   c <- the ctx ;;
   n <- host_do (createBiquadFilter c) ;;
   on_page (set_shelf (Some n)) ;;
   n <- the shelf ;;
   host_do (set_type n "highshelf") ;;
   host_do (set_value n frequency 2500) ;;
   host_do (set_value n gain 4) ;;

   c <- the ctx ;;
   n <- host_do (createAnalyser c) ;;
   on_page (set_analyser (Some n)) ;;
   n <- the analyser ;;
   host_do (set_fft n 2048) ;;

   c <- the ctx ;;
   n <- host_do (new_AudioWorkletNode c processor_name 1 0 1) ;;
   on_page (set_workletNode (Some n)) ;;

   n <- the workletNode ;;
   host_do (set_handler n) ;;

   a <- the source ;; b <- the compressor ;; host_do (connect a b) ;;
   a <- the compressor ;; b <- the shelf ;; host_do (connect a b) ;;
   a <- the shelf ;; b <- the analyser ;; host_do (connect a b) ;;
   a <- the analyser ;; b <- the workletNode ;; host_do (connect a b))%prog.

(** The handler [buildProcessingGraph] gives the port. *)
Definition port_onmessage (data : list num) : prog world unit :=
  on_page (fun g => set_coll (onmessage data (coll g)) g).

(** ** Cleanup *)

Definition cleanup : prog world unit :=
  (id <- global timerId ;; host_do (clearInterval id) ;;
   id <- global rafId ;; host_do (cancelAnimationFrame id) ;;
   s <- global stream ;;
   attempt (opt_do s (fun s => host_do (stop_tracks s))) ;;
   on_page (set_stream None) ;;
   c <- global ctx ;;
   attempt (opt_do c (fun c => close c false)) ;;
   on_page (set_ctx None) ;;
   on_page (set_recording false) ;;
   on_ui (set_levelBar_width (lit "0%")) ;;
   on_ui (set_timeText (lit "00:00")) ;;
   on_ui (set_srTag Dash) ;;
   on_sctx clearScope)%prog.

(** ** Start *)

(** The [catch] block of [start]. *)
Definition start_catch (err : exn) : prog world unit :=
  (host_do (console_error err) ;;
   setStatus (lit "Mic error: " ++ message err) ;;
   cleanup ;;
   setUI "idle")%prog.

(** [start] up to [await getBestMicStream()]. *)
Definition start : prog world unit :=
  (r <- global recording ;;
   if r then ret tt else
   gum <- host_do (gets has_getUserMedia) ;;
   if negb gum then
     setStatus (lit "This browser can" ++ [8217] ++ lit "t record audio (no getUserMedia).")
   else
     on_page (set_coll reset) ;;
     on_sctx clearScope ;;
     try_catch getBestMicStream start_catch)%prog.

(** [start] from the stream to [await ensureWorklet(ctx)]. *)
Definition start_granted (s : nat) : prog world unit :=
  try_catch
    (on_page (set_stream (Some s)) ;;
     c <- host_do (new_AudioContext "interactive" 48000) ;;
     on_page (set_ctx (Some c)) ;;
     c <- the ctx ;;
     ensureWorklet c)%prog
    start_catch.

(** [start] after [await ensureWorklet(ctx)]. *)
Definition start_loaded (url : Z) : prog world unit :=
  try_catch
    (ensureWorklet_loaded url ;;
     c <- the ctx ;;
     r <- host_do (context_sampleRate c) ;;
     on_page (set_sampleRate r) ;;
     r <- global sampleRate ;;
     on_ui (set_srTag (Hz r)) ;;

     c <- the ctx ;;
     s <- global stream ;;
     n <- host_do (createMediaStreamSource c s) ;;
     on_page (set_source (Some n)) ;;
     buildProcessingGraph ;;

     on_page (set_recording true) ;;
     t <- host_do performance_now ;;
     on_page (set_startAt t) ;;

     setUI "recording" ;;
     setStatus (lit "Recording" ++ [8230] ++ lit " (hold to talk, or Stop to finish)") ;;

     id <- host_do (setInterval 250) ;;
     on_page (set_timerId id) ;;
     updateTimer ;;

     id <- global rafId ;;
     host_do (cancelAnimationFrame id) ;;
     updateMeterAndScope)%prog
    start_catch.

(** ** Stop *)

(** [stop] after [await ctx?.close()], whichever way the promise
    settled. *)
Definition stop_closed : prog world unit :=
  (on_page (set_ctx None) ;;
   s <- global stream ;;
   attempt (opt_do s (fun s => host_do (stop_tracks s))) ;;
   on_page (set_stream None))%prog.

(** [stop] up to [await ctx?.close()]; with no context there is nothing to
    wait for and the rest runs before any other event. *)
Definition stop : prog world unit :=
  (r <- global recording ;;
   if negb r then ret tt else
   on_page (set_recording false) ;;
   setUI "stopped" ;;
   setStatus (lit "Stopped. Ready to save WAV.") ;;
   _ <- buildSuggestedName ;;

   id <- global timerId ;; host_do (clearInterval id) ;;
   id <- global rafId ;; host_do (cancelAnimationFrame id) ;;
   on_ui (set_levelBar_width (lit "0%")) ;;

   n <- global workletNode ;; attempt (opt_do n (fun n => host_do (disconnect n))) ;;
   n <- global analyser ;; attempt (opt_do n (fun n => host_do (disconnect n))) ;;
   n <- global shelf ;; attempt (opt_do n (fun n => host_do (disconnect n))) ;;
   n <- global compressor ;; attempt (opt_do n (fun n => host_do (disconnect n))) ;;
   n <- global source ;; attempt (opt_do n (fun n => host_do (disconnect n))) ;;

   c <- global ctx ;;
   match c with
   | Some c => close c true
   | None => stop_closed
   end)%prog.

(** ** Save *)

(** [save] after [await saveBlob(wavBlob, name)]. *)
Definition save_saved (name : list Z) : prog world unit :=
  setStatus (lit "Saved: " ++ name).

(** The [catch] block of [save]. *)
Definition save_catch (err : exn) : prog world unit :=
  (host_do (console_error err) ;;
   setStatus (lit "Save canceled/failed: " ++ message err))%prog.

(** [saveBlob]: with a file picker, up to the first [await]; without one,
    the whole function, and [k], what its caller does next. *)
Definition saveBlob (blob : Blob) (suggestedName : list Z) (k : prog world unit) :
    prog world unit :=
  (picker <- host_do (gets has_showSaveFilePicker) ;;
   if picker then await (SaveFilePicker blob suggestedName)
   else
     url <- host_do createObjectURL ;;
     host_do (download suggestedName blob) ;;
     host_do (revokeObjectURL url) ;;
     k)%prog.

(** [saveBlob] after each of its [await]s. *)
Definition saveBlob_resume (t : task) : prog world unit :=
  match t with
  | SaveFilePicker blob name => await (CreateWritable blob name)
  | CreateWritable blob name => await (WriteBlob blob name)
  | WriteBlob blob name => await (CloseWritable blob name)
  | CloseWritable blob name => (host_do (write_file name blob) ;; save_saved name)%prog
  | _ => ret tt
  end.

Definition save : prog world unit :=
  (n <- global (fun g => recordedSamples (coll g)) ;;
   if decide (n <= 0) then setStatus (lit "Nothing recorded yet.") else
   setStatus (lit "Encoding WAV" ++ [8230]) ;;
   c <- global coll ;;
   f32 <- lift (flattenChunks c) ;;
   sr <- global sampleRate ;;
   wavBlob <- lift (encodeWavMono16 f32 sr) ;;

   name <- buildSuggestedName ;;

   try_catch (saveBlob wavBlob name (save_saved name)) save_catch)%prog.

(** ** Hold to record *)

Definition holdStart : prog world unit :=
  (h <- global holdActive ;;
   if h then ret tt else
   on_page (set_holdActive true) ;;
   r <- global recording ;;
   when (negb r) (async_call start))%prog.

Definition holdEnd : prog world unit :=
  (h <- global holdActive ;;
   if negb h then ret tt else
   on_page (set_holdActive false) ;;
   r <- global recording ;;
   when r (async_call stop))%prog.

(** ** Page load *)

(** The initial values of the globals. *)
Definition globals0 : globals :=
  {| stream := None; ctx := None; source := None; compressor := None; shelf := None;
     analyser := None; workletNode := None; recording := false; startAt := 0;
     rafId := 0; timerId := 0; coll := reset; sampleRate := Fin 48000;
     holdActive := false |}.

(** The listener of [load] on the window, which the script adds when the
    browser has service workers: the registration is awaited and its
    rejection caught, and nothing follows. *)
Definition window_load : prog world unit :=
  (host_do (register_worker (lit "./sw.js")) ;;
   await RegisterWorker)%prog.

(** The statements the script runs when it is loaded. *)
Definition load : prog world unit :=
  (_ <- buildSuggestedName ;;
   setUI "idle")%prog.

(** The world after the script has run in the document [d] on the host
    [h]. *)
Definition init (d : dom) (h : host) : world :=
  run load {| page := globals0; ui := d; env := h; pending := [] |}.

(** ** Running a function on a state *)

(** Reduction of the statements of a function on a state given by its
    fields: the combinators, the host's operations and the field updates
    are unfolded; strings, numbers and the encoder are left as they are. *)
Ltac run_page :=
  lazy beta iota zeta delta
   [
    bind ret get put modify throw lift try_catch gets when opt_do deref attempt zoom
    set_ctx_state set_processors set_kind set_owner set_params
    set_filter_type set_fftSize set_has_onmessage set_has_getUserMedia
    set_has_showSaveFilePicker set_now set_today set_audio_device set_signal
    set_streams set_contexts set_nodes set_edges set_intervals set_raf_requests
    set_next_handle set_object_urls set_mailbox set_console set_files set_downloads
    set_worker_scripts register_worker has_serviceWorker worker_scripts window_load to_byte
    fresh alloc_node the_context the_node update_node performance_now new_Date
    console_error grant_stream stop_tracks new_AudioContext context_sampleRate
    register_processor finish_close new_node createMediaStreamSource
    createDynamicsCompressor createBiquadFilter createAnalyser new_AudioWorkletNode
    set_value set_type set_fft set_handler connect disconnect getByteTimeDomainData
    setInterval clearInterval requestAnimationFrame cancelAnimationFrame
    createObjectURL revokeObjectURL download write_file post has_getUserMedia
    has_showSaveFilePicker now today audio_device signal streams contexts nodes edges
    intervals raf_requests next_handle object_urls mailbox console files downloads kind
    owner params filter_type fftSize has_onmessage latencyHint requested_sampleRate ctx_state ctx_sampleRate processors
    set_stream set_ctx set_source set_compressor set_shelf set_analyser set_workletNode
    set_recording set_startAt set_rafId set_timerId set_coll set_sampleRate
    set_holdActive set_btnStart_disabled set_btnStop_disabled set_btnSave_disabled
    set_btnHold_isRecording set_statusText set_timeText set_srTag set_nameTag
    set_levelBar_width set_sessionLabel_value set_scope_drawn set_page set_ui set_env
    set_pending global on_page on_ui on_sctx host_do the await close async_call setUI setStatus updateTimer
    buildSuggestedName updateMeterAndScope getBestMicStream ensureWorklet
    ensureWorklet_loaded buildProcessingGraph port_onmessage cleanup start_catch start
    start_granted start_loaded stop_closed stop save_saved save_catch saveBlob
    saveBlob_resume save holdStart holdEnd load stream ctx source compressor shelf
    analyser workletNode recording startAt rafId timerId coll sampleRate holdActive
    btnStart_disabled btnStop_disabled btnSave_disabled btnHold_isRecording statusText
    timeText srTag nameTag levelBar_width sessionLabel_value scope_width scope_height
    scope_drawn page ui env pending
   ].
