(* ===== verification/EventLoop.v ===== *)
(** * The event loop of the recorder page

    What can happen to the page, one [event] at a time: the user's clicks
    and pointer gestures on the listeners [src/recorder/app.js] registers,
    the [load] and [beforeunload] of the window, the settling of a promise
    the page awaits, a tick of the interval, an
    animation frame, a render quantum of the capture worklet, the delivery
    of a message of its port, and changes of the host that the page only
    reads (the clock, the audio device, the analyser's signal).

    [handle] is the code the event runs, [enabled] says when the event can
    happen, and [step] is the state after it.  A handler runs to its end
    before the next event; what it leaves is [run] of it, also when an
    exception escaped it.  [reachable] is the set of states of the page
    after any sequence of events from its load.

    The browser fires [load] once; here it may happen any number of times,
    which only adds states to those the invariants are proved of. *)

From Stdlib Require Import String ZArith QArith List Bool.
From stdpp Require Import base tactics list strings.
From S2P Require Import Prelude Hoare JsNum JsString TypedArray Pcm Collector Wav.
From S2P Require Import Timer Meter Label Host Recorder.

#[local] Open Scope string_scope.
#[local] Open Scope Z_scope.

(** ** Events *)

(** How a promise settles. *)
Inductive answer : Type :=
| Resolved
| Rejected (e : exn).

Inductive event : Type :=
| ClickStart
| ClickStop
| ClickSave
| HoldPointerDown
| HoldPointerUp
| HoldPointerCancel
| HoldPointerLeave
| WindowPointerUp
| LabelInput (value : list Z)
| BeforeUnload
| WindowLoad
| Settle (i : nat) (a : answer)
| IntervalTick (id : Z)
| AnimationFrame (id : Z)
| Render (n : nat) (ch0 : list num)
| PortMessage
| Clock (t : Q) (d : date)
| Device (dev : result num)
| Signal (data : list Z).

(** ** Listeners *)

(** The listener of [pointerleave] on the hold button, and of [pointerup]
    on the window. *)
Definition holdEnd_if_active : prog world unit :=
  (h <- global holdActive ;; when h holdEnd)%prog.

(** The listener of [input] on the label field, after the field has taken
    the value typed. *)
Definition label_input (value : list Z) : prog world unit :=
  (on_ui (set_sessionLabel_value value) ;;
   _ <- buildSuggestedName ;;
   ret tt)%prog.

(** ** Promises *)

(** The continuation of the page when the promise [t] settles, after the
    effect of the settling on the host. *)
Definition settle (t : task) (a : answer) : prog world unit :=
  match t, a with
  | GetUserMedia _, Resolved => (s <- host_do grant_stream ;; start_granted s)%prog
  | GetUserMedia _, Rejected e => start_catch e
  | AddModule c url, Resolved =>
      (host_do (register_processor c processor_name) ;; start_loaded url)%prog
  | AddModule c url, Rejected e => start_catch e
  | CloseContext c awaited, _ =>
      (host_do (finish_close c) ;; when awaited stop_closed)%prog
  | RegisterWorker, _ => ret tt
  | _, Resolved => try_catch (saveBlob_resume t) save_catch
  | _, Rejected e => save_catch e
  end.

Definition take_task (i : nat) : prog world (option task) :=
  (ts <- gets pending ;;
   modify (set_pending (delete i ts)) ;;
   ret (ts !! i))%prog.

(** ** The worklet *)

Definition is_worklet (x : node) : bool :=
  match kind x with AudioWorkletNode _ _ _ _ => true | _ => false end.

Definition has_input (n : nat) (h : host) : bool :=
  existsb (fun e => (snd e =? n)%nat) (edges h).

(** The worklet [n] processes a render quantum; [ch0] is channel 0 of what
    reaches its input, when something is connected to it. *)
Definition render (n : nat) (ch0 : list num) : prog host unit :=
  (h <- get ;;
   r <- lift (process [if has_input n h then [ch0] else []]) ;;
   opt_do (fst r) (post n))%prog.

Definition can_render (n : nat) (h : host) : bool :=
  match nodes h !! n with
  | Some x =>
      is_worklet x &&
      match contexts h !! owner x with
      | Some c => bool_decide (ctx_state c = Running)
      | None => false
      end
  | None => false
  end.

(** The first message in flight reaches its port. *)
Definition deliver_message : prog world unit :=
  (box <- gets (fun w => mailbox (env w)) ;;
   match box with
   | [] => ret tt
   | (n, data) :: box' =>
       host_do (modify (set_mailbox box')) ;;
       x <- host_do (the_node n) ;;
       when (has_onmessage x) (port_onmessage data)
   end)%prog.

(** ** Dispatch *)

Definition handle (ev : event) : prog world unit :=
  match ev with
  | ClickStart => start
  | ClickStop => stop
  | ClickSave => save
  | HoldPointerDown => holdStart
  | HoldPointerUp => (holdEnd ;; holdEnd_if_active)%prog
  | HoldPointerCancel => holdEnd
  | HoldPointerLeave => holdEnd_if_active
  | WindowPointerUp => holdEnd_if_active
  | LabelInput value => label_input value
  | BeforeUnload => cleanup
  | WindowLoad => window_load
  | Settle i a => (t <- take_task i ;; opt_do t (fun t => settle t a))%prog
  | IntervalTick _ => updateTimer
  | AnimationFrame id =>
      (host_do (cancelAnimationFrame id) ;; updateMeterAndScope)%prog
  | Render n ch0 => host_do (render n ch0)
  | PortMessage => deliver_message
  | Clock t d => host_do (modify (fun h => set_today d (set_now t h)))
  | Device dev => host_do (modify (set_audio_device dev))
  | Signal data => host_do (modify (set_signal data))
  end.

Definition enabled (ev : event) (w : world) : bool :=
  match ev with
  | ClickStart => negb (btnStart_disabled (ui w))
  | ClickStop => negb (btnStop_disabled (ui w))
  | ClickSave => negb (btnSave_disabled (ui w))
  | WindowLoad => has_serviceWorker (env w)
  | Settle i _ => bool_decide (i < length (pending w))%nat
  | IntervalTick id => bool_decide (id ∈ (fst <$> intervals (env w)))
  | AnimationFrame id => bool_decide (id ∈ raf_requests (env w))
  | Render n _ => can_render n (env w)
  | PortMessage => negb (bool_decide (mailbox (env w) = []))
  | Clock t _ => Qle_bool (now (env w)) t
  | _ => true
  end.

Definition step (ev : event) (w : world) : option world :=
  if enabled ev w then Some (run (handle ev) w) else None.

(** The state after a sequence of events, when each can happen in its
    turn. *)
Fixpoint steps (evs : list event) (w : world) : option world :=
  match evs with
  | [] => Some w
  | ev :: evs' =>
      match step ev w with
      | Some w' => steps evs' w'
      | None => None
      end
  end.

(** The states of the page after its load on some host. *)
Inductive reachable : world -> Prop :=
| reach_load d gum picker sw t day dev :
    reachable (init d (fresh_host gum picker sw t day dev))
| reach_step w ev w' :
    reachable w -> step ev w = Some w' -> reachable w'.

(** ** Specification *)

(** The three states of the controls that [setUI] sets. *)
Inductive ui_state : Type := Idle | Recording | Stopped.

Definition controls (d : dom) : bool * bool * bool * bool :=
  (btnStart_disabled d, btnStop_disabled d, btnSave_disabled d, btnHold_isRecording d).

Definition shows (st : ui_state) (d : dom) : Prop :=
  controls d
  = match st with
    | Idle => (false, true, true, false)
    | Recording => (true, false, true, true)
    | Stopped => (false, true, false, false)
    end.

(** The controls are in one of the three states. *)
Definition ui_wellformed (w : world) : Prop := exists st, shows st (ui w).

Definition not_recording (w : world) : Prop := recording (page w) = false.

(** While [recording] is set the controls show it. *)
Definition ui_consistent (w : world) : Prop :=
  recording (page w) = true -> shows Recording (ui w).

Definition coll_ok (w : world) : Prop := collector_inv (coll (page w)).

(** ** Sequences of events *)

Lemma steps_app evs1 evs2 w :
  steps (evs1 ++ evs2) w = w' ← steps evs1 w; steps evs2 w'.
Proof.
  revert w. induction evs1 as [|ev evs1 IH]; intros w; [reflexivity|].
  simpl. destruct (step ev w); [apply IH | reflexivity].
Qed.

Lemma steps_reachable evs w w' : reachable w -> steps evs w = Some w' -> reachable w'.
Proof.
  revert w. induction evs as [|ev evs IH]; intros w Hw; simpl.
  - intros [= <-]. exact Hw.
  - destruct (step ev w) as [w1|] eqn:E; [|discriminate].
    apply IH. eapply reach_step; eauto.
Qed.

Lemma reachable_steps w :
  reachable w ->
  exists d gum picker sw t day dev evs,
    steps evs (init d (fresh_host gum picker sw t day dev)) = Some w.
Proof.
  induction 1 as [d gum picker sw t day dev | w ev w' _ IH Hs].
  - exists d, gum, picker, sw, t, day, dev, []. reflexivity.
  - destruct IH as (d & gum & picker & sw & t & day & dev & evs & E).
    exists d, gum, picker, sw, t, day, dev, (evs ++ [ev])%list.
    rewrite steps_app, E. simpl. rewrite Hs. reflexivity.
Qed.

(** An invariant of the page: it holds after the load and every handler
    keeps it. *)
Lemma reachable_invariant (I : world -> Prop) :
  (forall d h, I (init d h)) -> (forall ev, preserves I (handle ev)) ->
  forall w, reachable w -> I w.
Proof.
  intros Hinit Hstep w. induction 1 as [|w ev w' _ IH Hs]; [apply Hinit|].
  unfold step in Hs. destruct (enabled ev w); [|discriminate].
  injection Hs as <-. apply Hstep, IH.
Qed.

(** ** The collector's invariant *)

Ltac coll_leaf :=
  intros;
  first [ match goal with H : _ |- _ => exact H end
        | apply reset_inv
        | apply onmessage_inv; match goal with H : _ |- _ => exact H end ].

Lemma handle_coll_ok ev : preserves coll_ok (handle ev).
Proof. destruct ev; preserve_with coll_leaf. Qed.

Lemma init_coll_ok d h : coll_ok (init d h).
Proof. unfold init. apply preserves_run; [preserve_with coll_leaf | apply reset_inv]. Qed.

Lemma reachable_coll_ok w : reachable w -> coll_ok w.
Proof. apply reachable_invariant; [apply init_coll_ok | apply handle_coll_ok]. Qed.

(** ** The controls *)

Lemma setUI_wellformed st : preserves ui_wellformed (setUI st).
Proof.
  intros s H. unfold setUI.
  destruct (String.eqb st "idle"); [exists Idle; reflexivity|].
  destruct (String.eqb st "recording"); [exists Recording; reflexivity|].
  destruct (String.eqb st "stopped"); [exists Stopped; reflexivity | exact H].
Qed.

#[local] Hint Resolve setUI_wellformed : preserve.

Lemma handle_wellformed ev : preserves ui_wellformed (handle ev).
Proof. destruct ev; preserve_with untouched. Qed.

Lemma init_wellformed d h : ui_wellformed (init d h).
Proof. exists Idle. reflexivity. Qed.

(** ** The controls while recording *)

Lemma not_recording_consistent w : not_recording w -> ui_consistent w.
Proof. unfold not_recording, ui_consistent. congruence. Qed.

Lemma shows_consistent w : shows Recording (ui w) -> ui_consistent w.
Proof. intros H _. exact H. Qed.

Lemma setUI_not_recording st : preserves not_recording (setUI st).
Proof. preserve_with untouched. Qed.

(** [cleanup] does not throw and leaves [recording] unset. *)
Lemma cleanup_not_recording :
  hoare (fun _ => True) cleanup (fun _ => not_recording) (fun _ _ => False).
Proof.
  apply hoare_total; [total_tac|]. unfold cleanup.
  repeat lazymatch goal with
  | |- hoare _ (bind (on_page (set_recording false)) _) _ _ => fail
  | |- hoare _ (bind _ _) _ _ => apply hoare_skip; intros ?
  end.
  apply hoare_bind with (R := fun _ => not_recording);
    [apply hoare_modify; reflexivity|].
  intros _. eapply hoare_conseq; [apply (hoare_after not_recording not_recording)|..]; auto.
  preserve_with untouched.
Qed.

Lemma start_catch_not_recording e :
  hoare (fun _ => True) (start_catch e) (fun _ => not_recording) (fun _ _ => False).
Proof.
  apply hoare_total; [total_tac|]. unfold start_catch.
  do 2 (apply hoare_skip; intros ?).
  apply hoare_bind with (R := fun _ => not_recording).
  - eapply hoare_conseq; [apply cleanup_not_recording|..]; auto.
  - intros _. eapply hoare_conseq; [apply (hoare_after not_recording not_recording)|..]; auto.
    apply setUI_not_recording.
Qed.

Lemma start_catch_consistent e : preserves ui_consistent (start_catch e).
Proof.
  eapply preserves_of_post;
    [apply start_catch_not_recording | intros; constructor | apply not_recording_consistent].
Qed.

Lemma cleanup_consistent : preserves ui_consistent cleanup.
Proof.
  eapply preserves_of_post;
    [apply cleanup_not_recording | intros; constructor | apply not_recording_consistent].
Qed.

Lemma setUI_recording :
  hoare (fun _ => True) (setUI "recording") (fun _ w => shows Recording (ui w))
    (fun _ _ => True).
Proof. intros s _. reflexivity. Qed.

Lemma start_loaded_consistent url : preserves ui_consistent (start_loaded url).
Proof.
  apply hoare_preserves. unfold start_loaded.
  apply hoare_try_catch with (E' := fun _ _ => True).
  - apply hoare_conseq with (P' := fun _ => True)
      (Q' := fun _ w => shows Recording (ui w)) (E' := fun _ _ => True);
      auto using shows_consistent.
    repeat lazymatch goal with
    | |- hoare _ (bind (setUI _) _) _ _ => fail
    | |- hoare _ (bind _ _) _ _ => apply hoare_skip; intros ?
    end.
    apply hoare_bind with (R := fun _ w => shows Recording (ui w));
      [apply setUI_recording|].
    intros _. eapply hoare_conseq;
      [apply (hoare_after (fun w => shows Recording (ui w))
                (fun w => shows Recording (ui w)))|..]; auto.
    preserve_with untouched.
  - intros e. eapply hoare_conseq;
      [apply start_catch_not_recording | auto | intros ?; apply not_recording_consistent
      | intros ? ? []].
Qed.

Lemma stop_consistent : preserves ui_consistent stop.
Proof.
  apply hoare_preserves. unfold stop.
  apply hoare_bind_keep; [preserve_with untouched | auto |]. intros r.
  destruct r; simpl; [|apply hoare_ret; auto].
  apply hoare_bind with (R := fun _ => not_recording); [apply hoare_modify; reflexivity|].
  intros _. eapply hoare_conseq; [apply (hoare_after not_recording not_recording)|..];
    auto using not_recording_consistent.
  preserve_with untouched.
Qed.

#[local] Hint Resolve start_catch_consistent cleanup_consistent start_loaded_consistent
  stop_consistent : preserve.

Lemma handle_consistent ev : preserves ui_consistent (handle ev).
Proof. destruct ev; preserve_with untouched. Qed.

Lemma init_consistent d h : ui_consistent (init d h).
Proof. apply not_recording_consistent. reflexivity. Qed.

Lemma reachable_wellformed w : reachable w -> ui_wellformed w.
Proof. apply reachable_invariant; [apply init_wellformed | apply handle_wellformed]. Qed.

Lemma reachable_consistent w : reachable w -> ui_consistent w.
Proof. apply reachable_invariant; [apply init_consistent | apply handle_consistent]. Qed.
