(* ===== verification/Safety.v ===== *)
(** * What the handlers of the recorder guarantee

    Properties of the page of [src/recorder/app.js] in every state it can
    reach, by the invariants of [EventLoop], and of its handlers one at a
    time:

    - the count of collected samples is the length of the collected blocks
      in every reachable state, so [save] never fails to flatten them;
    - [save] writes the canonical file of the collected blocks under the
      suggested name, reports an empty recording exactly when nothing was
      collected, and changes no global, whether it succeeds, is cancelled
      or fails;
    - while [recording] is set the controls show it: Start and Save are
      disabled and Stop is enabled;
    - [start] while recording and [stop] while not recording do nothing;
    - only the delivery of a block and [start] change the collected
      blocks. *)

From Stdlib Require Import String ZArith QArith List Bool Lia.
From stdpp Require Import base tactics list strings.
From S2P Require Import Prelude Hoare JsNum JsString TypedArray Pcm Collector Wav.
From S2P Require Import Timer Meter Label Host Recorder EventLoop.

#[local] Open Scope string_scope.
#[local] Open Scope Z_scope.

(** ** Specification *)

(** The file of the blocks collected in [c], recorded at the rate [sr]. *)
Definition recording_blob (c : collector) (sr : num) : Blob :=
  {| blob_bytes := wav_file sr (map sample_to_int16 (concat (chunks c)));
     blob_type := "audio/wav" |}.

(** The name [buildSuggestedName] computes in the state [w]. *)
Definition name_now (w : world) : list Z :=
  suggested_name (sessionLabel_value (ui w)) (today (env w)).

(** The promises of [saveBlob]. *)
Definition is_save_task (t : task) : bool :=
  match t with
  | SaveFilePicker _ _ | CreateWritable _ _ | WriteBlob _ _ | CloseWritable _ _ => true
  | _ => false
  end.

(** The events that run [start] from its beginning, or deliver a block. *)
Definition changes_buffer (ev : event) : bool :=
  match ev with
  | ClickStart | HoldPointerDown | PortMessage => true
  | _ => false
  end.

Definition empty_status : list Z := lit "Nothing recorded yet.".

(** The streams, contexts, nodes, connections, timers and messages of a
    host. *)
Definition audio (h : host) :=
  (streams h, contexts h, nodes h, edges h, intervals h, raf_requests h, mailbox h).

(** A document and a host to run the page on. *)
Definition demo_dom : dom :=
  {| btnStart_disabled := false; btnStop_disabled := false; btnSave_disabled := false;
     btnHold_isRecording := false; statusText := lit "Ready."; timeText := lit "00:00";
     srTag := Markup; nameTag := []; levelBar_width := lit "0%";
     sessionLabel_value := lit "My Track!! 01";
     scope_width := 8; scope_height := 100; scope_drawn := [] |}.

Definition demo_host (picker : bool) : host :=
  fresh_host true picker true 0 example_date (Ok (Fin 48000)).

Definition demo_world (picker : bool) : world := init demo_dom (demo_host picker).

(** The page of [demo_world] after the events [evs]. *)
Definition demo_after (picker : bool) (evs : list event) : world :=
  default (demo_world picker) (steps evs (demo_world picker)).

(** ** The encoding step of [save] *)

(** With something collected, [save] encodes the blocks and goes on to
    name and write the file. *)
Lemma save_encodes w :
  coll_ok w -> 0 < recordedSamples (coll (page w)) ->
  save w =
    (name <- buildSuggestedName ;;
     let blob := recording_blob (coll (page w)) (sampleRate (page w)) in
     try_catch (saveBlob blob name (save_saved name)) save_catch)%prog
      (set_ui (set_statusText (lit "Encoding WAV" ++ [8230]) (ui w)) w).
Proof.
  intros Hc Hn. unfold save.
  unfold bind at 1, global at 1, gets at 1.
  destruct (decide (recordedSamples (coll (page w)) <= 0)) as [|_]; [lia|].
  unfold bind at 1, setStatus at 1, on_ui at 1, modify at 1.
  unfold bind at 1, global at 1, gets at 1. cbn [page set_ui].
  unfold bind at 1. rewrite (flattenChunks_concat _ Hc). cbn [lift].
  unfold bind at 1, global at 1, gets at 1. cbn [page set_ui].
  unfold bind at 1. rewrite encodeWavMono16_layout, floatTo16BitPCM_map. reflexivity.
Qed.

Lemma save_nothing w :
  recordedSamples (coll (page w)) <= 0 ->
  save w = Done tt (set_ui (set_statusText empty_status (ui w)) w).
Proof.
  intros Hn. unfold save. unfold bind at 1, global at 1, gets at 1.
  destruct (decide (recordedSamples (coll (page w)) <= 0)); [reflexivity | lia].
Qed.

(** [save] through the download anchor. *)
Lemma save_anchor w :
  coll_ok w -> 0 < recordedSamples (coll (page w)) ->
  has_showSaveFilePicker (env w) = false ->
  exists w', save w = Done tt w' /\
    page w' = page w /\ pending w' = pending w /\ audio (env w') = audio (env w) /\
    controls (ui w') = controls (ui w) /\
    downloads (env w')
      = (downloads (env w)
         ++ [(name_now w, recording_blob (coll (page w)) (sampleRate (page w)))])%list /\
    files (env w') = files (env w) /\
    object_urls (env w')
      = remove_handle (next_handle (env w))
          (object_urls (env w) ++ [next_handle (env w)])%list /\
    statusText (ui w') = (lit "Saved: " ++ name_now w)%list.
Proof.
  intros Hc Hn Hp. rewrite (save_encodes w Hc Hn).
  destruct w as [g d h p]. simpl in Hp. destruct h. simpl in Hp. subst.
  run_page. eexists. split; [reflexivity|]. repeat split.
Qed.

(** [save] up to the file picker. *)
Lemma save_picker w :
  coll_ok w -> 0 < recordedSamples (coll (page w)) ->
  has_showSaveFilePicker (env w) = true ->
  exists w', save w = Done tt w' /\
    page w' = page w /\ env w' = env w /\
    pending w'
      = (pending w
         ++ [SaveFilePicker (recording_blob (coll (page w)) (sampleRate (page w)))
               (name_now w)])%list /\
    statusText (ui w') = (lit "Encoding WAV" ++ [8230])%list.
Proof.
  intros Hc Hn Hp. rewrite (save_encodes w Hc Hn).
  destruct w as [g d h p]. simpl in Hp. destruct h. simpl in Hp. subst.
  run_page. eexists. split; [reflexivity|]. repeat split.
Qed.

(** ** The demonstration page *)

Lemma demo_reachable picker evs :
  is_Some (steps evs (demo_world picker)) -> reachable (demo_after picker evs).
Proof.
  intros [w E]. unfold demo_after. rewrite E. simpl.
  eapply steps_reachable; [apply reach_load | exact E].
Qed.

(** ** The collected blocks in every reachable state *)

(** C3: in every state the page can reach, [recordedSamples] is the total
    length of [chunks], and [flattenChunks] returns the blocks concatenated
    in arrival order without throwing. *)
Theorem reachable_collector_inv (w : world) :
  reachable w ->
  collector_inv (coll (page w)) /\
  flattenChunks (coll (page w)) = Ok (concat (chunks (coll (page w)))).
Proof.
  intros H. pose proof (reachable_coll_ok w H) as Hc.
  split; [exact Hc | apply flattenChunks_concat, Hc].
Qed.

Lemma reachable_collector_inv_witness :
  let w := demo_after false
             [ClickStart; Settle 0 Resolved; Settle 0 Resolved;
              Render 4 [Fin 1; Fin 0]; PortMessage] in
  collector_inv (coll (page w)) /\
  flattenChunks (coll (page w)) = Ok (concat (chunks (coll (page w)))).
Proof.
  apply reachable_collector_inv, demo_reachable. vm_compute. eauto.
Defined.

(** ** Saving *)

(** C6: in a reachable state with something collected and no file picker,
    [save] does not throw, downloads exactly one file, the canonical WAV
    file of the collected blocks at the recorded rate under the suggested
    name, reports it, and changes no global. *)
Theorem save_downloads_recording (w : world) :
  reachable w -> 0 < recordedSamples (coll (page w)) ->
  has_showSaveFilePicker (env w) = false ->
  exists w', save w = Done tt w' /\
    page w' = page w /\ pending w' = pending w /\ audio (env w') = audio (env w) /\
    controls (ui w') = controls (ui w) /\
    downloads (env w')
      = (downloads (env w)
         ++ [(name_now w, recording_blob (coll (page w)) (sampleRate (page w)))])%list /\
    files (env w') = files (env w) /\
    object_urls (env w')
      = remove_handle (next_handle (env w))
          (object_urls (env w) ++ [next_handle (env w)])%list /\
    statusText (ui w') = (lit "Saved: " ++ name_now w)%list.
Proof. intros H. apply save_anchor, reachable_coll_ok, H. Qed.

Lemma save_downloads_recording_witness :
  let w := demo_after false
             [ClickStart; Settle 0 Resolved; Settle 0 Resolved;
              Render 4 [Fin 1; Fin (-1)]; PortMessage; ClickStop; Settle 0 Resolved] in
  exists w', save w = Done tt w' /\
    page w' = page w /\ pending w' = pending w /\ audio (env w') = audio (env w) /\
    controls (ui w') = controls (ui w) /\
    downloads (env w')
      = (downloads (env w)
         ++ [(name_now w, recording_blob (coll (page w)) (sampleRate (page w)))])%list /\
    files (env w') = files (env w) /\
    object_urls (env w')
      = remove_handle (next_handle (env w))
          (object_urls (env w) ++ [next_handle (env w)])%list /\
    statusText (ui w') = (lit "Saved: " ++ name_now w)%list.
Proof.
  apply save_downloads_recording;
    [apply demo_reachable; vm_compute; eauto | reflexivity | reflexivity].
Defined.

Lemma status_not_empty (s : list Z) (c : Z) :
  c <> 78 -> (c :: s)%list <> empty_status.
Proof. intros Hc [= E]. apply Hc. exact E. Qed.

(** C9: in a reachable state [save] reports an empty recording exactly when
    no sample has been collected, and then does nothing else: no file, no
    promise, no change of the globals. *)
Theorem empty_recording_iff (w : world) :
  reachable w ->
  (statusText (ui (run save w)) = empty_status <-> recordedSamples (coll (page w)) = 0) /\
  (recordedSamples (coll (page w)) = 0 ->
   run save w = set_ui (set_statusText empty_status (ui w)) w).
Proof.
  intros H. pose proof (reachable_coll_ok w H) as Hc.
  assert (0 <= recordedSamples (coll (page w))) as Hn by (rewrite Hc; lia).
  assert (recordedSamples (coll (page w)) = 0 ->
          run save w = set_ui (set_statusText empty_status (ui w)) w) as H0.
  { intros E. unfold run. rewrite save_nothing by lia. reflexivity. }
  split; [split|exact H0]; [|intros E; rewrite (H0 E); reflexivity].
  intros E. destruct (decide (recordedSamples (coll (page w)) = 0)) as [|Hne]; [assumption|].
  exfalso. revert E. unfold run.
  destruct (has_showSaveFilePicker (env w)) eqn:Hp.
  - destruct (save_picker w Hc ltac:(lia) Hp) as (w' & Es & _ & _ & _ & Est).
    rewrite Es. cbn [final]. rewrite Est. apply (status_not_empty _ 69). lia.
  - destruct (save_anchor w Hc ltac:(lia) Hp) as (w' & Es & _ & _ & _ & _ & _ & _ & _ & Est).
    rewrite Es. cbn [final]. rewrite Est. apply (status_not_empty _ 83). lia.
Qed.

Lemma empty_recording_iff_witness :
  let w := demo_after false [ClickStart; Settle 0 Resolved; Settle 0 Resolved; ClickStop] in
  (statusText (ui (run save w)) = empty_status <-> recordedSamples (coll (page w)) = 0) /\
  (recordedSamples (coll (page w)) = 0 ->
   run save w = set_ui (set_statusText empty_status (ui w)) w).
Proof. apply empty_recording_iff, demo_reachable. vm_compute. eauto. Defined.

(** Neither [save] nor any continuation of it, whether the promise
    resolved or was rejected, changes a global: the state and the collected
    blocks are there for another [save]. *)
Theorem save_keeps_globals (t : task) (a : answer) :
  is_save_task t = true -> frames page save /\ frames page (settle t a).
Proof.
  intros Ht. split; apply preserves_frames; intros b.
  - preserve_with untouched.
  - destruct t; try discriminate; destruct a; preserve_with untouched.
Qed.

Lemma save_keeps_globals_witness :
  frames page save /\
  frames page (settle (SaveFilePicker (recording_blob reset (Fin 48000)) (lit "a.wav"))
                 (Rejected (DOMException "AbortError"))).
Proof. apply save_keeps_globals. reflexivity. Defined.

(** ** The controls *)

(** C7: in every reachable state the four controls are in one of the three
    states [setUI] sets, and while [recording] is set they are in the
    recording state. *)
Theorem reachable_controls (w : world) :
  reachable w ->
  (exists st, shows st (ui w)) /\ (recording (page w) = true -> shows Recording (ui w)).
Proof.
  intros H. split; [apply reachable_wellformed | apply reachable_consistent]; exact H.
Qed.

Lemma reachable_controls_witness :
  let w := demo_after false [ClickStart; Settle 0 Resolved; Settle 0 Resolved] in
  (exists st, shows st (ui w)) /\ (recording (page w) = true -> shows Recording (ui w)).
Proof. apply reachable_controls, demo_reachable. vm_compute. eauto. Defined.

(** While the page is recording, a click can reach neither [start] nor
    [save], and can reach [stop]. *)
Theorem recording_clicks (w : world) :
  reachable w -> recording (page w) = true ->
  step ClickStart w = None /\ step ClickSave w = None /\
  step ClickStop w = Some (run stop w).
Proof.
  intros H Hr. pose proof (reachable_consistent w H Hr) as Hc.
  unfold shows, controls in Hc. injection Hc as E1 E2 E3 E4.
  unfold step, enabled. rewrite E1, E2, E3. repeat split.
Qed.

Lemma recording_clicks_witness :
  let w := demo_after false [ClickStart; Settle 0 Resolved; Settle 0 Resolved] in
  step ClickStart w = None /\ step ClickSave w = None /\
  step ClickStop w = Some (run stop w).
Proof.
  apply recording_clicks; [apply demo_reachable; vm_compute; eauto | reflexivity].
Defined.

(** [start] while recording, and [stop] while not recording, return at
    once and change nothing. *)
Theorem start_stop_guards (w : world) :
  (if recording (page w) then start w else stop w) = Done tt w.
Proof.
  unfold start, stop, bind, global, gets.
  destruct (recording (page w)); reflexivity.
Qed.

(** ** The collected blocks *)

(** C24: the collected blocks change only when a block is delivered or
    [start] begins: no other event, and no continuation of [start], [stop]
    or [save], touches them. *)
Theorem buffer_changes_only (ev : event) :
  changes_buffer ev = false -> frames (fun w => coll (page w)) (handle ev).
Proof.
  intros Hev. apply preserves_frames. intros b.
  destruct ev; try discriminate; preserve_with untouched.
Qed.

Lemma buffer_changes_only_witness :
  frames (fun w => coll (page w)) (handle (Settle 0 (Rejected TypeError))).
Proof. apply buffer_changes_only. reflexivity. Defined.
