(* ===== verification/Promises.v ===== *)
(** * The promises of the recorder

    Every [await] of [src/recorder/app.js] leaves a promise pending, and
    the continuation that runs when it settles may await another:
    [getUserMedia], then [addModule]; the four promises of the file
    picker; [ctx.close()]; the registration of the service worker.  This
    file shows that the chains end.

    Each pending promise has a weight, an upper bound on the
    continuations that can follow from it, and [owed] is the sum of the
    weights of what is pending.  A program [spends] [k] when it adds at
    most [k] to what is owed, whether it returns or throws.  The bounds of
    the functions of [Recorder] are proved statement by statement with the
    tactic [spend]; the continuation of a promise spends less than the
    weight of the promise, so every settlement takes at least one from
    what is owed.

    The recorder page is a [Machine]; the bound on its runs of settlements
    is [Machine.fires_measure]. *)

From Stdlib Require Import String ZArith QArith List Bool Lia.
From stdpp Require Import base tactics list.
From S2P Require Import Prelude Hoare Machine JsNum JsString TypedArray Pcm Collector Wav.
From S2P Require Import Timer Meter Scope Label Host Recorder EventLoop Safety.

#[local] Open Scope string_scope.
#[local] Open Scope list_scope.

(** ** The page as a machine *)

#[export] Instance recorder_machine : Machine world event := {|
  ready := enabled;
  react ev := run (handle ev);
|}.

(** ** What is owed *)

(** An upper bound on the number of continuations that follow from a
    pending promise, its own included. *)
Definition promise_weight (t : task) : nat :=
  match t with
  | GetUserMedia _ => 4
  | AddModule _ _ => 2
  | CloseContext _ _ => 1
  | SaveFilePicker _ _ => 4
  | CreateWritable _ _ => 3
  | WriteBlob _ _ => 2
  | CloseWritable _ _ => 1
  | RegisterWorker => 1
  end.

Definition owed (w : world) : nat := sum_list_with promise_weight (pending w).

(** The program adds at most [k] to what is owed. *)
Definition spends {A} (k : nat) (m : prog world A) : Prop :=
  forall w, owed (final (m w)) <= owed w + k.

Definition is_settle (ev : event) : bool :=
  match ev with Settle _ _ => true | _ => false end.

(** The settlements that empty the list of pending promises, each with
    the answer [a]: the first pending promise is settled until none is
    left. *)
Fixpoint drain (a : answer) (fuel : nat) (w : world) : list event :=
  match pending w, fuel with
  | _ :: _, S fuel => Settle 0 a :: drain a fuel (react (Settle 0 a) w)
  | _, _ => []
  end.

(** ** Runs *)

Lemma steps_fires (evs : list event) (w : world) : steps evs w = fires evs w.
Proof. revert w. induction evs as [|ev evs IH]; intros w; [reflexivity|]. cbn. unfold step, fire. cbn. destruct (enabled ev w); [apply IH | reflexivity]. Qed.

(** ** Rules *)

Section Rules.
Context {A : Type}.

Lemma spends_le k k' (m : prog world A) : spends k m -> k <= k' -> spends k' m.
Proof. intros H Hk w. specialize (H w). lia. Qed.

Lemma spends_frames k (m : prog world A) : frames pending m -> spends k m.
Proof. intros H w. unfold owed. rewrite H. lia. Qed.

Lemma spends_bind {B} k1 k (m : prog world A) (c : A -> prog world B) :
  spends k1 m -> (forall a, spends (k - k1) (c a)) -> k1 <= k -> spends k (bind m c).
Proof.
  intros Hm Hc Hk w. unfold bind. specialize (Hm w). destruct (m w) as [a w1|e w1].
  - specialize (Hc a w1). cbn [final] in Hm. lia.
  - cbn [final] in *. lia.
Qed.

Lemma spends_bind_frame {B} k (m : prog world A) (c : A -> prog world B) :
  frames pending m -> (forall a, spends k (c a)) -> spends k (bind m c).
Proof.
  intros Hm Hc. apply (spends_bind 0); [apply spends_frames, Hm | | lia].
  rewrite Nat.sub_0_r. exact Hc.
Qed.

Lemma spends_try_catch k2 k (m : prog world A) (h : exn -> prog world A) :
  (forall e, spends k2 (h e)) -> spends (k - k2) m -> k2 <= k -> spends k (try_catch m h).
Proof.
  intros Hh Hm Hk w. unfold try_catch. specialize (Hm w). destruct (m w) as [a w1|e w1].
  - cbn [final] in *. lia.
  - specialize (Hh e w1). cbn [final] in Hm. lia.
Qed.

End Rules.

Lemma spends_await k (t : task) : promise_weight t <= k -> spends k (await t).
Proof.
  intros H w. unfold await, modify, owed. cbn [final pending set_pending].
  rewrite sum_list_with_app. cbn [sum_list_with]. lia.
Qed.

Lemma spends_attempt k (m : prog world unit) : spends k m -> spends k (attempt m).
Proof.
  intros H. unfold attempt. apply (spends_try_catch 0); [|rewrite Nat.sub_0_r; exact H|lia].
  intros e w. cbn. lia.
Qed.

Lemma spends_when k (c : bool) (m : prog world unit) : spends k m -> spends k (when c m).
Proof. intros H. destruct c; [exact H|]. intros w. cbn. lia. Qed.

Lemma spends_opt_do {A} k (o : option A) (f : A -> prog world unit) :
  (forall a, spends k (f a)) -> spends k (opt_do o f).
Proof. intros H. destruct o; [apply H|]. intros w. cbn. lia. Qed.

Lemma await_spends (t : task) : spends (promise_weight t) (await t).
Proof. apply spends_await. reflexivity. Qed.

Lemma close_spends c awaited : spends 1 (close c awaited).
Proof. apply spends_await. reflexivity. Qed.

Create HintDb spends discriminated.

#[export] Hint Resolve spends_attempt spends_when spends_opt_do await_spends close_spends
  : spends.

(** A statement that does not touch the pending promises. *)
Ltac frame_pending := apply preserves_frames; intros ?; solve [preserve_with untouched].

(** A statement whose bound is known. *)
Ltac spend_known :=
  first [ solve [eauto with spends]
        | eapply spends_le; [solve [eauto with spends] | cbn; lia] ].

(** One step through the statement at the head of the goal. *)
Ltac spend_step :=
  lazymatch goal with
  | |- spends _ (bind _ _) =>
      first [ apply spends_bind_frame; [frame_pending | intros ?]
            | eapply spends_bind; [solve [eauto with spends] | intros ?; cbn [Nat.sub] | cbn; lia] ]
  | |- spends _ (try_catch _ _) =>
      first [ apply (spends_try_catch 0);
                [intros ?; apply spends_frames; frame_pending | cbn [Nat.sub] | lia]
            | eapply spends_try_catch;
                [intros ?; solve [eauto with spends] | cbn [Nat.sub] | cbn; lia] ]
  | |- spends _ (if ?c then _ else _) => destruct c
  | |- spends _ (match ?o with _ => _ end) => destruct o
  | |- spends _ ?m => let h := head_of m in progress unfold h
  end.

Ltac spend :=
  repeat first [ solve [apply spends_frames; frame_pending] | solve [spend_known] | spend_step ].

(** ** The functions *)

Lemma cleanup_spends : spends 1 cleanup.
Proof. spend. Qed.

#[export] Hint Resolve cleanup_spends : spends.

Lemma start_catch_spends e : spends 1 (start_catch e).
Proof. spend. Qed.

#[export] Hint Resolve start_catch_spends : spends.

Lemma ensureWorklet_spends c : spends 2 (ensureWorklet c).
Proof. spend. Qed.

#[export] Hint Resolve ensureWorklet_spends : spends.

Lemma start_granted_spends s : spends 3 (start_granted s).
Proof. spend. Qed.

Lemma start_loaded_spends url : spends 1 (start_loaded url).
Proof. spend. Qed.

Lemma saveBlob_resume_spends t : spends (promise_weight t - 1) (saveBlob_resume t).
Proof. destruct t; spend. Qed.

#[export] Hint Resolve start_granted_spends start_loaded_spends saveBlob_resume_spends : spends.

(** The continuation of a promise spends less than the weight of the
    promise. *)
Lemma settle_spends t a : spends (promise_weight t - 1) (settle t a).
Proof. destruct t, a; cbn [settle promise_weight Nat.sub]; spend. Qed.

(** ** Settlements *)

Lemma promise_weight_pos t : 1 <= promise_weight t.
Proof. destruct t; cbn; lia. Qed.

(** Every settlement takes one from what is owed, at least. *)
Lemma settle_decreases i a w :
  i < length (pending w) -> owed (react (Settle i a) w) < owed w.
Proof.
  intros Hi. destruct (lookup_lt_is_Some_2 _ _ Hi) as [t Ht].
  cbn [react recorder_machine handle]. unfold run, bind, take_task, gets, modify, ret.
  cbn [bind]. rewrite Ht. cbn [opt_do]. set (w1 := set_pending _ w).
  assert (owed w1 + promise_weight t = owed w) as Hw by (apply sum_list_with_delete, Ht).
  pose proof (settle_spends t a w1). pose proof (promise_weight_pos t). lia.
Qed.

(** While a promise is pending there is a settlement to make, and it
    leaves less owed. *)
Lemma drain_step a w t ts :
  pending w = t :: ts ->
  fire (Settle 0 a) w = Some (react (Settle 0 a) w) /\
  owed (react (Settle 0 a) w) < owed w.
Proof.
  intros Hp. assert (0 < length (pending w)) as Hl by (rewrite Hp; cbn; lia). split.
  - apply fire_Some. split; [|reflexivity]. cbn. apply bool_decide_eq_true. exact Hl.
  - apply settle_decreases, Hl.
Qed.

Lemma drain_empties a fuel w :
  owed w <= fuel ->
  exists w', fires (drain a fuel w) w = Some w' /\ pending w' = [] /\
             length (drain a fuel w) <= owed w.
Proof.
  revert w. induction fuel as [|fuel IH]; intros w Hw.
  - destruct (pending w) as [|t ts] eqn:Hp.
    + exists w. cbn [drain]. rewrite Hp. cbn. auto with lia.
    + unfold owed in Hw. rewrite Hp in Hw. cbn in Hw. pose proof (promise_weight_pos t). lia.
  - cbn [drain]. destruct (pending w) as [|t ts] eqn:Hp.
    + exists w. cbn. auto with lia.
    + destruct (drain_step a w t ts Hp) as [Hf Hlt].
      destruct (IH (react (Settle 0 a) w)) as (w' & Hr & He & Hn); [lia|].
      exists w'. cbn [fires length]. rewrite Hf. auto with lia.
Qed.

(** C19: the chains of promises end.  In a run of the recorder page that
    consists of settlements only, each settlement takes at least one from
    what is owed for the pending promises (four for a stream request or a
    file picker, down to one for the last promise of a chain), so the run
    is no longer than what is owed where it starts: no continuation can
    keep the page awaiting for ever. *)
Theorem settlements_bounded (evs : list event) (w w' : world) :
  forallb is_settle evs = true -> steps evs w = Some w' ->
  length evs + owed w' <= owed w.
Proof.
  rewrite steps_fires. apply fires_measure. intros [] w0 He Hr; try discriminate.
  apply settle_decreases. cbn in Hr. apply bool_decide_eq_true in Hr. exact Hr.
Qed.

(** C20: every promise the page awaits can be settled, and then nothing
    is pending: from any state, settling the first pending promise again
    and again, each with the answer [a], is a run the page accepts; it
    ends with no promise pending after at most as many settlements as are
    owed. *)
Theorem promises_drain (a : answer) (w : world) :
  exists w', steps (drain a (owed w) w) w = Some w' /\ pending w' = [] /\
             length (drain a (owed w) w) <= owed w.
Proof. rewrite steps_fires. apply drain_empties. reflexivity. Qed.

Lemma settlements_bounded_witness :
  length [Settle 0 Resolved; Settle 0 (Rejected TypeError)]
  + owed (demo_after false [ClickStart; Settle 0 Resolved; Settle 0 (Rejected TypeError)])
  <= owed (demo_after false [ClickStart]).
Proof. apply settlements_bounded; vm_compute; reflexivity. Defined.
