(* ===== verification/Canvas.v ===== *)
(** * The canvas of the recorder

    What the recorder page draws on its canvas, in every state it can
    reach: the calls of [clearScope] and [drawScope] of
    [src/recorder/app.js] append their operations to [scope_drawn], and
    every point among them lies inside the canvas.

    [drawScope] draws the bytes that [updateMeterAndScope] has read from
    the analyser.  Their number is the [fftSize] of the node the global
    [analyser] refers to, so the invariant has to say that this node
    exists and has data: [buildProcessingGraph] stores in [analyser] the
    node it has just created, nodes are never removed, and an [fftSize]
    is only ever set to a valid size.  The invariant is proved handler by
    handler, against the interface [Machine]. *)

From Stdlib Require Import String ZArith QArith List Bool Lia.
From stdpp Require Import base tactics list.
From S2P Require Import Prelude Hoare Machine JsNum JsString TypedArray Pcm Collector Wav.
From S2P Require Import Timer Meter Scope Label Host Recorder EventLoop Safety Promises.

#[local] Open Scope string_scope.
#[local] Open Scope list_scope.
#[local] Open Scope Z_scope.

(** ** Specification *)

(** A point of a path lies in the canvas of width [w] and height [h]. *)
Definition in_canvas (w h : Z) (op : canvas_op) : Prop :=
  forall x y, point_of op = Some (x, y) -> 0 <= x <= w /\ in_band h y.

(** The node [a] exists and has an array of data to give. *)
Definition has_data (a : nat) (h : host) : Prop :=
  exists x, nodes h !! a = Some x /\ 0 < fftSize x.

(** The invariant: the canvas has the size [w] by [h], the analyser of
    the page has data, and what has been drawn after [before] lies in the
    canvas. *)
Definition scope_ok (w h : Z) (before : list canvas_op) (s : world) : Prop :=
  scope_width (ui s) = w /\ scope_height (ui s) = h /\
  (forall a, analyser (page s) = Some a -> has_data a (env s)) /\
  exists ops, scope_drawn (ui s) = before ++ ops /\ Forall (in_canvas w h) ops.

(** ** The host's nodes *)

Section Nodes.
Context (a : nat).

Lemma alloc_node_has_data (n : node) : preserves (has_data a) (alloc_node n).
Proof.
  intros h (x & Hx & Hf). exists x. split; [|exact Hf].
  cbn. apply lookup_app_l_Some. exact Hx.
Qed.

Lemma update_node_has_data (n : nat) (f : node -> node) :
  (forall x, 0 < fftSize x -> 0 < fftSize (f x)) -> preserves (has_data a) (update_node n f).
Proof.
  intros Hf h (x & Hx & Hp). unfold update_node. cbv [bind gets modify final].
  unfold has_data. cbn [nodes set_nodes]. destruct (decide (n = a)) as [->|Hn].
  - exists (f x). rewrite update_lookup, Hx. auto.
  - exists x. rewrite update_lookup_ne by exact Hn. auto.
Qed.

Lemma set_value_has_data n p v : preserves (has_data a) (set_value n p v).
Proof. apply update_node_has_data. auto. Qed.

Lemma set_type_has_data n t : preserves (has_data a) (set_type n t).
Proof. apply update_node_has_data. auto. Qed.

Lemma set_handler_has_data n : preserves (has_data a) (set_handler n).
Proof. apply update_node_has_data. auto. Qed.

Lemma set_fft_has_data n v : preserves (has_data a) (set_fft n v).
Proof.
  unfold set_fft. destruct (valid_fftSize v) eqn:Hv; [|apply preserves_throw].
  apply update_node_has_data. intros x _. cbn [fftSize set_fftSize].
  unfold valid_fftSize in Hv. lia.
Qed.

End Nodes.

#[local] Hint Resolve alloc_node_has_data set_value_has_data set_type_has_data
  set_handler_has_data set_fft_has_data : preserve.

(** Every operation of the host keeps the data of every node. *)
Ltac host_keeps := intros ?; solve [preserve_with untouched].

(** One step through a handler: an operation of the host keeps the data
    of the nodes; the creation of the analyser goes with the assignment
    that follows it. *)
Ltac scope_step host_rule created :=
  lazymatch goal with
  | |- preserves _ (host_do _) => apply host_rule; host_keeps
  | |- preserves _ (bind (host_do (createAnalyser _)) _) =>
      apply preserves_bind_bind; [apply created | intros ? ?]
  | |- _ => preserve_step untouched
  end.

(** ** The statements that touch the canvas or the analyser *)

Section Statements.
Context (w h : Z) (before : list canvas_op).
Context (Hw : 0 < w) (Hh : 0 <= h).

#[local] Abbreviation ok := (scope_ok w h before).

Lemma host_do_scope_ok {A} (m : prog host A) :
  (forall a, preserves (has_data a) m) -> preserves ok (host_do m).
Proof.
  intros Hm s (E1 & E2 & Ha & Hd). unfold host_do, zoom.
  assert (forall a, analyser (page s) = Some a -> has_data a (final (m (env s)))) as Ha'
    by (intros a Hs; apply Hm, Ha, Hs).
  destruct (m (env s)); repeat split; assumption.
Qed.

(** Drawing keeps the invariant when what is drawn lies in the canvas. *)
Lemma on_sctx_scope_ok (f : Z -> Z -> list canvas_op) :
  Forall (in_canvas w h) (f w h) -> preserves ok (on_sctx f).
Proof.
  intros Hf s (E1 & E2 & Ha & ops & Ed & Ho). repeat split; try assumption.
  exists (ops ++ f w h). cbn. rewrite Ed, E1, E2, app_assoc. split; [reflexivity|].
  apply Forall_app. auto.
Qed.

Lemma clearScope_in_canvas : Forall (in_canvas w h) (clearScope w h).
Proof.
  unfold clearScope. rewrite !Forall_cons, Forall_nil.
  unfold in_canvas. cbn [point_of]. repeat split; discriminate.
Qed.

Lemma drawScope_in_canvas (data : list Z) :
  data <> [] -> Forall (fun d => 0 <= d <= 255) data ->
  Forall (in_canvas w h) (drawScope data w h).
Proof.
  intros Hd Hb. apply Forall_forall. intros op Hin x y Hp.
  exact (drawScope_in_band data w h Hw Hh Hd Hb op x y Hin Hp).
Qed.

(** What the analyser gives: as many bytes as its [fftSize]. *)
Lemma analyser_bytes (n : nat) (sig : list Z) :
  (0 < n)%nat ->
  resize n 128 (to_byte <$> sig) <> [] /\
  Forall (fun d => 0 <= d <= 255) (resize n 128 (to_byte <$> sig)).
Proof.
  intros Hn. split.
  - intros E. apply (f_equal length) in E. rewrite length_resize in E. cbn in E. lia.
  - apply Forall_resize; [lia|]. apply Forall_fmap, Forall_forall. intros d _.
    unfold to_byte. cbn. lia.
Qed.

(** The analyser is created and stored: the two statements together keep
    the invariant. *)
Lemma analyser_created (c : nat) :
  preserves ok (n <- host_do (createAnalyser c) ;; on_page (set_analyser (Some n)))%prog.
Proof.
  intros s (E1 & E2 & Ha & Hd). repeat split; try assumption.
  intros a [= <-]. eexists. split; [apply list_lookup_middle; reflexivity | cbn; lia].
Qed.

#[local] Ltac scope_tac :=
  repeat first [ solve [auto with preserve] | assumption
               | scope_step host_do_scope_ok analyser_created ].

(** A read of the analyser of the page gives bytes, and at least one. *)
Lemma analyser_read (a : nat) :
  hoare (fun s => ok s /\ analyser (page s) = Some a)
    (host_do (getByteTimeDomainData a))
    (fun data s => ok s /\ data <> [] /\ Forall (fun d => 0 <= d <= 255) data)
    (fun _ => ok).
Proof.
  intros s [Hs Ea]. pose proof Hs as (_ & _ & Ha & _).
  destruct (Ha a Ea) as (x & Hx & Hf).
  unfold host_do, zoom, getByteTimeDomainData, the_node, bind, gets, deref. rewrite Hx.
  cbn [ret]. split; [|apply analyser_bytes; lia].
  destruct Hs as (E1 & E2 & _ & Hd). repeat split; assumption.
Qed.

(** A frame. *)
Lemma updateMeterAndScope_ok : preserves ok updateMeterAndScope.
Proof.
  apply hoare_preserves. unfold updateMeterAndScope, global.
  eapply hoare_bind; [apply hoare_gets|]. intros [a|]; [|apply hoare_ret; tauto].
  eapply hoare_bind; [apply analyser_read|]. intros data.
  apply hoare_assume. intros [Hd Hb]. apply hoare_preserves.
  assert (preserves ok (on_sctx (drawScope data)))
    by (apply on_sctx_scope_ok, drawScope_in_canvas; assumption).
  scope_tac.
Qed.

Lemma clearScope_ok : preserves ok (on_sctx clearScope).
Proof. apply on_sctx_scope_ok, clearScope_in_canvas. Qed.

#[local] Hint Resolve updateMeterAndScope_ok clearScope_ok : preserve.

(** ** The handlers *)

Lemma handle_scope_ok (ev : event) : preserves ok (handle ev).
Proof. destruct ev; scope_tac. Qed.

Lemma load_scope_ok : preserves ok load.
Proof. scope_tac. Qed.

End Statements.

(** ** The reachable states *)

Lemma init_scope_ok (d : dom) (h : host) :
  scope_ok (scope_width d) (scope_height d) (scope_drawn d) (init d h).
Proof.
  unfold init. apply preserves_run; [apply load_scope_ok|].
  repeat split; [discriminate|]. exists []. rewrite app_nil_r. auto.
Qed.

Lemma stable_scope_ok (w h : Z) (before : list canvas_op) :
  0 < w -> 0 <= h -> stable (scope_ok w h before).
Proof. intros Hw Hh ev s Hs _. apply handle_scope_ok; assumption. Qed.

(** C22: the oscilloscope never leaves the canvas.  On a canvas of
    positive width, in every state the recorder page reaches, whatever
    the order of the clicks, the settlements, the frames and the signals:
    the canvas keeps its size, and everything the page has drawn since
    its load lies inside it, every point of a path in a column of the
    canvas, at a height between 15% and 85% of it.  No frame reads past
    the end of the analyser's array, which would draw a point without a
    height. *)
Theorem scope_always_in_band (d : dom) (h : host) (s : world) :
  0 < scope_width d -> 0 <= scope_height d -> reaches (init d h) s ->
  scope_width (ui s) = scope_width d /\ scope_height (ui s) = scope_height d /\
  exists ops, scope_drawn (ui s) = scope_drawn d ++ ops /\
              Forall (in_canvas (scope_width d) (scope_height d)) ops.
Proof.
  intros Hw Hh Hr.
  destruct (reaches_invariant _ _ _ (init_scope_ok d h) (stable_scope_ok _ _ _ Hw Hh) Hr)
    as (E1 & E2 & _ & Hd).
  auto.
Qed.

Lemma scope_always_in_band_witness :
  let s := demo_after false [ClickStart; Settle 0 Resolved; Settle 0 Resolved] in
  scope_width (ui s) = 8 /\ scope_height (ui s) = 100 /\
  exists ops, scope_drawn (ui s) = [] ++ ops /\ Forall (in_canvas 8 100) ops.
Proof.
  apply (scope_always_in_band demo_dom (demo_host false)); [reflexivity | discriminate |].
  apply (fires_reaches _ [ClickStart; Settle 0 Resolved; Settle 0 Resolved]).
  vm_compute. reflexivity.
Defined.
