(* ===== verification/Scenarios.v ===== *)
(** * Sessions of the recorder

    Sequences of events of the page of [src/recorder/app.js], from its
    load.

    - A session: a click on Start, the stream granted, the worklet module
      loaded, any number of blocks rendered and delivered, a click on Stop,
      the context closed, a click on Save.  The file downloaded holds
      exactly the blocks rendered, and nothing is left running.
    - The hold gesture: a press, and a release through any of the four
      listeners once recording has begun.
    - A frame of the meter and the oscilloscope, and the registration of
      the service worker.
    - Sequences in which the page does not do what its controls say: a
      release before recording has begun, a second Start before the first
      has finished, a Start right after a Stop, a block delivered after
      Stop, a worklet module that fails to load. *)

From Stdlib Require Import String ZArith QArith List Bool Lia.
From stdpp Require Import base tactics list strings.
From S2P Require Import Prelude Hoare JsNum JsString TypedArray Pcm Collector Wav.
From S2P Require Import Timer Meter Scope Label Host Recorder EventLoop Safety.

#[local] Open Scope string_scope.
#[local] Open Scope Z_scope.
#[local] Open Scope list_scope.

(** ** Sequences *)

(** The page after its load on a host with [getUserMedia], a clock at [t]
    and [day], and an audio device running at [rate]. *)
Definition loaded (d : dom) (picker : bool) (t : Q) (day : date) (rate : num) : world :=
  init d (fresh_host true picker true t day (Ok rate)).

(** Start, granted and loaded. *)
Definition begin : list event := [ClickStart; Settle 0 Resolved; Settle 0 Resolved].

(** Each block rendered by the worklet [n] and delivered. *)
Definition capture (n : nat) (blocks : list (list num)) : list event :=
  flat_map (fun b => [Render n b; PortMessage]) blocks.

(** Stop, and the context closed. *)
Definition finish : list event := [ClickStop; Settle 0 Resolved].

(** The worklet node of the first graph built on a host: the fifth node. *)
Definition first_worklet : nat := 4.

Definition session (blocks : list (list num)) : list event :=
  begin ++ capture first_worklet blocks ++ finish ++ [ClickSave].

(** The ways the hold button is released. *)
Definition releases : list event :=
  [HoldPointerUp; HoldPointerCancel; HoldPointerLeave; WindowPointerUp].

(** What is left running on a host: live streams, open contexts,
    connections, intervals, animation frames, object URLs, pending
    promises. *)
Definition quiescent (w : world) : Prop :=
  Forall (fun live => live = false) (streams (env w)) /\
  Forall (fun c => ctx_state c = Closed) (contexts (env w)) /\
  edges (env w) = [] /\ intervals (env w) = [] /\ raf_requests (env w) = [] /\
  object_urls (env w) = [] /\ mailbox (env w) = [] /\ pending w = [].

(** The blocks of the demonstration session. *)
Definition demo_blocks : list (list num) := [[Fin 1; Fin 0]; [Fin (-1)]].

(** A press on the hold button, recording begun. *)
Definition hold_begin : list event :=
  [HoldPointerDown; Settle 0 Resolved; Settle 0 Resolved].

(** A press on the hold button released through [release] before the
    stream is granted. *)
Definition hold_early (release : event) : list event :=
  [HoldPointerDown; release; Settle 0 Resolved; Settle 0 Resolved].

(** A session stopped, and a click on Start whose stream is granted before
    the first context has closed. *)
Definition stop_then_start : list event :=
  begin ++ [ClickStop; ClickStart; Settle 1 Resolved; Settle 0 Resolved;
            Settle 0 Resolved].

(** Two clicks on Start before the first stream is granted; the first
    start finishes, then the second. *)
Definition double_start : list event :=
  [ClickStart; ClickStart; Settle 0 Resolved; Settle 1 Resolved;
   Settle 0 Resolved; Settle 0 Resolved].

(** The worklet node of the second graph built on a host. *)
Definition second_worklet : nat := 9.

(** A block rendered before Stop and delivered after it. *)
Definition late_block (b : list num) : list event :=
  begin ++ [Render first_worklet b] ++ finish.

(** The worklet module fails to load. *)
Definition module_fails (e : exn) : list event :=
  [ClickStart; Settle 0 Resolved; Settle 0 (Rejected e)].

(** The constraints of the capture request. *)
Definition mono_48k_raw : Audio.constraints :=
  {| Audio.channelCount := 1; Audio.sampleRate := 48000; Audio.sampleSize := 16;
     Audio.echoCancellation := false; Audio.noiseSuppression := false;
     Audio.autoGainControl := false |}.

(** The nodes of the first graph on a host, in the order of their
    creation, and its connections. *)
Definition first_graph : list node :=
  [ new_node (MediaStreamSource 0) 0 [] "" 0;
    new_node DynamicsCompressor 0
      [(threshold, -28); (knee, 24); (ratio, 32 # 10); (attack, 5 # 1000);
       (release, 20 # 100)]%Q "" 0;
    new_node BiquadFilter 0 [(frequency, 2500); (gain, 4)]%Q "highshelf" 0;
    new_node Analyser 0 [] "" 2048;
    set_has_onmessage true (new_node (AudioWorkletNode "capture-processor" 1 0 1) 0 [] "" 0) ].

Definition first_chain : list (nat * nat) := [(0, 1); (1, 2); (2, 3); (3, 4)]%nat.

(** ** Capture *)

Section Capture.
Context (n : nat) (g : globals) (d : dom) (h : host) (p : list task).
Context (Hrender : can_render n h = true) (Hinput : has_input n h = true).
Context (Hport : has_onmessage <$> nodes h !! n = Some true).

Let state_at (box : list (nat * list num)) (c : collector) : world :=
  {| page := set_coll c g; ui := d; env := set_mailbox box h; pending := p |}.

Lemma render_step (b : list num) box (c : collector) :
  step (Render n b) (state_at box c) = Some (state_at (box ++ [(n, b)]) c).
Proof.
  unfold step, enabled, state_at, can_render. cbn [env nodes contexts set_mailbox].
  fold (can_render n h). rewrite Hrender.
  unfold run, handle, render, host_do, zoom, bind at 1, get. cbn [env].
  unfold has_input. cbn [edges set_mailbox]. fold (has_input n h). rewrite Hinput.
  unfold bind. rewrite process_spec. reflexivity.
Qed.

Lemma deliver_step (b : list num) box (c : collector) :
  step PortMessage (state_at ((n, b) :: box) c) = Some (state_at box (onmessage b c)).
Proof.
  destruct (nodes h !! n) as [[k o ps ty fft onm]|] eqn:En; [|discriminate].
  injection Hport as ->.
  unfold step, enabled, state_at. cbn [env mailbox set_mailbox negb bool_decide].
  unfold run, handle, deliver_message. run_page. unfold nodes in En. rewrite En.
  reflexivity.
Qed.

Lemma capture_steps (blocks : list (list num)) (c : collector) :
  steps (capture n blocks) (state_at [] c) = Some (state_at [] (deliver blocks c)).
Proof.
  revert c. induction blocks as [|b blocks IH]; intros c; [reflexivity|].
  cbn [capture flat_map app steps]. rewrite render_step. cbn [app].
  rewrite deliver_step. apply IH.
Qed.

End Capture.

(** ** What is left running *)

Lemma quiescent_saved (w w' : world) :
  quiescent w -> audio (env w') = audio (env w) ->
  object_urls (env w')
  = remove_handle (next_handle (env w)) (object_urls (env w) ++ [next_handle (env w)]) ->
  pending w' = pending w -> quiescent w'.
Proof.
  intros (Hs & Hc & He & Hi & Hr & Hu & Hm & Hp) [= E1 E2 _ E3 E4 E5 E6] Eu Ep.
  unfold quiescent. rewrite E1, E2, E3, E4, E5, E6, Eu, Ep, Hu.
  repeat split; try assumption.
  unfold remove_handle. simpl. rewrite Z.eqb_refl. reflexivity.
Qed.

(** ** A session *)

#[local] Opaque meter_width drawScope clearScope timer_text suggested_name lit message
  flattenChunks encodeWavMono16 resize process.

(** The state after a sequence of events, with the blocks that the worklet
    posts left as they are. *)
Ltac run_events := lazy; rewrite ?process_spec; lazy.

Section Session.
Context (d : dom) (t : Q) (day : date) (rate : num).

Let w0 : world := loaded d false t day rate.
Let w1 : world := default w0 (steps begin w0).

Let capturing (c : collector) : world :=
  {| page := set_coll c (page w1); ui := ui w1; env := set_mailbox [] (env w1);
     pending := pending w1 |}.

Lemma begin_steps : steps begin w0 = Some (capturing reset).
Proof. lazy. reflexivity. Qed.

Lemma begin_ready :
  can_render first_worklet (env w1) = true /\
  has_input first_worklet (env w1) = true /\
  has_onmessage <$> nodes (env w1) !! first_worklet = Some true.
Proof. lazy. auto. Qed.

Lemma captured (blocks : list (list num)) :
  steps (begin ++ capture first_worklet blocks) w0
  = Some (capturing (deliver blocks reset)).
Proof.
  destruct begin_ready as (H1 & H2 & H3).
  rewrite steps_app, begin_steps. cbn [mbind option_bind].
  apply capture_steps; assumption.
Qed.

(** The page after Stop and the closing of the context, whatever was
    collected. *)
Lemma finished (c : collector) :
  exists w3, steps finish (capturing c) = Some w3 /\
    coll (page w3) = c /\ sampleRate (page w3) = rate /\
    recording (page w3) = false /\ shows Stopped (ui w3) /\
    name_now w3 = suggested_name (sessionLabel_value d) day /\
    has_showSaveFilePicker (env w3) = false /\
    downloads (env w3) = [] /\ files (env w3) = [] /\ quiescent w3.
Proof.
  eexists. split; [lazy; reflexivity|]. lazy. repeat split; repeat constructor.
Qed.

Lemma collected (blocks : list (list num)) :
  concat blocks <> [] ->
  coll_ok (set_page (set_coll (deliver blocks reset) globals0) w0) /\
  0 < recordedSamples (deliver blocks reset) /\
  chunks (deliver blocks reset) = blocks.
Proof.
  intros Hne. pose proof (deliver_inv blocks) as Hi.
  pose proof (deliver_chunks blocks reset) as Hc. cbn [chunks reset app] in Hc.
  repeat split; [exact Hi | | exact Hc].
  rewrite Hi, Hc, <- length_concat_total. destruct (concat blocks); [congruence | simpl; lia].
Qed.

(** C1: a session.  From the load of the page on a host without a file
    picker: Start, the stream granted and the module loaded, the blocks
    [blocks] rendered and delivered one after the other, Stop, the context
    closed, Save.  Every event can happen in its turn; exactly one file is
    downloaded, under the suggested name, and it is the canonical WAV file
    of the samples of [blocks] in order at the rate of the audio device;
    the page is stopped, holds the blocks for another save, and has left
    no stream live, no context open, no connection, no timer, no frame
    request, no object URL and no promise. *)
Theorem session_saves (blocks : list (list num)) :
  concat blocks <> [] ->
  exists w, steps (session blocks) w0 = Some w /\
    downloads (env w)
      = [(suggested_name (sessionLabel_value d) day,
          {| blob_bytes := wav_file rate (map sample_to_int16 (concat blocks));
             blob_type := "audio/wav" |})] /\
    files (env w) = [] /\ chunks (coll (page w)) = blocks /\
    recording (page w) = false /\ shows Stopped (ui w) /\ quiescent w.
Proof.
  intros Hne. destruct (collected blocks Hne) as (Hi & Hn & Hch).
  unfold session. rewrite app_assoc, steps_app, captured. cbn [mbind option_bind].
  destruct (finished (deliver blocks reset))
    as (w3 & E3 & Ec & Er & Hrec & Hui & Hname & Hp & Hd & Hf & Hq).
  rewrite steps_app, E3. cbn [mbind option_bind steps].
  assert (coll_ok w3) as Hi3 by (unfold coll_ok; rewrite Ec; exact Hi).
  rewrite <- Ec in Hn.
  destruct (save_anchor w3 Hi3 Hn Hp)
    as (w & Es & Epage & Epend & Eaudio & Ectl & Edl & Efl & Eu & _).
  pose proof (quiescent_saved w3 w Hq Eaudio Eu Epend) as Hq'.
  assert (btnSave_disabled (ui w3) = false) as E by (injection Hui; auto).
  unfold step, enabled, run, handle. rewrite E, Es.
  exists w. split; [reflexivity|].
  unfold shows. rewrite Edl, Efl, Epage, Ectl, Hd, Hf, Hname, Ec, Er.
  unfold recording_blob. rewrite Hch. auto 10.
Qed.

End Session.

Lemma session_saves_witness :
  exists w,
    steps (session demo_blocks) (loaded demo_dom false 0 example_date (Fin 48000)) = Some w /\
    downloads (env w)
      = [(suggested_name (sessionLabel_value demo_dom) example_date,
          {| blob_bytes := wav_file (Fin 48000) (map sample_to_int16 (concat demo_blocks));
             blob_type := "audio/wav" |})] /\
    files (env w) = [] /\ chunks (coll (page w)) = demo_blocks /\
    recording (page w) = false /\ shows Stopped (ui w) /\ quiescent w.
Proof. apply session_saves. discriminate. Defined.

(** ** The hold gesture *)

Section Gestures.
Context (d : dom) (picker : bool) (t : Q) (day : date) (rate : num).

Let w0 : world := loaded d picker t day rate.

(** C10: the hold gesture.  Once a press has started a recording, a
    release through any of the four listeners (the button's [pointerup],
    [pointercancel] and [pointerleave], the window's [pointerup]) stops it:
    [recording] and [holdActive] are unset, the controls are stopped and the
    closing of the context is awaited; a second release, through any
    listener, changes nothing. *)
Theorem hold_release (release again : event) :
  release ∈ releases -> again ∈ releases ->
  exists w, steps (hold_begin ++ [release]) w0 = Some w /\
    recording (page w) = false /\ holdActive (page w) = false /\
    shows Stopped (ui w) /\ pending w = [CloseContext 0 true] /\
    steps [again] w = Some w.
Proof.
  unfold releases. rewrite !elem_of_cons, !elem_of_nil.
  intros [->|[->|[->|[->|[]]]]] [->|[->|[->|[->|[]]]]];
    (eexists; split; [lazy; reflexivity|]; lazy; auto 10).
Qed.

(** C11: a release that comes before the stream is granted stops nothing:
    [holdEnd] finds [recording] unset, and when the stream is granted and
    the module loaded the page records with nobody holding the button; no
    later release stops it. *)
Theorem hold_released_early (release again : event) :
  release ∈ releases -> again ∈ releases ->
  exists w, steps (hold_early release) w0 = Some w /\
    recording (page w) = true /\ holdActive (page w) = false /\
    shows Recording (ui w) /\ steps [again] w = Some w.
Proof.
  unfold releases. rewrite !elem_of_cons, !elem_of_nil.
  intros [->|[->|[->|[->|[]]]]] [->|[->|[->|[->|[]]]]];
    (eexists; split; [lazy; reflexivity|]; lazy; auto 10).
Qed.

(** ** Overlapping starts and stops *)

(** C12: a click on Start right after Stop.  When the new stream is granted
    before the old context has closed, the continuation of [stop] clears
    the new context and stops the new stream; the continuation of [start]
    then fails on the cleared context.  The page ends idle with a
    [TypeError] reported, nothing pending, and the first session's stream
    still live and the second context still running: nothing refers to
    them any more. *)
Theorem stop_then_start_leaks :
  exists w, steps stop_then_start w0 = Some w /\
    stream (page w) = None /\ ctx (page w) = None /\ recording (page w) = false /\
    shows Idle (ui w) /\ statusText (ui w) = lit "Mic error: " ++ message TypeError /\
    pending w = [] /\ streams (env w) = [true; false] /\
    map ctx_state (contexts (env w)) = [Closed; Running].
Proof. eexists. split; [lazy; reflexivity|]. lazy. auto 10. Qed.

(** C13: two clicks on Start before the first stream is granted build two
    graphs.  Both worklets deliver into the same [chunks]; Stop then
    releases the second stream, context and timer only: the first stream
    stays live, the first context running with its graph connected, and
    the first interval keeps ticking. *)
Theorem double_start_leaks (b1 b2 : list num) :
  exists w,
    steps (double_start
           ++ [Render first_worklet b1; Render second_worklet b2; PortMessage; PortMessage]
           ++ finish) w0 = Some w /\
    chunks (coll (page w)) = [b1; b2] /\
    recording (page w) = false /\ shows Stopped (ui w) /\ pending w = [] /\
    streams (env w) = [true; false] /\
    map ctx_state (contexts (env w)) = [Running; Closed] /\
    edges (env w) = [(0, 1); (1, 2); (2, 3); (3, 4)]%nat /\
    intervals (env w) = [(2, 250)].
Proof.
  eexists. split; [run_events; reflexivity|]. lazy. auto 10.
Qed.

(** C14: a block rendered before Stop and delivered after it is appended
    all the same: after Stop has shown the recording as ready to save, the
    collected samples still change. *)
Theorem block_after_stop (b : list num) :
  exists w w', steps (late_block b) w0 = Some w /\ step PortMessage w = Some w' /\
    shows Stopped (ui w) /\ recording (page w) = false /\ pending w = [] /\
    chunks (coll (page w)) = [] /\ chunks (coll (page w')) = [b].
Proof.
  eexists _, _. split; [run_events; reflexivity|].
  split; [lazy; reflexivity|]. lazy. auto 10.
Qed.

(** C17: when the worklet module fails to load, the page goes back to idle
    with the stream stopped and the context being closed, and the object
    URL of the module is never revoked. *)
Theorem module_failure (e : exn) :
  exists w, steps (module_fails e) w0 = Some w /\
    shows Idle (ui w) /\ recording (page w) = false /\
    stream (page w) = None /\ ctx (page w) = None /\
    streams (env w) = [false] /\ pending w = [CloseContext 0 false] /\
    object_urls (env w) = [1].
Proof. eexists. split; [lazy; reflexivity|]. lazy. auto 10. Qed.

(** ** Starting *)

(** The capture request.  A click on Start on an idle page asks for one
    stream, mono, 48 kHz, 16 bits, with echo cancellation, noise
    suppression and automatic gain off, empties the collector, and does not
    set [recording] yet. *)
Theorem capture_request :
  exists w, steps [ClickStart] w0 = Some w /\
    pending w = [GetUserMedia mono_48k_raw] /\ coll (page w) = reset /\
    recording (page w) = false /\ shows Idle (ui w).
Proof. eexists. split; [lazy; reflexivity|]. lazy. auto. Qed.

(** C15: the processing graph.  When the stream is granted and the module
    loaded, the page has built, in one context at the rate of the device,
    the source of the stream, a compressor (threshold -28, knee 24, ratio
    3.2, attack 5 ms, release 200 ms), a high shelf (2500 Hz, 4 dB), an
    analyser of 2048 samples and the capture worklet with one input and no
    output, connected in this order; it records, shows it, and has one
    interval of 250 ms and one animation frame pending. *)
Theorem graph_built :
  exists w, steps begin w0 = Some w /\
    nodes (env w) = first_graph /\ edges (env w) = first_chain /\
    contexts (env w)
      = [{| latencyHint := "interactive"; requested_sampleRate := 48000;
            ctx_state := Running; ctx_sampleRate := rate;
            processors := ["capture-processor"] |}] /\
    streams (env w) = [true] /\ sampleRate (page w) = rate /\ srTag (ui w) = Hz rate /\
    recording (page w) = true /\ startAt (page w) = t /\ shows Recording (ui w) /\
    intervals (env w) = [(timerId (page w), 250)] /\ raf_requests (env w) = [rafId (page w)] /\
    object_urls (env w) = [] /\ pending w = [].
Proof. eexists. split; [lazy; reflexivity|]. lazy. auto 20. Qed.

(** C23: a frame.  While the page records, an animation frame reads the
    2048 bytes of the analyser, sets the level bar to their level, draws
    them on the canvas over what start has drawn there (the cleared
    background and the first frame), and requests the next frame.  It
    changes neither the collected blocks nor the controls. *)
Theorem frame_draws (sig : list Z) :
  exists w id w',
    steps begin w0 = Some w /\ rafId (page w) = id /\
    steps [Signal sig; AnimationFrame id] w = Some w' /\
    let width := scope_width d in
    let height := scope_height d in
    let data := resize 2048 128 (to_byte <$> sig) in
    scope_drawn (ui w)
    = (scope_drawn d ++ clearScope width height) ++ drawScope (resize 2048 128 []) width height /\
    scope_drawn (ui w') = scope_drawn (ui w) ++ drawScope data width height /\
    levelBar_width (ui w') = meter_width data /\
    raf_requests (env w') = [rafId (page w')] /\ rafId (page w') <> id /\
    coll (page w') = coll (page w) /\ shows Recording (ui w') /\ pending w' = [].
Proof.
  eexists _, _, _. split; [lazy; reflexivity|]. split; [lazy; reflexivity|].
  split; [lazy; reflexivity|]. lazy. repeat split; discriminate.
Qed.

(** C18: a refused capture.  When the request for the stream is rejected
    the page reports the error and is idle again: no stream, no context,
    no timer, no frame request, nothing pending, and the collector empty. *)
Theorem capture_refused (e : exn) :
  exists w, steps [ClickStart; Settle 0 (Rejected e)] w0 = Some w /\
    statusText (ui w) = lit "Mic error: " ++ message e /\ console (env w) = [e] /\
    shows Idle (ui w) /\ recording (page w) = false /\
    stream (page w) = None /\ ctx (page w) = None /\ coll (page w) = reset /\
    quiescent w /\ streams (env w) = [] /\ contexts (env w) = [].
Proof. eexists. split; [lazy; reflexivity|]. lazy. auto 20. Qed.

(** Without [getUserMedia] a click on Start only reports that the
    browser cannot record: the collector is not reset and nothing is
    requested. *)
Theorem capture_unsupported (dev : result num) :
  let w := init d (fresh_host false picker true t day dev) in
  step ClickStart w
  = Some (set_ui (set_statusText
                    (lit "This browser can" ++ [8217]
                     ++ lit "t record audio (no getUserMedia).") (ui w)) w).
Proof. lazy. reflexivity. Qed.

(** The registration of the service worker.  The listener of [load]
    registers [./sw.js] and awaits the promise; whichever way it settles,
    the page is as it was before the event, the script recorded by the
    browser apart. *)
Theorem worker_registered (a : answer) :
  exists w,
    steps [WindowLoad] w0 = Some w /\
    worker_scripts (env w) = [lit "./sw.js"] /\ pending w = [RegisterWorker] /\
    page w = page w0 /\ ui w = ui w0 /\
    steps [Settle 0 a] w = Some (set_env (env w) w0).
Proof.
  eexists. split; [lazy; reflexivity|]. repeat split.
Qed.

End Gestures.

Lemma hold_release_witness :
  exists w,
    steps (hold_begin ++ [HoldPointerLeave])
      (loaded demo_dom false 0 example_date (Fin 48000)) = Some w /\
    recording (page w) = false /\ holdActive (page w) = false /\
    shows Stopped (ui w) /\ pending w = [CloseContext 0 true] /\
    steps [WindowPointerUp] w = Some w.
Proof.
  apply (hold_release demo_dom false 0 example_date (Fin 48000)
           HoldPointerLeave WindowPointerUp);
    unfold releases; repeat constructor.
Defined.

Lemma hold_released_early_witness :
  exists w,
    steps (hold_early HoldPointerUp)
      (loaded demo_dom false 0 example_date (Fin 48000)) = Some w /\
    recording (page w) = true /\ holdActive (page w) = false /\
    shows Recording (ui w) /\ steps [HoldPointerCancel] w = Some w.
Proof.
  apply (hold_released_early demo_dom false 0 example_date (Fin 48000)
           HoldPointerUp HoldPointerCancel);
    unfold releases; repeat constructor.
Defined.

(** ** The file picker *)

(** C16: the file picker.  From a state in which [save] awaits the picker:
    when the picker, the writable, the write and the close all resolve, the
    file is written once under the suggested name and reported; when any
    of the four is rejected (the user dismisses the picker, or the write
    fails) nothing is written and the failure is reported.  Either way no
    global changes, nothing is downloaded and nothing stays pending. *)
Theorem picker_flow (w : world) (blob : Blob) (name : list Z) (e : exn) (stage : nat) :
  pending w = [SaveFilePicker blob name] -> (stage < 4)%nat ->
  (exists w', steps (replicate 4 (Settle 0 Resolved)) w = Some w' /\
     files (env w') = files (env w) ++ [(name, blob)] /\
     statusText (ui w') = lit "Saved: " ++ name /\
     page w' = page w /\ downloads (env w') = downloads (env w) /\ pending w' = []) /\
  (exists w', steps (replicate stage (Settle 0 Resolved) ++ [Settle 0 (Rejected e)]) w
              = Some w' /\
     files (env w') = files (env w) /\
     statusText (ui w') = lit "Save canceled/failed: " ++ message e /\
     console (env w') = console (env w) ++ [e] /\
     page w' = page w /\ downloads (env w') = downloads (env w) /\ pending w' = []).
Proof.
  intros Hp Hs. destruct w as [g u h p]. cbn [pending] in Hp. subst p. destruct h.
  split.
  - eexists. split; [lazy; reflexivity|]. lazy. auto.
  - destruct stage as [|[|[|[|stage]]]]; [..|lia];
      (eexists; split; [lazy; reflexivity|]; lazy; auto 10).
Qed.

Lemma picker_flow_witness :
  let w := demo_after true
             (begin ++ capture first_worklet demo_blocks ++ finish ++ [ClickSave]) in
  let blob := recording_blob (deliver demo_blocks reset) (Fin 48000) in
  let name := suggested_name (lit "My Track!! 01") example_date in
  (exists w', steps (replicate 4 (Settle 0 Resolved)) w = Some w' /\
     files (env w') = files (env w) ++ [(name, blob)] /\
     statusText (ui w') = lit "Saved: " ++ name /\
     page w' = page w /\ downloads (env w') = downloads (env w) /\ pending w' = []) /\
  (exists w', steps (replicate 1 (Settle 0 Resolved)
                     ++ [Settle 0 (Rejected (DOMException "AbortError"))]) w
              = Some w' /\
     files (env w') = files (env w) /\
     statusText (ui w')
       = lit "Save canceled/failed: " ++ message (DOMException "AbortError") /\
     console (env w') = console (env w) ++ [DOMException "AbortError"] /\
     page w' = page w /\ downloads (env w') = downloads (env w) /\ pending w' = []).
Proof. apply picker_flow; [vm_compute; reflexivity | lia]. Defined.
